(* ===== verification/_CoqProject ===== *)
-Q . S2P
Prelude.v
Toolkit.v
Base64.v
PyFloat.v
Tokenizer.v
Csv.v
Forms.v
Frame.v
Json.v
Ingest.v
Plot.v
Hover.v
Layout.v
Server.v
Routes.v
Refinement.v
