(* ===== verification/Prelude.v ===== *)
(** * A verification development for dash_in_flask

    The program (src/app.py, src/extras/forms.py) is a Flask server with two
    routes and one Dash application per visit of the second route:

    - [index] ("/", src/app.py lines 32-51): validates an upload form
      ([UploadForm], src/extras/forms.py), reads the uploaded file with
      [pd.read_csv(..., names=["SMILES"])], builds a DataFrame with two zero
      columns [clogP] and [sascore], and fills it row by row inside a
      [try/except]: [Chem.MolFromSmiles], [Descriptors.MolLogP],
      [sascorer.calculateScore].  The first row that raises aborts the batch
      with a flashed message naming line [idx+1]; otherwise the table is put
      into the session ([df.to_json()]) and the client is redirected to
      "/next".
    - [next] ("/next", lines 53-98): reads the table back from the session,
      creates a new Dash application (a fresh uuid name and path), builds a
      scatter plot (x = clogP, y = sascore) and registers the hover callback
      [display_hover] (lines 81-97), which looks up row [pointNumber] of the
      table captured by the closure and renders the molecule with
      [smiles_to_base64_img] (lines 18-24): RDKit image, PNG bytes,
      [base64.b64encode], [.decode("utf-8")], and a data-URL prefix.

    Files of the development (in _CoqProject order):

    - [Prelude] (this file): the Python-exception result monad [py] with its
      notation in [py_scope], the hint databases [webapp] and
      [webapp_rw], generic lemmas on lists and [Z].
    - [Toolkit]: the chemistry toolkit (RDKit and the SA_Score contribution)
      as a type class [Toolkit]: it is a library the sources only call, so it
      is an interface, and every theorem is proved for an arbitrary instance.
      A small concrete instance serves the witnesses.
    - [Base64]: the CPython [binascii.b2a_base64] encoder behind
      [base64.b64encode] as the C code writes it (a 32-bit bit accumulator
      drained six bits at a time, then padding), an RFC 4648 chunked
      reference encoder, their equivalence, the decoder, the round trip, the
      output alphabet and length, and the UTF-8 decoding of its output.
    - [PyFloat]: IEEE doubles as Rocq's primitive floats, the C
      conversions the libraries make ([float_of_Z], [trunc_Z], the
      correctly rounded decimal [round_decimal]) and Python's [float(s)]
      on a string ([py_float]: white space, underscores, signs, [inf],
      [infinity], [nan], digits, exponent).
    - [Tokenizer]: pandas' C tokenizer ([tokenize_bytes] of
      tokenizer.c) as its state machine: the states [tstate] (START_RECORD,
      START_FIELD, IN_FIELD, IN_QUOTED_FIELD, QUOTE_IN_QUOTED_FIELD,
      EAT_CRNL, EAT_CRNL_NOP, WHITESPACE_LINE), the parser's buffers
      [tacc] with PUSH_CHAR, END_FIELD and END_LINE, one loop iteration
      [tok_step] per character, [tok_eof] ([parser_handle_eof], with the
      ParserError "EOF inside string") and [tokenize] over the file after
      its byte-order mark.  It also holds the line-splitting reference
      ([split_lines_acc], [numbered_lines], [split_fields]) and proves the
      tokenizer equal to it on text without quotes ([tokenize_noquote]),
      and the runs over quoted lines and an unclosed quote.
    - [Csv]: what [pd.read_csv(file, names=["SMILES"])] produces for a
      one-column file from the tokenizer's records: the default NA
      strings read as NaN and the C parser's type inference
      ([infer_dtype]: int64, uint64, float64 with [precise_xstrtod], bool,
      object).  Each row keeps the file line its record starts on.  A
      record of several fields is [CsvOutsideModel] (and [index] answers
      [CsvNotModelled]); EOF inside a quote is [CsvParserError]; the
      non-NA fields of an [object] column are decoded as strict UTF-8
      ([utf8_valid]), a malformed one giving [CsvDecodeError]
      ([UnicodeDecodeError]).
      Theorems: the tokenizer reads a quote-free file as the line
      splitter does ([read_csv_tokenizer_ref]); the rows do not depend
      on the file's line breaks (\n, \r\n or \r), a final line break or
      a byte-order mark ([read_csv_line_endings]); quoted lines are rows
      of their content, delimiters and blank lines included
      ([read_csv_quoted]).
    - [Forms]: the form guard of [index]: request size cap
      (MAX_CONTENT_LENGTH = 5 KB, [too_large]), [validate_on_submit] with
      [FileRequired] and [FileAllowed(["txt"])] (src/extras/forms.py).
      Theorem: the form accepts exactly a submission with a valid CSRF
      token and a file whose lower-cased name ends with ".txt"
      ([validate_on_submit_spec]).
    - [Frame]: the DataFrame (three column lists), [with_zero_columns]
      ([pd.concat] with zeros) and the in-place writes [loc_set_clogP] and
      [loc_set_sascore].
    - [Json]: [df.to_json()] and [pd.read_json] (lines 49 and 55) through
      pandas' vendored ujson: string escaping, integers, the double
      formatter with 10 digits ([format_double], with glibc's [%.10g]
      beyond its thresholds), the decoder ([decode_any]) and [read_json]'s
      type conversion ([convert_object_column]).  Theorems: every finite
      double is written as a number the decoder accepts; every value with
      64-bit integers and distinct keys is read back as [json_rt] of it
      ([decode_encode]); the stored frame is read back row for row with
      its floats through their 10-digit text ([read_json_to_json]) as a
      frame of one dtype per column ([read_json_typed]); the SMILES strings
      survive exactly when one of them is not a float literal
      ([convert_keeps_strings]); and two concrete facts, lemmas behind
      findings: "INF " comes back as the float infinity, and
      float("1.9802627296") comes back one ulp higher
      ([read_float_inexact]).
    - [Ingest]: the [try] body [try_body] statement by statement,
      the [for] loop [index_loop] with its early return, the flashed message
      and the whole [index] handler over the [Session] (the flashed messages
      and [session["data"]], the JSON text [to_json] writes).  Theorems: the
      loop refines the functional validation [validate_table] into a
      [MoleculeRecord] list ([index_loop_refines]); a valid file is stored
      row for row in order ([index_valid_file]); the first invalid line is
      reported and nothing is stored ([index_first_invalid]); a file pandas
      types as numbers or booleans is rejected at line 1
      ([index_typed_column_rejected]); the session only ever holds the JSON
      of a validated table ([index_session_invariant]); different rows give
      different messages; and four behaviours the spec does not expect:
      an empty file is accepted ([index_blank_file_accepted]), the
      reported number counts the non-empty lines up to the failing one,
      not the file lines ([index_reports_row_not_file_line]), and a line
      opening a quote never closed, or a line that is not UTF-8, makes
      [pd.read_csv] raise outside the [try], so the request ends in HTTP
      500 ([InternalServerError]) with no line named
      ([index_unclosed_quote_500], [index_invalid_utf8_500]).
    - [Plot]: the figure built by [next] ([build_figure]) from the table
      it read; its points are stated on the registered pages in [Server]
      ([inv_pages_wired]).
    - [Hover]: [smiles_to_base64_img] and [display_hover] as written, and
      the browser side they drive: Plotly's hover event ([plotly_hover],
      with [clear_on_unhover]) and the [dcc.Tooltip] props ([tooltip_step]).
      Theorems: the image shown for a row decodes to the PNG of its molecule
      ([display_hover_row]); out-of-range points raise [IndexError]
      ([display_hover_index_error]); on any [drawable] table (string rows
      the toolkit parses) an event without a point renders nothing, and
      after any sequence of pointer events the tooltip shows the image of
      the last hovered point's row ([tooltip_run_drawn]), which [Server]
      applies to the pages [next] registers.
    - [Layout]: [app.layout] as a component tree ([dash_layout]) and the
      hover callback's [Input] and [Output]s, with Dash's validation of a
      callback against a layout ([callback_ok]).
    - [Server]: the server as a state machine ([handle] over [Event]s:
      upload, /next with the two uuid values as inputs, hover on the k-th
      registered Dash app) with the session, the registered apps and the
      table each captured; [next] reads the session text with [read_json]
      and registers [mk_app] of the frame it gets; [reachable] is the
      reachability relation.  Theorems: the invariant [server_inv] (the
      session holds the JSON of a validated table, each app the read-back
      [stored_frame] of one) holds in every reachable state
      ([reachable_inv]); hovering a drawn point whose row is still a string
      never raises ([inv_hover_safe]), while a row the read-back turned
      into a number raises [ArgumentError] ([inv_hover_number_raises]), as
      it does after uploading "INF " ([inf_upload_hover_raises]); from any
      state an upload and a visit serve a new page
      ([upload_then_next_page]); each /next visit registers one more app
      and none is removed ([next_visits_grow_apps]); an upload never
      changes an open page ([upload_keeps_pages]); /next before any upload
      raises [KeyError] ([next_without_data]); every page's callback passes
      Dash's validation and its graph's i-th point is (clogP, sascore) of
      the i-th validated record as [read_json] gave it back
      ([inv_pages_wired]); on a page whose read-back SMILES column stayed
      strings, after any sequence of pointer events the tooltip shows the
      image of the last hovered point's record and is visible exactly when
      the last event hovers a point ([page_tooltip_last_point]).  The session cookie is signed with
      [SECRET_KEY] ([open_session], for any signing algorithm [Signer]):
      since the key "1234" is in the source, a client can sign a session
      holding an unvalidated table, one that no request to the server
      produces, whose page raises on hover
      ([forged_cookie_hover_raises]), while replaying cookies the server
      signed itself keeps the invariant ([replay_inv], by induction on
      the reachability relation [reachable_replay]).
    - [Routes]: the URL map of the Flask server ([url_map]): the rules
      "/" and "/next" of [create_app] and the rules every Dash app adds
      under its uuid pathname, with Werkzeug's priority of static rules
      over converter rules ([dispatch]).  Theorem: with distinct
      slash-free uuids every path reaches exactly one endpoint, and the
      callback path of the k-th app reaches that app's callback
      ([dispatch_unique]), which is what [Server.handle]'s hover event
      names by the index k.
    - [Refinement]: the specification's two-stage pipeline as an abstract
      transition system ([spec_step] over the stored MoleculeTable and the
      tables of the pages shown, with the client's observations), the
      client that drives the server ([client_request], [client_run]), and
      the abstraction relation [refines] (the session text is [to_json]
      of the abstract table, each registered app holds the read-back of
      its page's table).  Theorem: a forward simulation, step by step, so
      every run of the server from its initial state whose uploads keep
      their identifiers through [pd.read_json] is matched by a run of the
      specification with the same observations ([server_refines_spec]);
      the runs it excludes are those of [inf_upload_hover_raises].

    The theorems about the toolkit calls hold for every [Toolkit] instance;
    the theorems of [Hover], [Server] and [Refinement] that show an image
    assume that the toolkit draws every parsed molecule ([MolToPNG] does
    not raise).  The witnesses run on [ToyToolkit.toy].

    Bounds and fuel: the tokenizer loop is structural on the characters
    of the file (one [tok_step] each), and its proofs go by induction on
    the length of the remaining text; the row loop is structural on the list of cells; the
    base64 accumulator drain has the number of pending bits ([leftbits])
    as fuel, which is enough because every iteration consumes six of them
    (theorem [drain_terminates]); the accumulator is kept at its C width
    (unsigned int, 32 bits) and the theorems show that the wrap-around
    never reaches the emitted bits.  In [Json], the digit loop has the
    binary length of the number plus one as fuel (each step divides by
    ten, [digits_acc_spec]); the fraction's zero-stripping loop has 10
    steps, the number of fraction digits; the decoder's object and array
    loops have the length of the remaining text plus one (each member
    consumes at least one character, [decode_items_loop],
    [decode_members_loop]), and its nesting depth is ujson's own limit
    [JSON_MAX_OBJECT_DEPTH] (1024), far above the depth 2 of a frame.
    Integers keep the widths of the C code: 64-bit accumulation with both
    overflow checks in the decoder, the integer part of a formatted double
    below 10^16 + 1 ([trunc_le_thres]).

    Not modelled: the HTML that [render_template] and [app.index()]
    produce (main.html is not in the repository; [app.index()] is Dash's
    page shell, whose content the browser builds from [app.layout],
    modelled in [Layout]), the CSRF token check
    (taken as a boolean of the request), the signing algorithm of the
    session cookie (an arbitrary [Signer]) and its expiry after
    [PERMANENT_SESSION_LIFETIME] (the model has no clock), the numeric
    descriptor formulas and the image drawing (inside the toolkit
    interface), pandas' handling of records of several fields (from an
    unquoted comma: pandas moves all fields but the last into an implicit
    index, and [df.loc] and [pd.concat] align on that index, a different
    program from the one-column read that the rest of [index] assumes;
    reported as [CsvOutsideModel]), [str] values beyond ASCII (the
    model's strings are byte strings; a decoded non-ASCII column is
    [CsvOutsideModel]), the int64 conversion [read_json] applies to a
    float column whose values are all integral (it changes the dtype,
    not the values plotted), Flask's refusal, in versions that check it,
    to register a Dash app's routes after the first request (the
    repository pins no versions; the model follows a Flask that accepts
    them), the tokenizer's WHITESPACE_LINE
    backtrack on a line after a lone \r (the C code searches back for a
    \n and passes the line start; the state [Unmodelled], reported as
    [CsvOutsideModel]), ujson's
    handling of code points from U+0100 (outside the model's strings),
    uuid collisions (distinct uuids are a hypothesis of
    [dispatch_unique]), Werkzeug's HTTP method checks, and
    [app_context().push()] (no effect the model observes) and
    [server.run()] (its request loop is [Server.handle] and
    [Server.reachable]). *)

From Stdlib Require Export ZArith Lia Ascii String.
From stdpp Require Export base list strings.
From Stdlib Require Export DecimalString DecimalNat DecimalN.

(** ** Python exceptions and the result monad *)

(** The exceptions the handlers can raise. [ArgumentError] is Boost.Python's
    (a subclass of [TypeError]) for a call of an RDKit function on an
    argument of the wrong type, [None] or NaN included. *)
Inductive exn :=
  | ArgumentError
  | ValueError
  | IndexError
  | KeyError
  | EmptyDataError
  | UnicodeDecodeError
  | ToolkitError.

#[export] Instance exn_eq_dec : EqDecision exn.
Proof. solve_decision. Defined.

(** A Python computation: it returns a value or raises. *)
Inductive py (A : Type) :=
  | PyOk (a : A)
  | PyRaise (e : exn).
Arguments PyOk {A} a.
Arguments PyRaise {A} e.

Definition py_bind {A B} (m : py A) (k : A -> py B) : py B :=
  match m with
  | PyOk a => k a
  | PyRaise e => PyRaise e
  end.

Definition py_of_option {A} (e : exn) (o : option A) : py A :=
  match o with
  | Some a => PyOk a
  | None => PyRaise e
  end.

Definition py_ok {A} (m : py A) : bool :=
  match m with PyOk _ => true | PyRaise _ => false end.

Declare Scope py_scope.
Delimit Scope py_scope with py.
Notation "'let!' x ':=' m 'in' k" := (py_bind m (fun x => k))
  (at level 10, x name, m at level 100, k at level 200) : py_scope.
Open Scope py_scope.

(** Python's [lst[i]] on a list: [IndexError] out of range. *)
Definition py_index {A} (l : list A) (i : nat) : py A :=
  py_of_option IndexError (l !! i).

(** ** Shared lemmas *)

Create HintDb webapp.
Create Rewrite HintDb webapp_rw.

Lemma py_bind_ok {A B} (a : A) (k : A -> py B) : py_bind (PyOk a) k = k a.
Proof. reflexivity. Qed.

Lemma py_bind_raise {A B} (e : exn) (k : A -> py B) : py_bind (PyRaise e) k = PyRaise e.
Proof. reflexivity. Qed.

Lemma py_bind_eq_ok {A B} (m : py A) (k : A -> py B) (b : B) :
  py_bind m k = PyOk b <-> exists a, m = PyOk a /\ k a = PyOk b.
Proof.
  destruct m as [a|e]; simpl; split.
  - eauto.
  - intros (a' & [= ->] & Hk). exact Hk.
  - discriminate.
  - intros (a' & ? & _). discriminate.
Qed.

Lemma py_index_lt {A} (l : list A) (i : nat) :
  i < length l -> exists x, py_index l i = PyOk x /\ l !! i = Some x.
Proof.
  intros Hi. destruct (lookup_lt_is_Some_2 l i Hi) as [x Hx].
  exists x. unfold py_index. rewrite Hx. auto.
Qed.

Lemma py_index_ge {A} (l : list A) (i : nat) :
  length l <= i -> py_index l i = PyRaise IndexError.
Proof. intros Hi. unfold py_index. by rewrite lookup_ge_None_2. Qed.

#[export] Hint Rewrite @py_bind_ok @py_bind_raise : webapp_rw.

(** Lists: an index below the length of a list built by [map] reads the
    mapped element. *)
Lemma lookup_map_lt {A B} (f : A -> B) (l : list A) (i : nat) (x : A) :
  l !! i = Some x -> map f l !! i = Some (f x).
Proof. intros H. by rewrite list_lookup_fmap, H. Qed.

#[export] Hint Resolve lookup_map_lt : webapp.

(** The element at position [j] of [l], kept by [filter P], is at the
    position that counts the kept elements before it. *)
Lemma filter_take_lookup {A} (P : A -> Prop) `{!forall x, Decision (P x)} (l : list A) (j : nat) (x : A) :
  l !! j = Some x -> P x -> filter P l !! length (filter P (take j l)) = Some x.
Proof.
  intros Hj Hx. pose proof (take_drop_middle l j x Hj) as Hl. rewrite <- Hl at 2.
  rewrite filter_app, filter_cons_True by done. rewrite lookup_app_r by done.
  by rewrite Nat.sub_diag.
Qed.

(** An element kept by [filter P] before that position comes from before [j]. *)
Lemma filter_take_prefix {A} (P : A -> Prop) `{!forall x, Decision (P x)} (l : list A) (j k : nat) (x : A) :
  k < length (filter P (take j l)) -> filter P l !! k = Some x ->
  exists j', j' < j /\ l !! j' = Some x /\ P x.
Proof.
  intros Hk Hx. rewrite <- (take_drop j l), filter_app, lookup_app_l in Hx by done.
  apply list_elem_of_lookup_2, list_elem_of_filter in Hx as [HPx Hin].
  apply list_elem_of_lookup in Hin as [j' Hj']. apply lookup_take_Some in Hj' as [Hj' Hlt].
  by exists j'.
Qed.

(** [itertools.dropwhile]-style: drop the longest prefix satisfying [p]. *)
Lemma filter_nil_Forall {A} (P : A -> Prop) `{!forall x, Decision (P x)} (l : list A) :
  Forall (fun x => ~ P x) l -> filter P l = [].
Proof. induction 1; [done|]. by rewrite filter_cons_False. Qed.

Fixpoint drop_while {A} (p : A -> bool) (l : list A) : list A :=
  match l with
  | x :: l' => if p x then drop_while p l' else l
  | [] => []
  end.

(** [str(n)] for a non-negative integer. *)
Definition string_of_nat (n : nat) : string :=
  NilEmpty.string_of_uint (Nat.to_uint n).

Lemma string_of_nat_inj (m n : nat) : string_of_nat m = string_of_nat n -> m = n.
Proof.
  unfold string_of_nat. intros H.
  apply (f_equal NilEmpty.uint_of_string) in H. rewrite !NilEmpty.usu in H.
  injection H as H. apply (f_equal Nat.of_uint) in H. by rewrite !DecimalNat.Unsigned.of_to in H.
Qed.

(** ** Integers: shifts, masks and low bits *)

Section ZBits.
Local Open Scope Z_scope.

(** Shifting in a byte: [(x << 8) | y] is [x * 256 + y] when [y] fits in
    eight bits. *)
Lemma lor_shiftl_byte (x y : Z) :
  0 <= y < 256 -> Z.lor (Z.shiftl x 8) y = x * 256 + y.
Proof.
  intros Hy.
  assert (Hdisj : Z.land (Z.shiftl x 8) y = 0).
  { apply Z.bits_inj'. intros i Hi. rewrite Z.land_spec, Z.bits_0.
    destruct (Z.lt_ge_cases i 8).
    - rewrite Z.shiftl_spec_low by lia. reflexivity.
    - rewrite (Z.bits_above_log2 y i); [apply andb_false_r| lia |].
      destruct (Z.eq_dec y 0) as [->|Hy0]; [simpl; lia|].
      assert (Z.log2 y < 8) by (apply Z.log2_lt_pow2; lia). lia. }
  rewrite Z.shiftl_mul_pow2 in * by lia.
  pose proof (Z.add_lor_land (x * 2 ^ 8) y) as H. rewrite Hdisj in H. lia.
Qed.

(** A six-bit field: [(x >> j) & 0x3f] is [x / 2^j mod 2^6]. *)
Lemma land_shiftr_63 (x j : Z) :
  0 <= j -> Z.land (Z.shiftr x j) 63 = x / 2 ^ j mod 2 ^ 6.
Proof.
  intros Hj. change 63 with (Z.ones 6).
  rewrite Z.land_ones, Z.shiftr_div_pow2 by lia. reflexivity.
Qed.

(** A mask of the low bits: [x & (2^k - 1)] is [x mod 2^k]. *)
Lemma land_low (x k m : Z) :
  0 <= k -> m = 2 ^ k - 1 -> Z.land x m = x mod 2 ^ k.
Proof.
  intros Hk ->. rewrite <- Z.land_ones by lia. f_equal.
  rewrite Z.ones_equiv. lia.
Qed.

(** The field [x / 2^j mod 2^w] only depends on the low [j + w] bits. *)
Lemma div_mod_low (x j w : Z) :
  0 <= j -> 0 <= w -> x / 2 ^ j mod 2 ^ w = x mod 2 ^ (j + w) / 2 ^ j.
Proof.
  intros Hj Hw.
  pose proof (Z.pow_pos_nonneg 2 w ltac:(lia) Hw).
  rewrite Z.pow_add_r, Z.rem_mul_r by lia.
  pose proof (Z.pow_pos_nonneg 2 j ltac:(lia) Hj).
  pose proof (Z.mod_pos_bound x (2 ^ j) ltac:(lia)).
  rewrite (Z.mul_comm (2 ^ j) (x / 2 ^ j mod 2 ^ w)), Z.div_add by lia.
  rewrite (Z.div_small (x mod 2 ^ j)) by lia. lia.
Qed.

(** Reducing modulo a power of two below another. *)
Lemma mod_pow2_mod (x k m : Z) :
  0 <= k <= m -> x mod 2 ^ m mod 2 ^ k = x mod 2 ^ k.
Proof.
  intros Hk. apply Z.mod_mod_divide.
  exists (2 ^ (m - k)). rewrite <- Z.pow_add_r by lia. f_equal. lia.
Qed.
End ZBits.

(** Induction on a list three elements at a time, the way chunked encoders
    recurse. *)
Lemma list_triple_ind {A} (P : list A -> Prop) :
  P [] -> (forall a, P [a]) -> (forall a b, P [a; b]) ->
  (forall a b c r, P r -> P (a :: b :: c :: r)) ->
  forall l, P l.
Proof.
  intros H0 H1 H2 H3 l.
  induction l as [l IH] using (induction_ltof1 _ (@length A)); unfold ltof in IH.
  destruct l as [|a [|b [|c r]]]; auto.
  apply H3, IH. simpl. lia.
Qed.

(** Strings: cancelling a common suffix. *)
Lemma string_app_length (s t : string) : String.length (s +:+ t) = String.length s + String.length t.
Proof. induction s as [|c s IH]; simpl; [done|]. by rewrite IH. Qed.

(** [String.append] is [simpl never]: its two equations. *)
Lemma string_app_nil (t : string) : "" +:+ t = t.
Proof. reflexivity. Qed.

Lemma string_app_cons (c : ascii) (s t : string) : String c s +:+ t = String c (s +:+ t).
Proof. reflexivity. Qed.

Lemma string_app_assoc (s t u : string) : s +:+ (t +:+ u) = (s +:+ t) +:+ u.
Proof. induction s as [|c s IH]; [reflexivity|]. rewrite !string_app_cons. by rewrite IH. Qed.

Lemma list_ascii_of_string_app (s t : string) :
  list_ascii_of_string (s +:+ t) = list_ascii_of_string s ++ list_ascii_of_string t.
Proof. induction s as [|c s IH]; [reflexivity|]. rewrite string_app_cons. cbn. by rewrite IH. Qed.

Lemma string_app_inv_l (s t1 t2 : string) : s +:+ t1 = s +:+ t2 -> t1 = t2.
Proof. induction s as [|c s IH]; simpl; [done|]. intros [= H]. by apply IH. Qed.

Lemma string_app_inv_r (s1 s2 t : string) : s1 +:+ t = s2 +:+ t -> s1 = s2.
Proof.
  intros H. assert (Hlen : String.length s1 = String.length s2).
  { apply (f_equal String.length) in H. rewrite !string_app_length in H. lia. }
  revert s2 H Hlen. induction s1 as [|c s1 IH]; intros [|d s2] H Hlen; simpl in *; try lia; [done|].
  injection H as -> H. f_equal. apply IH; [done|lia].
Qed.

Lemma string_prefix_app (s t : string) : String.prefix s (s +:+ t) = true.
Proof.
  induction s as [|c s IH]; simpl; [by destruct t|].
  destruct (ascii_dec c c); [done|congruence].
Qed.

Lemma substring_full (t : string) : substring 0 (String.length t) t = t.
Proof. induction t as [|c t IH]; simpl; [done|]. by rewrite IH. Qed.

Lemma substring_app (s t : string) :
  substring (String.length s) (String.length t) (s +:+ t) = t.
Proof. induction s as [|c s IH]; simpl; [apply substring_full|done]. Qed.

(** Zipping two maps of one list. *)
Lemma zip_map_pair {A B C} (f : A -> B) (g : A -> C) (l : list A) :
  zip (map f l) (map g l) = map (fun x => (f x, g x)) l.
Proof. induction l as [|x l IH]; simpl; [done|]. by rewrite IH. Qed.
