(* ===== verification/Toolkit.v ===== *)
(** * The chemistry toolkit as an interface

    RDKit ([Chem.MolFromSmiles], [Descriptors.MolLogP], [Draw.MolToImage])
    and the SA_Score contribution ([sascorer.calculateScore]) are libraries
    that src/app.py only calls.  They are a type class here: the handlers
    are written against it and every theorem holds for any instance.  The
    Python calling convention around them is modelled as the code uses it:
    [MolFromSmiles] returns [None] on an unparsable string, and passing that
    [None] on raises (Boost.Python's [ArgumentError] for the descriptor
    functions, [ValueError('Null molecule provided')] for [MolToImage]). *)

From S2P Require Import Prelude.
From Stdlib Require Export PrimFloat Strings.Byte.

#[export] Instance byte_eq_decision : EqDecision byte := byte_eq_dec.

Class Toolkit := {
  (** [rdkit.Chem.Mol] *)
  Mol : Type;
  (** [Chem.MolFromSmiles(s)]: [None] when [s] does not parse. *)
  MolFromSmiles : string -> option Mol;
  (** [Descriptors.MolLogP(mol)] on a molecule (it may raise). *)
  MolLogP : Mol -> py float;
  (** [sascorer.calculateScore(mol)] on a molecule (it may raise). *)
  calculateScore : Mol -> py float;
  (** [Draw.MolToImage(mol)] followed by [image.save(buffer, format="PNG")]
      and [buffer.getvalue()]: the PNG bytes of the depiction. *)
  MolToPNG : Mol -> py (list byte);
}.

Section Calls.
Context `{TK : Toolkit}.

(** [Descriptors.MolLogP(mol)] where [mol] is the Python value returned by
    [MolFromSmiles], possibly [None]. *)
Definition MolLogP_py (mol : option Mol) : py float :=
  match mol with
  | None => PyRaise ArgumentError
  | Some m => MolLogP m
  end.

(** [sascorer.calculateScore(mol)] on a possibly-[None] value. *)
Definition calculateScore_py (mol : option Mol) : py float :=
  match mol with
  | None => PyRaise ArgumentError
  | Some m => calculateScore m
  end.

(** [Draw.MolToImage(mol)] and the PNG save, on a possibly-[None] value. *)
Definition MolToPNG_py (mol : option Mol) : py (list byte) :=
  match mol with
  | None => PyRaise ValueError
  | Some m => MolToPNG m
  end.

(** A molecule the descriptors accept: the [try] body of the upload loop
    succeeds on it. *)
Definition descriptors_ok (m : Mol) : bool :=
  py_ok (MolLogP m) && py_ok (calculateScore m).
End Calls.

(** ** A concrete toolkit for the witnesses

    A toy instance: a "molecule" is its SMILES string, read as RDKit does
    up to the first space or tab (what follows is the molecule's name); it
    parses when that part is non-empty and made of a few organic-subset
    characters; the descriptors are constants and the "PNG" is the
    string's bytes.  It only serves to instantiate the theorems at concrete
    inputs. *)
Module ToyToolkit.
Definition smiles_char (c : ascii) : bool :=
  bool_decide (c ∈ ["B"; "C"; "N"; "O"; "P"; "S"; "F"; "I"; "l"; "r"; "c"; "n"; "o"; "s";
                     "("; ")"; "="; "#"; "1"; "2"; "3"; "/"; "\"]%char).

(** The SMILES part of a string: up to the first space or tab. *)
Fixpoint smiles_body (cs : list ascii) : list ascii :=
  match cs with
  | [] => []
  | c :: rest => if Ascii.eqb c " " || Ascii.eqb c "009" then [] else c :: smiles_body rest
  end.

Definition toy_parse (s : string) : option string :=
  let body := smiles_body (list_ascii_of_string s) in
  if bool_decide (body <> []) && forallb smiles_char body
  then Some (string_of_list_ascii body) else None.

#[export] Instance toy : Toolkit := {
  Mol := string;
  MolFromSmiles := toy_parse;
  MolLogP := fun _ => PyOk 1.5%float;
  calculateScore := fun _ => PyOk 2.25%float;
  MolToPNG := fun m => PyOk (list_byte_of_string m);
}.
End ToyToolkit.
