(* ===== verification/Base64.v ===== *)
(** * base64.b64encode and the UTF-8 decoding of its result

    [smiles_to_base64_img] (src/app.py line 23) calls
    [base64.b64encode(buffer.getvalue()).decode("utf-8")].  [b64encode] is
    CPython's [binascii.b2a_base64(s, newline=False)], whose C loop keeps an
    [unsigned int] accumulator [leftchar] and a count [leftbits] of pending
    bits: each input byte is shifted in, then six-bit groups are drained
    while at least six bits are pending, and the last two or four bits are
    padded.  This file models that loop at its 32-bit width ([b2a_base64]),
    an RFC 4648 reference encoder working on three-byte chunks
    ([b64encode_ref]), a strict decoder ([b64decode]) and the browser's
    whitespace-tolerant decoding of a data-URL payload
    ([forgiving_base64_decode]); and [.decode("utf-8")] on ASCII bytes. *)

From S2P Require Import Prelude Toolkit.

Local Open Scope Z_scope.

(** ** Bytes as integers *)

Definition u (b : byte) : Z := Z.of_N (Byte.to_N b).

Definition byte_of_Z (z : Z) : byte :=
  match Byte.of_N (Z.to_N z) with Some b => b | None => Byte.x00 end.

(** [leftchar] is a C [unsigned int]: every assignment wraps modulo 2^32. *)
Definition wrap32 (z : Z) : Z := z mod 2 ^ 32.

(** ** The encoder as CPython writes it *)

(** [table_b2a_base64] *)
Definition table_b2a_base64 : string :=
  "ABCDEFGHIJKLMNOPQRSTUVWXYZabcdefghijklmnopqrstuvwxyz0123456789+/".

Definition b64_char (i : Z) : byte :=
  match String.get (Z.to_nat i) table_b2a_base64 with
  | Some c => Ascii.byte_of_ascii c
  | None => Byte.x00
  end.

(** [BASE64_PAD], the character '=' *)
Definition BASE64_PAD : byte := Byte.x3d.

(** The inner [while (leftbits >= 6)] loop: emit
    [table_b2a_base64[(leftchar >> (leftbits-6)) & 0x3f]] and consume six
    bits.  [fuel] bounds the iterations; [leftbits] is enough fuel
    ([drain_terminates]). *)
Fixpoint drain (fuel : nat) (leftchar : Z) (leftbits : nat) (out : list byte)
  : nat * list byte :=
  match fuel with
  | O => (leftbits, out)
  | S f =>
      if (6 <=? leftbits)%nat then
        drain f leftchar (leftbits - 6)
          (out ++ [b64_char (Z.land (Z.shiftr leftchar (Z.of_nat (leftbits - 6))) 63)])
      else (leftbits, out)
  end.

(** The outer [for] loop over the input bytes:
    [leftchar = (leftchar << 8) | *bin_data; leftbits += 8;] then drain. *)
Fixpoint b2a_loop (bin : list byte) (leftchar : Z) (leftbits : nat) (out : list byte)
  : Z * nat * list byte :=
  match bin with
  | [] => (leftchar, leftbits, out)
  | b :: rest =>
      let lc := wrap32 (Z.lor (Z.shiftl leftchar 8) (u b)) in
      let '(bits, out') := drain (leftbits + 8) lc (leftbits + 8) out in
      b2a_loop rest lc bits out'
  end.

(** [binascii.b2a_base64(bin, newline=False)], i.e. [base64.b64encode]:
    the loop from [leftchar = 0, leftbits = 0] ([b2a_loop]), then the
    padding of the two or four pending bits ([b2a_pad]). *)
Definition b2a_pad (st : Z * nat * list byte) : list byte :=
  let '(leftchar, leftbits, out) := st in
  if (leftbits =? 2)%nat then
    out ++ [b64_char (Z.shiftl (Z.land leftchar 3) 4); BASE64_PAD; BASE64_PAD]
  else if (leftbits =? 4)%nat then
    out ++ [b64_char (Z.shiftl (Z.land leftchar 15) 2); BASE64_PAD]
  else out.

Definition b2a_base64 (bin : list byte) : list byte :=
  b2a_pad (b2a_loop bin 0 0 []).

(** ** The RFC 4648 reference encoder *)

Definition enc3 (a b c : byte) : list byte :=
  let n := u a * 65536 + u b * 256 + u c in
  [b64_char (n / 262144); b64_char (n / 4096 mod 64);
   b64_char (n / 64 mod 64); b64_char (n mod 64)].

Fixpoint b64encode_ref (bs : list byte) : list byte :=
  match bs with
  | a :: b :: c :: rest => enc3 a b c ++ b64encode_ref rest
  | [a; b] =>
      let n := u a * 256 + u b in
      [b64_char (n / 1024); b64_char (n / 16 mod 64); b64_char (n mod 16 * 4); BASE64_PAD]
  | [a] => [b64_char (u a / 4); b64_char (u a mod 4 * 16); BASE64_PAD; BASE64_PAD]
  | [] => []
  end.

(** ** Decoding *)

Fixpoint string_index (c : ascii) (s : string) : option nat :=
  match s with
  | EmptyString => None
  | String d s' =>
      if decide (c = d) then Some 0%nat else S <$> string_index c s'
  end.

Definition b64_index (b : byte) : option Z :=
  Z.of_nat <$> string_index (Ascii.ascii_of_byte b) table_b2a_base64.

(** Strict RFC 4648 decoding: groups of four characters, '=' padding only
    in the last group. *)
Fixpoint b64decode (s : list byte) : option (list byte) :=
  match s with
  | [] => Some []
  | c0 :: c1 :: c2 :: c3 :: rest =>
      i0 ← b64_index c0; i1 ← b64_index c1;
      if decide (c2 = BASE64_PAD /\ c3 = BASE64_PAD /\ rest = []) then
        Some [byte_of_Z (i0 * 4 + i1 / 16)]
      else if decide (c3 = BASE64_PAD /\ rest = []) then
        i2 ← b64_index c2;
        Some [byte_of_Z (i0 * 4 + i1 / 16); byte_of_Z (i1 mod 16 * 16 + i2 / 4)]
      else
        i2 ← b64_index c2; i3 ← b64_index c3;
        rest' ← b64decode rest;
        Some ([byte_of_Z (i0 * 4 + i1 / 16); byte_of_Z (i1 mod 16 * 16 + i2 / 4);
               byte_of_Z (i2 mod 4 * 64 + i3)] ++ rest')
  | _ => None
  end.

(** ASCII whitespace as the WHATWG infra standard defines it. *)
Definition ascii_whitespace (b : byte) : bool :=
  bool_decide (b ∈ [Byte.x09; Byte.x0a; Byte.x0c; Byte.x0d; Byte.x20]).

(** The browser's decoding of a [;base64] data-URL payload: ASCII
    whitespace is removed before decoding (WHATWG "forgiving-base64
    decode", restricted here to padded input). *)
Definition forgiving_base64_decode (s : list byte) : option (list byte) :=
  b64decode (filter (fun b => negb (ascii_whitespace b)) s).

(** ** [.decode("utf-8")] *)

(** Decoding bytes as UTF-8, on the ASCII range: every byte below 0x80 is
    one character.  A byte of 0x80 or more is reported as
    [UnicodeDecodeError]; the model does not decode multi-byte sequences,
    which never occur here since [b2a_base64]'s output is ASCII. *)
Definition utf8_decode (bs : list byte) : py string :=
  if forallb (fun b => (Byte.to_N b <? 128)%N) bs
  then PyOk (string_of_list_byte bs)
  else PyRaise UnicodeDecodeError.

(** ** The accumulator *)

Lemma u_range (b : byte) : 0 <= u b < 256.
Proof. unfold u. pose proof (Byte.to_N_bounded b). lia. Qed.

Lemma byte_of_Z_u (b : byte) : byte_of_Z (u b) = b.
Proof. unfold byte_of_Z, u. by rewrite N2Z.id, Byte.of_to_N. Qed.

Lemma byte_of_Z_eq (z : Z) (b : byte) : z = u b -> byte_of_Z z = b.
Proof. intros ->. apply byte_of_Z_u. Qed.

Lemma wrap32_nonneg (z : Z) : 0 <= wrap32 z.
Proof. unfold wrap32. apply Z.mod_pos_bound. lia. Qed.

#[export] Hint Resolve wrap32_nonneg : webapp.

(** After shifting byte [b] into a non-negative accumulator [lc], its low
    [m] bits are [lc]'s low [m - 8] bits followed by [b] (for [m <= 32],
    so the 32-bit wrap-around does not reach them) ... *)
Lemma shift_in_high (lc : Z) (b : byte) (m : Z) :
  0 <= lc -> 8 <= m <= 32 ->
  wrap32 (Z.lor (Z.shiftl lc 8) (u b)) mod 2 ^ m = lc mod 2 ^ (m - 8) * 256 + u b.
Proof.
  intros Hlc Hm. pose proof (u_range b).
  rewrite lor_shiftl_byte by lia. unfold wrap32.
  rewrite mod_pow2_mod by lia.
  replace (2 ^ m) with (2 ^ (m - 8) * 256)
    by (change 256 with (2 ^ 8); rewrite <- Z.pow_add_r by lia; f_equal; lia).
  apply Z.add_mul_mod_distr_r; [lia | apply Z.pow_pos_nonneg; lia | lia].
Qed.

(** ... and its low [m <= 8] bits are those of [b]. *)
Lemma shift_in_low (lc : Z) (b : byte) (m : Z) :
  0 <= lc -> 0 <= m <= 8 ->
  wrap32 (Z.lor (Z.shiftl lc 8) (u b)) mod 2 ^ m = u b mod 2 ^ m.
Proof.
  intros Hlc Hm. rewrite <- (mod_pow2_mod _ m 8) by lia.
  rewrite shift_in_high by lia. rewrite Z.sub_diag, Z.pow_0_r, Z.mod_1_r. reflexivity.
Qed.

(** Rewrite an emitted six-bit index down to the bytes it comes from. *)
Ltac b64_index_simpl :=
  repeat first
    [ rewrite land_shiftr_63 by lia
    | rewrite div_mod_low by lia
    | rewrite shift_in_high by (auto with webapp; lia)
    | rewrite shift_in_low by (auto with webapp; lia)
    | rewrite (land_low _ 2 3) by lia
    | rewrite (land_low _ 4 15) by lia
    | rewrite Z.shiftl_mul_pow2 by lia ];
  repeat match goal with
  | |- context [Z.of_nat ?n] =>
      let m := eval compute in (Z.of_nat n) in change (Z.of_nat n) with m
  end;
  repeat match goal with
  | |- context [2 ^ ?e] =>
      let m := eval compute in (2 ^ e) in change (2 ^ e) with m
  end.

(** The inner loop ends with fewer than six pending bits: [leftbits] as
    fuel is enough, and the loop emits [leftbits / 6] characters. *)
Theorem drain_terminates (lc : Z) (bits : nat) (out : list byte) :
  fst (drain bits lc bits out) = (bits mod 6)%nat /\
  length (snd (drain bits lc bits out)) = (length out + bits / 6)%nat.
Proof.
  assert (Hgen : forall fuel bits out, (bits <= fuel)%nat ->
            fst (drain fuel lc bits out) = (bits mod 6)%nat /\
            length (snd (drain fuel lc bits out)) = (length out + bits / 6)%nat).
  { induction fuel as [|f IH]; intros bs o Hle; cbn [drain].
    - assert (bs = 0%nat) as -> by lia. auto.
    - destruct (Nat.leb_spec 6 bs) as [H6|H6].
      + edestruct (IH (bs - 6)%nat) as [IH1 IH2]; [lia|].
        rewrite IH1, IH2, length_app. cbn [length].
        destruct (Nat.le_exists_sub 6 bs H6) as [k [-> _]].
        rewrite Nat.add_sub. replace (k + 6)%nat with (k + 1 * 6)%nat by lia.
        rewrite Nat.Div0.mod_add, Nat.div_add by lia. split; lia.
      + cbn [fst snd]. rewrite Nat.mod_small, Nat.div_small by lia. split; lia. }
  apply Hgen. lia.
Qed.

Arguments u : simpl never.
Arguments wrap32 : simpl never.
Arguments b64_char : simpl never.

Local Ltac b64_arith :=
  b64_index_simpl;
  repeat match goal with
  | b : byte |- _ =>
      lazymatch goal with
      | _ : 0 <= u b < 256 |- _ => fail
      | _ => pose proof (u_range b)
      end
  end; Z.to_euclidean_division_equations; lia.

(** Three input bytes taken from a state with no pending bit emit the
    reference chunk [enc3] and leave no pending bit. *)
Lemma b2a_loop_triple (a b c : byte) (rest : list byte) (lc : Z) (out : list byte) :
  0 <= lc ->
  exists lc', 0 <= lc' /\
    b2a_loop (a :: b :: c :: rest) lc 0 out = b2a_loop rest lc' 0 (out ++ enc3 a b c).
Proof.
  intros Hlc. simpl. rewrite <- !app_assoc. cbn [app Z.of_nat Pos.of_succ_nat Pos.succ].
  eexists. split; [| f_equal]; [apply wrap32_nonneg |].
  unfold enc3. repeat f_equal; b64_arith.
Qed.

(** One or two trailing bytes leave two or four pending bits, which the
    padding turns into the reference's last chunk. *)
Lemma b2a_pad_tail (rest : list byte) (lc : Z) (out : list byte) :
  0 <= lc -> (length rest < 3)%nat ->
  b2a_pad (b2a_loop rest lc 0 out) = out ++ b64encode_ref rest.
Proof.
  intros Hlc Hlen.
  destruct rest as [|a [|b [|c rest]]]; cbn [length] in Hlen; try lia.
  - simpl. by rewrite app_nil_r.
  - simpl. rewrite <- !app_assoc. cbn [app]. repeat f_equal; b64_arith.
  - simpl. rewrite <- !app_assoc. cbn [app]. repeat f_equal; b64_arith.
Qed.

Lemma b2a_loop_ref (bs : list byte) (lc : Z) (out : list byte) :
  0 <= lc -> b2a_pad (b2a_loop bs lc 0 out) = out ++ b64encode_ref bs.
Proof.
  revert lc out.
  induction bs as [bs IH] using (induction_ltof1 _ (@length byte)); unfold ltof in IH.
  intros lc out Hlc.
  destruct bs as [|a [|b [|c rest]]]; try (apply b2a_pad_tail; simpl; lia).
  destruct (b2a_loop_triple a b c rest lc out Hlc) as (lc' & Hlc' & ->).
  rewrite IH by (simpl; lia). simpl. by rewrite <- app_assoc.
Qed.

(** C27: The C loop of [binascii.b2a_base64] computes the RFC 4648 encoding. *)
Theorem b2a_base64_ref (bs : list byte) : b2a_base64 bs = b64encode_ref bs.
Proof. unfold b2a_base64. by rewrite b2a_loop_ref by lia. Qed.

(** ** The alphabet *)

Lemma b64_index_char (i : Z) : 0 <= i < 64 -> b64_index (b64_char i) = Some i.
Proof.
  intros Hi. rewrite <- (Z2Nat.id i) by lia.
  assert (Hn : (Z.to_nat i < 64)%nat) by lia. revert Hn.
  generalize (Z.to_nat i) as n. intros n Hn.
  do 64 (destruct n as [|n]; [reflexivity|]). lia.
Qed.

Lemma b64_index_pad : b64_index BASE64_PAD = None.
Proof. reflexivity. Qed.

Lemma b64_char_not_pad (i : Z) : 0 <= i < 64 -> b64_char i <> BASE64_PAD.
Proof.
  intros Hi Heq. pose proof (b64_index_char i Hi) as H.
  rewrite Heq, b64_index_pad in H. discriminate.
Qed.

(** Every character of the table is ASCII. *)
Lemma b64_char_ascii (i : Z) : (Byte.to_N (b64_char i) < 128)%N.
Proof.
  unfold b64_char. generalize (Z.to_nat i) as n. intros n.
  do 64 (destruct n as [|n]; [vm_compute; reflexivity|]).
  vm_compute. reflexivity.
Qed.

(** No character of the table, and not the padding, is whitespace. *)
Lemma b64_alphabet_not_ws (c : byte) :
  is_Some (b64_index c) \/ c = BASE64_PAD -> ascii_whitespace c = false.
Proof.
  intros Hc. destruct (ascii_whitespace c) eqn:Hw; [|done].
  unfold ascii_whitespace in Hw. apply bool_decide_eq_true in Hw.
  repeat (apply elem_of_cons in Hw as [->|Hw]; [destruct Hc as [[? Hc]|Hc]; discriminate|]).
  by apply elem_of_nil in Hw.
Qed.

#[export] Hint Resolve b64_index_char b64_char_not_pad b64_char_ascii : webapp.

(** ** The encoding: alphabet, length, round trip *)

Definition b64_alphabet (c : byte) : Prop := is_Some (b64_index c) \/ c = BASE64_PAD.

Lemma b64_char_alphabet (i : Z) : 0 <= i < 64 -> b64_alphabet (b64_char i).
Proof. intros Hi. left. rewrite b64_index_char by done. eauto. Qed.

Local Ltac b64_range :=
  repeat match goal with
  | b : byte |- _ =>
      lazymatch goal with
      | _ : 0 <= u b < 256 |- _ => fail
      | _ => pose proof (u_range b)
      end
  end; Z.to_euclidean_division_equations; lia.

Lemma b64encode_ref_alphabet (bs : list byte) : Forall b64_alphabet (b64encode_ref bs).
Proof.
  induction bs as [| a | a b | a b c r IH] using list_triple_ind;
    cbn [b64encode_ref]; [constructor | | | apply Forall_app; split; [unfold enc3|exact IH]];
    repeat (apply Forall_cons_2 || apply Forall_nil_2);
    first [right; reflexivity | apply b64_char_alphabet; b64_range].
Qed.

Lemma b64encode_ref_length (bs : list byte) :
  length (b64encode_ref bs) = (4 * ((length bs + 2) / 3))%nat.
Proof.
  induction bs using list_triple_ind; try reflexivity.
  cbn [b64encode_ref length]. rewrite length_app, IHbs. simpl length.
  replace (S (S (S (length bs))) + 2)%nat with (length bs + 2 + 1 * 3)%nat by lia.
  rewrite Nat.div_add by lia. lia.
Qed.

Lemma b64decode_ref (bs : list byte) : b64decode (b64encode_ref bs) = Some bs.
Proof.
  induction bs as [| a | a b | a b c r IH] using list_triple_ind.
  - reflexivity.
  - cbn [b64encode_ref b64decode].
    rewrite !b64_index_char by b64_range. simpl.
    do 3 f_equal. apply byte_of_Z_eq. b64_range.
  - cbn [b64encode_ref b64decode].
    rewrite !b64_index_char by b64_range. simpl.
    rewrite decide_False by (intros (Hp & _); revert Hp; apply b64_char_not_pad; b64_range).
    simpl. do 2 f_equal; [|f_equal]; apply byte_of_Z_eq; b64_range.
  - cbn [b64encode_ref enc3 app b64decode].
    rewrite !b64_index_char by b64_range. simpl.
    rewrite decide_False by (intros (Hp & _); revert Hp; apply b64_char_not_pad; b64_range).
    rewrite decide_False by (intros (Hp & _); revert Hp; apply b64_char_not_pad; b64_range).
    rewrite ?b64_index_char by b64_range. simpl. rewrite IH. simpl.
    do 2 f_equal; [|f_equal; [|f_equal]]; apply byte_of_Z_eq; b64_range.
Qed.

(** ** Properties of [base64.b64encode] *)

Lemma b2a_base64_alphabet (bs : list byte) : Forall b64_alphabet (b2a_base64 bs).
Proof. unfold b2a_base64. rewrite b2a_loop_ref by lia. apply b64encode_ref_alphabet. Qed.

Lemma b64decode_b2a_base64 (bs : list byte) : b64decode (b2a_base64 bs) = Some bs.
Proof. unfold b2a_base64. rewrite b2a_loop_ref by lia. apply b64decode_ref. Qed.

(** The encoder's output has no whitespace, so the browser's whitespace
    removal leaves it unchanged. *)
Lemma b2a_base64_no_ws (bs : list byte) :
  filter (fun b => negb (ascii_whitespace b)) (b2a_base64 bs) = b2a_base64 bs.
Proof.
  pose proof (b2a_base64_alphabet bs) as Hall.
  induction (b2a_base64 bs) as [|c l IH]; [done|].
  apply Forall_cons in Hall as [Hc Hl].
  rewrite filter_cons, decide_True, IH by (done || by rewrite b64_alphabet_not_ws).
  reflexivity.
Qed.

(** C28: Round trip: decoding the encoder's output gives back the bytes, with
    the strict decoder and with the browser's whitespace-tolerant one. *)
Theorem b2a_base64_roundtrip (bs : list byte) :
  b64decode (b2a_base64 bs) = Some bs /\ forgiving_base64_decode (b2a_base64 bs) = Some bs.
Proof.
  split; [apply b64decode_b2a_base64|].
  unfold forgiving_base64_decode. rewrite b2a_base64_no_ws. apply b64decode_b2a_base64.
Qed.

(** C29: The output has four characters per started group of three bytes. *)
Theorem b2a_base64_length (bs : list byte) :
  length (b2a_base64 bs) = (4 * ((length bs + 2) / 3))%nat.
Proof. unfold b2a_base64. rewrite b2a_loop_ref by lia. apply b64encode_ref_length. Qed.

Lemma string_index_get (c : ascii) (s : string) (n : nat) :
  string_index c s = Some n -> String.get n s = Some c.
Proof.
  revert n. induction s as [|d s IH]; intros n; simpl; [discriminate|].
  case_decide; [intros [= <-]; by subst|].
  destruct (string_index c s) as [m|]; simpl; [|discriminate].
  intros [= <-]. by apply IH.
Qed.

Lemma b64_alphabet_ascii (c : byte) : b64_alphabet c -> (Byte.to_N c < 128)%N.
Proof.
  intros [[i Hi] | ->]; [|vm_compute; reflexivity].
  unfold b64_index in Hi. destruct (string_index _ _) as [n|] eqn:Hn; [|discriminate].
  apply string_index_get in Hn.
  assert (Hc : b64_char (Z.of_nat n) = c).
  { unfold b64_char. by rewrite Nat2Z.id, Hn, Ascii.byte_of_ascii_of_byte. }
  rewrite <- Hc. apply b64_char_ascii.
Qed.

Lemma utf8_decode_alphabet (bs : list byte) :
  Forall b64_alphabet bs -> utf8_decode bs = PyOk (string_of_list_byte bs).
Proof.
  intros Hall. unfold utf8_decode. rewrite (proj2 (forallb_forall _ _)); [done|].
  intros c Hc. apply N.ltb_lt, b64_alphabet_ascii.
  apply list_elem_of_In in Hc. by eapply Forall_forall in Hc.
Qed.

(** C30: [.decode("utf-8")] of the encoder's output never raises, and the
    resulting string has exactly the encoder's bytes. *)
Theorem utf8_decode_b2a_base64 (bs : list byte) :
  exists s, utf8_decode (b2a_base64 bs) = PyOk s /\
            list_byte_of_string s = b2a_base64 bs.
Proof.
  eexists. split; [apply utf8_decode_alphabet, b2a_base64_alphabet|].
  apply list_byte_of_string_of_list_byte.
Qed.


(** The body the browser decodes for the code's data URL: a space, then
    the decoded string of the encoding, decodes to the original bytes. *)
Lemma b2a_base64_payload (bs : list byte) :
  exists enc, utf8_decode (b2a_base64 bs) = PyOk enc /\
    forgiving_base64_decode (list_byte_of_string (String " " enc)) = Some bs.
Proof.
  exists (string_of_list_byte (b2a_base64 bs)).
  split; [apply utf8_decode_alphabet, b2a_base64_alphabet|].
  unfold forgiving_base64_decode.
  change (list_byte_of_string (String " " ?e)) with (Byte.x20 :: list_byte_of_string e).
  rewrite filter_cons, decide_False by (vm_compute; tauto).
  rewrite list_byte_of_string_of_list_byte, b2a_base64_no_ws. apply b64decode_b2a_base64.
Qed.
