(* ===== verification/PyFloat.v ===== *)
(** * Binary64 numbers and Python's [float(str)]

    The C and Python code the program calls (pandas' CSV parser, pandas'
    JSON encoder and decoder, [float(s)] in [pd.read_json]'s type
    conversion) compute with IEEE 754 doubles.  They are Rocq's primitive
    floats here: the arithmetic of those routines is [PrimFloat]'s
    (correctly rounded, as the C operations are), and the conversions the C
    code does implicitly ([(double)] of an integer, [(unsigned long long)]
    of a double, a decimal literal of the source) are written with the
    exact representation [FloatOps.Prim2SF] and the rounding of
    [SpecFloat].  [round_decimal] is the correctly rounded value of a
    decimal [m * 10^e], which is what CPython's [float(s)] (David Gay's
    [_Py_dg_strtod]) and a C compiler's literal conversion compute.

    The file also holds Python's [float(s)] on a string ([py_float]), used
    by [pd.read_json] when it tries to turn a column of strings into
    floats (see [Json]). *)

From S2P Require Import Prelude.
From Stdlib Require Export PrimFloat FloatOps SpecFloat.

(** ** Exact conversions *)

Definition is_nan (f : float) : bool := negb (PrimFloat.eqb f f).

Definition is_finite (f : float) : bool :=
  PrimFloat.ltb (PrimFloat.abs f) PrimFloat.infinity.

(** [(double) z] for an integer [z]: round to nearest, ties to even. *)
Definition float_of_Z (z : Z) : float :=
  SF2Prim (binary_normalize prec emax z 0 false).

(** [(unsigned long long) x] (and [(long long)] on non-negative values):
    truncation towards zero of a finite double. *)
Definition trunc_Z (x : float) : Z :=
  match Prim2SF x with
  | S754_finite s m e =>
      let t := if (0 <=? e)%Z then Z.shiftl (Zpos m) e else Z.shiftr (Zpos m) (- e) in
      if s then (- t)%Z else t
  | _ => 0%Z
  end.

(** The correctly rounded double nearest to [(-1)^neg * m * 10^e] ([m >= 0]).
    Above [10^310] every such value rounds to infinity and below [10^-325]
    to zero, so the exact computation is only made in between. *)
Definition round_decimal (neg : bool) (m e : Z) : float :=
  if (m =? 0)%Z then (if neg then (-0)%float else 0%float)
  else if (310 <=? e)%Z then (if neg then PrimFloat.neg_infinity else PrimFloat.infinity)
  else if (e + Z.log2 m + 1 <=? -325)%Z then (if neg then (-0)%float else 0%float)
  else if (0 <=? e)%Z then
    SF2Prim (binary_normalize prec emax (if neg then - (m * 10 ^ e) else m * 10 ^ e)%Z 0 neg)
  else
    let '(mz, ez, lz) := SFdiv_core_binary prec emax m 0 (10 ^ (- e)) 0 in
    SF2Prim (binary_round_aux prec emax neg mz ez lz).

(** ** Characters and digit strings *)

Definition is_digit (c : ascii) : bool :=
  let n := nat_of_ascii c in (48 <=? n) && (n <=? 57).

Definition digit_val (c : ascii) : Z := (Z.of_nat (nat_of_ascii c) - 48)%Z.

(** The value of a string of decimal digits. *)
Definition Z_of_digits (ds : list ascii) : Z :=
  foldl (fun acc c => acc * 10 + digit_val c)%Z 0%Z ds.

(** [c.lower()] on ASCII letters. *)
Definition ascii_lower (c : ascii) : ascii :=
  let n := nat_of_ascii c in
  if (65 <=? n) && (n <=? 90) then ascii_of_nat (n + 32) else c.

(** The longest prefix of digits and the rest. *)
Fixpoint span_digits (cs : list ascii) : list ascii * list ascii :=
  match cs with
  | c :: rest =>
      if is_digit c then let '(ds, r) := span_digits rest in (c :: ds, r) else ([], cs)
  | [] => ([], [])
  end.

(** ** Python's [float(s)] on a [str]

    CPython's [float_from_string]: Unicode white space becomes a space
    ([_PyUnicode_TransformDecimalAndSpaceToASCII]; below U+0100 these are
    \t \n \v \f \r, U+001C to U+001F, the space, U+0085 and U+00A0),
    underscores are checked and removed
    ([_Py_string_to_number_with_underscores]), leading and trailing spaces
    are stripped, and the rest must be entirely consumed by
    [PyOS_string_to_double]: an optional sign, then [inf], [infinity] or
    [nan] in any case, or digits with an optional point and fraction (at
    least one digit) and an optional exponent with at least one digit.
    Overflow gives an infinity (no exception is asked for).  A NUL
    character makes the conversion fail. *)

Definition py_space (c : ascii) : bool :=
  bool_decide (nat_of_ascii c ∈ [9; 10; 11; 12; 13; 28; 29; 30; 31; 32; 133; 160]).

(** Underscores only between two digits; [prev] is the previous character. *)
Fixpoint drop_underscores (prev : option ascii) (cs : list ascii) : option (list ascii) :=
  match cs with
  | [] => if bool_decide (prev = Some "_"%char) then None else Some []
  | c :: rest =>
      if Ascii.eqb c "_" then
        match prev with
        | Some p => if is_digit p then drop_underscores (Some c) rest else None
        | None => None
        end
      else if bool_decide (prev = Some "_"%char) && negb (is_digit c) then None
      else option_map (cons c) (drop_underscores (Some c) rest)
  end.

Definition strip_py_space (cs : list ascii) : list ascii :=
  reverse (drop_while py_space (reverse (drop_while py_space cs))).

(** The exponent part: [e] or [E], an optional sign, at least one digit,
    and nothing after it. *)
Definition py_exponent (cs : list ascii) : option Z :=
  match cs with
  | [] => Some 0%Z
  | c :: rest =>
      if Ascii.eqb c "e" || Ascii.eqb c "E" then
        let '(sgn, ds0) := match rest with
                           | "-"%char :: r => ((-1)%Z, r)
                           | "+"%char :: r => (1%Z, r)
                           | _ => (1%Z, rest)
                           end in
        let '(ds, r) := span_digits ds0 in
        if bool_decide (ds <> []) && bool_decide (r = []) then Some (sgn * Z_of_digits ds)%Z
        else None
      else None
  end.

(** [_PyOS_ascii_strtod] on the stripped string, which it must consume. *)
Definition py_strtod (cs : list ascii) : option float :=
  let '(neg, body) := match cs with
                      | "-"%char :: r => (true, r)
                      | "+"%char :: r => (false, r)
                      | _ => (false, cs)
                      end in
  let low := map ascii_lower body in
  if bool_decide (low = list_ascii_of_string "inf") || bool_decide (low = list_ascii_of_string "infinity")
  then Some (if neg then PrimFloat.neg_infinity else PrimFloat.infinity)
  else if bool_decide (low = list_ascii_of_string "nan") then Some PrimFloat.nan
  else
    let '(d1, r1) := span_digits body in
    let '(d2, r2) := match r1 with
                     | "."%char :: r => span_digits r
                     | _ => ([], r1)
                     end in
    if bool_decide (d1 ++ d2 = []) then None
    else
      match py_exponent r2 with
      | Some x => Some (round_decimal neg (Z_of_digits (d1 ++ d2)) (x - Z.of_nat (length d2)))
      | None => None
      end.

(** [float(s)]: [None] where Python raises [ValueError]. *)
Definition py_float (s : string) : option float :=
  let cs := map (fun c => if py_space c then " "%char else c) (list_ascii_of_string s) in
  if existsb (fun c => Ascii.eqb c "000") cs then None
  else
    match drop_underscores None cs with
    | Some cs' => py_strtod (strip_py_space cs')
    | None => None
    end.

(** ** Digit strings *)

Lemma Z_of_digits_acc (a : Z) (ds : list ascii) :
  foldl (fun acc c => acc * 10 + digit_val c)%Z a ds = (a * 10 ^ Z.of_nat (length ds) + Z_of_digits ds)%Z.
Proof.
  unfold Z_of_digits. revert a. induction ds as [|c ds IH]; intros a; simpl.
  - lia.
  - rewrite IH, (IH (0 * 10 + digit_val c)%Z). rewrite Nat2Z.inj_succ, Z.pow_succ_r by lia. lia.
Qed.

Lemma Z_of_digits_app (ds1 ds2 : list ascii) :
  Z_of_digits (ds1 ++ ds2) = (Z_of_digits ds1 * 10 ^ Z.of_nat (length ds2) + Z_of_digits ds2)%Z.
Proof. unfold Z_of_digits at 1. by rewrite foldl_app, Z_of_digits_acc. Qed.

Lemma digit_val_range (c : ascii) : is_digit c = true -> (0 <= digit_val c < 10)%Z.
Proof.
  unfold is_digit, digit_val. intros H. apply andb_prop in H as [H1 H2].
  apply Nat.leb_le in H1, H2. lia.
Qed.

Lemma Z_of_digits_bound (ds : list ascii) :
  Forall (fun c => is_digit c = true) ds -> (0 <= Z_of_digits ds < 10 ^ Z.of_nat (length ds))%Z.
Proof.
  induction ds as [|c ds IH] using rev_ind; intros Hds; [unfold Z_of_digits; simpl; lia|].
  apply Forall_app in Hds as [Hds Hc]. apply Forall_cons in Hc as [Hc _].
  rewrite Z_of_digits_app, length_app. simpl length.
  specialize (IH Hds). pose proof (digit_val_range c Hc).
  rewrite Nat2Z.inj_add, Z.pow_add_r by lia.
  replace (Z_of_digits [c]) with (digit_val c) by (unfold Z_of_digits; simpl; lia).
  change (Z.of_nat 1) with 1%Z. rewrite Z.pow_1_r. nia.
Qed.
