(* ===== verification/Tokenizer.v ===== *)
(** * pandas' C tokenizer on the uploaded file (src/app.py line 36)

    [pd.read_csv(form.file.data, names=["SMILES"])] runs the C parser's
    tokenizer ([tokenize_bytes] in pandas/_libs/src/parser/tokenizer.c)
    over the file's characters with the default dialect: delimiter ",",
    quote character ASCII 34 with [doublequote], no escape character, no
    comment character, [skip_blank_lines=True], [skipinitialspace=False],
    line terminator "\n", carriage returns ("\r" and "\r\n") handled by
    the [EAT_CRNL] states.  A UTF-8 byte-order mark at the start of the
    file is skipped.

    [tstate] has the tokenizer's states ([START_RECORD], [START_FIELD],
    [IN_FIELD], [IN_QUOTED_FIELD], [QUOTE_IN_QUOTED_FIELD], [EAT_CRNL],
    [EAT_CRNL_NOP], [WHITESPACE_LINE]); [tok_step] is one iteration of
    its loop on one character, [tok_eof] is [parser_handle_eof], and
    [tokenize] returns the records (each with the file line it starts on
    and its fields), or the [ParserError] "EOF inside string".

    A line that starts with white space is held in [WHITESPACE_LINE]; if
    it is not blank, the C code backtracks to the character after the
    previous "\n" (or to the start of the data) and tokenizes the line
    again from [START_FIELD].  When the previous line ended with a lone
    "\r" that search goes past the line start; [tok_step] reaches the
    state [Unmodelled] there.

    The reference definition is the line splitter [numbered_lines] with
    [split_fields]: on a file without quote characters the tokenizer
    produces exactly its records ([tokenize_noquote]). *)

From S2P Require Import Prelude.

Definition LF : ascii := "010"%char.
Definition CR : ascii := "013"%char.
(** [quotechar] and [delimiter] of the default dialect. *)
Definition quotechar : ascii := "034"%char.
Definition delimiter : ascii := ","%char.

(** ** The reference: lines and fields *)

(** The tokenizer's line splitting: "\r\n", "\r" and "\n" end a line;
    [cur] is the current line, reversed. *)
Fixpoint split_lines_acc (cs : list ascii) (cur : list ascii) : list (list ascii) :=
  match cs with
  | [] => [rev cur]
  | c :: rest =>
      if Ascii.eqb c CR then
        match rest with
        | c' :: rest' =>
            if Ascii.eqb c' LF then rev cur :: split_lines_acc rest' []
            else rev cur :: split_lines_acc rest []
        | [] => [rev cur; []]
        end
      else if Ascii.eqb c LF then rev cur :: split_lines_acc rest []
      else split_lines_acc rest (c :: cur)
  end.

(** [IS_WHITESPACE] of the tokenizer: space and tab. *)
Definition pd_whitespace (c : ascii) : bool :=
  Ascii.eqb c " " || Ascii.eqb c "009".

(** A line skipped by [skip_blank_lines]: empty or only whitespace. *)
Definition blank_line (l : list ascii) : bool := forallb pd_whitespace l.

(** The UTF-8 byte order mark, which the parser drops at the start. *)
Definition BOM : list ascii := ["239"; "187"; "191"]%char.

Definition strip_bom (cs : list ascii) : list ascii :=
  if bool_decide (take 3 cs = BOM) then drop 3 cs else cs.

(** The non-blank lines of the file with their 1-based line numbers. *)
Definition numbered_lines (text : string) : list (nat * list ascii) :=
  let ls := split_lines_acc (strip_bom (list_ascii_of_string text)) [] in
  filter (fun nl => negb (blank_line nl.2)) (zip (seq 1 (length ls)) ls).

(** A line without delimiter or quote: one field. *)
Definition single_field (l : list ascii) : bool :=
  negb (existsb (fun c => Ascii.eqb c delimiter || Ascii.eqb c quotechar) l).

(** The fields of an unquoted line: the completed fields and the current one. *)
Fixpoint split_fields_at (cs : list ascii) (cur : list ascii) : list (list ascii) * list ascii :=
  match cs with
  | [] => ([], cur)
  | c :: rest =>
      if Ascii.eqb c delimiter then let '(fs, last) := split_fields_at rest [] in (cur :: fs, last)
      else split_fields_at rest (cur ++ [c])
  end.

Definition split_fields (l : list ascii) : list (list ascii) :=
  let '(fs, last) := split_fields_at l [] in fs ++ [last].

(** ** The tokenizer *)

(** The states of the tokenizer loop; [StartRecord cr] remembers whether
    the previous line ended with a lone "\r", [WhitespaceLine ws cr] the
    white space read so far. *)
Inductive tstate :=
  | StartRecord (after_cr : bool)
  | StartField
  | InField
  | InQuotedField
  | QuoteInQuotedField
  | EatCRNL
  | EatCRNLNop
  | WhitespaceLine (ws : list ascii) (after_cr : bool)
  | Unmodelled.

(** What the loop has built: the current line number, the line the
    current record starts on, the fields of the current record, the
    current field, and the finished records. *)
Record tacc := {
  t_line : nat;
  t_start : nat;
  t_fields : list (list ascii);
  t_fld : list ascii;
  t_recs : list (nat * list (list ascii));
}.

Definition tacc_init : tacc :=
  {| t_line := 1; t_start := 1; t_fields := []; t_fld := []; t_recs := [] |}.

(** [PUSH_CHAR], [END_FIELD], [END_LINE], and the line counter. *)
Definition push_char (c : ascii) (a : tacc) : tacc :=
  {| t_line := t_line a; t_start := t_start a; t_fields := t_fields a;
     t_fld := t_fld a ++ [c]; t_recs := t_recs a |}.

Definition end_field (a : tacc) : tacc :=
  {| t_line := t_line a; t_start := t_start a; t_fields := t_fields a ++ [t_fld a];
     t_fld := []; t_recs := t_recs a |}.

Definition end_line (a : tacc) : tacc :=
  {| t_line := t_line a; t_start := t_start a; t_fields := [];
     t_fld := t_fld a; t_recs := t_recs a ++ [(t_start a, t_fields a)] |}.

Definition new_line (a : tacc) : tacc :=
  {| t_line := S (t_line a); t_start := t_start a; t_fields := t_fields a;
     t_fld := t_fld a; t_recs := t_recs a |}.

Definition start_at (a : tacc) : tacc :=
  {| t_line := t_line a; t_start := t_line a; t_fields := t_fields a;
     t_fld := t_fld a; t_recs := t_recs a |}.

Definition with_fld (f : list ascii) (a : tacc) : tacc :=
  {| t_line := t_line a; t_start := t_start a; t_fields := t_fields a;
     t_fld := f; t_recs := t_recs a |}.

(** [IN_FIELD]. *)
Definition in_field (a : tacc) (c : ascii) : tstate * tacc :=
  if Ascii.eqb c LF then (StartRecord false, new_line (end_line (end_field a)))
  else if Ascii.eqb c CR then (EatCRNL, new_line (end_field a))
  else if Ascii.eqb c delimiter then (StartField, end_field a)
  else (InField, push_char c a).

(** [START_FIELD]: as [IN_FIELD], except that a quote opens a quoted field. *)
Definition start_field (a : tacc) (c : ascii) : tstate * tacc :=
  if Ascii.eqb c quotechar then (InQuotedField, a) else in_field a c.

(** [START_RECORD]: empty lines are skipped, a line starting with white
    space goes to [WHITESPACE_LINE], anything else starts a record. *)
Definition start_record (cr : bool) (a : tacc) (c : ascii) : tstate * tacc :=
  if Ascii.eqb c LF then (StartRecord false, new_line a)
  else if Ascii.eqb c CR then (EatCRNLNop, new_line a)
  else if pd_whitespace c then (WhitespaceLine [c] cr, a)
  else start_field (start_at a) c.

(** [WHITESPACE_LINE]: a blank line is skipped; at the first other
    character the line is tokenized again from its start, its white space
    becoming the start of the first field. *)
Definition whitespace_line (ws : list ascii) (cr : bool) (a : tacc) (c : ascii) : tstate * tacc :=
  if Ascii.eqb c LF then (StartRecord false, new_line a)
  else if Ascii.eqb c CR then (EatCRNLNop, new_line a)
  else if pd_whitespace c then (WhitespaceLine (ws ++ [c]) cr, a)
  else if cr then (Unmodelled, a)
  else in_field (with_fld ws (start_at a)) c.

(** [IN_QUOTED_FIELD]: everything up to the next quote is the field's,
    line breaks included. *)
Definition in_quoted_field (a : tacc) (c : ascii) : tstate * tacc :=
  if Ascii.eqb c quotechar then (QuoteInQuotedField, a)
  else if Ascii.eqb c CR then (InQuotedField, new_line (push_char c a))
  else if Ascii.eqb c LF then
    (InQuotedField, (if bool_decide (last (t_fld a) = Some CR) then push_char c a
                     else new_line (push_char c a)))
  else (InQuotedField, push_char c a).

(** [QUOTE_IN_QUOTED_FIELD]: a second quote is a literal quote; the field
    goes on unquoted after anything else. *)
Definition quote_in_quoted_field (a : tacc) (c : ascii) : tstate * tacc :=
  if Ascii.eqb c quotechar then (InQuotedField, push_char c a)
  else if Ascii.eqb c delimiter then (StartField, end_field a)
  else if Ascii.eqb c LF then (StartRecord false, new_line (end_line (end_field a)))
  else if Ascii.eqb c CR then (EatCRNL, new_line (end_field a))
  else (InField, push_char c a).

(** One iteration of the loop.  After a "\r", a "\n" is eaten; any other
    character ends the line and is read again in [START_RECORD]. *)
Definition tok_step (st : tstate) (a : tacc) (c : ascii) : tstate * tacc :=
  match st with
  | StartRecord cr => start_record cr a c
  | StartField => start_field a c
  | InField => in_field a c
  | InQuotedField => in_quoted_field a c
  | QuoteInQuotedField => quote_in_quoted_field a c
  | EatCRNL =>
      if Ascii.eqb c LF then (StartRecord false, end_line a) else start_record true (end_line a) c
  | EatCRNLNop => if Ascii.eqb c LF then (StartRecord false, a) else start_record true a c
  | WhitespaceLine ws cr => whitespace_line ws cr a c
  | Unmodelled => (Unmodelled, a)
  end.

Inductive tok_result :=
  | TokRecords (recs : list (nat * list (list ascii)))
  | TokEOFInString
  | TokUnmodelled.

(** [parser_handle_eof]. *)
Definition tok_eof (st : tstate) (a : tacc) : tok_result :=
  match st with
  | StartRecord _ | WhitespaceLine _ _ | EatCRNLNop => TokRecords (t_recs a)
  | InQuotedField => TokEOFInString
  | StartField | InField | QuoteInQuotedField => TokRecords (t_recs (end_line (end_field a)))
  | EatCRNL => TokRecords (t_recs (end_line a))
  | Unmodelled => TokUnmodelled
  end.

Fixpoint tok_run (st : tstate) (a : tacc) (cs : list ascii) : tok_result :=
  match cs with
  | [] => tok_eof st a
  | c :: rest => let '(st', a') := tok_step st a c in tok_run st' a' rest
  end.

Definition tokenize (text : string) : tok_result :=
  tok_run (StartRecord false) tacc_init (strip_bom (list_ascii_of_string text)).

(** [\r] not followed by [\n] but by white space: the start of a line
    whose backtracking the model does not follow. *)
Fixpoint cr_ws (cs : list ascii) : bool :=
  match cs with
  | [] => false
  | c :: r =>
      (Ascii.eqb c CR && match r with
                         | d :: _ => negb (Ascii.eqb d LF) && pd_whitespace d
                         | [] => false
                         end) || cr_ws r
  end.

(** The records of the reference: the non-blank lines, numbered from [n],
    split at the delimiter. *)
Fixpoint recs_of (n : nat) (ls : list (list ascii)) : list (nat * list (list ascii)) :=
  match ls with
  | [] => []
  | l :: rest => (if blank_line l then [] else [(n, split_fields l)]) ++ recs_of (S n) rest
  end.

(** ** The reference's line splitting *)

Definition no_break (c : ascii) : Prop := Ascii.eqb c CR = false /\ Ascii.eqb c LF = false.

Lemma split_lines_chars (l rest cur : list ascii) :
  Forall no_break l -> split_lines_acc (l ++ rest) cur = split_lines_acc rest (rev l ++ cur).
Proof.
  revert cur. induction l as [|c l IH]; intros cur Hl; [done|].
  apply Forall_cons in Hl as [[HCR HLF] Hl]. cbn [app split_lines_acc]. rewrite HCR, HLF, IH by done.
  cbn [rev]. by rewrite <- app_assoc.
Qed.

(** A line and what ends it. *)
Lemma split_lines_break (l r : list ascii) (t : list ascii) :
  Forall no_break l ->
  t = [LF] \/ t = [CR; LF] \/ (t = [CR] /\ match r with d :: _ => Ascii.eqb d LF = false | [] => True end) ->
  split_lines_acc (l ++ t ++ r) [] = l :: split_lines_acc r [].
Proof.
  intros Hl Ht. rewrite split_lines_chars, app_nil_r by done.
  destruct Ht as [-> | [-> | [-> Hr]]]; cbn [app split_lines_acc]; rewrite ?rev_involutive; try done.
  destruct r as [|d r]; [done|]. by rewrite Hr.
Qed.

Lemma split_lines_last (l : list ascii) :
  Forall no_break l -> split_lines_acc l [] = [l].
Proof. intros Hl. rewrite <- (app_nil_r l) at 1. rewrite split_lines_chars by done. simpl. by rewrite app_nil_r, rev_involutive. Qed.

(** Every text is a line followed by nothing or by a line break. *)
Lemma line_decompose (cs : list ascii) :
  exists l rest, cs = l ++ rest /\ Forall no_break l /\
    match rest with [] => True | c :: _ => Ascii.eqb c CR = true \/ Ascii.eqb c LF = true end.
Proof.
  induction cs as [|c cs (l & rest & -> & Hl & Hr)]; [by exists [], []|].
  destruct (Ascii.eqb c CR) eqn:HCR; [by exists [], (c :: l ++ rest); auto|].
  destruct (Ascii.eqb c LF) eqn:HLF; [by exists [], (c :: l ++ rest); auto|].
  exists (c :: l), rest. split; [done|]. split; [|done]. by constructor.
Qed.

Lemma numbered_recs (n : nat) (ls : list (list ascii)) :
  map (fun nl => (nl.1, split_fields nl.2))
    (filter (fun nl => negb (blank_line nl.2)) (zip (seq n (length ls)) ls)) = recs_of n ls.
Proof.
  revert n. induction ls as [|l ls IH]; intros n; [done|]. cbn [length seq zip zip_with recs_of].
  rewrite filter_cons. cbn [snd]. destruct (blank_line l); simpl; by rewrite IH.
Qed.

(** ** The tokenizer on the characters of a field *)

Lemma tacc_eta (a : tacc) :
  {| t_line := t_line a; t_start := t_start a; t_fields := t_fields a; t_fld := t_fld a;
     t_recs := t_recs a |} = a.
Proof. by destruct a. Qed.

Lemma tok_run_cons (st : tstate) (a : tacc) (c : ascii) (cs : list ascii) :
  tok_run st a (c :: cs) = tok_run (tok_step st a c).1 (tok_step st a c).2 cs.
Proof. simpl. by destruct (tok_step st a c). Qed.

Definition not_quote (cs : list ascii) : Prop :=
  match cs with c :: _ => Ascii.eqb c quotechar = false | [] => True end.

(** Out of a quote, [START_FIELD] reads like [IN_FIELD]. *)
Lemma start_field_in (a : tacc) (c : ascii) :
  Ascii.eqb c quotechar = false -> start_field a c = in_field a c.
Proof. intros Hq. unfold start_field. by rewrite Hq. Qed.

Lemma tok_run_start_field (a : tacc) (cs : list ascii) :
  not_quote cs -> tok_run StartField a cs = tok_run InField a cs.
Proof.
  destruct cs as [|c cs]; [done|]. intros Hq. rewrite !tok_run_cons. cbn [tok_step].
  by rewrite start_field_in.
Qed.

(** The accumulator after the unquoted characters [m] of a record. *)
Definition after_chars (m : list ascii) (a : tacc) : tacc :=
  let '(fs, cur) := split_fields_at m (t_fld a) in
  {| t_line := t_line a; t_start := t_start a; t_fields := t_fields a ++ fs; t_fld := cur;
     t_recs := t_recs a |}.

Definition plain_char (c : ascii) : Prop := no_break c /\ Ascii.eqb c quotechar = false.

Lemma not_quote_app (m rest : list ascii) :
  Forall plain_char m -> not_quote rest -> not_quote (m ++ rest).
Proof. destruct m as [|c m]; [done|]. intros Hm _. by apply Forall_cons in Hm as [[_ ?] _]. Qed.

Lemma tok_run_chars (m rest : list ascii) (a : tacc) :
  Forall plain_char m -> not_quote rest ->
  tok_run InField a (m ++ rest) = tok_run InField (after_chars m a) rest.
Proof.
  revert a. induction m as [|c m IH]; intros a Hm Hr.
  - unfold after_chars. simpl. by rewrite app_nil_r, tacc_eta.
  - apply Forall_cons in Hm as [[[HCR HLF] HQ] Hm]. cbn [app]. rewrite tok_run_cons.
    cbn [tok_step]. unfold in_field. rewrite HLF, HCR.
    destruct (Ascii.eqb c delimiter) eqn:HC; cbn [fst snd].
    + rewrite tok_run_start_field by (by apply not_quote_app).
      rewrite IH by done. unfold after_chars. cbn [split_fields_at t_fld end_field]. rewrite HC.
      destruct (split_fields_at m []) as [fs cur]. simpl. by rewrite <- app_assoc.
    + rewrite IH by done. unfold after_chars. cbn [split_fields_at t_fld push_char]. by rewrite HC.
Qed.

Lemma split_fields_at_app (f m p : list ascii) :
  Forall (fun c => Ascii.eqb c delimiter = false) f ->
  split_fields_at (f ++ m) p = split_fields_at m (p ++ f).
Proof.
  revert p. induction f as [|x f IH]; intros p Hf; [by rewrite app_nil_r|].
  apply Forall_cons in Hf as [Hx Hf]. cbn [app split_fields_at]. rewrite Hx, IH by done.
  by rewrite <- app_assoc.
Qed.

(** ** The tokenizer on a line *)

Definition ws_led (cs : list ascii) : bool :=
  match cs with c :: _ => pd_whitespace c | [] => false end.

Lemma ws_no_break (c : ascii) : pd_whitespace c = true -> plain_char c.
Proof.
  unfold pd_whitespace. intros H.
  apply orb_prop in H as [H|H]; apply Ascii.eqb_eq in H as ->; repeat split; reflexivity.
Qed.

Lemma ws_no_comma (c : ascii) : pd_whitespace c = true -> Ascii.eqb c delimiter = false.
Proof.
  unfold pd_whitespace. intros H. apply orb_prop in H as [H|H]; by apply Ascii.eqb_eq in H as ->.
Qed.

Lemma blank_line_Forall (l : list ascii) : blank_line l = true <-> Forall (fun c => pd_whitespace c = true) l.
Proof. unfold blank_line. rewrite forallb_forall, Forall_forall. by setoid_rewrite <- list_elem_of_In. Qed.

Lemma tok_run_ws (ws w rest : list ascii) (cr : bool) (a : tacc) :
  Forall (fun c => pd_whitespace c = true) w ->
  tok_run (WhitespaceLine ws cr) a (w ++ rest) = tok_run (WhitespaceLine (ws ++ w) cr) a rest.
Proof.
  revert ws. induction w as [|c w IH]; intros ws Hw; [by rewrite app_nil_r|].
  apply Forall_cons in Hw as [Hc Hw]. destruct (ws_no_break c Hc) as [[HCR HLF] _].
  cbn [app]. rewrite tok_run_cons. cbn [tok_step]. unfold whitespace_line.
  rewrite HLF, HCR, Hc. cbn [fst snd]. rewrite IH by done. by rewrite <- app_assoc.
Qed.

(** A non-blank line is split into white space and the rest. *)
Lemma nonblank_decompose (l : list ascii) :
  blank_line l = false ->
  exists ws c m, l = ws ++ c :: m /\ Forall (fun c => pd_whitespace c = true) ws /\ pd_whitespace c = false.
Proof.
  induction l as [|c l IH]; [done|]. cbn [blank_line forallb]. intros H.
  destruct (pd_whitespace c) eqn:Hc; [|by exists [], c, l].
  destruct (IH H) as (ws & d & m & -> & Hws & Hd). exists (c :: ws), d, m. by repeat constructor.
Qed.

(** A non-blank line read from [START_RECORD]: its white space and its
    first other character start the first field. *)
Lemma tok_run_record_start (ws : list ascii) (c : ascii) (X : list ascii) (cr : bool) (a : tacc) :
  Forall (fun c => pd_whitespace c = true) ws -> pd_whitespace c = false -> plain_char c ->
  t_fld a = [] -> (cr = true -> ws = []) ->
  tok_run (StartRecord cr) a (ws ++ c :: X) = tok_run InField (with_fld ws (start_at a)) (c :: X).
Proof.
  intros Hws Hc [[HCR HLF] HQ] Hfld Hcr. destruct ws as [|w ws].
  - cbn [app]. rewrite !tok_run_cons. cbn [tok_step]. unfold start_record.
    rewrite HLF, HCR, Hc, start_field_in by done.
    replace (with_fld [] (start_at a)) with (start_at a) by (unfold with_fld; rewrite <- Hfld; by destruct a).
    done.
  - destruct cr; [by specialize (Hcr eq_refl)|]. apply Forall_cons in Hws as [Hw Hws].
    destruct (ws_no_break w Hw) as [[HwCR HwLF] _].
    cbn [app]. rewrite tok_run_cons. cbn [tok_step]. unfold start_record.
    rewrite HwLF, HwCR, Hw. cbn [fst snd]. rewrite tok_run_ws by done.
    rewrite !tok_run_cons. cbn [tok_step]. unfold whitespace_line. by rewrite HLF, HCR, Hc.
Qed.

(** The accumulator after the non-blank line [l]. *)
Definition line_acc (l : list ascii) (a : tacc) : tacc := after_chars l (start_at a).

Lemma tok_run_line (l rest : list ascii) (cr : bool) (a : tacc) :
  Forall plain_char l -> blank_line l = false -> not_quote rest ->
  t_fld a = [] -> (cr = true -> ws_led l = false) ->
  tok_run (StartRecord cr) a (l ++ rest) = tok_run InField (line_acc l a) rest.
Proof.
  intros Hl Hbl Hr Hfld Hcr. destruct (nonblank_decompose l Hbl) as (ws & c & m & -> & Hws & Hc).
  apply Forall_app in Hl as [_ Hcm]. pose proof Hcm as Hcm'. apply Forall_cons in Hcm' as [Hpc Hm].
  rewrite <- app_assoc. cbn [app]. rewrite tok_run_record_start; [|done..|].
  2: { intros ->. destruct ws as [|w ws]; [done|]. apply Forall_cons in Hws as [Hw _].
       specialize (Hcr eq_refl). simpl in Hcr. congruence. }
  change (c :: m ++ rest) with ((c :: m) ++ rest). rewrite (tok_run_chars (c :: m)) by done. unfold line_acc, after_chars. cbn [t_fld with_fld start_at].
  rewrite Hfld, split_fields_at_app by (eapply Forall_impl; [exact Hws|]; apply ws_no_comma).
  done.
Qed.

(** ** Line breaks *)

(** What follows a lone "\r". *)
Definition after_cr (r : list ascii) : Prop :=
  match r with d :: _ => Ascii.eqb d LF = false | [] => True end.

Lemma tok_run_eat_crnl (x : tacc) (r : list ascii) :
  after_cr r -> tok_run EatCRNL x r = tok_run (StartRecord true) (end_line x) r.
Proof. destruct r as [|d r]; [done|]. intros Hd. rewrite !tok_run_cons. cbn [tok_step]. by rewrite Hd. Qed.

Lemma tok_run_eat_crnl_nop (x : tacc) (r : list ascii) :
  after_cr r -> tok_run EatCRNLNop x r = tok_run (StartRecord true) x r.
Proof. destruct r as [|d r]; [done|]. intros Hd. rewrite !tok_run_cons. cbn [tok_step]. by rewrite Hd. Qed.

Lemma end_line_new_line (x : tacc) : end_line (new_line x) = new_line (end_line x).
Proof. reflexivity. Qed.

(** The end of a field read in [IN_FIELD] by a line break or the end of
    the text: the record is finished and the next line starts. *)
Lemma tok_run_field_break (b : tacc) (t r : list ascii) :
  t = [LF] \/ t = [CR; LF] \/ (t = [CR] /\ after_cr r) ->
  tok_run InField b (t ++ r) =
  tok_run (StartRecord (bool_decide (t = [CR]))) (new_line (end_line (end_field b))) r.
Proof.
  intros [-> | [-> | [-> Hr]]]; cbn [app]; rewrite tok_run_cons; cbn [tok_step]; unfold in_field;
    cbn [Ascii.eqb LF CR]; cbv iota; cbn [fst snd].
  - done.
  - rewrite tok_run_cons. cbn [tok_step]. done.
  - rewrite tok_run_eat_crnl by done. done.
Qed.

(** The same after a blank line. *)
Lemma tok_run_blank_break (l : list ascii) (cr : bool) (a : tacc) (t r : list ascii) :
  Forall (fun c => pd_whitespace c = true) l ->
  t = [LF] \/ t = [CR; LF] \/ (t = [CR] /\ after_cr r) ->
  tok_run (StartRecord cr) a (l ++ t ++ r) =
  tok_run (StartRecord (bool_decide (t = [CR]))) (new_line a) r.
Proof.
  intros Hl Ht. destruct l as [|w ws].
  - destruct Ht as [-> | [-> | [-> Hr]]]; cbn [app]; rewrite tok_run_cons; cbn [tok_step];
      unfold start_record; cbn [Ascii.eqb LF CR]; cbv iota; cbn [fst snd].
    + done.
    + rewrite tok_run_cons. done.
    + by rewrite tok_run_eat_crnl_nop.
  - apply Forall_cons in Hl as [Hw Hws]. destruct (ws_no_break w Hw) as [[HwCR HwLF] _].
    cbn [app]. rewrite tok_run_cons. cbn [tok_step]. unfold start_record. rewrite HwLF, HwCR, Hw.
    cbn [fst snd]. rewrite tok_run_ws by done.
    destruct Ht as [-> | [-> | [-> Hr]]]; cbn [app]; rewrite tok_run_cons; cbn [tok_step];
      unfold whitespace_line; cbn [Ascii.eqb LF CR]; cbv iota; cbn [fst snd].
    + done.
    + rewrite tok_run_cons. done.
    + by rewrite tok_run_eat_crnl_nop.
Qed.

Lemma tok_run_blank_end (l : list ascii) (cr : bool) (a : tacc) :
  Forall (fun c => pd_whitespace c = true) l -> tok_run (StartRecord cr) a l = TokRecords (t_recs a).
Proof.
  intros Hl. destruct l as [|w ws]; [done|]. apply Forall_cons in Hl as [Hw Hws].
  destruct (ws_no_break w Hw) as [[HwCR HwLF] _].
  rewrite tok_run_cons. cbn [tok_step]. unfold start_record. rewrite HwLF, HwCR, Hw.
  cbn [fst snd]. rewrite <- (app_nil_r ws), tok_run_ws by done. done.
Qed.

(** The record of the non-blank line [l]. *)
Lemma line_record (l : list ascii) (a : tacc) :
  t_fields a = [] -> t_fld a = [] ->
  end_line (end_field (line_acc l a)) =
  {| t_line := t_line a; t_start := t_line a; t_fields := []; t_fld := [];
     t_recs := t_recs a ++ [(t_line a, split_fields l)] |}.
Proof.
  intros Hf Hfld. unfold line_acc, after_chars, split_fields. cbn [t_fld start_at].
  rewrite Hfld. destruct (split_fields_at l []) as [fs cur]. unfold end_line, end_field. cbn.
  by rewrite Hf.
Qed.

Lemma cr_ws_app_r (l r : list ascii) : cr_ws (l ++ r) = false -> cr_ws r = false.
Proof. induction l as [|c l IH]; [done|]. cbn [app cr_ws]. intros H. apply orb_false_iff in H as [_ H]. auto. Qed.

Lemma cr_ws_cr (r : list ascii) : cr_ws (CR :: r) = false -> after_cr r -> ws_led r = false.
Proof.
  destruct r as [|d r]; [done|]. cbn [cr_ws after_cr ws_led]. intros H Hd.
  apply orb_false_iff in H as [H _]. cbn [Ascii.eqb CR] in H. rewrite Hd in H. done.
Qed.

Lemma break_decompose (c : ascii) (r : list ascii) :
  Ascii.eqb c CR = true \/ Ascii.eqb c LF = true ->
  exists t r', c :: r = t ++ r' /\ (t = [LF] \/ t = [CR; LF] \/ (t = [CR] /\ after_cr r')).
Proof.
  intros [HCR|HLF].
  - apply Ascii.eqb_eq in HCR as ->. destruct r as [|d r].
    + exists [CR], []. split; [done|]. by right; right.
    + destruct (Ascii.eqb d LF) eqn:Hd.
      * apply Ascii.eqb_eq in Hd as ->. exists [CR; LF], r. split; [done|]. by right; left.
      * exists [CR], (d :: r). split; [done|]. by right; right.
  - apply Ascii.eqb_eq in HLF as ->. exists [LF], r. split; [done|]. by left.
Qed.

(** ** The tokenizer computes the reference on a text without quotes *)

Lemma tok_run_lines (n : nat) (cs : list ascii) (cr : bool) (a : tacc) :
  length cs <= n ->
  Forall (fun c => Ascii.eqb c quotechar = false) cs -> cr_ws cs = false ->
  (cr = true -> ws_led cs = false) -> t_fields a = [] -> t_fld a = [] ->
  tok_run (StartRecord cr) a cs = TokRecords (t_recs a ++ recs_of (t_line a) (split_lines_acc cs [])).
Proof.
  revert cs cr a. induction n as [|n IH]; intros cs cr a Hlen Hq Hcw Hcr Hf Hfld;
    destruct (line_decompose cs) as (l & rest & -> & Hl & Hrest);
    apply Forall_app in Hq as [Hql Hqr];
    assert (Hpl : Forall plain_char l) by (apply Forall_and; split; done);
    assert (Hcrl : cr = true -> ws_led l = false)
      by (intros Hc; specialize (Hcr Hc); destruct l; [done|exact Hcr]).
  1,2: destruct rest as [|c r].
  1,3: rewrite app_nil_r, split_lines_last by done; cbn [recs_of];
       destruct (blank_line l) eqn:Hbl; [by rewrite tok_run_blank_end, !app_nil_r by (by apply blank_line_Forall)|];
       rewrite <- (app_nil_r l) at 1; rewrite tok_run_line by done;
       cbn [tok_run tok_eof]; rewrite line_record by done; done.
  - cbn [length] in Hlen. rewrite length_app in Hlen. simpl in Hlen. lia.
  - destruct (break_decompose c r Hrest) as (t & r' & Heq & Ht). rewrite Heq in *.
    rewrite split_lines_break by done. cbn [recs_of].
    assert (Hlen' : length r' <= n)
      by (rewrite !length_app in Hlen; destruct Ht as [-> | [-> | [-> _]]]; simpl in Hlen; lia).
    apply Forall_app in Hqr as [_ Hqr']. pose proof (cr_ws_app_r _ _ Hcw) as Hcw'.
    pose proof (cr_ws_app_r _ _ Hcw') as Hcwr.
    assert (Hcr' : bool_decide (t = [CR]) = true -> ws_led r' = false).
    { intros Ht'. apply bool_decide_eq_true in Ht' as ->. apply cr_ws_cr; [exact Hcw'|].
      destruct Ht as [? | [? | [_ ?]]]; [done|done|done]. }
    destruct (blank_line l) eqn:Hbl.
    + rewrite tok_run_blank_break by (done || by apply blank_line_Forall).
      rewrite IH by done. cbn [new_line t_recs t_line]. done.
    + rewrite tok_run_line by (done || by destruct Ht as [-> | [-> | [-> _]]]).
      rewrite tok_run_field_break, line_record by done.
      rewrite IH by done. cbn [new_line t_recs t_line]. by rewrite <- app_assoc.
Qed.

Lemma cr_ws_strip_bom (cs : list ascii) : cr_ws cs = false -> cr_ws (strip_bom cs) = false.
Proof.
  unfold strip_bom. case_bool_decide; [|done]. rewrite <- (take_drop 3 cs) at 1. apply cr_ws_app_r.
Qed.

Lemma Forall_strip_bom (P : ascii -> Prop) (cs : list ascii) : Forall P cs -> Forall P (strip_bom cs).
Proof. unfold strip_bom. case_bool_decide; [|done]. apply Forall_drop. Qed.

(** The tokenizer on a text without quote characters, in which no lone
    "\r" is followed by white space, yields the reference's records: the
    non-blank lines, numbered, split at the delimiter. *)
Lemma tokenize_noquote (text : string) :
  Forall (fun c => Ascii.eqb c quotechar = false) (list_ascii_of_string text) ->
  cr_ws (list_ascii_of_string text) = false ->
  tokenize text = TokRecords (map (fun nl => (nl.1, split_fields nl.2)) (numbered_lines text)).
Proof.
  intros Hq Hcw. unfold tokenize, numbered_lines. rewrite numbered_recs.
  rewrite (tok_run_lines (length (strip_bom (list_ascii_of_string text)))); try done.
  - by apply Forall_strip_bom.
  - by apply cr_ws_strip_bom.
Qed.

(** ** A blank text *)

(** A character of a blank line or a line break. *)
Definition blank_char (c : ascii) : bool := pd_whitespace c || Ascii.eqb c CR || Ascii.eqb c LF.

Definition blank_state (st : tstate) : Prop :=
  match st with StartRecord _ | WhitespaceLine _ _ | EatCRNLNop => True | _ => False end.

Lemma tok_step_blank (st : tstate) (a : tacc) (c : ascii) :
  blank_state st -> blank_char c = true ->
  blank_state (tok_step st a c).1 /\ t_recs (tok_step st a c).2 = t_recs a.
Proof.
  unfold blank_char. intros Hst Hc.
  destruct (pd_whitespace c) eqn:Hw.
  - destruct (ws_no_break c Hw) as [[HCR HLF] _].
    destruct st; try done; cbn [tok_step]; unfold start_record, whitespace_line;
      rewrite ?HLF, ?HCR, ?Hw; done.
  - cbn [orb] in Hc. destruct (Ascii.eqb c CR) eqn:HCR.
    + apply Ascii.eqb_eq in HCR as ->.
      destruct st; try done; cbn [tok_step]; unfold start_record, whitespace_line; done.
    + cbn [orb] in Hc. apply Ascii.eqb_eq in Hc as ->.
      destruct st; try done; cbn [tok_step]; unfold start_record, whitespace_line; done.
Qed.

Lemma tok_run_blank (cs : list ascii) (st : tstate) (a : tacc) :
  blank_state st -> forallb blank_char cs = true -> tok_run st a cs = TokRecords (t_recs a).
Proof.
  revert st a. induction cs as [|c cs IH]; intros st a Hst Hcs; [by destruct st|].
  apply andb_prop in Hcs as [Hc Hcs]. destruct (tok_step_blank st a c Hst Hc) as [Hst' Hr].
  rewrite tok_run_cons, IH by done. by rewrite Hr.
Qed.

(** A text all of whose lines are blank has only blank characters. *)
Lemma blank_lines_chars (n : nat) (cs : list ascii) :
  length cs <= n -> Forall (fun l => blank_line l = true) (split_lines_acc cs []) ->
  forallb blank_char cs = true.
Proof.
  revert cs. induction n as [|n IH]; intros cs Hlen Hbl;
    destruct (line_decompose cs) as (l & rest & -> & Hl & Hrest).
  all: destruct rest as [|c r].
  1,3: rewrite app_nil_r in *; rewrite split_lines_last in Hbl by done;
       apply Forall_cons in Hbl as [Hb _]; apply blank_line_Forall in Hb;
       apply forallb_forall; intros c Hc; apply list_elem_of_In in Hc;
       unfold blank_char; by rewrite (proj1 (Forall_forall _ _) Hb c Hc).
  - rewrite length_app in Hlen. simpl in Hlen. lia.
  - destruct (break_decompose c r Hrest) as (t & r' & Heq & Ht). rewrite Heq in *.
    rewrite split_lines_break in Hbl by done. apply Forall_cons in Hbl as [Hb Hbl].
    rewrite !forallb_app. apply andb_true_intro. split.
    + apply blank_line_Forall in Hb. apply forallb_forall. intros d Hd. apply list_elem_of_In in Hd.
      unfold blank_char. by rewrite (proj1 (Forall_forall _ _) Hb d Hd).
    + apply andb_true_intro. split; [by destruct Ht as [-> | [-> | [-> _]]]|].
      apply IH; [|done]. rewrite !length_app in Hlen. destruct Ht as [-> | [-> | [-> _]]]; simpl in Hlen; lia.
Qed.

Lemma numbered_nil_blank (n : nat) (ls : list (list ascii)) :
  filter (fun nl => negb (blank_line nl.2)) (zip (seq n (length ls)) ls) = [] ->
  Forall (fun l => blank_line l = true) ls.
Proof.
  revert n. induction ls as [|l ls IH]; intros n H; [done|]. cbn [length seq zip zip_with] in H.
  rewrite filter_cons in H. cbn [snd] in H.
  destruct (blank_line l) eqn:Hb; cbn [negb] in H; [|by rewrite decide_True in H].
  rewrite decide_False in H by (simpl; tauto). constructor; [done|]. by apply (IH (S n)).
Qed.

(** A text without a non-blank line has no record. *)
Lemma tokenize_blank (text : string) :
  numbered_lines text = [] -> tokenize text = TokRecords [].
Proof.
  unfold numbered_lines, tokenize. intros H. apply numbered_nil_blank in H.
  apply tok_run_blank; [done|]. by apply (blank_lines_chars (length (strip_bom (list_ascii_of_string text)))).
Qed.

(** ** Quoted fields *)

(** A field written between quotes, each quote in it doubled, as a CSV
    writer with [doublequote] quotes it. *)
Definition escape_quotes (l : list ascii) : list ascii :=
  flat_map (fun c => if Ascii.eqb c quotechar then [quotechar; quotechar] else [c]) l.

Definition quote_field (l : list ascii) : list ascii := quotechar :: escape_quotes l ++ [quotechar].

(** In a quoted field, a doubled quote is a quote and any other character
    but a line break is the field's. *)
Lemma tok_run_in_quoted (m rest : list ascii) (a : tacc) :
  Forall no_break m ->
  tok_run InQuotedField a (escape_quotes m ++ rest) = tok_run InQuotedField (with_fld (t_fld a ++ m) a) rest.
Proof.
  revert a. induction m as [|c m IH]; intros a Hm.
  - cbn [escape_quotes flat_map app]. unfold with_fld. by rewrite app_nil_r, tacc_eta.
  - apply Forall_cons in Hm as [[HCR HLF] Hm]. unfold escape_quotes. cbn [flat_map].
    fold (escape_quotes m). rewrite <- app_assoc.
    destruct (Ascii.eqb c quotechar) eqn:HQ; cbn [app]; rewrite !tok_run_cons; cbn [tok_step];
      unfold in_quoted_field; [|rewrite HQ, HCR, HLF]; cbn [fst snd].
    + apply Ascii.eqb_eq in HQ as ->. cbn [tok_step]. rewrite IH by done.
      unfold with_fld, push_char. cbn. by rewrite <- app_assoc.
    + rewrite IH by done. unfold with_fld, push_char. cbn. by rewrite <- app_assoc.
Qed.

(** A quote that is never closed: the end of the text is reached inside
    the quoted field, whatever line breaks it holds. *)
Lemma tok_run_in_quoted_eof (m : list ascii) (a : tacc) :
  Forall (fun c => Ascii.eqb c quotechar = false) m -> tok_run InQuotedField a m = TokEOFInString.
Proof.
  intros Hm. revert a. induction Hm as [|c m Hc _ IH]; intros a; [done|].
  rewrite tok_run_cons. cbn [tok_step]. unfold in_quoted_field. rewrite Hc.
  repeat case_match; apply IH.
Qed.

(** A quote opening a record. *)
Lemma tok_run_open_quote (cr : bool) (a : tacc) (m : list ascii) :
  tok_run (StartRecord cr) a (quotechar :: m) = tok_run InQuotedField (start_at a) m.
Proof. reflexivity. Qed.

(** A line that is one quoted field is the record of that field. *)
Lemma tok_run_quoted_line (l rest : list ascii) (cr : bool) (a : tacc) :
  Forall no_break l -> t_fields a = [] -> t_fld a = [] ->
  tok_run (StartRecord cr) a (quote_field l ++ LF :: rest) =
  tok_run (StartRecord false)
    {| t_line := S (t_line a); t_start := t_line a; t_fields := []; t_fld := [];
       t_recs := t_recs a ++ [(t_line a, [l])] |} rest.
Proof.
  intros Hl Hf Hfld. unfold quote_field. cbn [app]. rewrite tok_run_open_quote, <- app_assoc.
  rewrite tok_run_in_quoted by done. cbn [app]. rewrite !tok_run_cons. cbn [tok_step fst snd].
  unfold in_quoted_field, quote_in_quoted_field. cbn [fst snd].
  unfold end_field, end_line, new_line, with_fld, start_at. cbn [t_fld t_fields t_recs t_line t_start].
  by rewrite Hf, Hfld.
Qed.

(** Lines that are each one quoted field. *)
Lemma tok_run_quoted_lines (ls : list (list ascii)) (rest : list ascii) (a : tacc) :
  Forall (Forall no_break) ls -> t_fields a = [] -> t_fld a = [] ->
  exists s, tok_run (StartRecord false) a (foldr (fun l acc => quote_field l ++ LF :: acc) rest ls) =
  tok_run (StartRecord false)
    {| t_line := t_line a + length ls; t_start := s; t_fields := []; t_fld := [];
       t_recs := t_recs a ++ zip (seq (t_line a) (length ls)) (map (fun l => [l]) ls) |} rest.
Proof.
  intros Hls. revert a. induction Hls as [|l ls Hl _ IH]; intros a Hf Hfld.
  - exists (t_start a). cbn [foldr length seq zip zip_with]. rewrite Nat.add_0_r, app_nil_r, <- Hf, <- Hfld.
    by rewrite tacc_eta.
  - cbn [foldr]. rewrite tok_run_quoted_line by done.
    match goal with |- context [tok_run (StartRecord false) ?a1 _] =>
      destruct (IH a1 eq_refl eq_refl) as [s ->] end. exists s. cbn [t_line t_recs length seq map zip zip_with].
    rewrite <- app_assoc. do 2 f_equal. lia.
Qed.

(** Non-blank lines without quotes, each ended by "\n". *)
Lemma tok_run_plain_lines (ls : list (list ascii)) (rest : list ascii) (a : tacc) :
  Forall (fun l => Forall plain_char l /\ blank_line l = false) ls -> t_fields a = [] -> t_fld a = [] ->
  exists a', t_fields a' = [] /\ t_fld a' = [] /\
    tok_run (StartRecord false) a (foldr (fun l acc => l ++ LF :: acc) rest ls) =
    tok_run (StartRecord false) a' rest.
Proof.
  intros Hls. revert a. induction Hls as [|l ls [Hl Hbl] _ IH]; intros a Hf Hfld; [by exists a|].
  cbn [foldr]. rewrite tok_run_line by done.
  change (LF :: foldr (fun l acc => l ++ LF :: acc) rest ls)
    with ([LF] ++ foldr (fun l acc => l ++ LF :: acc) rest ls).
  rewrite tok_run_field_break by (by left). rewrite line_record by done.
  apply IH; reflexivity.
Qed.
