(* ===== verification/Csv.v ===== *)
(** * Reading the upload: pd.read_csv(form.file.data, names=["SMILES"])

    src/app.py line 36 reads the uploaded file as a one-column CSV.  With
    [names] given there is no header row; the C parser splits lines on
    "\n", "\r\n" and "\r", skips empty lines and lines made only of spaces
    and tabs ([skip_blank_lines=True]), and reads a field equal to one of
    the default NA strings as NaN.  A row of the resulting frame is a
    [cell]; each keeps the 1-based number of the file line it came from,
    which the handler does not use (see [Ingest]).

    The column's type is inferred as the C parser does it, trying int64,
    uint64, float64, bool and object in this order ([infer_dtype]): a file
    whose non-NA lines all read as numbers gives a numeric column, whose
    values are not [str] (see [Ingest]).  Numbers are read by
    [str_to_int64] and [precise_xstrtod], the default float converter,
    written with double arithmetic as the C code does it.

    The characters are read by pandas' C tokenizer ([Tokenizer]): a
    field that starts with a quote runs to the closing quote, line breaks
    and delimiters included, with "" for a quote; a quote that is never
    closed makes [read_csv] raise [ParserError] ([CsvParserError]).
    The fields of an [object] column are bytes decoded as strict UTF-8:
    a malformed one makes [read_csv] raise [UnicodeDecodeError]
    ([CsvDecodeError]).
    Outside this model: a decoded [str] beyond ASCII (the model's strings
    are byte strings), a record with several fields (an unquoted comma:
    pandas then builds several columns, or an index from the first ones,
    or fails on a ragged row), and the tokenizer's backtracking after a
    lone "\r" ([TokUnmodelled]): [read_csv_SMILES] reports
    [CsvOutsideModel] for such a file.  Exponents beyond the C [int]
    range, where the C code overflows, are read exactly.  On a file
    without quotes [read_csv_SMILES] is the line-splitting reference
    [read_csv_ref] ([read_csv_tokenizer_ref]). *)

From S2P Require Import Prelude PyFloat Tokenizer.

(** A value of the [SMILES] column as the program sees it: a Python [str],
    the float NaN, or the value of a numeric or boolean column (numpy
    [int64], [float64], [bool_]). *)
Inductive cell :=
  | CellStr (s : string)
  | CellNaN
  | CellInt (z : Z)
  | CellFloat (f : float)
  | CellBool (b : bool).

(** pandas' default [na_values] ([STR_NA_VALUES], pandas 2.x). *)
Definition na_values : list string :=
  ["#N/A"; "#N/A N/A"; "#NA"; "-1.#IND"; "-1.#QNAN"; "-NaN"; "-nan";
   "1.#IND"; "1.#QNAN"; "<NA>"; "N/A"; "NA"; "NULL"; "NaN"; "None";
   "n/a"; "nan"; "null"; EmptyString]%string.

(** ** The column's type

    [isspace_ascii] of the tokenizer's number converters. *)
Definition pd_space (c : ascii) : bool :=
  bool_decide (nat_of_ascii c ∈ [32; 9; 10; 11; 12; 13]).

(** [str_to_int64] (and [str_to_uint64]): spaces, an optional sign, at
    least one digit, spaces, and nothing else; the value. *)
Definition str_to_int (cs : list ascii) : option Z :=
  let p := drop_while pd_space cs in
  let '(neg, p) := match p with
                   | "-"%char :: r => (true, r)
                   | "+"%char :: r => (false, r)
                   | _ => (false, p)
                   end in
  let '(ds, r) := span_digits p in
  if bool_decide (ds <> []) && bool_decide (drop_while pd_space r = [])
  then Some (if neg then - Z_of_digits ds else Z_of_digits ds)%Z
  else None.

Definition int64_field (s : string) : bool :=
  match str_to_int (list_ascii_of_string s) with
  | Some z => (- 2 ^ 63 <=? z)%Z && (z <? 2 ^ 63)%Z
  | None => false
  end.

Definition uint64_field (s : string) : bool :=
  match str_to_int (list_ascii_of_string s) with
  | Some z => (0 <=? z)%Z && (z <? 2 ^ 64)%Z
  | None => false
  end.

(** The table [e] of [precise_xstrtod]: the double literals [1e0] to
    [1e308]. *)
Definition pd_e (k : Z) : float := round_decimal false 1 k.

(** [number * 10 + d] over the digits, in double arithmetic. *)
Definition acc_digits (number : float) (ds : list ascii) : float :=
  foldl (fun n c => (n * 10 + float_of_Z (digit_val c))%float) number ds.

(** [precise_xstrtod(p, &endptr, '.', 'E', '\0', skip_trailing=1, &error,
    NULL)]: the value, the characters left after [endptr], and whether
    [error] was set.  At most 17 significant digits enter [number]; further
    integer digits raise the exponent, further decimals are skipped; at
    most 17 exponent digits are read. *)
Definition precise_xstrtod (cs : list ascii) : float * list ascii * bool :=
  let p := drop_while pd_space cs in
  let '(negative, p) := match p with
                        | "-"%char :: r => (true, r)
                        | "+"%char :: r => (false, r)
                        | _ => (false, p)
                        end in
  let '(d1, p) := span_digits p in
  let n1 := Nat.min (length d1) 17 in
  let number := acc_digits 0%float (take 17 d1) in
  let exponent := Z.of_nat (length d1 - n1) in
  let '(number, num_digits, exponent, p) :=
    match p with
    | "."%char :: r =>
        let '(d2, r') := span_digits r in
        let k := Nat.min (length d2) (17 - n1) in
        (acc_digits number (take k d2), n1 + k, (exponent - Z.of_nat k)%Z, r')
    | _ => (number, n1, exponent, p)
    end in
  if (num_digits =? 0)%nat then (0%float, cs, true)
  else
    let '(exponent, p) :=
      match p with
      | c :: r =>
          if Ascii.eqb (ascii_lower c) "e" then
            let '(eneg, r1) := match r with
                               | "-"%char :: r1 => (true, r1)
                               | "+"%char :: r1 => (false, r1)
                               | _ => (false, r)
                               end in
            let '(ed, _) := span_digits r1 in
            let ed := take 17 ed in
            if bool_decide (ed = []) then (exponent, p)
            else ((if eneg then exponent - Z_of_digits ed else exponent + Z_of_digits ed)%Z,
                  drop (length ed) r1)
          else (exponent, p)
      | [] => (exponent, p)
      end in
    let number := if negative then (- number)%float else number in
    if (308 <? exponent)%Z then (PrimFloat.infinity, p, true)
    else
      let number :=
        if (0 <? exponent)%Z then (number * pd_e exponent)%float
        else if (exponent <? -308)%Z then
          (if (exponent <? -616)%Z then 0%float
           else (number / pd_e (-308 - exponent) / pd_e 308)%float)
        else (number / pd_e (- exponent))%float in
      let err := negb (is_finite number) in
      (number, drop_while pd_space p, err).

(** The words [_try_double] reads as infinities, in any case. *)
Definition inf_word (s : string) : option float :=
  let low := map ascii_lower (list_ascii_of_string s) in
  if bool_decide (low ∈ map list_ascii_of_string ["inf"; "+inf"; "infinity"; "+infinity"]%string)
  then Some PrimFloat.infinity
  else if bool_decide (low ∈ map list_ascii_of_string ["-inf"; "-infinity"]%string)
  then Some PrimFloat.neg_infinity
  else None.

(** [_try_double] on one (non-NA) field. *)
Definition float_field (s : string) : option float :=
  let '(v, rest, err) := precise_xstrtod (list_ascii_of_string s) in
  if negb err && bool_decide (rest = []) then Some v else inf_word s.

(** [_try_bool_flex] with the default true and false values. *)
Definition bool_field (s : string) : option bool :=
  if bool_decide (s ∈ ["True"; "TRUE"; "true"]%string) then Some true
  else if bool_decide (s ∈ ["False"; "FALSE"; "false"]%string) then Some false
  else None.

Definition is_na (s : string) : bool := bool_decide (s ∈ na_values).

Inductive column_dtype := ColInt | ColFloat | ColBool | ColObject.

(** The C parser's [dtype_cast_order]: int64 and uint64 (no NA allowed),
    float64 (NA read as NaN), bool, object. *)
Definition infer_dtype (fields : list string) : column_dtype :=
  let vals := filter (fun f => negb (is_na f)) fields in
  let no_na := bool_decide (length vals = length fields) in
  if no_na && (forallb int64_field fields || forallb uint64_field fields) then ColInt
  else if forallb (fun f => bool_decide (is_Some (float_field f))) vals then ColFloat
  else if forallb (fun f => bool_decide (is_Some (bool_field f))) vals then ColBool
  else ColObject.

(** A field of a column of type [dt], with the NA strings read as NaN. *)
Definition to_cell (dt : column_dtype) (field : string) : cell :=
  if is_na field then CellNaN
  else
    match dt with
    | ColInt => CellInt (default 0%Z (str_to_int (list_ascii_of_string field)))
    | ColFloat => CellFloat (default 0%float (float_field field))
    | ColBool => CellBool (default false (bool_field field))
    | ColObject => CellStr field
    end.

(** ** Decoding an [object] column

    The C parser keeps the fields as bytes.  An [object] column is built
    by [_string_box_utf8], which decodes each non-NA field with
    [PyUnicode_Decode(word, len, "utf-8", "strict")] and raises
    [UnicodeDecodeError] on a malformed one; numeric and boolean columns
    are parsed from the bytes. *)

Definition in_range (lo hi : N) (c : ascii) : bool :=
  (lo <=? N_of_ascii c)%N && (N_of_ascii c <=? hi)%N.

(** A continuation byte. *)
Definition utf8_cont (c : ascii) : bool := in_range 128 191 c.

(** The range of the byte after a lead byte of a 3- or 4-byte sequence:
    no overlong form, no surrogate, nothing above U+10FFFF (table 3-7 of
    the Unicode standard, which CPython's strict decoder follows). *)
Definition utf8_second (lead : N) : N * N :=
  if (lead =? 224)%N then (160, 191)%N
  else if (lead =? 237)%N then (128, 159)%N
  else if (lead =? 240)%N then (144, 191)%N
  else if (lead =? 244)%N then (128, 143)%N
  else (128, 191)%N.

(** Whether the strict UTF-8 decoder accepts the bytes. *)
Fixpoint utf8_valid (cs : list ascii) : bool :=
  match cs with
  | [] => true
  | c :: rest =>
      let '(lo, hi) := utf8_second (N_of_ascii c) in
      if (N_of_ascii c <? 128)%N then utf8_valid rest
      else if in_range 194 223 c then
        match rest with c1 :: r => utf8_cont c1 && utf8_valid r | [] => false end
      else if in_range 224 239 c then
        match rest with
        | c1 :: c2 :: r => in_range lo hi c1 && utf8_cont c2 && utf8_valid r
        | _ => false
        end
      else if in_range 240 244 c then
        match rest with
        | c1 :: c2 :: c3 :: r => in_range lo hi c1 && utf8_cont c2 && utf8_cont c3 && utf8_valid r
        | _ => false
        end
      else false
  end.

(** Bytes below 128: a [str] of the same characters. *)
Definition ascii_text (cs : list ascii) : bool := forallb (fun c => (N_of_ascii c <? 128)%N) cs.

(** What [read_csv] gives: the rows of the [SMILES] column, or the
    [ParserError] of the tokenizer, or the [UnicodeDecodeError] of an
    [object] column; [CsvOutsideModel] for what the model leaves out. *)
Inductive csv_outcome :=
  | CsvFrame (rows : list (nat * cell))
  | CsvParserError
  | CsvDecodeError
  | CsvOutsideModel.

(** The [SMILES] column of one-field rows, typed by the column's
    inferred type, each row with its line number.  The non-NA fields of
    an [object] column are decoded; a [str] holding characters beyond
    ASCII is outside the model, whose strings are byte strings. *)
Definition frame_rows (rows : list (nat * list ascii)) : csv_outcome :=
  let fields := map (fun nl => string_of_list_ascii nl.2) rows in
  let dt := infer_dtype fields in
  let frame := CsvFrame (map (fun nl => (nl.1, to_cell dt (string_of_list_ascii nl.2))) rows) in
  match dt with
  | ColObject =>
      let strs := filter (fun f => negb (is_na f)) fields in
      if forallb (fun f => utf8_valid (list_ascii_of_string f)) strs then
        if forallb (fun f => ascii_text (list_ascii_of_string f)) strs then frame else CsvOutsideModel
      else CsvDecodeError
  | _ => frame
  end.

(** A record of one field. *)
Definition single_record (r : nat * list (list ascii)) : option (nat * list ascii) :=
  match r.2 with [f] => Some (r.1, f) | _ => None end.

(** [pd.read_csv(file, names=["SMILES"])]: the [SMILES] column, each row
    with the number of the file line it starts on. *)
Definition read_csv_SMILES (text : string) : csv_outcome :=
  match tokenize text with
  | TokEOFInString => CsvParserError
  | TokUnmodelled => CsvOutsideModel
  | TokRecords recs =>
      match mapM single_record recs with
      | Some rows => frame_rows rows
      | None => CsvOutsideModel
      end
  end.

(** The reference: the non-blank lines of the file, each one field. *)
Definition read_csv_ref (text : string) : csv_outcome :=
  let rows := numbered_lines text in
  if forallb (fun nl => single_field nl.2) rows then frame_rows rows else CsvOutsideModel.

(** ** Decoding *)

Lemma ascii_utf8_valid (cs : list ascii) : ascii_text cs = true -> utf8_valid cs = true.
Proof.
  induction cs as [|c cs IH]; [done|]. cbn [ascii_text forallb]. intros [Hc Hcs]%andb_prop.
  cbn [utf8_valid]. destruct (utf8_second _). rewrite Hc. by apply IH.
Qed.

Lemma Forall_zip_snd {A B} (P : B -> Prop) (s : list A) (l : list B) :
  Forall P l -> Forall (fun nl => P nl.2) (zip s l).
Proof.
  rewrite !Forall_forall. intros H [n x] Hin. apply H. by eapply elem_of_zip_r.
Qed.

(** Rows of ASCII bytes are decoded without error into the same text. *)
Lemma frame_rows_ascii (rows : list (nat * list ascii)) :
  Forall (fun nl => ascii_text nl.2 = true) rows ->
  frame_rows rows =
  CsvFrame (map (fun nl => (nl.1, to_cell (infer_dtype (map (fun nl => string_of_list_ascii nl.2) rows))
                                          (string_of_list_ascii nl.2))) rows).
Proof.
  intros Hrows. assert (Hs : Forall (fun f => ascii_text (list_ascii_of_string f) = true)
                              (filter (fun f => negb (is_na f)) (map (fun nl => string_of_list_ascii nl.2) rows))).
  { apply Forall_forall. intros f Hf. apply list_elem_of_filter in Hf as [_ Hf].
    apply list_elem_of_fmap in Hf as (nl & -> & Hnl). rewrite list_ascii_of_string_of_list_ascii.
    rewrite Forall_forall in Hrows. by apply Hrows. }
  unfold frame_rows. destruct (infer_dtype _); [done..|].
  rewrite (proj2 (forallb_forall _ _)), (proj2 (forallb_forall _ _)); [done| |];
    intros f Hf; rewrite Forall_forall in Hs; [|apply ascii_utf8_valid]; apply Hs; by apply list_elem_of_In.
Qed.

(** ** The tokenizer and the reference *)

Lemma split_fields_single (l : list ascii) :
  Forall (fun c => Ascii.eqb c delimiter = false) l -> split_fields l = [l].
Proof.
  intros Hl. unfold split_fields. rewrite <- (app_nil_r l) at 1.
  by rewrite split_fields_at_app.
Qed.

Lemma split_fields_at_comma (l cur : list ascii) :
  existsb (fun c => Ascii.eqb c delimiter) l = true ->
  exists f fs last, split_fields_at l cur = (f :: fs, last).
Proof.
  revert cur. induction l as [|c l IH]; intros cur H; [done|]. cbn [existsb] in H. cbn [split_fields_at].
  destruct (Ascii.eqb c delimiter); [destruct (split_fields_at l []); eauto|]. auto.
Qed.

Lemma split_lines_Forall_n (P : ascii -> Prop) (n : nat) (cs cur : list ascii) :
  length cs <= n -> Forall P cs -> Forall P cur -> Forall (Forall P) (split_lines_acc cs cur).
Proof.
  revert cs cur. induction n as [|n IH]; intros cs cur Hlen Hcs Hcur;
    (destruct cs as [|c cs]; [constructor; [by apply Forall_rev|constructor]|]); [simpl in Hlen; lia|].
  apply Forall_cons in Hcs as [Hc Hcs]. cbn [split_lines_acc] in *.
  assert (Hr : Forall P (rev cur)) by by apply Forall_rev.
  destruct (Ascii.eqb c CR); [destruct cs as [|d cs]; [by repeat constructor|]|].
  - pose proof Hcs as Hcs'. apply Forall_cons in Hcs' as [Hd Hcs'].
    destruct (Ascii.eqb d LF); (constructor; [done|apply IH; [simpl in *; lia|done|constructor]]).
  - destruct (Ascii.eqb c LF); [constructor; [done|apply IH; [simpl in *; lia|done|constructor]]|].
    apply IH; [simpl in *; lia|done|by constructor].
Qed.

Lemma split_lines_Forall (P : ascii -> Prop) (cs : list ascii) :
  Forall P cs -> Forall (Forall P) (split_lines_acc cs []).
Proof. intros H. by apply (split_lines_Forall_n P (length cs)). Qed.

Lemma numbered_lines_Forall (P : ascii -> Prop) (text : string) :
  Forall P (list_ascii_of_string text) -> Forall (fun nl => Forall P nl.2) (numbered_lines text).
Proof.
  intros H. unfold numbered_lines. apply Forall_forall. intros [n l] Hin.
  apply list_elem_of_filter in Hin as [_ Hin]. apply elem_of_zip_r in Hin. cbn [snd].
  pose proof (split_lines_Forall P _ (Forall_strip_bom _ _ H)) as Hall.
  rewrite Forall_forall in Hall. by apply Hall.
Qed.

Lemma existsb_comma_quote (l : list ascii) :
  Forall (fun c => Ascii.eqb c quotechar = false) l ->
  existsb (fun c => Ascii.eqb c delimiter || Ascii.eqb c quotechar) l = existsb (fun c => Ascii.eqb c delimiter) l.
Proof. induction 1 as [|c l Hc _ IH]; [done|]. cbn [existsb]. by rewrite Hc, orb_false_r, IH. Qed.

(** The records of quote-free lines are one-field exactly when the line
    has no delimiter. *)
Lemma mapM_single_record (L : list (nat * list ascii)) :
  Forall (fun nl => Forall (fun c => Ascii.eqb c quotechar = false) nl.2) L ->
  mapM single_record (map (fun nl => (nl.1, split_fields nl.2)) L) =
  if forallb (fun nl => single_field nl.2) L then Some L else None.
Proof.
  induction L as [|[n l] L IH]; intros HL; [done|]. apply Forall_cons in HL as [Hl HL].
  cbn [map mapM forallb fst snd]. unfold single_field at 1.
  rewrite existsb_comma_quote by done.
  destruct (existsb (fun c => Ascii.eqb c delimiter) l) eqn:Hc; cbn [negb andb].
  - destruct (split_fields_at_comma l [] Hc) as (f & fs & last & Hs).
    unfold split_fields. rewrite Hs. by destruct fs.
  - rewrite split_fields_single.
    2: { apply Forall_forall. intros c Hin. apply Bool.not_true_is_false. intros Hc'.
         assert (Ht : existsb (fun c => Ascii.eqb c delimiter) l = true)
           by (apply existsb_exists; exists c; split; [by apply list_elem_of_In|done]).
         congruence. }
    cbn. rewrite IH by done. by destruct (forallb _ L).
Qed.

Lemma read_csv_ref_eq (text : string) :
  Forall (fun c => Ascii.eqb c quotechar = false) (list_ascii_of_string text) ->
  cr_ws (list_ascii_of_string text) = false ->
  read_csv_SMILES text = read_csv_ref text.
Proof.
  intros Hq Hcw. unfold read_csv_SMILES, read_csv_ref. rewrite tokenize_noquote by done.
  rewrite mapM_single_record by (by apply numbered_lines_Forall).
  by destruct (forallb _ _).
Qed.

(** C22: the tokenizer state machine agrees with the line-splitting
    reference: on a file without quote characters, in which no lone "\r"
    is followed by white space, [pd.read_csv] reads the non-blank lines as
    rows, numbered by their file line, and a line with a delimiter makes
    the file fall outside the one-column model. *)
Theorem read_csv_tokenizer_ref (text : string) :
  Forall (fun c => Ascii.eqb c quotechar = false) (list_ascii_of_string text) ->
  cr_ws (list_ascii_of_string text) = false ->
  read_csv_SMILES text = read_csv_ref text.
Proof. apply read_csv_ref_eq. Qed.

(** The NA strings are ASCII, so never the reason a decoding fails. *)
Lemma na_utf8_valid (f : string) : is_na f = true -> utf8_valid (list_ascii_of_string f) = true.
Proof.
  unfold is_na. intros H. apply bool_decide_eq_true, list_elem_of_In in H.
  simpl in H. repeat (destruct H as [<-|H]; [reflexivity|]). done.
Qed.

(** On a quote-free file of one-field lines typed [object], a non-blank
    line that is not UTF-8 makes [read_csv] raise [UnicodeDecodeError]. *)
Lemma read_csv_decode_error (text : string) :
  Forall (fun c => Ascii.eqb c quotechar = false) (list_ascii_of_string text) ->
  cr_ws (list_ascii_of_string text) = false ->
  Forall (fun nl => single_field nl.2 = true) (numbered_lines text) ->
  infer_dtype (map (fun nl => string_of_list_ascii nl.2) (numbered_lines text)) = ColObject ->
  Exists (fun nl => utf8_valid nl.2 = false) (numbered_lines text) ->
  read_csv_SMILES text = CsvDecodeError.
Proof.
  intros Hq Hcw Hsf Hdt Hex. rewrite read_csv_ref_eq by done. unfold read_csv_ref.
  rewrite (proj2 (forallb_forall _ _))
    by (rewrite Forall_forall in Hsf; intros x Hx; apply Hsf; by apply list_elem_of_In).
  unfold frame_rows. rewrite Hdt. destruct (forallb _ _) eqn:Hall; [exfalso|done].
  apply Exists_exists in Hex as (nl & Hin & Hbad). rewrite forallb_forall in Hall.
  specialize (Hall (string_of_list_ascii nl.2)). rewrite list_ascii_of_string_of_list_ascii in Hall.
  rewrite Hall in Hbad; [done|]. apply list_elem_of_In, list_elem_of_filter. split.
  - destruct (is_na _) eqn:Hna; [|done]. apply na_utf8_valid in Hna.
    rewrite list_ascii_of_string_of_list_ascii in Hna. congruence.
  - apply list_elem_of_fmap. exists nl. split; [done|]. exact Hin.
Qed.

(** The cells of a frame in row order: [df.SMILES]. *)
Definition SMILES_column (rows : list (nat * cell)) : list cell := map snd rows.

(** ** A file of plain lines *)

(** A file written line by line, each line ended by "\n". *)
Definition lines_text (ls : list string) : string :=
  foldr (fun l acc => l +:+ String LF acc) EmptyString ls.

(** A line that is a SMILES as a user would write it: ASCII, not blank,
    no line break, delimiter or quote, and not an NA string. *)
Definition plain_line (l : string) : bool :=
  let cs := list_ascii_of_string l in
  forallb (fun c => (N_of_ascii c <? 128)%N && negb (Ascii.eqb c CR) && negb (Ascii.eqb c LF)) cs
  && negb (blank_line cs) && single_field cs && negb (bool_decide (l ∈ na_values)).

(** The end-of-line conventions of a client's text file. *)
Inductive eol := EolLF | EolCRLF | EolCR.

Definition eol_chars (e : eol) : list ascii :=
  match e with EolLF => [LF] | EolCRLF => [CR; LF] | EolCR => [CR] end.

(** The lines joined with [e]; the last one ended by [e] when [final]. *)
Fixpoint join_lines (e : eol) (final : bool) (ls : list (list ascii)) : list ascii :=
  match ls with
  | [] => []
  | [l] => l ++ (if final then eol_chars e else [])
  | l :: rest => l ++ eol_chars e ++ join_lines e final rest
  end.

(** A file of the lines [ls] written with the convention [e], with or
    without a final line break, after a UTF-8 byte-order mark or not. *)
Definition file_of_lines (bom : bool) (e : eol) (final : bool) (ls : list string) : string :=
  string_of_list_ascii ((if bom then BOM else []) ++ join_lines e final (map list_ascii_of_string ls)).

Lemma split_lines_line (l rest cur : list ascii) :
  Forall (fun c => Ascii.eqb c CR = false /\ Ascii.eqb c LF = false) l ->
  split_lines_acc (l ++ LF :: rest) cur = (rev cur ++ l) :: split_lines_acc rest [].
Proof.
  revert cur. induction l as [|c l IH]; intros cur Hl.
  - simpl. by rewrite app_nil_r.
  - apply Forall_cons in Hl as [[HCR HLF] Hl]. simpl. rewrite HCR, HLF, IH by done.
    simpl. by rewrite <- app_assoc.
Qed.

Lemma list_ascii_lines_text (ls : list string) :
  list_ascii_of_string (lines_text ls) =
  foldr (fun l acc => list_ascii_of_string l ++ LF :: acc) [] ls.
Proof.
  induction ls as [|l ls IH]; [done|]. simpl.
  rewrite <- IH. induction l as [|c l IHl]; simpl; congruence.
Qed.

Lemma plain_line_chars (l : string) :
  plain_line l = true ->
  Forall (fun c => Ascii.eqb c CR = false /\ Ascii.eqb c LF = false) (list_ascii_of_string l).
Proof.
  unfold plain_line. intros H. apply andb_prop in H as [H _].
  repeat (apply andb_prop in H as [H _]). apply Forall_forall. intros c Hc.
  apply forallb_forall with (x := c) in H; [|by apply list_elem_of_In].
  apply andb_prop in H as [H HLF]. apply andb_prop in H as [_ HCR].
  by rewrite negb_true_iff in HCR, HLF.
Qed.

Lemma plain_line_spec (l : string) :
  plain_line l = true ->
  blank_line (list_ascii_of_string l) = false /\
  single_field (list_ascii_of_string l) = true /\ l ∉ na_values.
Proof.
  unfold plain_line. intros H.
  apply andb_prop in H as [H Hna]. apply andb_prop in H as [H Hsf].
  apply andb_prop in H as [_ Hbl].
  rewrite negb_true_iff in Hbl, Hna. apply bool_decide_eq_false in Hna. done.
Qed.

Lemma plain_line_noquote (l : string) :
  plain_line l = true -> Forall (fun c => Ascii.eqb c quotechar = false) (list_ascii_of_string l).
Proof.
  intros Hl. destruct (plain_line_spec l Hl) as (_ & Hsf & _). unfold single_field in Hsf.
  apply negb_true_iff in Hsf. apply Forall_forall. intros c Hc.
  apply Bool.not_true_is_false. intros Hq. apply Bool.not_true_iff_false in Hsf. apply Hsf.
  apply existsb_exists. exists c. split; [by apply list_elem_of_In|]. by rewrite Hq, orb_true_r.
Qed.


Lemma cr_ws_app_nocr (l r : list ascii) :
  Forall (fun c => Ascii.eqb c CR = false) l -> cr_ws (l ++ r) = cr_ws r.
Proof. induction 1 as [|c l Hc _ IH]; [done|]. cbn [app cr_ws]. by rewrite Hc, IH. Qed.

(** A character of a line that is neither a quote nor a line break. *)
Definition line_char (c : ascii) : Prop := Ascii.eqb c quotechar = false /\ no_break c.

(** A file of lines without quotes or line breaks has no quote and no
    lone "\r". *)
Lemma lines_text_chars_gen (ls : list string) :
  Forall (fun l => Forall line_char (list_ascii_of_string l)) ls ->
  Forall (fun c => Ascii.eqb c quotechar = false) (list_ascii_of_string (lines_text ls)) /\
  cr_ws (list_ascii_of_string (lines_text ls)) = false.
Proof.
  rewrite list_ascii_lines_text. induction 1 as [|l ls Hl _ [IHq IHc]]; [done|].
  cbn [foldr]. rewrite cr_ws_app_nocr by (eapply Forall_impl; [exact Hl|]; by intros c (_ & ? & _)).
  split; [|exact IHc]. apply Forall_app. split; [|by constructor].
  eapply Forall_impl; [exact Hl|]. by intros c [].
Qed.

Lemma plain_line_line_chars (l : string) :
  plain_line l = true -> Forall line_char (list_ascii_of_string l).
Proof. intros Hl. apply Forall_and. split; [by apply plain_line_noquote|by apply plain_line_chars]. Qed.

Lemma lines_text_chars (ls : list string) :
  Forall (fun l => plain_line l = true) ls ->
  Forall (fun c => Ascii.eqb c quotechar = false) (list_ascii_of_string (lines_text ls)) /\
  cr_ws (list_ascii_of_string (lines_text ls)) = false.
Proof.
  intros Hls. apply lines_text_chars_gen. eapply Forall_impl; [exact Hls|]. apply plain_line_line_chars.
Qed.

Lemma plain_line_ascii (l : string) :
  plain_line l = true -> ascii_text (list_ascii_of_string l) = true.
Proof.
  unfold plain_line, ascii_text. intros H. repeat (apply andb_prop in H as [H _]).
  apply forallb_forall. intros c Hc. apply forallb_forall with (x := c) in H; [|done].
  by repeat (apply andb_prop in H as [H _]).
Qed.

Lemma plain_rows_ascii (s : list nat) (ls : list string) :
  Forall (fun l => plain_line l = true) ls ->
  Forall (fun nl => ascii_text nl.2 = true) (zip s (map list_ascii_of_string ls)).
Proof.
  intros Hls. apply (Forall_zip_snd (fun l => ascii_text l = true)), Forall_map. eapply Forall_impl; [exact Hls|]. apply plain_line_ascii.
Qed.

Lemma split_lines_text_gen (ls : list string) :
  Forall (fun l => Forall no_break (list_ascii_of_string l)) ls ->
  split_lines_acc (list_ascii_of_string (lines_text ls)) [] =
  map list_ascii_of_string ls ++ [[]].
Proof.
  rewrite list_ascii_lines_text. induction ls as [|l ls IH]; intros Hls; [done|].
  apply Forall_cons in Hls as [Hl Hls]. simpl.
  rewrite split_lines_line by done. simpl. by rewrite IH.
Qed.

Lemma split_lines_text (ls : list string) :
  Forall (fun l => plain_line l = true) ls ->
  split_lines_acc (list_ascii_of_string (lines_text ls)) [] =
  map list_ascii_of_string ls ++ [[]].
Proof.
  intros Hls. apply split_lines_text_gen. eapply Forall_impl; [exact Hls|]. apply plain_line_chars.
Qed.

Lemma numbered_plain (ls : list string) (s : nat) :
  Forall (fun l => plain_line l = true) ls ->
  filter (fun nl => negb (blank_line nl.2))
    (zip (seq s (length (map list_ascii_of_string ls ++ [[]])))
         (map list_ascii_of_string ls ++ [[]])) =
  zip (seq s (length ls)) (map list_ascii_of_string ls).
Proof.
  revert s. induction ls as [|l ls IH]; intros s Hls; [done|].
  apply Forall_cons in Hls as [Hl Hls]. cbn [map app length seq zip zip_with].
  destruct (plain_line_spec l Hl) as (Hbl & _ & _).
  rewrite filter_cons, decide_True by (cbn [snd]; rewrite Hbl; done). by rewrite IH.
Qed.

Lemma strip_bom_plain (ls : list string) :
  Forall (fun l => plain_line l = true) ls ->
  strip_bom (list_ascii_of_string (lines_text ls)) = list_ascii_of_string (lines_text ls).
Proof.
  intros Hls. unfold strip_bom. rewrite bool_decide_eq_false_2; [done|].
  destruct ls as [|l ls]; [done|]. apply Forall_cons in Hls as [Hl _].
  destruct l as [|c l]; [done|]. unfold plain_line in Hl. simpl in Hl.
  destruct (N_of_ascii c <? 128)%N eqn:Hc; [|done].
  apply N.ltb_lt in Hc. intros [= Hc' _]. subst c. vm_compute in Hc. discriminate.
Qed.

Lemma cells_plain (dt : column_dtype) (ls : list string) (s : nat) :
  map (fun nl => (nl.1, to_cell dt (string_of_list_ascii nl.2)))
      (zip (seq s (length ls)) (map list_ascii_of_string ls)) =
  zip (seq s (length ls)) (map (to_cell dt) ls).
Proof.
  revert s. induction ls as [|l ls IH]; intros s; [done|].
  simpl. by rewrite IH, string_of_list_ascii_of_string.
Qed.

Lemma fields_plain (ls : list string) (s : nat) :
  map (fun nl => string_of_list_ascii nl.2)
      (zip (seq s (length ls)) (map list_ascii_of_string ls)) = ls.
Proof.
  revert s. induction ls as [|l ls IH]; intros s; [done|].
  simpl. by rewrite IH, string_of_list_ascii_of_string.
Qed.

(** A plain line is not an NA string: it becomes a value of the column's type. *)
Lemma to_cell_plain (dt : column_dtype) (l : string) :
  plain_line l = true ->
  to_cell dt l = match dt with
                 | ColInt => CellInt (default 0%Z (str_to_int (list_ascii_of_string l)))
                 | ColFloat => CellFloat (default 0%float (float_field l))
                 | ColBool => CellBool (default false (bool_field l))
                 | ColObject => CellStr l
                 end.
Proof.
  intros Hl. unfold to_cell, is_na. rewrite bool_decide_eq_false_2; [done|].
  apply plain_line_spec, Hl.
Qed.

(** Reading a file of plain lines gives one row per line, in file order,
    each numbered with its line and typed by the column's inferred type. *)
Lemma read_csv_lines_dtype (ls : list string) :
  Forall (fun l => plain_line l = true) ls ->
  read_csv_SMILES (lines_text ls) =
  CsvFrame (zip (seq 1 (length ls)) (map (to_cell (infer_dtype ls)) ls)).
Proof.
  intros Hls. destruct (lines_text_chars ls Hls) as [Hq Hcw].
  rewrite read_csv_ref_eq by done.
  unfold read_csv_ref, numbered_lines.
  rewrite strip_bom_plain, split_lines_text, numbered_plain by done.
  rewrite (proj2 (forallb_forall _ _)).
  - rewrite frame_rows_ascii by (by apply plain_rows_ascii). by rewrite fields_plain, cells_plain.
  - intros [n l] Hin. apply list_elem_of_In, elem_of_zip_r in Hin.
    apply list_elem_of_fmap in Hin as (l' & -> & Hl').
    eapply Forall_forall in Hls; [|done]. apply plain_line_spec, Hls.
Qed.

(** With an [object] column, each row is the line as a [str]. *)
Lemma read_csv_lines (ls : list string) :
  Forall (fun l => plain_line l = true) ls -> infer_dtype ls = ColObject ->
  read_csv_SMILES (lines_text ls) = CsvFrame (zip (seq 1 (length ls)) (map CellStr ls)).
Proof.
  intros Hls Hdt. rewrite read_csv_lines_dtype, Hdt by done. do 2 f_equal.
  apply map_ext_in. intros l Hl. apply to_cell_plain.
  rewrite Forall_forall in Hls. apply Hls. by apply list_elem_of_In.
Qed.

(** ** Line endings, a final line break and the byte-order mark *)

Lemma split_lines_eol (e : eol) (l rest cur : list ascii) :
  Forall (fun c => Ascii.eqb c CR = false /\ Ascii.eqb c LF = false) l ->
  match rest with [] => True | c :: _ => Ascii.eqb c LF = false end ->
  split_lines_acc (l ++ eol_chars e ++ rest) cur = (rev cur ++ l) :: split_lines_acc rest [].
Proof.
  intros Hl Hr. destruct e; [by apply split_lines_line| |].
  - rewrite <- (rev_involutive cur). generalize (rev cur) as cur'. intros cur'.
    revert cur'. induction l as [|c l IH]; intros cur'.
    + cbn [app eol_chars split_lines_acc]. change (Ascii.eqb CR CR) with true.
      change (Ascii.eqb LF LF) with true. cbv iota. by rewrite app_nil_r, rev_involutive.
    + apply Forall_cons in Hl as [[HCR HLF] Hl]. cbn [app split_lines_acc]. rewrite HCR, HLF.
      replace (c :: rev cur') with (rev (cur' ++ [c])) by (rewrite rev_app_distr; done).
      rewrite IH by done. by rewrite !rev_involutive, <- app_assoc.
  - rewrite <- (rev_involutive cur). generalize (rev cur) as cur'. intros cur'.
    revert cur'. induction l as [|c l IH]; intros cur'.
    + cbn [app eol_chars split_lines_acc]. change (Ascii.eqb CR CR) with true. cbv iota.
      rewrite app_nil_r, rev_involutive. destruct rest as [|c rest]; [done|]. by rewrite Hr.
    + apply Forall_cons in Hl as [[HCR HLF] Hl]. cbn [app split_lines_acc]. rewrite HCR, HLF.
      replace (c :: rev cur') with (rev (cur' ++ [c])) by (rewrite rev_app_distr; done).
      rewrite IH by done. by rewrite !rev_involutive, <- app_assoc.
Qed.

(** A plain line starts with a character that is not a line break. *)
Lemma plain_line_head (l : string) :
  plain_line l = true ->
  exists c t, list_ascii_of_string l = c :: t /\ Ascii.eqb c LF = false /\ (N_of_ascii c < 128)%N.
Proof.
  intros Hl. pose proof (plain_line_chars l Hl) as Hc. pose proof (plain_line_spec l Hl) as [Hbl _].
  destruct (list_ascii_of_string l) as [|c t] eqn:Hls; [done|].
  apply Forall_cons in Hc as [[_ HLF] _]. exists c, t. split; [done|]. split; [done|].
  unfold plain_line in Hl. rewrite Hls in Hl. simpl in Hl.
  destruct (N_of_ascii c <? 128)%N eqn:H128; [by apply N.ltb_lt|done].
Qed.

Lemma split_join_lines (e : eol) (final : bool) (ls : list string) :
  Forall (fun l => plain_line l = true) ls ->
  split_lines_acc (join_lines e final (map list_ascii_of_string ls)) [] =
  map list_ascii_of_string ls ++ (if final || bool_decide (ls = []) then [[]] else []).
Proof.
  induction ls as [|l ls IH]; intros Hls; [by destruct final|].
  apply Forall_cons in Hls as [Hl Hls]. pose proof (plain_line_chars l Hl) as Hc.
  destruct ls as [|l2 ls'].
  - cbn [map join_lines]. destruct final; cbn [orb].
    + rewrite <- (app_nil_r (eol_chars e)), split_lines_eol by done. done.
    + by rewrite app_nil_r, split_lines_last.
  - change (join_lines e final (map list_ascii_of_string (l :: l2 :: ls')))
      with (list_ascii_of_string l ++ eol_chars e ++ join_lines e final (map list_ascii_of_string (l2 :: ls'))).
    rewrite split_lines_eol by (done || (apply Forall_cons in Hls as [Hl2 _];
      destruct (plain_line_head l2 Hl2) as (c & t & Ht & HLF & _); cbn [map join_lines];
      destruct ls'; rewrite Ht; done)).
    rewrite IH by done. cbn [app rev map].
    rewrite !(bool_decide_eq_false_2 (_ :: _ = [])) by discriminate. done.
Qed.

Lemma strip_bom_join (bom : bool) (e : eol) (final : bool) (ls : list string) :
  Forall (fun l => plain_line l = true) ls ->
  strip_bom ((if bom then BOM else []) ++ join_lines e final (map list_ascii_of_string ls)) =
  join_lines e final (map list_ascii_of_string ls).
Proof.
  intros Hls. destruct bom; [reflexivity|]. unfold strip_bom. rewrite bool_decide_eq_false_2; [done|].
  destruct ls as [|l ls]; [done|]. apply Forall_cons in Hls as [Hl _].
  destruct (plain_line_head l Hl) as (c & t & Ht & _ & H128).
  assert (Hj : exists u, join_lines e final (map list_ascii_of_string (l :: ls)) = c :: u).
  { cbn [map join_lines]. rewrite Ht. destruct ls; eexists; reflexivity. }
  destruct Hj as [u ->]. intros [= Hc _]. subst c. vm_compute in H128. discriminate.
Qed.

Lemma join_lines_Forall (P : ascii -> Prop) (e : eol) (final : bool) (ls : list (list ascii)) :
  Forall (Forall P) ls -> Forall P (eol_chars e) -> Forall P (join_lines e final ls).
Proof.
  intros Hls He. induction Hls as [|l ls Hl Hls IH]; [constructor|].
  destruct ls as [|l2 ls]; cbn [join_lines]; apply Forall_app; (split; [done|]).
  - by destruct final.
  - apply Forall_app. by split.
Qed.

Lemma join_lines_cons (e : eol) (final : bool) (l : list ascii) (ls : list (list ascii)) :
  exists u, join_lines e final (l :: ls) = l ++ u.
Proof. destruct ls; eexists; reflexivity. Qed.

Lemma cr_ws_eol (e : eol) (r : list ascii) :
  (e = EolCR -> ws_led r = false) -> cr_ws (eol_chars e ++ r) = cr_ws r.
Proof.
  intros Hr. destruct e; [done|done|]. specialize (Hr eq_refl).
  destruct r as [|d r]; [done|]. cbn in Hr |- *. by rewrite Hr, andb_false_r.
Qed.

(** No lone "\r" of a file of plain lines is followed by white space when
    its lines are not white-space-led or its line breaks are not "\r". *)
Lemma cr_ws_join (e : eol) (final : bool) (ls : list string) :
  Forall (fun l => plain_line l = true) ls ->
  (e = EolCR -> Forall (fun l => ws_led (list_ascii_of_string l) = false) ls) ->
  cr_ws (join_lines e final (map list_ascii_of_string ls)) = false.
Proof.
  induction ls as [|l ls IH]; intros Hls Hws; [done|].
  apply Forall_cons in Hls as [Hl Hls].
  assert (Hnc : Forall (fun c => Ascii.eqb c CR = false) (list_ascii_of_string l))
    by (eapply Forall_impl; [apply (plain_line_chars _ Hl)|]; by intros c []).
  destruct ls as [|l2 ls'].
  - cbn [map join_lines]. rewrite cr_ws_app_nocr by done. destruct final; [|done].
    rewrite <- (app_nil_r (eol_chars e)), cr_ws_eol; done.
  - change (join_lines e final (map list_ascii_of_string (l :: l2 :: ls')))
      with (list_ascii_of_string l ++ eol_chars e ++ join_lines e final (map list_ascii_of_string (l2 :: ls'))).
    rewrite cr_ws_app_nocr by done. rewrite cr_ws_eol.
    + apply IH; [done|]. intros He. specialize (Hws He). by apply Forall_cons in Hws as [_ ?].
    + intros He. specialize (Hws He). apply Forall_cons in Hws as [_ Hws]. apply Forall_cons in Hws as [Hw2 _].
      apply Forall_cons in Hls as [Hl2 _]. destruct (plain_line_head l2 Hl2) as (c & t & Ht & _).
      cbn [map]. destruct (join_lines_cons e final (list_ascii_of_string l2) (map list_ascii_of_string ls')) as [u ->].
      rewrite Ht in Hw2 |- *. exact Hw2.
Qed.

(** Blank lines at the end of the file give no row. *)
Lemma numbered_plain_tail (ls : list string) (tl : list (list ascii)) (s : nat) :
  Forall (fun l => plain_line l = true) ls -> Forall (fun l => blank_line l = true) tl ->
  filter (fun nl => negb (blank_line nl.2))
    (zip (seq s (length (map list_ascii_of_string ls ++ tl))) (map list_ascii_of_string ls ++ tl)) =
  zip (seq s (length ls)) (map list_ascii_of_string ls).
Proof.
  revert s. induction ls as [|l ls IH]; intros s Hls Htl.
  - cbn [map app length]. revert s. induction Htl as [|x tl Hx _ IHt]; intros s; [done|].
    cbn [length seq zip zip_with]. rewrite filter_cons, decide_False by (cbn [snd]; rewrite Hx; simpl; tauto).
    apply IHt.
  - apply Forall_cons in Hls as [Hl Hls]. cbn [map app length seq zip zip_with].
    destruct (plain_line_spec l Hl) as (Hbl & _ & _).
    rewrite filter_cons, decide_True by (cbn [snd]; rewrite Hbl; done). by rewrite IH.
Qed.

(** Any file of plain lines, whatever its line breaks, final line break
    and byte-order mark, is read as one row per line, in order, typed by
    the column's inferred type. *)
Lemma read_csv_file_lines (bom : bool) (e : eol) (final : bool) (ls : list string) :
  Forall (fun l => plain_line l = true) ls ->
  (e = EolCR -> Forall (fun l => ws_led (list_ascii_of_string l) = false) ls) ->
  read_csv_SMILES (file_of_lines bom e final ls) =
  CsvFrame (zip (seq 1 (length ls)) (map (to_cell (infer_dtype ls)) ls)).
Proof.
  intros Hls Hws. rewrite read_csv_ref_eq; unfold file_of_lines; rewrite ?list_ascii_of_string_of_list_ascii.
  2: { apply Forall_app. split; [by destruct bom; repeat constructor|].
       apply join_lines_Forall; [|by destruct e; repeat constructor].
       apply Forall_map. eapply Forall_impl; [exact Hls|]. apply plain_line_noquote. }
  2: { destruct bom; [rewrite cr_ws_app_nocr by (repeat constructor)|]; by apply cr_ws_join. }
  unfold read_csv_ref, numbered_lines.
  rewrite list_ascii_of_string_of_list_ascii, strip_bom_join, split_join_lines by done.
  rewrite numbered_plain_tail by (done || (destruct (final || _); repeat constructor)).
  rewrite (proj2 (forallb_forall _ _)).
  - rewrite frame_rows_ascii by (by apply plain_rows_ascii). by rewrite fields_plain, cells_plain.
  - intros [n l] Hin. apply list_elem_of_In, elem_of_zip_r in Hin.
    apply list_elem_of_fmap in Hin as (l' & -> & Hl').
    eapply Forall_forall in Hls; [|done]. apply plain_line_spec, Hls.
Qed.

(** ** Plain lines and empty lines *)

Lemma line_ok_chars (l : string) :
  plain_line l = true \/ l = EmptyString -> Forall line_char (list_ascii_of_string l).
Proof. intros [Hl | ->]; [by apply plain_line_line_chars|constructor]. Qed.

(** A text starting with an ASCII character has no byte-order mark. *)
Lemma strip_bom_ascii (c : ascii) (r : list ascii) :
  (N_of_ascii c < 128)%N -> strip_bom (c :: r) = c :: r.
Proof.
  intros Hc. unfold strip_bom. rewrite bool_decide_eq_false_2; [done|].
  intros [= Hc' _]. subst c. vm_compute in Hc. discriminate.
Qed.

Lemma strip_bom_lines_ok (ls : list string) :
  Forall (fun l => plain_line l = true \/ l = EmptyString) ls ->
  strip_bom (list_ascii_of_string (lines_text ls)) = list_ascii_of_string (lines_text ls).
Proof.
  intros Hls. rewrite list_ascii_lines_text. destruct Hls as [|l ls [Hl | ->] _]; [done| |].
  - destruct (plain_line_head l Hl) as (c & t & Ht & _ & Hc). cbn [foldr]. rewrite Ht. cbn [app].
    by apply strip_bom_ascii.
  - cbn [foldr list_ascii_of_string app]. apply strip_bom_ascii. by vm_compute.
Qed.

(** The non-blank lines of such a file are its plain lines, in order. *)
Lemma numbered_lines_ok (ls : list string) (s : nat) :
  Forall (fun l => plain_line l = true \/ l = EmptyString) ls ->
  let rows := filter (fun nl => negb (blank_line nl.2))
                (zip (seq s (length (map list_ascii_of_string ls ++ [[]])))
                     (map list_ascii_of_string ls ++ [[]])) in
  map (fun nl => string_of_list_ascii nl.2) rows = filter (fun l => l <> EmptyString) ls /\
  Forall (fun nl => plain_line (string_of_list_ascii nl.2) = true) rows.
Proof.
  revert s. induction ls as [|l ls IH]; intros s Hls.
  - cbn. split; constructor.
  - apply Forall_cons in Hls as [Hl Hls]. cbn [map app length seq zip zip_with].
    destruct (IH (S s) Hls) as [IH1 IH2]. rewrite filter_cons. destruct Hl as [Hl | ->].
    + destruct (plain_line_spec l Hl) as (Hbl & _ & _).
      rewrite decide_True by (cbn [snd]; by rewrite Hbl).
      rewrite filter_cons_True by (intros ->; discriminate Hl).
      cbn [map fst snd]. rewrite string_of_list_ascii_of_string, IH1.
      split; [done|]. constructor; [cbn [snd]; by rewrite string_of_list_ascii_of_string|done].
    + rewrite decide_False by (cbn; tauto). rewrite filter_cons_False by tauto. done.
Qed.

(** A file of plain and empty lines is read as the frame of its plain
    lines: the empty ones are skipped. *)
Lemma read_csv_lines_ok (ls : list string) :
  Forall (fun l => plain_line l = true \/ l = EmptyString) ls ->
  exists rows, read_csv_SMILES (lines_text ls) = CsvFrame rows /\
    SMILES_column rows = map (to_cell (infer_dtype (filter (fun l => l <> EmptyString) ls)))
                             (filter (fun l => l <> EmptyString) ls).
Proof.
  intros Hls. assert (Hc : Forall (fun l => Forall line_char (list_ascii_of_string l)) ls)
    by (eapply Forall_impl; [exact Hls|]; apply line_ok_chars).
  destruct (lines_text_chars_gen ls Hc) as [Hq Hcw].
  rewrite read_csv_ref_eq by done. unfold read_csv_ref, numbered_lines.
  rewrite strip_bom_lines_ok, split_lines_text_gen
    by (done || (eapply Forall_impl; [exact Hc|]; intros l Hl; eapply Forall_impl; [exact Hl|]; by intros c [])).
  destruct (numbered_lines_ok ls 1 Hls) as [Hmap Hplain]. cbv zeta in Hmap, Hplain.
  rewrite Forall_forall in Hplain.
  rewrite (proj2 (forallb_forall _ _)).
  2: { intros nl Hin%list_elem_of_In. apply Hplain, plain_line_spec in Hin as (_ & Hsf & _).
       by rewrite list_ascii_of_string_of_list_ascii in Hsf. }
  rewrite frame_rows_ascii.
  2: { apply Forall_forall. intros nl Hin. apply Hplain, plain_line_ascii in Hin.
       by rewrite list_ascii_of_string_of_list_ascii in Hin. }
  eexists. split; [reflexivity|]. unfold SMILES_column. rewrite map_map. cbn [snd].
  rewrite Hmap, <- Hmap, map_map. reflexivity.
Qed.

(** ** Quoted lines and an unclosed quote *)

(** A file of lines, each written as one quoted field (its quotes doubled). *)
Definition quoted_text (ls : list string) : string :=
  string_of_list_ascii (foldr (fun l acc => quote_field l ++ LF :: acc) [] (map list_ascii_of_string ls)).

Lemma lines_chars_map (x : list ascii) (ls : list string) :
  foldr (fun l acc => list_ascii_of_string l ++ LF :: acc) x ls =
  foldr (fun l acc => l ++ LF :: acc) x (map list_ascii_of_string ls).
Proof. induction ls as [|l ls IH]; [done|]. cbn [foldr map]. by rewrite IH. Qed.

Lemma lines_foldr_app (ls : list (list ascii)) (x : list ascii) :
  foldr (fun l acc => l ++ LF :: acc) [] ls ++ x = foldr (fun l acc => l ++ LF :: acc) x ls.
Proof. induction ls as [|l ls IH]; [done|]. cbn [foldr]. by rewrite <- app_assoc, <- app_comm_cons, IH. Qed.

Lemma strip_bom_quoted (ls : list (list ascii)) :
  strip_bom (foldr (fun l acc => quote_field l ++ LF :: acc) [] ls) =
  foldr (fun l acc => quote_field l ++ LF :: acc) [] ls.
Proof. destruct ls as [|l ls]; [done|]. cbn [foldr]. unfold quote_field. cbn [app]. by apply strip_bom_ascii. Qed.

Lemma strip_bom_plain_lines (ls : list string) (x : list ascii) :
  Forall (fun l => plain_line l = true) ls ->
  (ls = [] -> exists c r, x = c :: r /\ (N_of_ascii c < 128)%N) ->
  strip_bom (foldr (fun l acc => l ++ LF :: acc) x (map list_ascii_of_string ls)) =
  foldr (fun l acc => l ++ LF :: acc) x (map list_ascii_of_string ls).
Proof.
  intros Hls Hx. destruct ls as [|l ls].
  - destruct (Hx eq_refl) as (c & r & -> & Hc). by apply strip_bom_ascii.
  - apply Forall_cons in Hls as [Hl _]. destruct (plain_line_head l Hl) as (c & t & Ht & _ & Hc).
    cbn [map foldr]. rewrite Ht. cbn [app]. by apply strip_bom_ascii.
Qed.

Lemma mapM_single_zip (n : nat) (ls : list (list ascii)) :
  mapM single_record (zip (seq n (length ls)) (map (fun l => [l]) ls)) = Some (zip (seq n (length ls)) ls).
Proof. revert n. induction ls as [|l ls IH]; intros n; [done|]. cbn. by rewrite IH. Qed.

(** The characters of a plain line are neither quotes nor line breaks. *)
Lemma plain_line_plain (l : string) :
  plain_line l = true -> Forall plain_char (list_ascii_of_string l) /\ blank_line (list_ascii_of_string l) = false.
Proof.
  intros Hl. split; [|apply plain_line_spec, Hl].
  apply Forall_and. split; [by apply plain_line_chars|by apply plain_line_noquote].
Qed.

(** After plain lines, a line that opens a quote never closed: the
    tokenizer reaches the end of the text inside the quote, and
    [pd.read_csv] raises [ParserError] ("EOF inside string"). *)
Lemma read_csv_unclosed_quote (ls : list string) (m : string) :
  Forall (fun l => plain_line l = true) ls ->
  Forall (fun c => Ascii.eqb c quotechar = false) (list_ascii_of_string m) ->
  read_csv_SMILES (lines_text ls +:+ String quotechar m) = CsvParserError.
Proof.
  intros Hls Hm. unfold read_csv_SMILES, tokenize.
  rewrite list_ascii_of_string_app, list_ascii_lines_text, lines_chars_map, lines_foldr_app.
  rewrite strip_bom_plain_lines by (done || by intros _; eexists _, _; split; [reflexivity|vm_compute]).
  destruct (tok_run_plain_lines (map list_ascii_of_string ls) (list_ascii_of_string (String quotechar m)) tacc_init)
    as (a' & _ & _ & ->); [|done|done|].
  - apply Forall_map. eapply Forall_impl; [exact Hls|]. apply plain_line_plain.
  - cbn [list_ascii_of_string]. by rewrite tok_run_open_quote, tok_run_in_quoted_eof.
Qed.

(** C23: round trip of CSV quoting: a file whose ASCII lines are each
    written between quotes, with the quotes inside doubled, is read as one row
    per line, numbered by its file line, holding exactly the line: quotes
    and delimiters inside are kept and a quoted blank line is a row (of
    the empty string, an NA string), where the same lines unquoted would
    be skipped or fall outside the one-column model. *)
Theorem read_csv_quoted (ls : list string) :
  Forall (fun l => Forall no_break (list_ascii_of_string l) /\ ascii_text (list_ascii_of_string l) = true) ls ->
  read_csv_SMILES (quoted_text ls) =
  CsvFrame (zip (seq 1 (length ls)) (map (to_cell (infer_dtype ls)) ls)).
Proof.
  intros Hls. unfold read_csv_SMILES, tokenize, quoted_text.
  rewrite list_ascii_of_string_of_list_ascii, strip_bom_quoted.
  destruct (tok_run_quoted_lines (map list_ascii_of_string ls) [] tacc_init) as [s ->];
    [apply Forall_map; eapply Forall_impl; [exact Hls|]; by intros l []|done|done|].
  cbn [tok_run tok_eof t_recs t_line tacc_init app]. rewrite mapM_single_zip.
  rewrite frame_rows_ascii.
  2: { apply (Forall_zip_snd (fun l => ascii_text l = true)), Forall_map.
       eapply Forall_impl; [exact Hls|]. by intros l []. }
  by rewrite length_map, fields_plain, cells_plain.
Qed.

(** C21: the rows pandas reads from a file of plain lines do not depend on
    how the client wrote the file: "\n", "\r\n" or "\r" line breaks, with
    or without a final line break, with or without a UTF-8 byte-order
    mark, all give the rows of the same file written with "\n" (with "\r"
    line breaks, when no line starts with white space: a lone "\r"
    followed by white space takes the tokenizer's backtracking path). *)
Theorem read_csv_line_endings (bom : bool) (e : eol) (final : bool) (ls : list string) :
  Forall (fun l => plain_line l = true) ls ->
  (e = EolCR -> Forall (fun l => ws_led (list_ascii_of_string l) = false) ls) ->
  read_csv_SMILES (file_of_lines bom e final ls) = read_csv_SMILES (lines_text ls).
Proof. intros Hls Hws. by rewrite read_csv_file_lines, read_csv_lines_dtype. Qed.

Lemma read_csv_line_endings_witness :
  Forall (fun l => plain_line l = true) ["CCO"; "c1ccccc1"]%string /\
  (EolCR = EolCR -> Forall (fun l => ws_led (list_ascii_of_string l) = false) ["CCO"; "c1ccccc1"]%string) /\
  read_csv_SMILES (file_of_lines true EolCR false ["CCO"; "c1ccccc1"]%string) =
  read_csv_SMILES (lines_text ["CCO"; "c1ccccc1"]%string).
Proof.
  assert (H : Forall (fun l => plain_line l = true) ["CCO"; "c1ccccc1"]%string) by (repeat constructor).
  assert (H2 : EolCR = EolCR -> Forall (fun l => ws_led (list_ascii_of_string l) = false) ["CCO"; "c1ccccc1"]%string)
    by (intros _; repeat constructor).
  split; [exact H|]. split; [exact H2|]. exact (read_csv_line_endings true EolCR false _ H H2).
Defined.

Definition quoted_sample : list string :=
  ["CCO"; EmptyString; "C,C"; String "C" (String quotechar "O")]%string.

Lemma read_csv_quoted_witness :
  Forall (fun l => Forall no_break (list_ascii_of_string l) /\ ascii_text (list_ascii_of_string l) = true) quoted_sample /\
  read_csv_SMILES (quoted_text quoted_sample) =
  CsvFrame (zip (seq 1 4) (map (to_cell (infer_dtype quoted_sample)) quoted_sample)).
Proof.
  assert (H : Forall (fun l => Forall no_break (list_ascii_of_string l) /\ ascii_text (list_ascii_of_string l) = true) quoted_sample)
    by (repeat constructor).
  split; [exact H|]. exact (read_csv_quoted _ H).
Defined.

Lemma read_csv_tokenizer_ref_witness :
  Forall (fun c => Ascii.eqb c quotechar = false)
    (list_ascii_of_string (file_of_lines false EolCRLF true ["CCO"; "C,C"]%string)) /\
  cr_ws (list_ascii_of_string (file_of_lines false EolCRLF true ["CCO"; "C,C"]%string)) = false /\
  read_csv_SMILES (file_of_lines false EolCRLF true ["CCO"; "C,C"]%string) =
  read_csv_ref (file_of_lines false EolCRLF true ["CCO"; "C,C"]%string).
Proof.
  assert (H1 : Forall (fun c => Ascii.eqb c quotechar = false)
    (list_ascii_of_string (file_of_lines false EolCRLF true ["CCO"; "C,C"]%string))) by (vm_compute; repeat constructor).
  assert (H2 : cr_ws (list_ascii_of_string (file_of_lines false EolCRLF true ["CCO"; "C,C"]%string)) = false)
    by reflexivity.
  split; [exact H1|]. split; [exact H2|]. exact (read_csv_tokenizer_ref _ H1 H2).
Defined.

(** A quote closed on a later line makes one row of the two lines, and
    the next row keeps its file line number. *)
Lemma read_csv_quote_spans_lines :
  read_csv_SMILES (String quotechar (String "C" (String LF (String "O" (String quotechar (String LF "CC"%string)))))) =
  CsvFrame [(1, CellStr (String "C" (String LF "O"%string))); (3, CellStr "CC"%string)].
Proof. vm_compute. reflexivity. Qed.
