(* ===== verification/Forms.v ===== *)
(** * The upload form and the request size cap

    [UploadForm] (src/extras/forms.py lines 6-8) has one [FileField] with
    the validators [FileRequired()] and [FileAllowed(["txt"])], and a
    [SubmitField].  [index] calls [form.validate_on_submit()] (src/app.py
    line 35).  The semantics of the Flask-WTF validators are those of the
    library: [FileRequired] accepts a [FileStorage] whose filename is not
    empty (a [FileStorage] is truthy when it has a filename);
    [FileAllowed] accepts a missing file, and otherwise a filename that,
    lower-cased, ends with "." followed by an allowed extension.  The CSRF
    check of [FlaskForm] is a boolean of the request.  The server caps a
    request body at [MAX_CONTENT_LENGTH] (src/app.py line 30): parsing the
    form of a larger request raises [RequestEntityTooLarge] (HTTP 413). *)

From S2P Require Import Prelude.

Inductive method := GET | POST | PUT | PATCH | DELETE.

#[export] Instance method_eq_dec : EqDecision method.
Proof. solve_decision. Defined.

(** A Werkzeug [FileStorage]: the client's filename and the bytes sent. *)
Record FileStorage := {
  filename : string;
  file_text : string;
}.

(** The parts of a request [index] depends on. *)
Record Request := {
  req_method : method;
  content_length : nat;
  csrf_valid : bool;
  file_field : option FileStorage;
}.

(** [server.config["MAX_CONTENT_LENGTH"] = 5 * 1024] *)
Definition MAX_CONTENT_LENGTH : nat := 5 * 1024.

Definition too_large (r : Request) : bool := bool_decide (MAX_CONTENT_LENGTH < content_length r).

(** [form.is_submitted()]: the request is a submission method. *)
Definition is_submitted (r : Request) : bool :=
  bool_decide (req_method r ∈ [POST; PUT; PATCH; DELETE]).

(** [str.lower()] on ASCII letters. *)
Definition lower_char (c : ascii) : ascii :=
  let n := nat_of_ascii c in
  if (65 <=? n) && (n <=? 90) then ascii_of_nat (n + 32) else c.

Definition lower (s : string) : string :=
  string_of_list_ascii (map lower_char (list_ascii_of_string s)).

(** [str.endswith(suffix)] *)
Definition endswith (s suffix : string) : bool :=
  String.eqb (substring (String.length s - String.length suffix) (String.length suffix) s) suffix
  && (String.length suffix <=? String.length s).

(** [FileRequired()] *)
Definition FileRequired (data : option FileStorage) : bool :=
  match data with
  | Some fs => negb (String.eqb (filename fs) EmptyString)
  | None => false
  end.

(** [FileAllowed(upload_set)] with an iterable [upload_set]. *)
Definition FileAllowed (upload_set : list string) (data : option FileStorage) : bool :=
  match data with
  | Some fs =>
      if String.eqb (filename fs) EmptyString then true
      else existsb (fun x => endswith (lower (filename fs)) ("." +:+ x)) upload_set
  | None => true
  end.

(** The field's validators of [UploadForm], in order: [FileRequired] stops
    the chain when it fails. *)
Definition UploadForm_file_valid (data : option FileStorage) : bool :=
  FileRequired data && FileAllowed ["txt"%string] data.

(** [form.validate_on_submit()]: submitted, CSRF token valid, fields valid. *)
Definition validate_on_submit (r : Request) : bool :=
  is_submitted r && csrf_valid r && UploadForm_file_valid (file_field r).

(** ** What the form accepts *)

Lemma substring_split (s : string) (n : nat) :
  n <= String.length s -> s = substring 0 n s +:+ substring n (String.length s - n) s.
Proof.
  revert n. induction s as [|c s IH]; intros n Hn; simpl in *.
  - destruct n; [done|lia].
  - destruct n as [|n]; simpl.
    + by rewrite substring_full.
    + change (String c (substring 0 n s) +:+ ?t) with (String c (substring 0 n s +:+ t)).
      f_equal. apply IH. lia.
Qed.

(** [s.endswith(suffix)] holds exactly when [s] is some string followed
    by [suffix]. *)
Lemma endswith_spec (s suffix : string) :
  endswith s suffix = true <-> exists pre, s = pre +:+ suffix.
Proof.
  unfold endswith. rewrite andb_true_iff, String.eqb_eq, Nat.leb_le. split.
  - intros [Hsub Hle]. exists (substring 0 (String.length s - String.length suffix) s).
    rewrite (substring_split s (String.length s - String.length suffix)) at 1 by lia.
    replace (String.length s - (String.length s - String.length suffix)) with (String.length suffix)
      by lia.
    by rewrite Hsub.
  - intros [pre ->]. rewrite string_app_length.
    replace (String.length pre + String.length suffix - String.length suffix) with (String.length pre)
      by lia.
    split; [apply substring_app|lia].
Qed.

Lemma lower_length (s : string) : String.length (lower s) = String.length s.
Proof. unfold lower. induction s as [|c s IH]; simpl; [done|]. by rewrite IH. Qed.

(** C24: [form.validate_on_submit()] holds exactly when the request is a
    submission with a valid CSRF token carrying a file whose lower-cased
    name ends with ".txt" (so "Mols.TXT" passes and "mols.txt.gz" does
    not); nothing about the file's content is checked. *)
Theorem validate_on_submit_spec (r : Request) :
  validate_on_submit r = true <->
  is_submitted r = true /\ csrf_valid r = true /\
  exists fs stem, file_field r = Some fs /\ lower (filename fs) = stem +:+ ".txt".
Proof.
  unfold validate_on_submit, UploadForm_file_valid, FileRequired, FileAllowed.
  rewrite !andb_true_iff. destruct (file_field r) as [fs|]; simpl.
  - destruct (String.eqb_spec (filename fs) EmptyString) as [He|Hne]; simpl.
    + split; [intros (_ & [=] & _)|]. intros (_ & _ & fs' & stem & [= <-] & Hl).
      apply (f_equal String.length) in Hl. rewrite lower_length, He, string_app_length in Hl.
      simpl in Hl. lia.
    + rewrite orb_false_r, endswith_spec. split.
      * intros ((? & ?) & _ & pre & Hpre). split; [done|]. split; [done|]. by exists fs, pre.
      * intros (? & ? & fs' & stem & [= <-] & Hl). split; [done|]. split; [done|]. by exists stem.
  - split; [intros (_ & [=] & _)|]. intros (_ & _ & fs & stem & [=] & _).
Qed.

Definition upload_of (fname : string) : Request := {|
  req_method := POST; content_length := 512; csrf_valid := true;
  file_field := Some {| filename := fname; file_text := "CCO"%string |} |}.

Lemma validate_on_submit_spec_witness :
  validate_on_submit (upload_of "Mols.TXT") = true /\ validate_on_submit (upload_of "mols.txt.gz") = false /\
  (is_submitted (upload_of "Mols.TXT") = true /\ csrf_valid (upload_of "Mols.TXT") = true /\
   exists fs stem, file_field (upload_of "Mols.TXT") = Some fs /\ lower (filename fs) = stem +:+ ".txt").
Proof.
  assert (H : validate_on_submit (upload_of "Mols.TXT") = true) by reflexivity.
  split; [exact H|]. split; [reflexivity|].
  exact (proj1 (validate_on_submit_spec (upload_of "Mols.TXT")) H).
Defined.
