(* ===== verification/Frame.v ===== *)
(** * The DataFrame of [index] and [next]

    src/app.py builds the table as a pandas DataFrame with the columns
    [SMILES], [clogP] and [sascore] (lines 36-40), writes the descriptors
    in place by label (lines 44-45), and later reads it back from the
    session (line 55).  A frame is a record of its three columns, in row
    order; the row labels are [0 .. n-1] throughout, so a label is a
    position.  The writes by label are stdpp's list insert. *)

From S2P Require Import Prelude PyFloat Csv.

(** ** The DataFrame *)

Record DataFrame := {
  SMILES : list cell;
  clogP : list float;
  sascore : list float;
}.

(** [pd.concat([df, pd.DataFrame(np.zeros((len(df), 2)),
    columns=["clogP", "sascore"])], axis=1)] *)
Definition with_zero_columns (smiles : list cell) : DataFrame := {|
  SMILES := smiles;
  clogP := repeat 0%float (length smiles);
  sascore := repeat 0%float (length smiles);
|}.

(** [df.loc[idx, ["clogP"]] = v]; [idx] is always a label of the frame
    here (the frame has a row per cell and [idx] counts the cells, see
    [index_loop_refines]), so pandas' enlargement on a new label never
    happens. *)
Definition loc_set_clogP (idx : nat) (v : float) (df : DataFrame) : DataFrame :=
  {| SMILES := SMILES df; clogP := <[idx := v]> (clogP df); sascore := sascore df |}.

(** [df.loc[idx, ["sascore"]] = v] *)
Definition loc_set_sascore (idx : nat) (v : float) (df : DataFrame) : DataFrame :=
  {| SMILES := SMILES df; clogP := clogP df; sascore := <[idx := v]> (sascore df) |}.

