(* ===== verification/Json.v ===== *)
(** * The session's table: [df.to_json()] and [pd.read_json(...)]

    [index] stores the table as text, [session["data"] = df.to_json()]
    (src/app.py line 49), and [next] reads it back with
    [pd.read_json(session["data"])] (line 55).  Both go through pandas'
    vendored ujson ([pandas/_libs/src/vendored/ujson]): the encoder with
    [orient="columns"], [double_precision=10] and [ensure_ascii=True]; the
    decoder with [precise_float=False]; then [read_json]'s conversion of
    the columns' types.

    - [json] is the value the encoder walks and the decoder builds
      (Python's [None], [True], [False], [int], [float], [str], [list],
      [dict]).
    - [json_encode] is ujson's [encode]: [escape_char] is
      [Buffer_EscapeStringValidated] with [forceASCII], [format_double] is
      [Buffer_AppendDoubleUnchecked] with its [%.10g] fallback
      ([format_g], glibc's [printf]), and a non-finite float is written
      [null] (pandas' [Object_beginTypeContext] gives it [JT_NULL]).
    - [decode_any] is ujson's decoder: [decode_string], [decode_numeric],
      [decode_object] and [decode_array] with the nesting limit
      [JSON_MAX_OBJECT_DEPTH]; [json_loads] rejects trailing data.
    - [frame_json] is the value [to_json] encodes for a DataFrame, and
      [frame_of_json] the DataFrame [read_json] builds from the decoded
      dictionary, with [_try_convert_data]'s conversion of a column of
      strings to floats ([convert_object_column]).

    Strings of the model are sequences of code points below 256.  The
    encoder writes every character from U+0080 as [\u00XX], so a text
    written by [to_json] is ASCII; the decoder reports a raw byte from
    0x80, a NUL byte and a [\u] escape at or above U+0100 as outside the
    model ([DOutside]).

    The theorems: [format_double_num] (every finite double is written as
    a number text the decoder accepts), [decode_encode] (the decoder reads
    back every well-formed value as [json_rt] of it, by induction on the
    nesting depth with the loop lemmas [decode_items_loop] and
    [decode_members_loop]), [read_json_to_json] (the frame round trip),
    [read_json_typed] and [convert_keeps_strings] (the dtype of the
    SMILES column after the round trip), and the concrete facts behind
    two findings, [inf_smiles_becomes_float] and [read_float_inexact]. *)

From S2P Require Import Prelude PyFloat Csv Frame.
From Stdlib Require Import FloatAxioms.

(** ** JSON values *)

Inductive json :=
  | JNull
  | JTrue
  | JFalse
  | JInt (z : Z)
  | JFloat (f : float)
  | JStr (s : string)
  | JArray (l : list json)
  | JObject (m : list (string * json)).

(** ** The encoder *)

Definition QUOTE : ascii := "034"%char.
Definition BSLASH : ascii := "092"%char.

(** [g_hexChars] *)
Definition hex_char (n : nat) : ascii :=
  nth n (list_ascii_of_string "0123456789abcdef") "0"%char.

(** One character of a string, as [Buffer_EscapeStringValidated] writes it
    with [forceASCII] and without [encodeHTMLChars]: the quote, the
    backslash and the slash escaped, the five named control characters,
    every other control character and every character from U+0080 as
    [\u00XX] (lower-case hex), anything else as itself. *)
Definition escape_char (c : ascii) : list ascii :=
  let n := nat_of_ascii c in
  if n =? 34 then [BSLASH; QUOTE]
  else if n =? 92 then [BSLASH; BSLASH]
  else if n =? 47 then [BSLASH; "/"%char]
  else if n =? 8 then [BSLASH; "b"%char]
  else if n =? 12 then [BSLASH; "f"%char]
  else if n =? 10 then [BSLASH; "n"%char]
  else if n =? 13 then [BSLASH; "r"%char]
  else if n =? 9 then [BSLASH; "t"%char]
  else if (n <? 32) || (128 <=? n)
  then [BSLASH; "u"%char; "0"%char; "0"%char; hex_char (n / 16); hex_char (n mod 16)]
  else [c].

Definition encode_string (s : string) : list ascii :=
  QUOTE :: flat_map escape_char (list_ascii_of_string s) ++ [QUOTE].

(** The decimal digits of [n >= 0], most significant first: the
    encoder's [do { *wstr++ = (char)(48 + (n % 10)); } while (n /= 10);]
    followed by [strreverse].  [fuel] bounds the number of digits; the
    binary length of [n] plus one is enough ([digits_acc_spec]). *)
Fixpoint digits_acc (fuel : nat) (n : Z) (acc : list ascii) : list ascii :=
  match fuel with
  | O => acc
  | S f =>
      let acc' := ascii_of_nat (48 + Z.to_nat (n mod 10)) :: acc in
      if (n / 10 =? 0)%Z then acc' else digits_acc f (n / 10) acc'
  end.

Definition digits_of_Z (z : Z) : list ascii :=
  let n := Z.max z 0 in digits_acc (S (Z.to_nat (Z.log2 n))) n [].

(** [Buffer_AppendLongUnchecked] / [Buffer_AppendUnsignedLongUnchecked] *)
Definition int_text (z : Z) : list ascii :=
  if (z <? 0)%Z then "-"%char :: digits_of_Z (- z) else digits_of_Z z.

(** The double precision [to_json] passes. *)
Definition DOUBLE_PRECISION : nat := 10.

(** [thres_max = (double)1e16 - 1] (which rounds to [1e16]) and
    [thres_min = (double)1e-15]. *)
Definition thres_max : float := (1e16 - 1)%float.
Definition thres_min : float := round_decimal false 1 (-15).

(** [g_pow10[DOUBLE_PRECISION]] *)
Definition enc_pow10 : float := round_decimal false 1 (Z.of_nat DOUBLE_PRECISION).

(** ** printf("%.10g", v)

    glibc formats the exact binary value: [X] is the decimal exponent of
    [v] rounded to 10 significant digits [D] (ties to even); with
    [10 > X >= -4] the [%f] style with [9 - X] decimals, otherwise the [%e]
    style; trailing zeros and a trailing point removed; the exponent has a
    sign and at least two digits. *)

(** The number of decimal digits of a positive integer. *)
Definition ndigits (z : Z) : Z := Z.of_nat (length (digits_of_Z z)).

(** [X] with [10^X <= p / q < 10^(X+1)], for [p, q > 0]. *)
Definition decimal_exponent (p q : Z) : Z :=
  let t := (ndigits p - ndigits q)%Z in
  if (0 <=? t)%Z then (if (q * 10 ^ t <=? p)%Z then t else t - 1)%Z
  else (if (q <=? p * 10 ^ (- t))%Z then t else t - 1)%Z.

(** [num / den] rounded to the nearest integer, ties to even. *)
Definition round_ne (num den : Z) : Z :=
  let q := (num / den)%Z in
  let r := (num mod den)%Z in
  if (den <? 2 * r)%Z then (q + 1)%Z
  else if (2 * r =? den)%Z then (if Z.odd q then q + 1 else q)%Z
  else q.

(** Trailing zeros removed from a digit string. *)
Definition strip_trailing_zeros (ds : list ascii) : list ascii :=
  reverse (drop_while (fun c => Ascii.eqb c "0") (reverse ds)).

(** The text of [D * 10^(X-9)] ([D] with 10 digits) in the style [%g]
    chooses. *)
Definition g_text (s : bool) (D X : Z) : list ascii :=
  let ds := digits_of_Z D in
  let sign := if s then ["-"%char] else [] in
  if (X <? -4)%Z || (10 <=? X)%Z then
    let rest := strip_trailing_zeros (tail ds) in
    let xs := digits_of_Z (Z.abs X) in
    sign ++ take 1 ds ++ (if bool_decide (rest = []) then [] else "."%char :: rest)
         ++ "e"%char :: (if (X <? 0)%Z then "-"%char else "+"%char)
         :: (if (length xs <? 2)%nat then "0"%char :: xs else xs)
  else if (0 <=? X)%Z then
    let fp := strip_trailing_zeros (drop (Z.to_nat X + 1) ds) in
    sign ++ take (Z.to_nat X + 1) ds ++ (if bool_decide (fp = []) then [] else "."%char :: fp)
  else
    sign ++ "0"%char :: "."%char :: repeat "0"%char (Z.to_nat (- X) - 1) ++ strip_trailing_zeros ds.

(** The 10 significant digits [D] and the exponent [X] of [p / q]. *)
Definition g_digits (p q : Z) : Z * Z :=
  let X0 := decimal_exponent p q in
  let D0 := if (9 - X0 <? 0)%Z then round_ne p (q * 10 ^ (X0 - 9))
            else round_ne (p * 10 ^ (9 - X0)) q in
  if (D0 =? 10 ^ 10)%Z then ((10 ^ 9)%Z, (X0 + 1)%Z) else (D0, X0).

Definition format_g (v : float) : list ascii :=
  match Prim2SF v with
  | S754_zero s => if s then list_ascii_of_string "-0" else list_ascii_of_string "0"
  | S754_infinity s => if s then list_ascii_of_string "-inf" else list_ascii_of_string "inf"
  | S754_nan => list_ascii_of_string "nan"
  | S754_finite s m e =>
      let '(p, q) := if (0 <=? e)%Z then (Zpos m * 2 ^ e, 1)%Z else (Zpos m, 2 ^ (- e))%Z in
      let '(D, X) := g_digits p q in
      g_text s D X
  end.

(** The fractional digits: [frac] with its trailing zeros removed and
    [count] decremented for each ([while (!(frac % 10))]), then the
    remaining [count] positions padded with leading zeros.  The fuel
    [DOUBLE_PRECISION] is enough because [0 < frac < 10^10]. *)
Fixpoint strip_frac (fuel count : nat) (frac : Z) : nat * Z :=
  match fuel with
  | O => (count, frac)
  | S f => if (frac mod 10 =? 0)%Z then strip_frac f (count - 1) (frac / 10) else (count, frac)
  end.

Definition frac_text (frac : Z) : list ascii :=
  let '(count, frac') := strip_frac DOUBLE_PRECISION DOUBLE_PRECISION frac in
  let ds := digits_of_Z frac' in
  repeat "0"%char (count - length ds) ++ ds.

(** The fixed notation: the integer part, the point and the fraction
    ([0] when it is zero), after a minus sign when negative. *)
Definition fixed_text (neg : bool) (whole frac : Z) : list ascii :=
  let body := digits_of_Z whole ++ "."%char ::
                (if (frac =? 0)%Z then ["0"%char] else frac_text frac) in
  if neg then "-"%char :: body else body.

(** [Buffer_AppendDoubleUnchecked] on a finite double with
    [doublePrecision = 10]. *)
Definition format_double (value0 : float) : list ascii :=
  let neg := PrimFloat.ltb value0 0%float in
  let value := if neg then (- value0)%float else value0 in
  if PrimFloat.ltb thres_max value
     || (negb (PrimFloat.eqb value 0%float) && PrimFloat.ltb (PrimFloat.abs value) thres_min)
  then format_g (if neg then (- value)%float else value)
  else
    let whole := trunc_Z value in
    let tmp := ((value - float_of_Z whole) * enc_pow10)%float in
    let frac := trunc_Z tmp in
    let diff := (tmp - float_of_Z frac)%float in
    let frac :=
      if PrimFloat.ltb 0.5%float diff then (frac + 1)%Z
      else if PrimFloat.eqb diff 0.5%float && ((frac =? 0)%Z || Z.odd frac) then (frac + 1)%Z
      else frac in
    (* [frac] is below 2^53 here, so [(double)frac >= pow10] is exact. *)
    let '(whole, frac) := if (10 ^ 10 <=? frac)%Z then ((whole + 1)%Z, 0%Z) else (whole, frac) in
    fixed_text neg whole frac.

(** [a,b,c] *)
Definition join_comma (parts : list (list ascii)) : list ascii :=
  match parts with
  | [] => []
  | p :: ps => p ++ flat_map (fun q => ","%char :: q) ps
  end.

(** ujson's [encode] on a Python value; a NaN or infinite float is
    [JT_NULL]. *)
Fixpoint json_encode (v : json) : list ascii :=
  match v with
  | JNull => list_ascii_of_string "null"
  | JTrue => list_ascii_of_string "true"
  | JFalse => list_ascii_of_string "false"
  | JInt z => int_text z
  | JFloat f => if is_finite f then format_double f else list_ascii_of_string "null"
  | JStr s => encode_string s
  | JArray l => "["%char :: join_comma (map json_encode l) ++ ["]"%char]
  | JObject m =>
      "{"%char :: join_comma (map (fun kv => encode_string kv.1 ++ ":"%char :: json_encode kv.2) m)
        ++ ["}"%char]
  end.

(** ** The decoder *)

(** A decoding step: the value and the rest of the input, a
    [ValueError], or an input outside the model. *)
Inductive dec (A : Type) :=
  | DOk (a : A) (rest : list ascii)
  | DErr
  | DOutside.
Arguments DOk {A} a rest.
Arguments DErr {A}.
Arguments DOutside {A}.

(** [SkipWhitespace] *)
Definition json_ws (c : ascii) : bool :=
  bool_decide (nat_of_ascii c ∈ [32; 9; 13; 10]).

Definition skip_ws (s : list ascii) : list ascii := drop_while json_ws s.

(** The input after the character [c], when it starts with [c]. *)
Definition starts_with (c : ascii) (s : list ascii) : option (list ascii) :=
  match s with
  | c' :: r => if Ascii.eqb c' c then Some r else None
  | [] => None
  end.

(** [decode_true], [decode_false], [decode_null]: the rest of the word. *)
Definition decode_word (word : string) (v : json) (s : list ascii) : dec json :=
  let w := list_ascii_of_string word in
  if bool_decide (take (length w) s = w) then DOk v (drop (length w) s) else DErr.

Definition hex_val (c : ascii) : option nat :=
  let n := nat_of_ascii c in
  if (48 <=? n) && (n <=? 57) then Some (n - 48)
  else if (97 <=? n) && (n <=? 102) then Some (n - 87)
  else if (65 <=? n) && (n <=? 70) then Some (n - 55)
  else None.

(** [decode_string] after the opening quote; [acc] is the string so far,
    reversed. *)
Fixpoint decode_str (s : list ascii) (acc : list ascii) : dec string :=
  match s with
  | [] => DErr
  | c :: rest =>
      let n := nat_of_ascii c in
      if n =? 34 then DOk (string_of_list_ascii (reverse acc)) rest
      else if n =? 92 then
        match rest with
        | [] => DErr
        | e :: rest' =>
            let m := nat_of_ascii e in
            if m =? 92 then decode_str rest' (BSLASH :: acc)
            else if m =? 34 then decode_str rest' (QUOTE :: acc)
            else if m =? 47 then decode_str rest' ("/"%char :: acc)
            else if m =? 98 then decode_str rest' ("008"%char :: acc)
            else if m =? 102 then decode_str rest' ("012"%char :: acc)
            else if m =? 110 then decode_str rest' ("010"%char :: acc)
            else if m =? 114 then decode_str rest' ("013"%char :: acc)
            else if m =? 116 then decode_str rest' ("009"%char :: acc)
            else if m =? 117 then
              match rest' with
              | h1 :: h2 :: h3 :: h4 :: rest'' =>
                  match hex_val h1, hex_val h2, hex_val h3, hex_val h4 with
                  | Some a, Some b, Some c', Some d =>
                      let v := ((a * 16 + b) * 16 + c') * 16 + d in
                      if v <? 256 then decode_str rest'' (ascii_of_nat v :: acc) else DOutside
                  | _, _, _, _ => DErr
                  end
              | _ => DErr
              end
            else DErr
        end
      else if (n =? 0) || (128 <=? n) then DOutside
      else decode_str rest (c :: acc)
  end.

(** The integer part of [decode_numeric]: [intValue] in unsigned 64-bit
    arithmetic with the two overflow checks; [None] is "Value is too
    big!" or "Value is too small". *)
Fixpoint scan_int (neg : bool) (v : Z) (s : list ascii) : option (Z * list ascii) :=
  match s with
  | c :: rest =>
      if is_digit c then
        let v' := ((v * 10 + digit_val c) mod 2 ^ 64)%Z in
        if negb neg && (v' <? v)%Z then None
        else if neg && (2 ^ 63 <? v')%Z then None
        else scan_int neg v' rest
      else Some (v, s)
  | [] => Some (v, [])
  end.

Definition JSON_DOUBLE_MAX_DECIMALS : nat := 15.

(** The fraction: at most 15 digits enter [frcValue]. *)
Fixpoint scan_frac (frc : float) (cnt : nat) (s : list ascii) : float * nat * list ascii :=
  match s with
  | c :: rest =>
      if is_digit c then
        if cnt <? JSON_DOUBLE_MAX_DECIMALS
        then scan_frac (frc * 10 + float_of_Z (digit_val c))%float (S cnt) rest
        else scan_frac frc cnt rest
      else (frc, cnt, s)
  | [] => (frc, cnt, [])
  end.

(** The exponent digits, accumulated in a double. *)
Fixpoint scan_exp (x : float) (s : list ascii) : float * list ascii :=
  match s with
  | c :: rest =>
      if is_digit c then scan_exp (x * 10 + float_of_Z (digit_val c))%float rest else (x, s)
  | [] => (x, [])
  end.

(** [createDouble]'s table [0.1^k] (the source's double literals). *)
Definition dec_pow10 (k : nat) : float := round_decimal false 1 (- Z.of_nat k).

Definition createDouble (intNeg intValue frcValue : float) (frcDecimalCount : nat) : float :=
  ((intValue + frcValue * dec_pow10 frcDecimalCount) * intNeg)%float.

(** [pow(10.0, y)] for the integral [y] the decoder passes: the correctly
    rounded power of ten. *)
Definition pow10_float (y : float) : float :=
  if is_finite y then round_decimal false 1 (trunc_Z y)
  else if PrimFloat.ltb 0%float y then PrimFloat.infinity else 0%float.

(** [DECODE_EXPONENT] *)
Definition decode_exponent (base : float) (s : list ascii) : dec json :=
  let '(expNeg, p) := match starts_with "-" s, starts_with "+" s with
                      | Some r, _ => ((-1)%float, r)
                      | None, Some r => (1%float, r)
                      | None, None => (1%float, s)
                      end in
  let '(expValue, rest) := scan_exp 0%float p in
  DOk (JFloat (base * pow10_float (expValue * expNeg))%float) rest.

(** [DECODE_INF]: "nfinity" after the [I]. *)
Definition decode_inf (neg : bool) (s : list ascii) : dec json :=
  match decode_word "nfinity" JNull s with
  | DOk _ rest => DOk (JFloat (if neg then PrimFloat.neg_infinity else PrimFloat.infinity)) rest
  | _ => DErr
  end.

Definition is_exp_char (c : ascii) : bool := Ascii.eqb c "e" || Ascii.eqb c "E".

(** The integer part and what follows, after the sign. *)
Definition decode_unsigned (neg : bool) (p : list ascii) : dec json :=
  let intNeg := if neg then (-1)%float else 1%float in
  match scan_int neg 0 p with
  | None => DErr
  | Some (v, r) =>
      match r with
      | c :: r' =>
          if Ascii.eqb c "." then
            let '(frc, cnt, r'') := scan_frac 0%float 0 r' in
            let base := createDouble intNeg (float_of_Z v) frc cnt in
            match r'' with
            | c' :: r3 => if is_exp_char c' then decode_exponent base r3 else DOk (JFloat base) r''
            | [] => DOk (JFloat base) []
            end
          else if is_exp_char c
          then decode_exponent (createDouble intNeg (float_of_Z v) 0%float 0) r'
          else DOk (JInt (if neg then - v else v)%Z) r
      | [] => DOk (JInt (if neg then - v else v)%Z) []
      end
  end.

(** [decode_numeric], from its first character. *)
Definition decode_numeric (s : list ascii) : dec json :=
  match starts_with "I" s, starts_with "N" s with
  | Some r, _ => decode_inf false r
  | None, Some r => decode_word "aN" JNull r
  | None, None =>
      let '(neg, p) := match starts_with "-" s with Some r => (true, r) | None => (false, s) end in
      match starts_with "I" p with
      | Some r => if neg then decode_inf true r else DErr
      | None => decode_unsigned neg p
      end
  end.

(** [dict[k] = v]: a new key goes last, an existing one keeps its place. *)
Fixpoint dict_set (m : list (string * json)) (k : string) (v : json) : list (string * json) :=
  match m with
  | [] => [(k, v)]
  | (k', v') :: m' => if String.eqb k k' then (k, v) :: m' else (k', v') :: dict_set m' k v
  end.

(** The members of [decode_object] after the opening brace, with the
    decoder [item] for keys and values.  A key must decode to a string;
    a comma may be followed by the closing brace. *)
Fixpoint decode_members (item : list ascii -> dec json) (fuel : nat)
    (acc : list (string * json)) (s : list ascii) : dec json :=
  match fuel with
  | O => DErr
  | S fuel' =>
      match starts_with "}" (skip_ws s) with
      | Some rest => DOk (JObject acc) rest
      | None =>
          match item (skip_ws s) with
          | DOk (JStr k) s2 =>
              match starts_with ":" (skip_ws s2) with
              | Some s3 =>
                  match item s3 with
                  | DOk v s4 =>
                      let acc' := dict_set acc k v in
                      match starts_with "}" (skip_ws s4), starts_with "," (skip_ws s4) with
                      | Some rest, _ => DOk (JObject acc') rest
                      | None, Some rest => decode_members item fuel' acc' rest
                      | None, None => DErr
                      end
                  | DErr => DErr
                  | DOutside => DOutside
                  end
              | None => DErr
              end
          | DOk _ _ => DErr
          | DErr => DErr
          | DOutside => DOutside
          end
      end
  end.

(** The items of [decode_array] after the opening bracket; a closing
    bracket right after a comma is an error. *)
Fixpoint decode_items (item : list ascii -> dec json) (fuel : nat)
    (acc : list json) (s : list ascii) : dec json :=
  match fuel with
  | O => DErr
  | S fuel' =>
      match starts_with "]" (skip_ws s) with
      | Some rest => if bool_decide (acc = []) then DOk (JArray []) rest else DErr
      | None =>
          match item (skip_ws s) with
          | DOk v s2 =>
              match starts_with "]" (skip_ws s2), starts_with "," (skip_ws s2) with
              | Some rest, _ => DOk (JArray (acc ++ [v])) rest
              | None, Some rest => decode_items item fuel' (acc ++ [v]) rest
              | None, None => DErr
              end
          | DErr => DErr
          | DOutside => DOutside
          end
      end
  end.

(** [JSON_MAX_OBJECT_DEPTH] *)
Definition JSON_MAX_OBJECT_DEPTH : nat := 1024.

(** [decode_any] with [d] the nesting levels still allowed. *)
Fixpoint decode_any (d : nat) (s : list ascii) : dec json :=
  match skip_ws s with
  | [] => DErr
  | c :: rest =>
      if Ascii.eqb c QUOTE then
        match decode_str rest [] with
        | DOk str r => DOk (JStr str) r
        | DErr => DErr
        | DOutside => DOutside
        end
      else if is_digit c || Ascii.eqb c "I" || Ascii.eqb c "N" || Ascii.eqb c "-"
      then decode_numeric (c :: rest)
      else if Ascii.eqb c "[" then
        match d with O => DErr | S d' => decode_items (decode_any d') (S (length rest)) [] rest end
      else if Ascii.eqb c "{" then
        match d with O => DErr | S d' => decode_members (decode_any d') (S (length rest)) [] rest end
      else if Ascii.eqb c "t" then decode_word "rue" JTrue rest
      else if Ascii.eqb c "f" then decode_word "alse" JFalse rest
      else if Ascii.eqb c "n" then decode_word "ull" JNull rest
      else DErr
  end.

(** [JSON_DecodeObject]: one value, then only white space. *)
Definition json_loads (text : string) : dec json :=
  match decode_any JSON_MAX_OBJECT_DEPTH (list_ascii_of_string text) with
  | DOk v rest => if bool_decide (skip_ws rest = []) then DOk v [] else DErr
  | DErr => DErr
  | DOutside => DOutside
  end.

(** ** DataFrame to JSON and back *)

(** A value of the [SMILES] column as the encoder sees it. *)
Definition json_of_cell (c : cell) : json :=
  match c with
  | CellStr s => JStr s
  | CellNaN => JFloat PrimFloat.nan
  | CellInt z => JInt z
  | CellFloat f => JFloat f
  | CellBool b => if b then JTrue else JFalse
  end.

(** A column with [orient="columns"]: its row labels [0 .. n-1], written
    as strings, to its values. *)
Definition column_json {A} (f : A -> json) (col : list A) : json :=
  JObject (zip (map string_of_nat (seq 0 (length col))) (map f col)).

Definition frame_json (df : DataFrame) : json :=
  JObject [("SMILES", column_json json_of_cell (SMILES df));
           ("clogP", column_json JFloat (clogP df));
           ("sascore", column_json JFloat (sascore df))].

(** [df.to_json()] *)
Definition to_json (df : DataFrame) : string :=
  string_of_list_ascii (json_encode (frame_json df)).

(** [_try_convert_data] on a column of strings: [astype("float64")]
    (Python's [float] on every value) when it succeeds, then [astype("int64")]
    when every value is integral and fits; otherwise the strings stay. *)
Definition int64_exact (f : float) : bool :=
  is_finite f && PrimFloat.eqb (float_of_Z (trunc_Z f)) f
  && (- 2 ^ 63 <=? trunc_Z f)%Z && (trunc_Z f <? 2 ^ 63)%Z.

Definition convert_object_column (ss : list string) : list cell :=
  match mapM py_float ss with
  | Some fs =>
      if bool_decide (fs <> []) && forallb int64_exact fs
      then map (fun f => CellInt (trunc_Z f)) fs
      else map (fun f => if is_nan f then CellNaN else CellFloat f) fs
  | None => map CellStr ss
  end.

Definition str_value (v : json) : option string :=
  match v with JStr s => Some s | _ => None end.

(** A value of a float64 column: [None] is NaN. *)
Definition num_value (v : json) : option float :=
  match v with
  | JFloat f => Some f
  | JInt z => Some (float_of_Z z)
  | JNull => Some PrimFloat.nan
  | _ => None
  end.

(** The outcome of [pd.read_json]: the frame, the decoder's [ValueError],
    or a text outside the model. *)
Inductive read_outcome :=
  | ReadFrame (df : DataFrame)
  | ReadError (e : exn)
  | ReadOutsideModel.

(** [DataFrame(dict)] of the decoded dictionary and the type conversion,
    for the shape [to_json] writes: the three columns with the same row
    labels in the same order, strings in [SMILES] and numbers in the
    others.  Other shapes are outside the model. *)
Definition frame_of_json (v : json) : read_outcome :=
  match v with
  | JObject [(c1, JObject ms); (c2, JObject mc); (c3, JObject ma)] =>
      if bool_decide (c1 = "SMILES"%string /\ c2 = "clogP"%string /\ c3 = "sascore"%string
                      /\ ms.*1 = mc.*1 /\ ms.*1 = ma.*1) then
        match mapM str_value ms.*2, mapM num_value mc.*2, mapM num_value ma.*2 with
        | Some ss, Some xs, Some ys =>
            ReadFrame {| SMILES := convert_object_column ss; clogP := xs; sascore := ys |}
        | _, _, _ => ReadOutsideModel
        end
      else ReadOutsideModel
  | _ => ReadOutsideModel
  end.

(** [pd.read_json(text)] *)
Definition read_json (text : string) : read_outcome :=
  match json_loads text with
  | DOk v _ => frame_of_json v
  | DErr => ReadError ValueError
  | DOutside => ReadOutsideModel
  end.

(** ** What a value becomes after a round trip *)

(** The nesting depth of arrays and objects. *)
Fixpoint json_depth (v : json) : nat :=
  match v with
  | JArray l => S (list_max (map json_depth l))
  | JObject m => S (list_max (map (fun kv => json_depth kv.2) m))
  | _ => 0
  end.

(** The values the encoder writes faithfully: integers in the 64-bit
    ranges ujson handles ([long long] and [unsigned long long]) and
    objects without repeated keys (a Python dict has none). *)
Fixpoint json_wf (v : json) : bool :=
  match v with
  | JInt z => (- 2 ^ 63 <=? z)%Z && (z <? 2 ^ 64)%Z
  | JArray l => forallb json_wf l
  | JObject m => bool_decide (NoDup m.*1) && forallb (fun kv => json_wf kv.2) m
  | _ => true
  end.

(** The number the decoder reads back from the text of a finite double. *)
Definition float_rt (f : float) : json :=
  match decode_numeric (format_double f) with DOk v _ => v | _ => JNull end.

(** The value read back: finite doubles through their 10-digit text,
    NaN and the infinities as [null]; everything else unchanged. *)
Fixpoint json_rt (v : json) : json :=
  match v with
  | JFloat f => if is_finite f then float_rt f else JNull
  | JArray l => JArray (map json_rt l)
  | JObject m => JObject (map (fun kv => (kv.1, json_rt kv.2)) m)
  | _ => v
  end.

(** A float column value after [to_json] and [read_json]. *)
Definition read_float (f : float) : float :=
  default PrimFloat.nan (num_value (json_rt (JFloat f))).

(** The pandas dtype of a column of cells: [object] (strings), [int64],
    or [float64] (NaN included). *)
Definition cell_is_str (c : cell) : bool := match c with CellStr _ => true | _ => false end.
Definition cell_is_int (c : cell) : bool := match c with CellInt _ => true | _ => false end.
Definition cell_is_float (c : cell) : bool :=
  match c with CellFloat _ | CellNaN => true | _ => false end.

(** A frame as [/next] uses it: three columns of one length, and a SMILES
    column of a single dtype. *)
Definition frame_typed (df : DataFrame) : bool :=
  (length (clogP df) =? length (SMILES df)) && (length (sascore df) =? length (SMILES df)) &&
  (forallb cell_is_str (SMILES df) || forallb cell_is_int (SMILES df)
   || forallb cell_is_float (SMILES df)).

(** ** Digits *)

Lemma digit_char_spec (k : Z) :
  (0 <= k < 10)%Z ->
  is_digit (ascii_of_nat (48 + Z.to_nat k)) = true /\
  digit_val (ascii_of_nat (48 + Z.to_nat k)) = k.
Proof.
  intros Hk. unfold is_digit, digit_val.
  rewrite nat_ascii_embedding by lia. split; [apply andb_true_intro; split; apply Nat.leb_le|]; lia.
Qed.

Lemma digits_acc_S (f : nat) (n : Z) (acc : list ascii) :
  digits_acc (S f) n acc =
  if (n / 10 =? 0)%Z then ascii_of_nat (48 + Z.to_nat (n mod 10)) :: acc
  else digits_acc f (n / 10) (ascii_of_nat (48 + Z.to_nat (n mod 10)) :: acc).
Proof. reflexivity. Qed.

Lemma digits_acc_spec (fuel : nat) (n : Z) (acc : list ascii) :
  (0 <= n < 10 ^ Z.of_nat (S fuel))%Z ->
  exists ds, digits_acc (S fuel) n acc = ds ++ acc /\ ds <> [] /\
    Forall (fun c => is_digit c = true) ds /\ Z_of_digits ds = n.
Proof.
  revert n acc. induction fuel as [|f IH]; intros n acc Hn;
    rewrite Nat2Z.inj_succ, Z.pow_succ_r in Hn by lia; rewrite digits_acc_S;
    pose proof (Z.mod_pos_bound n 10 ltac:(lia)) as Hm;
    destruct (digit_char_spec (n mod 10) Hm) as [Hd Hv];
    remember (ascii_of_nat (48 + Z.to_nat (n mod 10))) as c eqn:Hc.
  - replace (n / 10 =? 0)%Z with true
      by (symmetry; apply Z.eqb_eq; simpl in Hn; Z.to_euclidean_division_equations; lia).
    exists (c :: nil). split; [done|]. split; [done|]. split; [by constructor|].
    unfold Z_of_digits. cbn [foldl]. rewrite Hv. simpl in Hn. Z.to_euclidean_division_equations. lia.
  - case_eq (n / 10 =? 0)%Z; intros Hq.
    + apply Z.eqb_eq in Hq. exists (c :: nil). split; [done|]. split; [done|]. split; [by constructor|].
      unfold Z_of_digits. cbn [foldl]. rewrite Hv. Z.to_euclidean_division_equations. lia.
    + apply Z.eqb_neq in Hq.
      destruct (IH (n / 10)%Z (c :: acc)) as (ds & Hds & Hne & Hdig & Hval).
      { split; [apply Z.div_pos; lia|]. apply Z.div_lt_upper_bound; lia. }
      rewrite Hds. exists (ds ++ [c]). rewrite <- app_assoc.
      split; [done|]. split; [by destruct ds|]. split.
      * apply Forall_app. by split; [|constructor].
      * rewrite Z_of_digits_app, Hval. simpl length. change (Z.of_nat 1) with 1%Z.
        rewrite Z.pow_1_r. unfold Z_of_digits. cbn [foldl]. rewrite Hv.
        Z.to_euclidean_division_equations. lia.
Qed.

Lemma log2_fuel (n : Z) : (0 <= n)%Z -> (n < 10 ^ Z.of_nat (S (Z.to_nat (Z.log2 n))))%Z.
Proof.
  intros Hn. rewrite Nat2Z.inj_succ, Z2Nat.id by apply Z.log2_nonneg.
  apply Z.lt_le_trans with (2 ^ Z.succ (Z.log2 n))%Z.
  - destruct (Z.eq_dec n 0%Z) as [->|Hn0]; [simpl; lia|]. apply Z.log2_spec. lia.
  - apply Z.pow_le_mono_l. pose proof (Z.log2_nonneg n). lia.
Qed.

(** [digits_of_Z] writes the decimal digits of a non-negative integer:
    at least one, and their value is the integer. *)
Lemma digits_of_Z_spec (z : Z) :
  (0 <= z)%Z ->
  digits_of_Z z <> [] /\ Forall (fun c => is_digit c = true) (digits_of_Z z) /\
  Z_of_digits (digits_of_Z z) = z.
Proof.
  intros Hz. unfold digits_of_Z. rewrite Z.max_l by done.
  destruct (digits_acc_spec (Z.to_nat (Z.log2 z)) z []) as (ds & -> & ?);
    [split; [done|by apply log2_fuel]|].
  by rewrite app_nil_r.
Qed.

Lemma digits_of_Z_digits (z : Z) : Forall (fun c => is_digit c = true) (digits_of_Z z).
Proof.
  unfold digits_of_Z. pose proof (digits_of_Z_spec (Z.max z 0)) as H.
  unfold digits_of_Z in H. rewrite (Z.max_l (Z.max z 0) 0) in H by lia. apply H. lia.
Qed.

Lemma digits_of_Z_nonempty (z : Z) : digits_of_Z z <> [].
Proof.
  unfold digits_of_Z. pose proof (digits_of_Z_spec (Z.max z 0)) as H.
  unfold digits_of_Z in H. rewrite (Z.max_l (Z.max z 0) 0) in H by lia. apply H. lia.
Qed.

(** ** Strings *)

(** Every character's escape decodes back to the character (the 256 cases
    are computed). *)
Lemma decode_escape_char (c : ascii) (r acc : list ascii) :
  decode_str (escape_char c ++ r) acc = decode_str r (c :: acc).
Proof. destruct c as [[] [] [] [] [] [] [] []]; reflexivity. Qed.

Lemma decode_str_escaped (cs r acc : list ascii) :
  decode_str (flat_map escape_char cs ++ QUOTE :: r) acc =
  DOk (string_of_list_ascii (reverse acc ++ cs)) r.
Proof.
  revert acc. induction cs as [|c cs IH]; intros acc.
  - simpl. by rewrite app_nil_r.
  - cbn [flat_map]. rewrite <- app_assoc, decode_escape_char, IH.
    by rewrite reverse_cons, <- app_assoc.
Qed.

Lemma skip_ws_quote (r : list ascii) : skip_ws (QUOTE :: r) = QUOTE :: r.
Proof. reflexivity. Qed.

(** ** Numbers *)

(** What may follow a number: not a digit, a point or an exponent mark. *)
Definition nodigit_head (r : list ascii) : Prop :=
  match r with [] => True | c :: _ => is_digit c = false end.

Definition num_stop (r : list ascii) : Prop :=
  match r with
  | [] => True
  | c :: _ => is_digit c = false /\ Ascii.eqb c "." = false /\ is_exp_char c = false
  end.

Lemma num_stop_nodigit (r : list ascii) : num_stop r -> nodigit_head r.
Proof. destruct r; simpl; tauto. Qed.

Lemma digit_eqb (c x : ascii) : is_digit c = true -> is_digit x = false -> Ascii.eqb c x = false.
Proof. intros Hc Hx. destruct (Ascii.eqb_spec c x) as [->|]; congruence. Qed.

Lemma Z_of_digits_cons (c : ascii) (ds : list ascii) :
  Z_of_digits (c :: ds) = (digit_val c * 10 ^ Z.of_nat (length ds) + Z_of_digits ds)%Z.
Proof.
  change (c :: ds) with ([c] ++ ds). by rewrite Z_of_digits_app.
Qed.

(** The integer scanner reads a digit string whose value fits: neither
    overflow check fires and 64-bit arithmetic is exact. *)
Lemma scan_int_digits (neg : bool) (ds r : list ascii) (v0 : Z) :
  Forall (fun c => is_digit c = true) ds -> nodigit_head r -> (0 <= v0)%Z ->
  (if neg then v0 * 10 ^ Z.of_nat (length ds) + Z_of_digits ds <= 2 ^ 63
   else v0 * 10 ^ Z.of_nat (length ds) + Z_of_digits ds < 2 ^ 64)%Z ->
  scan_int neg v0 (ds ++ r) = Some ((v0 * 10 ^ Z.of_nat (length ds) + Z_of_digits ds)%Z, r).
Proof.
  revert v0. induction ds as [|c ds IH]; intros v0 Hds Hr Hv0 Hb.
  - replace (v0 * 10 ^ Z.of_nat (length []) + Z_of_digits [])%Z with v0
      by (unfold Z_of_digits; simpl; lia).
    destruct r as [|c r]; [done|]. simpl in Hr |- *. by rewrite Hr.
  - apply Forall_cons in Hds as [Hc Hds]. pose proof (digit_val_range c Hc) as Hd.
    pose proof (Z_of_digits_bound ds Hds) as Hz.
    pose proof (Z.pow_pos_nonneg 10 (Z.of_nat (length ds)) ltac:(lia) ltac:(lia)) as Hp.
    assert (HF : (v0 * 10 ^ Z.of_nat (length (c :: ds)) + Z_of_digits (c :: ds) =
                  (v0 * 10 + digit_val c) * 10 ^ Z.of_nat (length ds) + Z_of_digits ds)%Z).
    { rewrite Z_of_digits_cons. cbn [length]. rewrite Nat2Z.inj_succ, Z.pow_succ_r by lia. ring. }
    rewrite HF in Hb |- *.
    assert (Hw : (v0 * 10 + digit_val c <=
                  (v0 * 10 + digit_val c) * 10 ^ Z.of_nat (length ds) + Z_of_digits ds)%Z) by nia.
    cbn [app scan_int]. rewrite Hc. rewrite Z.mod_small by (destruct neg; lia).
    assert (H1 : (v0 * 10 + digit_val c <? v0)%Z = false) by (apply Z.ltb_ge; lia).
    rewrite H1, andb_false_r. destruct neg.
    + assert (H2 : (2 ^ 63 <? v0 * 10 + digit_val c)%Z = false) by (apply Z.ltb_ge; lia).
      rewrite H2. apply IH; [done|done|lia|lia].
    + apply IH; [done|done|lia|lia].
Qed.

Lemma scan_frac_digits (ds : list ascii) (frc : float) (cnt : nat) :
  Forall (fun c => is_digit c = true) ds ->
  exists frc' cnt', forall r, nodigit_head r -> scan_frac frc cnt (ds ++ r) = (frc', cnt', r).
Proof.
  revert frc cnt. induction ds as [|c ds IH]; intros frc cnt Hds.
  - exists frc, cnt. intros [|c r] Hr; [done|]. simpl in Hr |- *. by rewrite Hr.
  - apply Forall_cons in Hds as [Hc Hds]. cbn [app scan_frac]. rewrite Hc.
    destruct (cnt <? JSON_DOUBLE_MAX_DECIMALS); apply IH, Hds.
Qed.

Lemma scan_exp_digits (ds : list ascii) (x : float) :
  Forall (fun c => is_digit c = true) ds ->
  exists x', forall r, nodigit_head r -> scan_exp x (ds ++ r) = (x', r).
Proof.
  revert x. induction ds as [|c ds IH]; intros x Hds.
  - exists x. intros [|c r] Hr; [done|]. simpl in Hr |- *. by rewrite Hr.
  - apply Forall_cons in Hds as [Hc Hds]. cbn [app scan_exp]. rewrite Hc. apply IH, Hds.
Qed.

(** A number as the encoder writes one: an optional minus sign, integer
    digits, an optional fraction and an optional exponent with its sign. *)
Definition num_body (ds1 : list ascii) (frac : option (list ascii))
    (ex : option (bool * list ascii)) : list ascii :=
  ds1 ++ default [] (option_map (fun ds2 => "."%char :: ds2) frac)
      ++ default [] (option_map (fun p : bool * list ascii =>
                                   "e"%char :: (if p.1 then "-"%char else "+"%char) :: p.2) ex).

Definition num_text (neg : bool) (ds1 : list ascii) (frac : option (list ascii))
    (ex : option (bool * list ascii)) : list ascii :=
  (if neg then ["-"%char] else []) ++ num_body ds1 frac ex.

Definition digits (ds : list ascii) : Prop := Forall (fun c => is_digit c = true) ds.

(** The conditions under which the decoder reads such a text back. *)
Definition num_ok (ds1 : list ascii) (frac : option (list ascii))
    (ex : option (bool * list ascii)) : Prop :=
  ds1 <> [] /\ digits ds1 /\ (Z_of_digits ds1 < 2 ^ 63)%Z /\
  (forall ds2, frac = Some ds2 -> digits ds2) /\
  (forall en ds3, ex = Some (en, ds3) -> ds3 <> [] /\ digits ds3).

(** A number value: what a float64 column accepts. *)
Definition is_number (v : json) : Prop := is_Some (num_value v) /\ v <> JNull.

Lemma decode_exponent_digits (base : float) (en : bool) (ds3 : list ascii) :
  digits ds3 ->
  exists v, is_number v /\ forall r, nodigit_head r ->
    decode_exponent base ((if en then "-"%char else "+"%char) :: ds3 ++ r) = DOk v r.
Proof.
  intros H3. destruct (scan_exp_digits ds3 0%float H3) as [x Hx].
  exists (JFloat (base * pow10_float (x * (if en then (-1)%float else 1%float)))%float).
  split; [split; [eexists; reflexivity|discriminate]|].
  intros r Hr. unfold decode_exponent. destruct en; simpl; by rewrite Hx.
Qed.

Lemma scan_int_from0 (neg : bool) (ds r : list ascii) :
  digits ds -> nodigit_head r -> (Z_of_digits ds < 2 ^ 63)%Z ->
  scan_int neg 0 (ds ++ r) = Some (Z_of_digits ds, r).
Proof.
  intros Hds Hr Hb. rewrite scan_int_digits by (done || (destruct neg; lia)). do 3 f_equal.
Qed.

(** The decoder reads a number text back as a number and stops where it
    ends. *)
Lemma decode_unsigned_num (neg : bool) (ds1 : list ascii) (frac : option (list ascii))
    (ex : option (bool * list ascii)) :
  num_ok ds1 frac ex ->
  exists v, is_number v /\
    forall r, num_stop r -> decode_unsigned neg (num_body ds1 frac ex ++ r) = DOk v r.
Proof.
  intros (Hne & H1 & Hb & H2 & H3). unfold num_body.
  set (intNeg := if neg then (-1)%float else 1%float).
  destruct frac as [ds2|]; destruct ex as [[en ds3]|]; cbn [option_map default].
  - destruct (scan_frac_digits ds2 0%float 0 (H2 ds2 eq_refl)) as (frc & cnt & Hf).
    destruct (H3 en ds3 eq_refl) as [_ Hd3].
    destruct (decode_exponent_digits (createDouble intNeg (float_of_Z (Z_of_digits ds1)) frc cnt)
                en ds3 Hd3) as (v & Hv & He).
    exists v. split; [done|]. intros r Hr. unfold decode_unsigned. repeat rewrite <- app_assoc.
    rewrite scan_int_from0 by done. cbn [Ascii.eqb app]. simpl.
    rewrite Hf by done. simpl. apply He, num_stop_nodigit, Hr.
  - destruct (scan_frac_digits ds2 0%float 0 (H2 ds2 eq_refl)) as (frc & cnt & Hf).
    exists (JFloat (createDouble intNeg (float_of_Z (Z_of_digits ds1)) frc cnt)).
    split; [split; [eexists; reflexivity|discriminate]|]. intros r Hr. unfold decode_unsigned. repeat rewrite <- app_assoc.
    rewrite app_nil_l, scan_int_from0 by done. simpl.
    rewrite Hf by (apply num_stop_nodigit, Hr).
    destruct r as [|c r]; [done|]. destruct Hr as (_ & _ & ->). done.
  - destruct (H3 en ds3 eq_refl) as [_ Hd3].
    destruct (decode_exponent_digits (createDouble intNeg (float_of_Z (Z_of_digits ds1)) 0%float 0)
                en ds3 Hd3) as (v & Hv & He).
    exists v. split; [done|]. intros r Hr. unfold decode_unsigned. repeat rewrite <- app_assoc.
    rewrite scan_int_from0 by done. simpl. apply He, num_stop_nodigit, Hr.
  - exists (JInt (if neg then - Z_of_digits ds1 else Z_of_digits ds1)%Z).
    split; [split; [eexists; reflexivity|discriminate]|]. intros r Hr. unfold decode_unsigned. repeat rewrite <- app_assoc.
    rewrite app_nil_l, app_nil_l, scan_int_from0 by (done || apply num_stop_nodigit, Hr).
    destruct r as [|c r]; [done|]. destruct Hr as (_ & -> & ->). done.
Qed.

Lemma digit_not_special (c : ascii) :
  is_digit c = true ->
  Ascii.eqb c "I" = false /\ Ascii.eqb c "N" = false /\ Ascii.eqb c "-" = false.
Proof. intros Hc. repeat split; (apply digit_eqb; [exact Hc|reflexivity]). Qed.

(** The decoder reads back a number text from its first character. *)
Lemma decode_numeric_num (neg : bool) (ds1 : list ascii) (frac : option (list ascii))
    (ex : option (bool * list ascii)) :
  num_ok ds1 frac ex ->
  exists v, is_number v /\
    forall r, num_stop r -> decode_numeric (num_text neg ds1 frac ex ++ r) = DOk v r.
Proof.
  intros Hok. destruct (decode_unsigned_num neg ds1 frac ex Hok) as (v & Hv & Hdec).
  exists v. split; [done|]. intros r Hr.
  destruct Hok as (Hne & H1 & _). destruct ds1 as [|c ds1']; [done|].
  apply Forall_cons in H1 as [Hc _]. destruct (digit_not_special c Hc) as (HI & HN & Hm).
  unfold num_text, num_body. rewrite <- (Hdec r Hr). unfold num_body.
  destruct neg; unfold decode_numeric; simpl; rewrite ?HI, ?HN, ?Hm; simpl; rewrite ?HI; done.
Qed.

(** ** The shape of the formatter's output *)

Lemma digits2_pos_size (p : positive) : digits2_pos p = Pos.size p.
Proof. induction p; simpl; congruence. Qed.

(** A finite double's mantissa has at most 53 bits. *)
Lemma valid_mantissa (s : bool) (m : positive) (e : Z) :
  valid_binary (S754_finite s m e) = true -> (Zpos m < 2 ^ 53)%Z.
Proof.
  unfold valid_binary, bounded, canonical_mantissa, fexp, emin. intros H.
  apply andb_prop in H as [H _]. apply Z.eqb_eq in H. rewrite digits2_pos_size in H.
  change prec with 53%Z in H. change emax with 1024%Z in H.
  assert (Hd : (Zpos (Pos.size m) <= 53)%Z) by lia.
  pose proof (Pos.size_gt m) as Hs. change (Zpos m < Zpos (2 ^ Pos.size m))%Z in Hs.
  rewrite Pos2Z.inj_pow in Hs.
  eapply Z.lt_le_trans; [exact Hs|]. apply Z.pow_le_mono_r; lia.
Qed.

Lemma Prim2SF_thres_max : Prim2SF thres_max = S754_finite false 5000000000000000 1.
Proof. vm_compute. reflexivity. Qed.

Lemma trunc_Z_nonneg_part (m : positive) (e : Z) :
  (0 <= (if (0 <=? e)%Z then Z.shiftl (Zpos m) e else Z.shiftr (Zpos m) (- e)))%Z.
Proof. destruct (0 <=? e)%Z; [apply Z.shiftl_nonneg|apply Z.shiftr_nonneg]; lia. Qed.

(** Below the threshold the integer part is at most [10^16]. *)
Lemma trunc_le_thres (v : float) : PrimFloat.ltb thres_max v = false -> (trunc_Z v <= 10 ^ 16)%Z.
Proof.
  rewrite ltb_spec, Prim2SF_thres_max. unfold trunc_Z.
  pose proof (Prim2SF_valid v) as Hv.
  destruct (Prim2SF v) as [s|s| |s m e]; intros H; [lia..|].
  pose proof (trunc_Z_nonneg_part m e) as Ht.
  pose proof (valid_mantissa s m e Hv) as Hm.
  destruct s; [lia|].
  unfold SFltb, SFcompare in H.
  destruct (Z.compare_spec 1 e) as [<-|Hlt|Hgt].
  - change (Pos.compare_cont Eq 5000000000000000 m) with (Pos.compare 5000000000000000 m) in H.
    assert (Hm5 : (Zpos m <= 5000000000000000)%Z).
    { assert (Hc : (5000000000000000 ?= m)%positive <> Lt)
        by (intros Hc; rewrite Hc in H; discriminate).
      assert (Hle : (m <= 5000000000000000)%positive).
      { apply Pos.le_nlt. intros Hlt. apply Hc, Pos.compare_lt_iff, Hlt. }
      apply Pos2Z.pos_le_pos in Hle. lia. }
    change (0 <=? 1)%Z with true. cbv iota. rewrite Z.shiftl_mul_pow2 by lia. lia.
  - done.
  - destruct (0 <=? e)%Z eqn:He.
    + apply Z.leb_le in He. replace e with 0%Z by lia. rewrite Z.shiftl_0_r. lia.
    + rewrite Z.shiftr_div_pow2 by lia.
      assert (Zpos m / 2 ^ (- e) <= Zpos m)%Z.
      { apply Z.div_le_upper_bound; [apply Z.pow_pos_nonneg; lia|].
        pose proof (Z.pow_pos_nonneg 2 (- e) ltac:(lia) ltac:(lia)). nia. }
      lia.
Qed.

(** Digit strings are closed under the cuts the formatter makes. *)
Lemma digits_strip (ds : list ascii) : digits ds -> digits (strip_trailing_zeros ds).
Proof.
  unfold digits, strip_trailing_zeros. rewrite !Forall_forall. intros H c.
  rewrite elem_of_reverse. intros Hc. apply H, elem_of_reverse.
  generalize dependent (reverse ds). intros l. induction l as [|x l IH]; simpl; [done|].
  destruct (Ascii.eqb x "0"); [intros Hc; right; by apply IH|done].
Qed.

Lemma digits_repeat0 (n : nat) : digits (repeat "0"%char n).
Proof. induction n; by constructor. Qed.

Lemma digits_tail (ds : list ascii) : digits ds -> digits (tail ds).
Proof. destruct ds; [done|]. by intros [_ ?]%Forall_cons. Qed.

Lemma digits_frac_text (frac : Z) : digits (frac_text frac).
Proof.
  unfold frac_text. destruct (strip_frac _ _ _) as [count f'].
  apply Forall_app_2; [apply digits_repeat0|apply digits_of_Z_digits].
Qed.

Lemma digits_app (ds1 ds2 : list ascii) : digits ds1 -> digits ds2 -> digits (ds1 ++ ds2).
Proof. apply Forall_app_2. Qed.

Lemma digits_take (n : nat) (ds : list ascii) : digits ds -> digits (take n ds).
Proof. apply Forall_take. Qed.

Lemma digits_drop (n : nat) (ds : list ascii) : digits ds -> digits (drop n ds).
Proof. apply Forall_drop. Qed.

Lemma digits_of_Z_ds (z : Z) : digits (digits_of_Z z).
Proof. apply digits_of_Z_digits. Qed.

Create HintDb digits.
#[local] Hint Resolve digits_strip digits_repeat0 digits_tail digits_frac_text
  digits_of_Z_ds digits_take digits_drop digits_app : digits.

Lemma Z_of_digits_of_Z (z : Z) : Z_of_digits (digits_of_Z z) = Z.max z 0.
Proof.
  unfold digits_of_Z. pose proof (digits_of_Z_spec (Z.max z 0)) as H.
  unfold digits_of_Z in H. rewrite (Z.max_l (Z.max z 0) 0) in H by lia. apply H. lia.
Qed.

(** A digit string of at most [n] digits is below [10^n]. *)
Lemma Z_of_digits_short (ds : list ascii) (n : nat) :
  digits ds -> length ds <= n -> (Z_of_digits ds < 10 ^ Z.of_nat n)%Z.
Proof.
  intros Hds Hn. pose proof (Z_of_digits_bound ds Hds) as Hb.
  eapply Z.lt_le_trans; [apply Hb|]. apply Z.pow_le_mono_r; lia.
Qed.

Lemma num_ok_zero : num_ok ["0"%char] None None.
Proof.
  split; [discriminate|]. split; [repeat constructor|]. split; [reflexivity|].
  split; intros *; discriminate.
Qed.

Lemma take_nonempty (n : nat) (ds : list ascii) : ds <> [] -> take (S n) ds <> [].
Proof. by destruct ds. Qed.

(** The [%g] text of any digits and exponent is a number text the decoder
    accepts. *)
Lemma g_text_num (s : bool) (D X : Z) :
  exists neg ds1 frac ex, g_text s D X = num_text neg ds1 frac ex /\ num_ok ds1 frac ex.
Proof.
  pose proof (digits_of_Z_digits D) as Hd. pose proof (digits_of_Z_nonempty D) as Hne.
  unfold g_text. cbv zeta.
  destruct ((X <? -4)%Z || (10 <=? X)%Z) eqn:Hsty; [|destruct (0 <=? X)%Z eqn:Hpos].
  - set (rest := strip_trailing_zeros (tail (digits_of_Z D))).
    set (xs := digits_of_Z (Z.abs X)).
    set (xs' := if (length xs <? 2)%nat then "0"%char :: xs else xs).
    exists s, (take 1 (digits_of_Z D)), (if bool_decide (rest = []) then None else Some rest),
      (Some ((X <? 0)%Z, xs')).
    split; [unfold num_text, num_body; by destruct (bool_decide (rest = []))|].
    assert (Hxs : xs' <> [] /\ digits xs').
    { pose proof (digits_of_Z_nonempty (Z.abs X)).
      unfold xs'. destruct (length xs <? 2)%nat; unfold xs.
      - split; [discriminate|]. constructor; [reflexivity|apply digits_of_Z_digits].
      - split; [done|auto with digits]. }
    split; [by apply take_nonempty|]. split; [auto with digits|]. split.
    + eapply Z.lt_trans; [apply (Z_of_digits_short _ 1); [auto with digits|rewrite length_take; lia]|].
      reflexivity.
    + split; [intros ds2 H2; destruct (bool_decide (rest = [])); simplify_eq; auto with digits|].
      intros en ds3 [= _ <-]. exact Hxs.
  - apply orb_false_iff in Hsty as [_ H10]. apply Z.leb_gt in H10. apply Z.leb_le in Hpos.
    set (fp := strip_trailing_zeros (drop (Z.to_nat X + 1) (digits_of_Z D))).
    exists s, (take (Z.to_nat X + 1) (digits_of_Z D)),
      (if bool_decide (fp = []) then None else Some fp), None.
    split; [unfold num_text, num_body; destruct (bool_decide (fp = [])); simpl; by rewrite ?app_nil_r|].
    split; [rewrite Nat.add_1_r; by apply take_nonempty|]. split; [auto with digits|]. split.
    + eapply Z.lt_trans;
        [apply (Z_of_digits_short _ 10); [auto with digits|rewrite length_take; lia]|].
      reflexivity.
    + split; [intros ds2 H2; destruct (bool_decide (fp = [])); simplify_eq; auto with digits|].
      discriminate.
  - exists s, ["0"%char],
      (Some (repeat "0"%char (Z.to_nat (- X) - 1) ++ strip_trailing_zeros (digits_of_Z D))), None.
    split; [unfold num_text, num_body; simpl; by rewrite app_nil_r|].
    destruct num_ok_zero as (H1 & H2 & H3 & _). repeat split; try done.
    + intros ds2 [= <-]. auto with digits.
Qed.

(** The fixed notation is a number text the decoder accepts when the
    integer part fits in 63 bits. *)
Lemma fixed_text_num (neg : bool) (whole frac : Z) :
  (whole < 2 ^ 63)%Z ->
  exists s ds1 fr ex, fixed_text neg whole frac = num_text s ds1 fr ex /\ num_ok ds1 fr ex.
Proof.
  intros Hw. set (fr := if (frac =? 0)%Z then ["0"%char] else frac_text frac).
  exists neg, (digits_of_Z whole), (Some fr), None.
  split; [unfold fixed_text, num_text, num_body; simpl; rewrite app_nil_r; by destruct neg|].
  split; [apply digits_of_Z_nonempty|]. split; [auto with digits|].
  split; [rewrite Z_of_digits_of_Z; lia|].
  split; [|intros *; discriminate].
  intros ds2 [= <-]. unfold fr. destruct (frac =? 0)%Z; [repeat constructor|auto with digits].
Qed.

Lemma Prim2SF_infinity : Prim2SF PrimFloat.infinity = S754_infinity false.
Proof. reflexivity. Qed.

(** [is_finite] holds exactly of zeros and finite non-zero doubles. *)
Lemma is_finite_spec (x : float) :
  is_finite x = match Prim2SF x with S754_zero _ | S754_finite _ _ _ => true | _ => false end.
Proof.
  unfold is_finite. rewrite ltb_spec, abs_spec, Prim2SF_infinity.
  by destruct (Prim2SF x) as [[]|[]| |[] ? ?].
Qed.

Lemma is_finite_opp (x : float) : is_finite (- x)%float = is_finite x.
Proof. rewrite !is_finite_spec, opp_spec. by destruct (Prim2SF x). Qed.

Lemma format_g_num (w : float) :
  is_finite w = true ->
  exists neg ds1 frac ex, format_g w = num_text neg ds1 frac ex /\ num_ok ds1 frac ex.
Proof.
  rewrite is_finite_spec. unfold format_g.
  destruct (Prim2SF w) as [s|s| |s m e]; intros Hw; try discriminate.
  - exists s, ["0"%char], None, None. split; [by destruct s|apply num_ok_zero].
  - destruct (if (0 <=? e)%Z then _ else _) as [p q].
    destruct (g_digits p q) as [D X]. apply g_text_num.
Qed.

(** Every finite double is written as a number text the decoder accepts. *)
Lemma format_double_num (f : float) :
  is_finite f = true ->
  exists neg ds1 frac ex, format_double f = num_text neg ds1 frac ex /\ num_ok ds1 frac ex.
Proof.
  intros Hf. unfold format_double. cbv zeta.
  set (value := if PrimFloat.ltb f 0%float then (- f)%float else f).
  destruct (PrimFloat.ltb thres_max value || _) eqn:Hb.
  - apply format_g_num. unfold value. by destruct (PrimFloat.ltb f 0%float); rewrite ?is_finite_opp.
  - apply orb_false_iff in Hb as [Hb _]. apply trunc_le_thres in Hb.
    match goal with |- context [if (10 ^ 10 <=? ?x)%Z then _ else _] =>
      destruct (10 ^ 10 <=? x)%Z end; apply fixed_text_num; lia.
Qed.

(** ** Reading back what the encoder writes *)

Lemma decode_any_eq (d : nat) (s : list ascii) :
  decode_any d s =
  match skip_ws s with
  | [] => DErr
  | c :: rest =>
      if Ascii.eqb c QUOTE then
        match decode_str rest [] with
        | DOk str r => DOk (JStr str) r
        | DErr => DErr
        | DOutside => DOutside
        end
      else if is_digit c || Ascii.eqb c "I" || Ascii.eqb c "N" || Ascii.eqb c "-"
      then decode_numeric (c :: rest)
      else if Ascii.eqb c "[" then
        match d with O => DErr | S d' => decode_items (decode_any d') (S (length rest)) [] rest end
      else if Ascii.eqb c "{" then
        match d with O => DErr | S d' => decode_members (decode_any d') (S (length rest)) [] rest end
      else if Ascii.eqb c "t" then decode_word "rue" JTrue rest
      else if Ascii.eqb c "f" then decode_word "alse" JFalse rest
      else if Ascii.eqb c "n" then decode_word "ull" JNull rest
      else DErr
  end.
Proof. by destruct d. Qed.

Lemma skip_ws_head (c : ascii) (t : list ascii) : json_ws c = false -> skip_ws (c :: t) = c :: t.
Proof. intros Hc. unfold skip_ws. simpl. by rewrite Hc. Qed.

(** The characters a number text starts with (computed over all 256). *)
Lemma num_char (c : ascii) :
  is_digit c || Ascii.eqb c "-" = true ->
  json_ws c = false /\ Ascii.eqb c QUOTE = false /\ Ascii.eqb c "]" = false /\
  (is_digit c || Ascii.eqb c "I" || Ascii.eqb c "N" || Ascii.eqb c "-") = true.
Proof. destruct c as [[] [] [] [] [] [] [] []]; intros H; (discriminate || (repeat split)). Qed.

(** A text starting with a digit or a minus sign goes to [decode_numeric]. *)
Lemma decode_any_num (d : nat) (c : ascii) (t : list ascii) :
  is_digit c || Ascii.eqb c "-" = true -> decode_any d (c :: t) = decode_numeric (c :: t).
Proof.
  intros Hc. destruct (num_char c Hc) as (Hws & Hq & _ & Hn).
  rewrite decode_any_eq, skip_ws_head, Hq, Hn by done. done.
Qed.

Lemma decode_numeric_sign (neg : bool) (ds r : list ascii) :
  ds <> [] -> digits ds ->
  decode_numeric ((if neg then ["-"%char] else []) ++ ds ++ r) = decode_unsigned neg (ds ++ r).
Proof.
  intros Hne Hds. destruct ds as [|c ds]; [done|]. apply Forall_cons in Hds as [Hc _].
  destruct (digit_not_special c Hc) as (HI & HN & Hm).
  destruct neg; unfold decode_numeric; simpl; rewrite ?HI, ?HN, ?Hm; simpl; rewrite ?HI; done.
Qed.

(** An integer text is read back as the integer, over ujson's two ranges. *)
Lemma decode_unsigned_int (neg : bool) (ds r : list ascii) :
  digits ds -> num_stop r ->
  (if neg then Z_of_digits ds <= 2 ^ 63 else Z_of_digits ds < 2 ^ 64)%Z ->
  decode_unsigned neg (ds ++ r) = DOk (JInt (if neg then - Z_of_digits ds else Z_of_digits ds)%Z) r.
Proof.
  intros Hds Hr Hb. unfold decode_unsigned.
  rewrite (scan_int_digits neg ds r 0) by (done || apply num_stop_nodigit, Hr || lia || (destruct neg; lia)).
  replace (0 * 10 ^ Z.of_nat (length ds) + Z_of_digits ds)%Z with (Z_of_digits ds) by lia.
  destruct r as [|c r]; [done|]. destruct Hr as (_ & -> & ->). done.
Qed.

Lemma decode_int_text (z : Z) (r : list ascii) :
  (- 2 ^ 63 <= z < 2 ^ 64)%Z -> num_stop r -> decode_numeric (int_text z ++ r) = DOk (JInt z) r.
Proof.
  intros Hz Hr. unfold int_text. destruct (z <? 0)%Z eqn:Hneg.
  - apply Z.ltb_lt in Hneg. pose proof (Z_of_digits_of_Z (- z)) as Hv.
    change (("-"%char :: digits_of_Z (- z)) ++ r) with (["-"%char] ++ digits_of_Z (- z) ++ r).
    rewrite (decode_numeric_sign true) by (apply digits_of_Z_nonempty || auto with digits).
    rewrite decode_unsigned_int by (auto with digits || lia). do 2 f_equal. lia.
  - apply Z.ltb_ge in Hneg. pose proof (Z_of_digits_of_Z z) as Hv.
    rewrite <- (app_nil_l (digits_of_Z z ++ r)).
    rewrite (decode_numeric_sign false) by (apply digits_of_Z_nonempty || auto with digits).
    rewrite decode_unsigned_int by (auto with digits || lia). do 2 f_equal. lia.
Qed.

(** A finite double's text is read back as [float_rt]. *)
Lemma decode_float_text (f : float) (r : list ascii) :
  is_finite f = true -> num_stop r -> decode_numeric (format_double f ++ r) = DOk (float_rt f) r.
Proof.
  intros Hf Hr. destruct (format_double_num f Hf) as (neg & ds1 & fr & ex & Hfmt & Hok).
  destruct (decode_numeric_num neg ds1 fr ex Hok) as (v & _ & Hdec).
  unfold float_rt. rewrite Hfmt, Hdec by done.
  rewrite <- (app_nil_r (num_text neg ds1 fr ex)), Hdec by done. done.
Qed.

Lemma decode_any_string (d : nat) (s : string) (r : list ascii) :
  decode_any d (encode_string s ++ r) = DOk (JStr s) r.
Proof.
  unfold encode_string. cbn [app]. rewrite <- app_assoc.
  rewrite decode_any_eq, skip_ws_quote. cbn [app]. change (Ascii.eqb QUOTE QUOTE) with true. cbv iota.
  rewrite decode_str_escaped. simpl. by rewrite string_of_list_ascii_of_string.
Qed.

(** Number texts start with a digit or a minus sign. *)
Definition num_head (s : list ascii) : Prop :=
  exists c t, s = c :: t /\ is_digit c || Ascii.eqb c "-" = true.

Lemma num_text_head (neg : bool) (ds1 : list ascii) (fr : option (list ascii))
    (ex : option (bool * list ascii)) :
  num_ok ds1 fr ex -> num_head (num_text neg ds1 fr ex).
Proof.
  intros (Hne & Hds & _). destruct neg; [by eexists _, _|].
  destruct ds1 as [|c t]; [done|]. apply Forall_cons in Hds as [Hc _].
  eexists c, _. split; [reflexivity|]. by rewrite Hc.
Qed.

Lemma int_text_head (z : Z) : num_head (int_text z).
Proof.
  unfold int_text. destruct (z <? 0)%Z; [by eexists _, _|].
  pose proof (digits_of_Z_nonempty z) as Hne. pose proof (digits_of_Z_ds z) as Hds.
  destruct (digits_of_Z z) as [|c t]; [done|]. apply Forall_cons in Hds as [Hc _].
  exists c, t. by rewrite Hc.
Qed.

Lemma format_double_head (f : float) : is_finite f = true -> num_head (format_double f).
Proof.
  intros Hf. destruct (format_double_num f Hf) as (neg & ds1 & fr & ex & -> & Hok).
  by apply num_text_head.
Qed.

Lemma decode_any_num_head (d : nat) (s r : list ascii) :
  num_head s -> decode_any d (s ++ r) = decode_numeric (s ++ r).
Proof. intros (c & t & -> & Hc). by apply decode_any_num. Qed.

(** Every encoded value starts with a character that is neither white
    space nor a closing bracket. *)
Lemma encode_head (v : json) :
  exists c t, json_encode v = c :: t /\ json_ws c = false /\ Ascii.eqb c "]" = false.
Proof.
  assert (Hn : forall s, num_head s -> exists c t, s = c :: t /\ json_ws c = false /\ Ascii.eqb c "]" = false).
  { intros s (c & t & -> & Hc). destruct (num_char c Hc) as (? & _ & ? & _). by exists c, t. }
  destruct v as [| | |z|f|s|l|m]; try by eexists _, _.
  - apply Hn, int_text_head.
  - simpl. destruct (is_finite f) eqn:Hf; [by apply Hn, format_double_head|by eexists _, _].
Qed.

Lemma skip_ws_encode (v : json) (t : list ascii) :
  skip_ws (json_encode v ++ t) = json_encode v ++ t.
Proof. destruct (encode_head v) as (c & u & -> & Hws & _). by apply skip_ws_head. Qed.

Lemma encode_not_bracket (v : json) (t : list ascii) :
  starts_with "]" (json_encode v ++ t) = None.
Proof. destruct (encode_head v) as (c & u & -> & _ & Hb). simpl. by rewrite Hb. Qed.

(** The scalars are read back as [json_rt] says. *)
Lemma decode_any_scalar (d : nat) (v : json) (r : list ascii) :
  (forall l, v <> JArray l) -> (forall m, v <> JObject m) ->
  json_wf v = true -> num_stop r -> decode_any d (json_encode v ++ r) = DOk (json_rt v) r.
Proof.
  intros Ha Ho Hwf Hr. destruct v as [| | |z|f|s|l|m]; simpl json_encode; simpl json_rt.
  - rewrite decode_any_eq. reflexivity.
  - rewrite decode_any_eq. reflexivity.
  - rewrite decode_any_eq. reflexivity.
  - simpl in Hwf. apply andb_prop in Hwf as [H1 H2]. apply Z.leb_le in H1. apply Z.ltb_lt in H2.
    rewrite decode_any_num_head by apply int_text_head. apply decode_int_text; [lia|done].
  - destruct (is_finite f) eqn:Hf.
    + rewrite decode_any_num_head by (by apply format_double_head). by apply decode_float_text.
    + rewrite decode_any_eq. reflexivity.
  - apply decode_any_string.
  - by destruct (Ha l).
  - by destruct (Ho m).
Qed.

(** An item decoder that reads back the encoding of [x] before any
    text a number may be followed by. *)
Definition item_ok (item : list ascii -> dec json) (x : json) : Prop :=
  forall r, num_stop r -> item (json_encode x ++ r) = DOk (json_rt x) r.

Lemma comma_stop (t : list ascii) : num_stop (","%char :: t).
Proof. repeat split. Qed.

Lemma bracket_stop (t : list ascii) : num_stop ("]"%char :: t).
Proof. repeat split. Qed.

Lemma brace_stop (t : list ascii) : num_stop ("}"%char :: t).
Proof. repeat split. Qed.

(** The item loop reads the items [x, xs...] and the closing bracket when
    its fuel exceeds the number of commas. *)
Lemma decode_items_loop (item : list ascii -> dec json) (x : json) (xs : list json)
    (acc : list json) (fuel : nat) (r : list ascii) :
  item_ok item x -> Forall (item_ok item) xs -> length xs < fuel ->
  decode_items item fuel acc
    (json_encode x ++ flat_map (fun q => ","%char :: q) (map json_encode xs) ++ "]"%char :: r)
  = DOk (JArray (acc ++ json_rt x :: map json_rt xs)) r.
Proof.
  revert x acc fuel. induction xs as [|y ys IH]; intros x acc [|fuel] Hx Hxs Hf; [lia| |lia|];
    cbn [decode_items]; rewrite skip_ws_encode, encode_not_bracket.
  - rewrite Hx by apply bracket_stop. reflexivity.
  - apply Forall_cons in Hxs as [Hy Hys]. cbn [map flat_map]. rewrite <- app_assoc.
    rewrite Hx by apply comma_stop. cbn [app]. rewrite skip_ws_head by reflexivity.
    cbn [starts_with]. change (Ascii.eqb "," "]") with false. change (Ascii.eqb "," ",") with true.
    cbv iota. rewrite IH by (done || simpl in Hf; lia). by rewrite <- app_assoc.
Qed.

Lemma starts_with_self (c : ascii) (t : list ascii) : starts_with c (c :: t) = Some t.
Proof. simpl. by rewrite Ascii.eqb_refl. Qed.

Lemma skip_ws_string (s : string) (t : list ascii) :
  skip_ws (encode_string s ++ t) = encode_string s ++ t.
Proof. reflexivity. Qed.

Lemma string_not_brace (s : string) (t : list ascii) :
  starts_with "}" (encode_string s ++ t) = None.
Proof. reflexivity. Qed.

Lemma comma_not_brace (t : list ascii) : starts_with "}" (","%char :: t) = None.
Proof. reflexivity. Qed.

(** Writing a fresh key appends it. *)
Lemma dict_set_fresh (m : list (string * json)) (k : string) (v : json) :
  k ∉ m.*1 -> dict_set m k v = m ++ [(k, v)].
Proof.
  induction m as [|[k' v'] m IH]; intros Hk; [done|].
  rewrite fmap_cons, not_elem_of_cons in Hk. destruct Hk as [Hne Hk]. simpl.
  rewrite (proj2 (String.eqb_neq k k') Hne). by rewrite IH.
Qed.

(** An item decoder that reads strings back. *)
Definition key_item (item : list ascii -> dec json) : Prop :=
  forall s r, item (encode_string s ++ r) = DOk (JStr s) r.

(** The member loop reads [k:x, kvs...] and the closing brace, the keys
    being distinct. *)
Lemma decode_members_loop (item : list ascii -> dec json) (k : string) (x : json)
    (kvs : list (string * json)) (acc : list (string * json)) (fuel : nat) (r : list ascii) :
  key_item item -> item_ok item x -> Forall (fun kv => item_ok item kv.2) kvs ->
  length kvs < fuel -> NoDup (acc.*1 ++ k :: kvs.*1) ->
  decode_members item fuel acc
    ((encode_string k ++ ":"%char :: json_encode x) ++
     flat_map (fun q => ","%char :: q)
       (map (fun kv => encode_string kv.1 ++ ":"%char :: json_encode kv.2) kvs) ++ "}"%char :: r)
  = DOk (JObject (acc ++ (k, json_rt x) :: map (fun kv => (kv.1, json_rt kv.2)) kvs)) r.
Proof.
  revert k x acc fuel. induction kvs as [|[k' y] kvs IH]; intros k x acc [|fuel] Hkey Hx Hkvs Hf Hnd;
    try (simpl in Hf; lia); cbn [decode_members]; rewrite <- !app_assoc;
    rewrite skip_ws_string, string_not_brace, Hkey; cbn [app];
    rewrite skip_ws_head, starts_with_self by reflexivity;
    pose proof (proj1 (NoDup_app _ _) Hnd) as (_ & Hfresh & _);
    assert (Hk : k ∉ acc.*1) by (intros Hin; apply (Hfresh k Hin); constructor).
  - rewrite Hx by apply brace_stop. cbv zeta. rewrite dict_set_fresh by done. reflexivity.
  - apply Forall_cons in Hkvs as [Hy Hkvs]. cbn [map flat_map].
    rewrite Hx by apply comma_stop. cbv zeta. rewrite dict_set_fresh by done.
    cbn [app]. rewrite skip_ws_head by reflexivity.
    rewrite comma_not_brace, starts_with_self. cbn [fst snd]. rewrite <- app_assoc.
    rewrite (IH k' y) by (done || (simpl in Hf; lia) ||
                                     (rewrite fmap_app, <- app_assoc; exact Hnd)).
    by rewrite <- app_assoc.
Qed.

Lemma comma_text_length (ps : list (list ascii)) :
  length ps <= length (flat_map (fun q => ","%char :: q) ps).
Proof. induction ps; simpl; [lia|]. rewrite length_app. simpl. lia. Qed.

Lemma decode_array_text (item : list ascii -> dec json) (l : list json) (r : list ascii) :
  Forall (item_ok item) l ->
  let s := join_comma (map json_encode l) ++ "]"%char :: r in
  decode_items item (S (length s)) [] s = DOk (JArray (map json_rt l)) r.
Proof.
  intros Hl s. unfold s. destruct l as [|x xs]; [reflexivity|].
  apply Forall_cons in Hl as [Hx Hxs]. cbn [map join_comma]. rewrite <- app_assoc.
  apply decode_items_loop; [done|done|].
  rewrite !length_app. pose proof (comma_text_length (map json_encode xs)).
  rewrite length_map in *. lia.
Qed.

Lemma decode_object_text (item : list ascii -> dec json) (m : list (string * json)) (r : list ascii) :
  key_item item -> Forall (fun kv => item_ok item kv.2) m -> NoDup m.*1 ->
  let s := join_comma (map (fun kv => encode_string kv.1 ++ ":"%char :: json_encode kv.2) m)
           ++ "}"%char :: r in
  decode_members item (S (length s)) [] s = DOk (JObject (map (fun kv => (kv.1, json_rt kv.2)) m)) r.
Proof.
  intros Hkey Hm Hnd s. unfold s. destruct m as [|[k x] kvs]; [reflexivity|].
  apply Forall_cons in Hm as [Hx Hkvs]. cbn [map join_comma fst snd].
  rewrite <- (app_assoc _ (flat_map _ _)).
  apply (decode_members_loop item k x kvs []); try done.
  rewrite !length_app. pose proof (comma_text_length (map (fun kv => encode_string kv.1 ++ ":"%char :: json_encode kv.2) kvs)).
  rewrite length_map in *. lia.
Qed.

Lemma decode_any_array (d : nat) (s : list ascii) :
  decode_any (S d) ("["%char :: s) = decode_items (decode_any d) (S (length s)) [] s.
Proof. reflexivity. Qed.

Lemma decode_any_object (d : nat) (s : list ascii) :
  decode_any (S d) ("{"%char :: s) = decode_members (decode_any d) (S (length s)) [] s.
Proof. reflexivity. Qed.

Lemma Forall_wf_depth {A} (g : A -> json) (l : list A) (d : nat) :
  forallb (fun a => json_wf (g a)) l = true -> list_max (map (fun a => json_depth (g a)) l) <= d ->
  Forall (fun a => json_wf (g a) = true /\ json_depth (g a) <= d) l.
Proof.
  induction l as [|a l IH]; intros Hw Hd; constructor; simpl in Hw, Hd;
    apply andb_prop in Hw as [Hw1 Hw2]; [split; [done|lia]|apply IH; [done|lia]].
Qed.

(** The decoder reads back the encoder's text (by induction on the
    depth bound). *)
Lemma decode_any_encode (d : nat) (v : json) (r : list ascii) :
  json_wf v = true -> json_depth v <= d -> num_stop r ->
  decode_any d (json_encode v ++ r) = DOk (json_rt v) r.
Proof.
  revert v r. induction d as [|d IH]; intros v r Hwf Hd Hr;
    destruct v as [| | | | | |l|m]; try solve [apply decode_any_scalar; [intros ? [=]..|done|done]];
    cbn [json_depth] in Hd; try lia; apply le_S_n in Hd; cbn [json_wf] in Hwf;
    cbn [json_encode json_rt app]; rewrite <- app_assoc; cbn [app].
  - rewrite decode_any_array. apply decode_array_text.
    eapply Forall_impl; [by apply (Forall_wf_depth (fun v => v))|].
    intros v [Hv Hdv] r' Hr'. by apply IH.
  - apply andb_prop in Hwf as [Hnd Hwf]. apply bool_decide_eq_true in Hnd.
    rewrite decode_any_object. apply decode_object_text; [| |done].
    + intros s r'. apply decode_any_string.
    + eapply Forall_impl; [by apply (Forall_wf_depth snd)|].
      intros kv [Hv Hdv] r' Hr'. by apply IH.
Qed.

(** C9: reading back what the encoder writes.  For every value with
    64-bit integers and distinct object keys, nested at most [d] levels,
    [decode_any d] on its text followed by any text a number may be
    followed by returns [json_rt] of the value and stops where the text
    ends: strings, integers, booleans and [null] come back unchanged,
    finite doubles through their 10-digit text, NaN and the infinities as
    [null]. *)
Theorem decode_encode (d : nat) (v : json) (r : list ascii) :
  json_wf v = true -> json_depth v <= d -> num_stop r ->
  decode_any d (json_encode v ++ r) = DOk (json_rt v) r.
Proof. apply decode_any_encode. Qed.

Lemma json_loads_encode (v : json) :
  json_wf v = true -> json_depth v <= JSON_MAX_OBJECT_DEPTH ->
  json_loads (string_of_list_ascii (json_encode v)) = DOk (json_rt v) [].
Proof.
  intros Hwf Hd. unfold json_loads. rewrite list_ascii_of_string_of_list_ascii.
  rewrite <- (app_nil_r (json_encode v)), decode_any_encode by done. reflexivity.
Qed.

(** ** The frame through [to_json] and [read_json] *)

Lemma float_rt_number (f : float) : is_finite f = true -> is_Some (num_value (float_rt f)).
Proof.
  intros Hf. destruct (format_double_num f Hf) as (neg & ds1 & fr & ex & Hfmt & Hok).
  destruct (decode_numeric_num neg ds1 fr ex Hok) as (v & [Hv _] & Hdec).
  unfold float_rt. rewrite Hfmt, <- (app_nil_r (num_text neg ds1 fr ex)), Hdec by done. exact Hv.
Qed.

Lemma num_value_read_float (f : float) : num_value (json_rt (JFloat f)) = Some (read_float f).
Proof.
  unfold read_float. simpl. destruct (is_finite f) eqn:Hf; [|done].
  by destruct (float_rt_number f Hf) as [x ->].
Qed.

Lemma mapM_num_value (xs : list float) :
  mapM num_value (map (fun f => json_rt (JFloat f)) xs) = Some (map read_float xs).
Proof.
  apply mapM_Some_2. induction xs as [|x xs IH]; constructor; [apply num_value_read_float|done].
Qed.

Lemma mapM_str_value (ss : list string) : mapM str_value (map JStr ss) = Some ss.
Proof. apply mapM_Some_2. induction ss as [|s ss IH]; by constructor. Qed.

(** The row labels, as keys, are distinct. *)
Lemma NoDup_labels (n : nat) : NoDup (map string_of_nat (seq 0 n)).
Proof.
  apply NoDup_fmap_2; [intros i j; apply string_of_nat_inj|]. apply NoDup_seq.
Qed.

Lemma column_keys {A} (f : A -> json) (col : list A) :
  (zip (map string_of_nat (seq 0 (length col))) (map f col)).*1 = map string_of_nat (seq 0 (length col)).
Proof. apply fst_zip. by rewrite !length_map, length_seq. Qed.

Lemma column_rt {A} (f : A -> json) (col : list A) :
  map (fun kv => (kv.1, json_rt kv.2)) (zip (map string_of_nat (seq 0 (length col))) (map f col)) =
  zip (map string_of_nat (seq 0 (length col))) (map (fun a => json_rt (f a)) col).
Proof.
  generalize 0. induction col as [|a col IH]; intros k; [done|]. simpl. by rewrite IH.
Qed.

Lemma column_values_wf {A} (f : A -> json) (col : list A) (k : nat) :
  Forall (fun a => json_wf (f a) = true /\ json_depth (f a) = 0) col ->
  forallb (fun kv => json_wf kv.2) (zip (map string_of_nat (seq k (length col))) (map f col)) = true /\
  list_max (map (fun kv => json_depth kv.2) (zip (map string_of_nat (seq k (length col))) (map f col))) = 0.
Proof.
  revert k. induction col as [|a col IH]; intros k Hc; [done|].
  apply Forall_cons in Hc as [[Hw Hd] Hc]. destruct (IH (S k) Hc) as [IHw IHd].
  simpl. rewrite Hw, IHw, Hd. simpl in IHd |- *. rewrite IHd. done.
Qed.

Lemma column_wf {A} (f : A -> json) (col : list A) :
  Forall (fun a => json_wf (f a) = true /\ json_depth (f a) = 0) col ->
  json_wf (column_json f col) = true /\ json_depth (column_json f col) = 1.
Proof.
  intros Hc. destruct (column_values_wf f col 0 Hc) as [Hw Hd].
  unfold column_json. cbn [json_wf json_depth]. rewrite column_keys, Hw, Hd.
  split; [|done]. apply andb_true_intro. split; [apply bool_decide_eq_true, NoDup_labels|done].
Qed.

Lemma frame_json_wf (df : DataFrame) :
  Forall (fun c => json_wf (json_of_cell c) = true /\ json_depth (json_of_cell c) = 0) (SMILES df) ->
  json_wf (frame_json df) = true /\ json_depth (frame_json df) <= JSON_MAX_OBJECT_DEPTH.
Proof.
  intros Hs.
  assert (Hf : forall col, Forall (fun f => json_wf (JFloat f) = true /\ json_depth (JFloat f) = 0) col)
    by (intros col; by apply Forall_forall).
  destruct (column_wf json_of_cell (SMILES df) Hs) as [Hw1 Hd1].
  destruct (column_wf JFloat (clogP df) (Hf _)) as [Hw2 Hd2].
  destruct (column_wf JFloat (sascore df) (Hf _)) as [Hw3 Hd3].
  unfold frame_json. cbn [json_wf json_depth forallb map list_max fold_right snd].
  rewrite Hw1, Hw2, Hw3, Hd1, Hd2, Hd3. split; [|unfold JSON_MAX_OBJECT_DEPTH; simpl; lia].
  by vm_compute.
Qed.

(** The columns read back by [frame_of_json]. *)
Lemma frame_of_json_columns (ss : list string) (xs ys : list float) :
  length xs = length ss -> length ys = length ss ->
  frame_of_json (json_rt (frame_json {| SMILES := map CellStr ss; clogP := xs; sascore := ys |})) =
  ReadFrame {| SMILES := convert_object_column ss; clogP := map read_float xs;
               sascore := map read_float ys |}.
Proof.
  intros Hx Hy. unfold frame_json, column_json. cbn [json_rt map fst snd SMILES clogP sascore].
  rewrite !column_rt, !length_map, Hx, Hy. unfold frame_of_json.
  rewrite !fst_zip, !snd_zip by (rewrite ?length_map, ?length_seq; lia).
  rewrite bool_decide_eq_true_2 by done.
  rewrite map_map. change (map (fun a => json_rt (json_of_cell (CellStr a))) ss) with (map JStr ss).
  by rewrite mapM_str_value, !mapM_num_value.
Qed.

(** [read_json] of the text [to_json] writes for a frame of strings. *)
Lemma read_back_frame (ss : list string) (xs ys : list float) :
  length xs = length ss -> length ys = length ss ->
  read_json (to_json {| SMILES := map CellStr ss; clogP := xs; sascore := ys |}) =
  ReadFrame {| SMILES := convert_object_column ss; clogP := map read_float xs;
               sascore := map read_float ys |}.
Proof.
  intros Hx Hy. unfold read_json, to_json.
  rewrite json_loads_encode by (apply frame_json_wf, Forall_forall; intros c Hc;
                                apply list_elem_of_fmap in Hc as (s & -> & _); done).
  by apply frame_of_json_columns.
Qed.

(** C8: the session round trip.  [df.to_json()] followed by
    [pd.read_json] gives back a frame of string SMILES and two float
    columns (of the same length) with its rows in order: the float values
    through their 10-digit texts ([read_float]) and the SMILES strings
    through pandas' type conversion ([convert_object_column]). *)
Theorem read_json_to_json (ss : list string) (xs ys : list float) :
  length xs = length ss -> length ys = length ss ->
  read_json (to_json {| SMILES := map CellStr ss; clogP := xs; sascore := ys |}) =
  ReadFrame {| SMILES := convert_object_column ss; clogP := map read_float xs;
               sascore := map read_float ys |}.
Proof. apply read_back_frame. Qed.

(** ** The type conversion of the SMILES column *)

Lemma convert_object_column_length (ss : list string) :
  length (convert_object_column ss) = length ss.
Proof.
  unfold convert_object_column. destruct (mapM py_float ss) as [fs|] eqn:Hm; [|by rewrite length_map].
  apply mapM_Some_1, Forall2_length in Hm.
  destruct (bool_decide (fs <> []) && forallb int64_exact fs); rewrite length_map; lia.
Qed.

(** A string row after the conversion is the string of that row: either
    no value was converted, or none is a string. *)
Lemma convert_object_column_str (ss : list string) (i : nat) (s : string) :
  convert_object_column ss !! i = Some (CellStr s) -> ss !! i = Some s.
Proof.
  unfold convert_object_column. destruct (mapM py_float ss) as [fs|].
  - destruct (bool_decide (fs <> []) && forallb int64_exact fs);
      rewrite list_lookup_fmap; destruct (fs !! i) as [f|]; simpl; try discriminate.
    destruct (is_nan f); discriminate.
  - rewrite list_lookup_fmap. destruct (ss !! i); simpl; congruence.
Qed.

Lemma convert_object_column_uniform (ss : list string) :
  forallb cell_is_str (convert_object_column ss) || forallb cell_is_int (convert_object_column ss)
  || forallb cell_is_float (convert_object_column ss) = true.
Proof.
  unfold convert_object_column. destruct (mapM py_float ss) as [fs|].
  - destruct (bool_decide (fs <> []) && forallb int64_exact fs).
    + apply orb_true_intro. left. apply orb_true_intro. right.
      apply forallb_forall. intros c Hc. apply in_map_iff in Hc as (f & <- & _). done.
    + apply orb_true_intro. right.
      apply forallb_forall. intros c Hc. apply in_map_iff in Hc as (f & <- & _).
      by destruct (is_nan f).
  - apply orb_true_intro. left. apply orb_true_intro. left.
    apply forallb_forall. intros c Hc. apply in_map_iff in Hc as (s & <- & _). done.
Qed.

(** C13: what [/next] reads back from a stored frame is a frame of
    three columns of one length whose SMILES column has a single dtype. *)
Theorem read_json_typed (ss : list string) (xs ys : list float) :
  length xs = length ss -> length ys = length ss ->
  exists df, read_json (to_json {| SMILES := map CellStr ss; clogP := xs; sascore := ys |}) = ReadFrame df
             /\ frame_typed df = true.
Proof.
  intros Hx Hy. rewrite read_back_frame by done. eexists. split; [reflexivity|].
  unfold frame_typed. cbn [SMILES clogP sascore].
  rewrite convert_object_column_length, !length_map, Hx, Hy, Nat.eqb_refl.
  apply convert_object_column_uniform.
Qed.

(** C14: on a non-empty column, the round trip keeps the SMILES
    strings exactly when one of them is not a Python float literal;
    otherwise every value becomes a number. *)
Theorem convert_keeps_strings (ss : list string) :
  ss <> [] ->
  (convert_object_column ss = map CellStr ss <-> Exists (fun s => py_float s = None) ss).
Proof.
  intros Hne. unfold convert_object_column. split.
  - intros Heq. apply mapM_None_1. destruct (mapM py_float ss) as [fs|] eqn:Hm; [|done].
    exfalso. apply mapM_Some_1 in Hm. destruct ss as [|s ss']; [done|].
    inversion Hm as [|? f ? fs' _ _ Hss Hfs]; subst.
    destruct (bool_decide ((f :: fs') <> []) && forallb int64_exact (f :: fs')); simpl in Heq;
      [discriminate|]. destruct (is_nan f); discriminate.
  - intros Hex. by rewrite (mapM_None_2 _ _ Hex).
Qed.

(** ** Witnesses and examples *)

Definition sample_json : json :=
  JObject [("a", JArray [JInt (-7); JFloat 1.5%float; JStr "F/C=C\F"; JTrue; JNull]);
           ("b", JFloat PrimFloat.nan)].

Lemma decode_encode_witness :
  json_wf sample_json = true /\ json_depth sample_json <= 2 /\ num_stop [] /\
  decode_any 2 (json_encode sample_json ++ []) = DOk (json_rt sample_json) [].
Proof.
  assert (H1 : json_wf sample_json = true) by reflexivity.
  assert (H2 : json_depth sample_json <= 2) by (simpl; lia).
  assert (H3 : num_stop []) by exact I.
  split; [exact H1|]. split; [exact H2|]. split; [exact H3|].
  exact (decode_encode 2 sample_json [] H1 H2 H3).
Defined.

Definition sample_smiles : list string := ["CCO"; "c1ccccc1"]%string.
(** [float("1.9802627296")] *)
Definition sample_float : float := round_decimal false 19802627296 (-10).
Definition sample_clogP : list float := [0.5%float; sample_float].
Definition sample_sascore : list float := [1.25%float; 2.5%float].

Lemma read_json_to_json_witness :
  length sample_clogP = length sample_smiles /\ length sample_sascore = length sample_smiles /\
  read_json (to_json {| SMILES := map CellStr sample_smiles; clogP := sample_clogP;
                        sascore := sample_sascore |}) =
  ReadFrame {| SMILES := convert_object_column sample_smiles; clogP := map read_float sample_clogP;
               sascore := map read_float sample_sascore |}.
Proof.
  assert (H1 : length sample_clogP = length sample_smiles) by reflexivity.
  assert (H2 : length sample_sascore = length sample_smiles) by reflexivity.
  split; [exact H1|]. split; [exact H2|].
  exact (read_json_to_json sample_smiles sample_clogP sample_sascore H1 H2).
Defined.

Lemma read_json_typed_witness :
  length sample_clogP = length sample_smiles /\ length sample_sascore = length sample_smiles /\
  exists df, read_json (to_json {| SMILES := map CellStr sample_smiles; clogP := sample_clogP;
                                  sascore := sample_sascore |}) = ReadFrame df /\ frame_typed df = true.
Proof.
  assert (H1 : length sample_clogP = length sample_smiles) by reflexivity.
  assert (H2 : length sample_sascore = length sample_smiles) by reflexivity.
  split; [exact H1|]. split; [exact H2|].
  exact (read_json_typed sample_smiles sample_clogP sample_sascore H1 H2).
Defined.

Lemma convert_keeps_strings_witness :
  ["CCO"; "1"]%string <> [] /\ Exists (fun s => py_float s = None) ["CCO"; "1"]%string /\
  convert_object_column ["CCO"; "1"]%string = map CellStr ["CCO"; "1"]%string.
Proof.
  assert (Hne : ["CCO"; "1"]%string <> []) by discriminate.
  assert (Hex : Exists (fun s => py_float s = None) ["CCO"; "1"]%string)
    by (apply Exists_cons_hd; vm_compute; reflexivity).
  split; [exact Hne|]. split; [exact Hex|].
  exact (proj2 (convert_keeps_strings ["CCO"; "1"]%string Hne) Hex).
Defined.

(** The SMILES "INF " (a valid SMILES for RDKit, which stops at
    white space) is stored as a string, but [float("INF ")] is infinity,
    so [pd.read_json] turns the column into float64. *)
Theorem inf_smiles_becomes_float :
  py_float "INF " = Some PrimFloat.infinity /\
  read_json (to_json {| SMILES := [CellStr "INF "]; clogP := [0%float]; sascore := [0%float] |}) =
  ReadFrame {| SMILES := [CellFloat PrimFloat.infinity]; clogP := [0%float]; sascore := [0%float] |}.
Proof. split; vm_compute; reflexivity. Qed.

(** The round trip does not give back every double: the text
    "1.9802627296" that [to_json] writes for [float("1.9802627296")] is
    read back by the non-precise decoder ([precise_float=False]) as the
    next double, 1.9802627296000002. *)
Theorem read_float_inexact :
  string_of_list_ascii (format_double sample_float) = "1.9802627296"%string /\
  read_float sample_float = 0x1.faf27f8d1ea42p+0%float /\
  PrimFloat.eqb (read_float sample_float) sample_float = false.
Proof. split; [|split]; vm_compute; reflexivity. Qed.
