(* ===== verification/Ingest.v ===== *)
(** * The upload handler [index] (src/app.py lines 32-51)

    The handler validates the form, reads the file ([Csv]), appends two
    zero columns, and runs

    << for idx, SMILES in enumerate(df.SMILES):
           try:
               mol = Chem.MolFromSmiles(SMILES)
               df.loc[idx, ["clogP"]] = Descriptors.MolLogP(mol)
               df.loc[idx, ["sascore"]] = sascorer.calculateScore(mol)
           except:
               flash(f"Error. Please check line {idx+1} of your file.")
               return render_template("main.html", form=form)
       session["data"] = df.to_json()
       return redirect(url_for("next")) >>

    The DataFrame is a record of its three columns, updated in place by
    label ([df.loc]) with stdpp's list insert; the [try] body is
    [try_body], the loop with its early return [index_loop], and the whole
    handler [index] over the session ([Session]: the JSON text of the
    stored table, written by [Json.to_json], and the flashed messages).  [validate_table] is the functional reference the
    loop is proved equal to. *)

From S2P Require Import Prelude Toolkit PyFloat Tokenizer Csv Forms Frame Json.

(** ** The loop *)

Section WithToolkit.
Context `{TK : Toolkit}.

(** [Chem.MolFromSmiles(SMILES)] on a cell: a [str] parses to a molecule
    or [None]; any other value (NaN, a numpy number or boolean) does not
    match the C++ signature and Boost.Python raises [ArgumentError]. *)
Definition MolFromSmiles_cell (c : cell) : py (option Mol) :=
  match c with
  | CellStr s => PyOk (MolFromSmiles s)
  | _ => PyRaise ArgumentError
  end.

(** The outcome of the [try] body: it completes, or it raises after the
    updates made so far. *)
Inductive try_outcome :=
  | TryOk (df : DataFrame)
  | TryRaised (e : exn) (df : DataFrame).

(** The [try] body for row [idx], statement by statement. *)
Definition try_body (idx : nat) (c : cell) (df : DataFrame) : try_outcome :=
  match MolFromSmiles_cell c with
  | PyRaise e => TryRaised e df
  | PyOk mol =>
      match MolLogP_py mol with
      | PyRaise e => TryRaised e df
      | PyOk lp =>
          let df1 := loc_set_clogP idx lp df in
          match calculateScore_py mol with
          | PyRaise e => TryRaised e df1
          | PyOk sa => TryOk (loc_set_sascore idx sa df1)
          end
      end
  end.

Inductive loop_outcome :=
  | LoopDone (df : DataFrame)
  | LoopAbort (idx : nat).

(** [for idx, SMILES in enumerate(...)]: the first row whose body raises
    ends the loop (the [except] branch returns). *)
Fixpoint index_loop (idx : nat) (cells : list cell) (df : DataFrame) : loop_outcome :=
  match cells with
  | [] => LoopDone df
  | c :: rest =>
      match try_body idx c df with
      | TryOk df' => index_loop (S idx) rest df'
      | TryRaised _ _ => LoopAbort idx
      end
  end.
End WithToolkit.

(** ** The flashed message *)

(** [f"Error. Please check line {idx+1} of your file."] *)
Definition flash_message (idx : nat) : string :=
  "Error. Please check line " +:+ string_of_nat (idx + 1) +:+ " of your file.".

(** ** The handler *)

(** What [index] sends back: the upload page again (with the flashed
    messages), the redirect to "/next", HTTP 413, HTTP 500 (the
    [ParserError] or [UnicodeDecodeError] [pd.read_csv] raises outside
    the [try], which Flask turns into an Internal Server Error), or a file outside the
    one-column model of [Csv]. *)
Inductive Response :=
  | RenderMain
  | RedirectNext
  | EntityTooLarge
  | InternalServerError
  | CsvNotModelled.

#[export] Instance Response_eq_dec : EqDecision Response.
Proof. solve_decision. Defined.

(** The per-browser Flask session: [session["data"]] (the JSON text of
    the table) and the queue of flashed messages. *)
Record Session := {
  session_data : option string;
  flashes : list string;
}.

Definition flash (msg : string) (sess : Session) : Session :=
  {| session_data := session_data sess; flashes := flashes sess ++ [msg] |}.

(** [session["data"] = df.to_json()] *)
Definition store_data (df : DataFrame) (sess : Session) : Session :=
  {| session_data := Some (to_json df); flashes := flashes sess |}.

Section Handler.
Context `{TK : Toolkit}.

(** [index()] on a request, from the session it finds. *)
Definition index (r : Request) (sess : Session) : Response * Session :=
  if is_submitted r && too_large r then (EntityTooLarge, sess)
  else if validate_on_submit r then
    match file_field r with
    | None => (RenderMain, sess)
    | Some fs =>
        match read_csv_SMILES (file_text fs) with
        | CsvParserError => (InternalServerError, sess)
        | CsvDecodeError => (InternalServerError, sess)
        | CsvOutsideModel => (CsvNotModelled, sess)
        | CsvFrame rows =>
            let df := with_zero_columns (SMILES_column rows) in
            match index_loop 0 (SMILES df) df with
            | LoopAbort idx => (RenderMain, flash (flash_message idx) sess)
            | LoopDone df' => (RedirectNext, store_data df' sess)
            end
        end
    end
  else (RenderMain, sess).

(** ** The functional reference: a MoleculeTable *)

Record MoleculeRecord := {
  rec_smiles : string;
  rec_clogP : float;
  rec_sascore : float;
}.

(** A row is valid when it is a string that parses and both descriptors
    are computed without raising. *)
Definition validate_cell (c : cell) : option MoleculeRecord :=
  match c with
  | CellStr s =>
      match MolFromSmiles s with
      | Some m =>
          match MolLogP m, calculateScore m with
          | PyOk a, PyOk b => Some {| rec_smiles := s; rec_clogP := a; rec_sascore := b |}
          | _, _ => None
          end
      | None => None
      end
  | _ => None
  end.

(** All rows valid gives the table; otherwise the position of the first
    invalid row. *)
Fixpoint validate_table (cells : list cell) : nat + list MoleculeRecord :=
  match cells with
  | [] => inr []
  | c :: rest =>
      match validate_cell c with
      | None => inl 0%nat
      | Some r =>
          match validate_table rest with
          | inl k => inl (S k)
          | inr rs => inr (r :: rs)
          end
      end
  end.

Definition frame_of_records (rs : list MoleculeRecord) : DataFrame := {|
  SMILES := map (fun r => CellStr (rec_smiles r)) rs;
  clogP := map rec_clogP rs;
  sascore := map rec_sascore rs;
|}.
End Handler.

(** ** The loop implements the reference *)

Section LoopProofs.
Context `{TK : Toolkit}.

(** The [try] body completes exactly on the rows [validate_cell] accepts,
    and then writes that row's two descriptors. *)
Lemma try_body_validate (idx : nat) (c : cell) (df : DataFrame) :
  match validate_cell c with
  | Some r =>
      c = CellStr (rec_smiles r) /\
      try_body idx c df = TryOk (loc_set_sascore idx (rec_sascore r) (loc_set_clogP idx (rec_clogP r) df))
  | None => exists e df', try_body idx c df = TryRaised e df'
  end.
Proof.
  unfold validate_cell, try_body.
  destruct c as [s| | | |]; simpl; [|eauto..].
  destruct (MolFromSmiles s) as [m|]; simpl; [|eauto].
  destruct (MolLogP m) as [a|e]; simpl; [|eauto].
  destruct (calculateScore m) as [b|e]; simpl; eauto.
Qed.

(** The frame after the rows [pre] were written and before [rest]. *)
Definition frame_prefix (pre : list MoleculeRecord) (rest : list cell) : DataFrame := {|
  SMILES := map (fun r => CellStr (rec_smiles r)) pre ++ rest;
  clogP := map rec_clogP pre ++ repeat 0%float (length rest);
  sascore := map rec_sascore pre ++ repeat 0%float (length rest);
|}.

Lemma insert_at_prefix {A} (n : nat) (l : list A) (x y : A) (k : list A) :
  length l = n -> <[n := x]> (l ++ y :: k) = (l ++ [x]) ++ k.
Proof.
  intros <-. rewrite <- (Nat.add_0_r (length l)), insert_app_r. simpl.
  by rewrite <- app_assoc.
Qed.

Lemma frame_prefix_step (pre : list MoleculeRecord) (r : MoleculeRecord) (rest : list cell) :
  loc_set_sascore (length pre) (rec_sascore r)
    (loc_set_clogP (length pre) (rec_clogP r) (frame_prefix pre (CellStr (rec_smiles r) :: rest)))
  = frame_prefix (pre ++ [r]) rest.
Proof.
  unfold loc_set_sascore, loc_set_clogP, frame_prefix. simpl.
  rewrite !insert_at_prefix by apply length_map.
  rewrite !map_app. simpl. by rewrite <- !app_assoc.
Qed.

Lemma index_loop_prefix (pre : list MoleculeRecord) (rest : list cell) :
  index_loop (length pre) rest (frame_prefix pre rest) =
  match validate_table rest with
  | inl k => LoopAbort (length pre + k)
  | inr rs => LoopDone (frame_of_records (pre ++ rs))
  end.
Proof.
  revert pre. induction rest as [|c rest IH]; intros pre; simpl.
  - unfold frame_prefix, frame_of_records. simpl. by rewrite !app_nil_r.
  - pose proof (try_body_validate (length pre) c (frame_prefix pre (c :: rest))) as Hc.
    destruct (validate_cell c) as [r|] eqn:Hv.
    + destruct Hc as [-> ->]. rewrite frame_prefix_step.
      replace (S (length pre)) with (length (pre ++ [r])) by (rewrite length_app; simpl; lia).
      rewrite IH. destruct (validate_table rest) as [k|rs].
      * f_equal. rewrite length_app. simpl. lia.
      * by rewrite <- app_assoc.
    + destruct Hc as (e & df' & ->). f_equal. lia.
Qed.
End LoopProofs.

Section IngestTheorems.
Context `{TK : Toolkit}.

(** C1: the in-place loop over the zero-initialised frame computes the
    functional validation: the frame of the records when every row is
    valid, and an abort at the first invalid row otherwise. *)
Theorem index_loop_refines (cells : list cell) :
  index_loop 0 cells (with_zero_columns cells) =
  match validate_table cells with
  | inl k => LoopAbort k
  | inr rs => LoopDone (frame_of_records rs)
  end.
Proof. apply (index_loop_prefix [] cells). Qed.

Lemma validate_table_inr (cells : list cell) (rs : list MoleculeRecord) :
  validate_table cells = inr rs <-> Forall2 (fun c r => validate_cell c = Some r) cells rs.
Proof.
  revert rs. induction cells as [|c cells IH]; intros rs; simpl.
  - split; [intros [= <-]; constructor | intros H; inversion H; done].
  - destruct (validate_cell c) as [r|] eqn:Hc.
    + destruct (validate_table cells) as [k|rs'] eqn:Hv.
      * split; [discriminate|]. intros H; inversion H as [|? ? ? rs'' Hcr Hrest]; subst.
        apply IH in Hrest. congruence.
      * split; [intros [= <-]; constructor; [done|by apply IH]|].
        intros H; inversion H as [|? ? ? rs'' Hcr Hrest]; subst.
        apply IH in Hrest. congruence.
    + split; [discriminate|]. intros H; inversion H; congruence.
Qed.

Lemma validate_table_inl (cells : list cell) (k : nat) :
  validate_table cells = inl k <->
  (exists c, cells !! k = Some c /\ validate_cell c = None) /\
  (forall j c, j < k -> cells !! j = Some c -> validate_cell c <> None).
Proof.
  revert k. induction cells as [|c cells IH]; intros k; simpl.
  - split; [discriminate|]. intros [(c & Hc & _) _]. done.
  - destruct (validate_cell c) as [r|] eqn:Hc.
    + destruct (validate_table cells) as [k'|rs'] eqn:Hv.
      * split.
        -- intros [= <-]. destruct (proj1 (IH k') eq_refl) as [Hex Hbefore].
           split; [done|]. intros [|j] c' Hj Hjc; simpl in Hjc; [congruence|].
           apply (Hbefore j); [lia|done].
        -- intros [(c' & Hk & Hc') Hbefore]. destruct k as [|k]; simpl in Hk; [congruence|].
           assert (Hkk : @inl nat (list MoleculeRecord) k' = inl k).
           { apply IH. split; [eauto|]. intros j c'' Hj Hjc. apply (Hbefore (S j)); [lia|done]. }
           congruence.
      * split; [discriminate|]. intros [(c' & Hk & Hc') _].
        pose proof (proj1 (validate_table_inr _ _) Hv) as Hf.
        destruct k as [|k]; simpl in Hk; [congruence|].
        destruct (Forall2_lookup_l _ _ _ _ _ Hf Hk) as (r' & _ & Hr'). congruence.
    + split.
      * intros [= <-]. split; [eauto|]. intros j c' Hj. lia.
      * intros [(c' & Hk & Hc') Hbefore]. destruct k as [|k]; [done|].
        exfalso. apply (Hbefore 0 c); [lia|done|done].
Qed.
End IngestTheorems.

Section HandlerTheorems.
Context `{TK : Toolkit}.

Lemma validate_cell_str (c : cell) (r : MoleculeRecord) :
  validate_cell c = Some r -> c = CellStr (rec_smiles r).
Proof.
  intros Hv. pose proof (try_body_validate 0 c (with_zero_columns [])) as H.
  rewrite Hv in H. apply H.
Qed.

(** A submitted, valid, not too large upload whose file reads as a frame
    stores the validated table, or flashes the first failing row. *)
Lemma index_upload (r : Request) (sess : Session) (fs : FileStorage) (rows : list (nat * cell)) :
  too_large r = false -> validate_on_submit r = true ->
  file_field r = Some fs -> read_csv_SMILES (file_text fs) = CsvFrame rows ->
  index r sess =
  match validate_table (SMILES_column rows) with
  | inl k => (RenderMain, flash (flash_message k) sess)
  | inr rs => (RedirectNext, store_data (frame_of_records rs) sess)
  end.
Proof.
  intros Hbig Hval Hf Hcsv. unfold index.
  rewrite Hbig, andb_false_r, Hval, Hf, Hcsv. cbn [SMILES with_zero_columns].
  rewrite (index_loop_prefix [] _). by destruct (validate_table _).
Qed.

(** A MoleculeTable all of whose records were produced by validation. *)
Definition valid_table (rs : list MoleculeRecord) : Prop :=
  Forall (fun r => validate_cell (CellStr (rec_smiles r)) = Some r) rs.

Lemma validate_table_valid (cells : list cell) (rs : list MoleculeRecord) :
  validate_table cells = inr rs -> valid_table rs.
Proof.
  intros Hv. apply validate_table_inr in Hv. unfold valid_table.
  induction Hv as [|c r cells rs Hc _ IH]; constructor; [|done].
  by rewrite <- (validate_cell_str c r Hc).
Qed.

(** A session whose stored text, if any, is the JSON of the frame of a
    validated MoleculeTable. *)
Definition valid_session (sess : Session) : Prop :=
  match session_data sess with
  | None => True
  | Some txt => exists rs, valid_table rs /\ txt = to_json (frame_of_records rs)
  end.

(** The session after [index]: unchanged, or with one more flashed
    message, or with the table of a validated MoleculeTable stored by the
    redirect. *)
Lemma index_session_cases (r : Request) (sess : Session) :
  let '(resp, sess') := index r sess in
  sess' = sess \/ (exists msg, sess' = flash msg sess) \/
  (resp = RedirectNext /\ exists cells rs, validate_table cells = inr rs /\
                                      sess' = store_data (frame_of_records rs) sess).
Proof.
  unfold index.
  destruct (is_submitted r && too_large r); [by left|].
  destruct (validate_on_submit r); [|by left].
  destruct (file_field r) as [fs|]; [|by left].
  destruct (read_csv_SMILES (file_text fs)) as [rows| | |]; [|by left..].
  cbn [SMILES with_zero_columns]. rewrite (index_loop_prefix [] _).
  destruct (validate_table _) as [k|rs] eqn:Hv; simpl; [right; left; eauto|].
  right; right. split; [done|]. eauto.
Qed.

(** C4: [index] only ever stores a fully validated table, and any
    response but the redirect leaves the stored table as it was. *)
Theorem index_session_invariant (r : Request) (sess : Session) :
  valid_session sess ->
  valid_session (index r sess).2 /\
  ((index r sess).1 <> RedirectNext -> session_data (index r sess).2 = session_data sess).
Proof.
  intros Hsess. pose proof (index_session_cases r sess) as Hcases.
  destruct (index r sess) as [resp sess']; simpl.
  destruct Hcases as [-> | [(msg & ->) | (-> & cells & rs & Hv & ->)]]; [done|done|].
  split; [|done]. exists rs. split; [by eapply validate_table_valid|done].
Qed.
End HandlerTheorems.

Section LineTheorems.
Context `{TK : Toolkit}.

Lemma SMILES_column_zip (s : nat) (cs : list cell) :
  SMILES_column (zip (seq s (length cs)) cs) = cs.
Proof.
  revert s. induction cs as [|c cs IH]; intros s; [done|]. simpl. by rewrite IH.
Qed.

Lemma validate_table_strs (ls : list string) :
  validate_table (map CellStr ls) =
  validate_table (SMILES_column (zip (seq 1 (length ls)) (map CellStr ls))).
Proof. by rewrite <- (length_map CellStr ls), SMILES_column_zip. Qed.

(** An upload of plain lines, typed [object], that all validate is
    stored and redirected. *)
Lemma index_valid_lines (ls : list string) (rs : list MoleculeRecord)
    (r : Request) (fs : FileStorage) (sess : Session) :
  Forall (fun l => plain_line l = true) ls -> infer_dtype ls = ColObject ->
  Forall2 (fun l rec => validate_cell (CellStr l) = Some rec) ls rs ->
  too_large r = false -> validate_on_submit r = true ->
  file_field r = Some fs -> file_text fs = lines_text ls ->
  index r sess = (RedirectNext, store_data (frame_of_records rs) sess).
Proof.
  intros Hplain Hdt Hvalid Hbig Hval Hf Htext.
  rewrite (index_upload r sess fs _ Hbig Hval Hf) by (rewrite Htext; by apply read_csv_lines).
  rewrite <- validate_table_strs.
  by rewrite (proj2 (validate_table_inr _ rs)) by (by apply Forall2_fmap_l).
Qed.

(** C3: an upload of plain lines, typed [object] by pandas, that all
    validate is stored as a table with one row per line, in line order,
    and the client is redirected. *)
Theorem index_valid_file (ls : list string) (rs : list MoleculeRecord)
    (r : Request) (fs : FileStorage) (sess : Session) :
  Forall (fun l => plain_line l = true) ls -> infer_dtype ls = ColObject ->
  Forall2 (fun l rec => validate_cell (CellStr l) = Some rec) ls rs ->
  too_large r = false -> validate_on_submit r = true ->
  file_field r = Some fs -> file_text fs = lines_text ls ->
  index r sess = (RedirectNext, store_data (frame_of_records rs) sess) /\
  SMILES (frame_of_records rs) = map CellStr ls /\
  length (clogP (frame_of_records rs)) = length ls /\
  length (sascore (frame_of_records rs)) = length ls.
Proof.
  intros Hplain Hdt Hvalid Hbig Hval Hf Htext.
  split; [by eapply index_valid_lines|]. cbn [SMILES clogP sascore frame_of_records].
  rewrite !length_map. pose proof (Forall2_length _ _ _ Hvalid) as ->. split; [|done].
  clear -Hvalid. induction Hvalid as [|l rec ls rs Hl _ IH]; [done|].
  simpl. rewrite IH. by apply validate_cell_str in Hl as [= ->].
Qed.

(** C2: an upload of plain lines, typed [object] by pandas, whose first
    invalid line is at 0-based
    position [k] flashes the message naming line [k + 1] and stores
    nothing. *)
Theorem index_first_invalid (ls : list string) (k : nat) (l : string)
    (r : Request) (fs : FileStorage) (sess : Session) :
  Forall (fun l => plain_line l = true) ls -> infer_dtype ls = ColObject ->
  ls !! k = Some l -> validate_cell (CellStr l) = None ->
  (forall j l', j < k -> ls !! j = Some l' -> validate_cell (CellStr l') <> None) ->
  too_large r = false -> validate_on_submit r = true ->
  file_field r = Some fs -> file_text fs = lines_text ls ->
  index r sess = (RenderMain, flash (flash_message k) sess).
Proof.
  intros Hplain Hdt Hk Hl Hbefore Hbig Hval Hf Htext.
  rewrite (index_upload r sess fs _ Hbig Hval Hf) by (rewrite Htext; by apply read_csv_lines).
  rewrite <- validate_table_strs.
  rewrite (proj2 (validate_table_inl _ k)); [done|]. split.
  - exists (CellStr l). by rewrite list_lookup_fmap, Hk.
  - intros j c Hj Hjc. rewrite list_lookup_fmap in Hjc.
    destruct (ls !! j) as [l'|] eqn:Hj'; simpl in Hjc; [|done].
    injection Hjc as <-. by apply (Hbefore j l').
Qed.
(** C15: an upload of plain lines that pandas reads as an int, float or
    bool column is rejected at its first line whatever the toolkit
    accepts, since no value of such a column is a [str]. *)
Theorem index_typed_column_rejected (ls : list string) (r : Request) (fs : FileStorage)
    (sess : Session) :
  Forall (fun l => plain_line l = true) ls -> infer_dtype ls <> ColObject -> ls <> [] ->
  too_large r = false -> validate_on_submit r = true ->
  file_field r = Some fs -> file_text fs = lines_text ls ->
  index r sess = (RenderMain, flash (flash_message 0) sess).
Proof.
  intros Hplain Hdt Hne Hbig Hval Hf Htext.
  rewrite (index_upload r sess fs _ Hbig Hval Hf)
    by (rewrite Htext; by apply read_csv_lines_dtype).
  rewrite <- (length_map (to_cell (infer_dtype ls)) ls), SMILES_column_zip.
  destruct ls as [|l ls']; [done|]. apply Forall_cons in Hplain as [Hl _].
  cbn [map validate_table]. rewrite to_cell_plain by done.
  by destruct (infer_dtype (l :: ls')).
Qed.
End LineTheorems.

(** ** The flashed message names a row unambiguously *)


(** Two different rows give two different messages. *)
Theorem flash_message_inj (i j : nat) : flash_message i = flash_message j -> i = j.
Proof.
  unfold flash_message. intros H.
  apply string_app_inv_l, string_app_inv_r, string_of_nat_inj in H. lia.
Qed.

(** ** What the form does not reject *)

Section BlankFile.
Context `{TK : Toolkit}.

(** C31: an upload whose file has no non-blank line (an empty file
    included) passes the form and is stored as an empty table: neither
    [UploadForm] nor the loop rejects it. *)
Theorem index_blank_file_accepted (r : Request) (fs : FileStorage) (sess : Session) :
  too_large r = false -> validate_on_submit r = true ->
  file_field r = Some fs -> numbered_lines (file_text fs) = [] ->
  index r sess = (RedirectNext, store_data (frame_of_records []) sess).
Proof.
  intros Hbig Hval Hf Hblank.
  rewrite (index_upload r sess fs []); [done..|].
  unfold read_csv_SMILES. by rewrite tokenize_blank.
Qed.
End BlankFile.

Section UnclosedQuote.
Context `{TK : Toolkit}.

(** C32: an upload whose file, after plain lines, has a line that opens a
    quote never closed is not reported as a bad line: [pd.read_csv]
    raises [ParserError] before the [try], the request ends in HTTP 500,
    and the session is left as it was (no message flashed, no table). *)
Theorem index_unclosed_quote_500 (r : Request) (fs : FileStorage) (sess : Session)
    (ls : list string) (m : string) :
  too_large r = false -> validate_on_submit r = true -> file_field r = Some fs ->
  file_text fs = lines_text ls +:+ String quotechar m ->
  Forall (fun l => plain_line l = true) ls ->
  Forall (fun c => Ascii.eqb c quotechar = false) (list_ascii_of_string m) ->
  index r sess = (InternalServerError, sess).
Proof.
  intros Hbig Hval Hf Ht Hls Hm. unfold index.
  by rewrite Hbig, andb_false_r, Hval, Hf, Ht, read_csv_unclosed_quote.
Qed.
End UnclosedQuote.

Section RowNumber.
Context `{TK : Toolkit}.

(** C34: the flashed line number counts rows of the frame, not lines of the
    file: in a file of plain and empty lines typed [object], the first
    invalid line, at 0-based file position [j], is reported as the
    number of non-empty lines up to it, so each empty line before it
    lowers the reported number by one. *)
Theorem index_reports_row_not_file_line (ls : list string) (j : nat) (l : string)
    (r : Request) (fs : FileStorage) (sess : Session) :
  Forall (fun l => plain_line l = true \/ l = EmptyString) ls ->
  infer_dtype (filter (fun l => l <> EmptyString) ls) = ColObject ->
  ls !! j = Some l -> l <> EmptyString -> validate_cell (CellStr l) = None ->
  (forall j' l', j' < j -> ls !! j' = Some l' -> l' <> EmptyString -> validate_cell (CellStr l') <> None) ->
  too_large r = false -> validate_on_submit r = true ->
  file_field r = Some fs -> file_text fs = lines_text ls ->
  index r sess =
  (RenderMain, flash (flash_message (length (filter (fun l => l <> EmptyString) (take j ls)))) sess).
Proof.
  intros Hls Hdt Hj Hne Hl Hbefore Hbig Hval Hf Htext.
  destruct (read_csv_lines_ok ls Hls) as (rows & Hrd & Hcol).
  rewrite (index_upload r sess fs rows Hbig Hval Hf) by (by rewrite Htext).
  rewrite Hcol, Hdt.
  rewrite (map_ext_in _ CellStr).
  2: { intros x Hx%list_elem_of_In. apply list_elem_of_filter in Hx as [Hx Hin].
       rewrite Forall_forall in Hls. destruct (Hls x Hin) as [Hp|]; [|done].
       by rewrite to_cell_plain. }
  rewrite (proj2 (validate_table_inl _ (length (filter (fun l => l <> EmptyString) (take j ls))))); [done|]. split.
  - exists (CellStr l). rewrite list_lookup_fmap. by rewrite (filter_take_lookup _ ls j l Hj Hne).
  - intros j2 c Hj2 Hc. rewrite list_lookup_fmap in Hc.
    destruct (filter _ ls !! j2) as [l2|] eqn:Hl2; [|done]. injection Hc as <-.
    destruct (filter_take_prefix _ ls j j2 l2 Hj2 Hl2) as (j' & Hj' & Hl2' & Hne2).
    by apply (Hbefore j' l2).
Qed.
End RowNumber.

(** ** Witnesses, on the toy toolkit *)

Definition upload_request (fname text : string) : Request := {|
  req_method := POST;
  content_length := 512;
  csrf_valid := true;
  file_field := Some {| filename := fname; file_text := text |};
|}.

Definition empty_session : Session := {| session_data := None; flashes := [] |}.

Definition toy_record (s : string) : MoleculeRecord := {|
  rec_smiles := s; rec_clogP := 1.5%float; rec_sascore := 2.25%float |}.

Definition spec_valid_lines : list string := ["CCO"; "c1ccccc1"; "C(=O)O"]%string.
Definition spec_invalid_lines : list string := ["CCO"; "not_a_molecule"; "C(=O)O"]%string.

Lemma index_valid_file_witness :
  (Forall (fun l => plain_line l = true) spec_valid_lines /\
   Forall2 (fun l rec => validate_cell (TK := ToyToolkit.toy) (CellStr l) = Some rec)
     spec_valid_lines (map toy_record spec_valid_lines)) /\
  index (TK := ToyToolkit.toy) (upload_request "mols.txt" (lines_text spec_valid_lines)) empty_session
  = (RedirectNext, store_data (frame_of_records (map toy_record spec_valid_lines)) empty_session).
Proof.
  assert (H1 : Forall (fun l => plain_line l = true) spec_valid_lines)
    by (repeat constructor).
  assert (H2 : Forall2 (fun l rec => validate_cell (TK := ToyToolkit.toy) (CellStr l) = Some rec)
     spec_valid_lines (map toy_record spec_valid_lines)) by (repeat constructor).
  split; [split; assumption|].
  apply (index_valid_file (TK := ToyToolkit.toy) spec_valid_lines _
           (upload_request "mols.txt" (lines_text spec_valid_lines))
           {| filename := "mols.txt"; file_text := lines_text spec_valid_lines |}
           empty_session H1 ltac:(vm_compute; reflexivity) H2); reflexivity.
Defined.

Lemma index_first_invalid_witness :
  Forall (fun l => plain_line l = true) spec_invalid_lines /\
  index (TK := ToyToolkit.toy) (upload_request "mols.txt" (lines_text spec_invalid_lines)) empty_session
  = (RenderMain, flash (flash_message 1) empty_session) /\
  flash_message 1 = "Error. Please check line 2 of your file."%string.
Proof.
  assert (H1 : Forall (fun l => plain_line l = true) spec_invalid_lines) by (repeat constructor).
  split; [assumption|]. split; [|reflexivity].
  apply (index_first_invalid (TK := ToyToolkit.toy) spec_invalid_lines 1 "not_a_molecule"
           (upload_request "mols.txt" (lines_text spec_invalid_lines))
           {| filename := "mols.txt"; file_text := lines_text spec_invalid_lines |}
           empty_session H1 ltac:(vm_compute; reflexivity)); try reflexivity.
  intros [|j] l' Hj Hl'; [|lia]. injection Hl' as <-. discriminate.
Defined.

Lemma index_blank_file_accepted_witness :
  numbered_lines (String LF (String " " (String LF EmptyString))) = [] /\
  index (TK := ToyToolkit.toy)
    (upload_request "empty.txt" (String LF (String " " (String LF EmptyString)))) empty_session
  = (RedirectNext, store_data (frame_of_records []) empty_session).
Proof.
  split; [reflexivity|].
  apply (index_blank_file_accepted (TK := ToyToolkit.toy)
           (upload_request "empty.txt" (String LF (String " " (String LF EmptyString))))
           {| filename := "empty.txt"; file_text := String LF (String " " (String LF EmptyString)) |});
    reflexivity.
Defined.

Lemma index_session_invariant_witness :
  valid_session (TK := ToyToolkit.toy) empty_session /\
  valid_session (TK := ToyToolkit.toy)
    (index (TK := ToyToolkit.toy) (upload_request "mols.txt" (lines_text spec_valid_lines))
       empty_session).2.
Proof.
  assert (H : valid_session (TK := ToyToolkit.toy) empty_session) by exact I.
  split; [exact H|].
  exact (proj1 (index_session_invariant (TK := ToyToolkit.toy)
                  (upload_request "mols.txt" (lines_text spec_valid_lines)) empty_session H)).
Defined.

Lemma flash_message_inj_witness :
  flash_message 4 = flash_message 4 /\ 4 = 4.
Proof. split; [reflexivity|]. apply flash_message_inj. reflexivity. Defined.

Lemma index_typed_column_rejected_witness :
  Forall (fun l => plain_line l = true) ["INF"]%string /\ infer_dtype ["INF"]%string <> ColObject /\
  validate_cell (TK := ToyToolkit.toy) (CellStr "INF") <> None /\
  index (TK := ToyToolkit.toy) (upload_request "inf.txt" (lines_text ["INF"]%string)) empty_session
  = (RenderMain, flash (flash_message 0) empty_session).
Proof.
  assert (H1 : Forall (fun l => plain_line l = true) ["INF"]%string) by (repeat constructor).
  assert (H2 : infer_dtype ["INF"]%string <> ColObject) by (intros H; vm_compute in H; discriminate).
  split; [exact H1|]. split; [exact H2|]. split; [discriminate|].
  apply (index_typed_column_rejected (TK := ToyToolkit.toy) ["INF"]%string _
           {| filename := "inf.txt"; file_text := lines_text ["INF"]%string |} empty_session H1 H2);
    [discriminate|reflexivity..].
Defined.

Definition unclosed_text : string :=
  lines_text ["CCO"]%string +:+ String quotechar (String "C" (String LF (String "C" EmptyString))).

Lemma index_unclosed_quote_500_witness :
  Forall (fun l => plain_line l = true) ["CCO"]%string /\
  index (TK := ToyToolkit.toy) (upload_request "mols.txt" unclosed_text) empty_session
  = (InternalServerError, empty_session).
Proof.
  assert (H : Forall (fun l => plain_line l = true) ["CCO"]%string) by (repeat constructor).
  split; [exact H|].
  apply (index_unclosed_quote_500 (TK := ToyToolkit.toy) (upload_request "mols.txt" unclosed_text)
           {| filename := "mols.txt"; file_text := unclosed_text |} empty_session ["CCO"]%string
           (String "C" (String LF (String "C" EmptyString))));
    [reflexivity|reflexivity|reflexivity|reflexivity|exact H|repeat constructor].
Defined.

Section DecodeError.
Context `{TK : Toolkit}.

(** C33: an upload whose file has a non-blank line that is not UTF-8, in
    a column pandas types [object] (the lines without quote or delimiter),
    is not reported as a bad line: [pd.read_csv] raises
    [UnicodeDecodeError] before the [try], the request ends in HTTP 500,
    and the session is left as it was. *)
Theorem index_invalid_utf8_500 (r : Request) (fs : FileStorage) (sess : Session) :
  too_large r = false -> validate_on_submit r = true -> file_field r = Some fs ->
  Forall (fun c => Ascii.eqb c quotechar = false) (list_ascii_of_string (file_text fs)) ->
  cr_ws (list_ascii_of_string (file_text fs)) = false ->
  Forall (fun nl => single_field nl.2 = true) (numbered_lines (file_text fs)) ->
  infer_dtype (map (fun nl => string_of_list_ascii nl.2) (numbered_lines (file_text fs))) = ColObject ->
  Exists (fun nl => utf8_valid nl.2 = false) (numbered_lines (file_text fs)) ->
  index r sess = (InternalServerError, sess).
Proof.
  intros Hbig Hval Hf Hq Hcw Hsf Hdt Hbad. unfold index.
  by rewrite Hbig, andb_false_r, Hval, Hf, read_csv_decode_error.
Qed.
End DecodeError.

(** A file whose second line holds the byte 0xFF, never part of UTF-8. *)
Definition latin_text : string := lines_text ["CCO"; String "255" "C"]%string.

Lemma index_invalid_utf8_500_witness :
  Forall (fun c => Ascii.eqb c quotechar = false) (list_ascii_of_string latin_text) /\
  cr_ws (list_ascii_of_string latin_text) = false /\
  Forall (fun nl => single_field nl.2 = true) (numbered_lines latin_text) /\
  infer_dtype (map (fun nl => string_of_list_ascii nl.2) (numbered_lines latin_text)) = ColObject /\
  Exists (fun nl => utf8_valid nl.2 = false) (numbered_lines latin_text) /\
  index (TK := ToyToolkit.toy) (upload_request "mols.txt" latin_text) empty_session
  = (InternalServerError, empty_session).
Proof.
  assert (H1 : Forall (fun c => Ascii.eqb c quotechar = false) (list_ascii_of_string latin_text))
    by (vm_compute; repeat constructor).
  assert (H2 : cr_ws (list_ascii_of_string latin_text) = false) by reflexivity.
  assert (H3 : Forall (fun nl => single_field nl.2 = true) (numbered_lines latin_text))
    by (vm_compute; repeat constructor).
  assert (H4 : infer_dtype (map (fun nl => string_of_list_ascii nl.2) (numbered_lines latin_text)) = ColObject)
    by (vm_compute; reflexivity).
  assert (H5 : Exists (fun nl => utf8_valid nl.2 = false) (numbered_lines latin_text))
    by (vm_compute; right; left; reflexivity).
  do 5 (split; [assumption|]).
  exact (index_invalid_utf8_500 (TK := ToyToolkit.toy) (upload_request "mols.txt" latin_text)
           {| filename := "mols.txt"; file_text := latin_text |} empty_session
           eq_refl eq_refl eq_refl H1 H2 H3 H4 H5).
Defined.

Definition blank_line_file : list string := ["CCO"; EmptyString; "XX"]%string.

Lemma index_reports_row_not_file_line_witness :
  index (TK := ToyToolkit.toy) (upload_request "mols.txt" (lines_text blank_line_file)) empty_session
  = (RenderMain, flash "Error. Please check line 2 of your file." empty_session).
Proof.
  rewrite (index_reports_row_not_file_line (TK := ToyToolkit.toy) blank_line_file 2 "XX"
             (upload_request "mols.txt" (lines_text blank_line_file))
             {| filename := "mols.txt"; file_text := lines_text blank_line_file |} empty_session);
    try reflexivity.
  - constructor; [left; reflexivity|]. constructor; [right; reflexivity|].
    constructor; [left; reflexivity|constructor].
  - discriminate.
  - intros [|[|]] l' Hj' Hl' Hne; [| |lia]; injection Hl' as <-; [|done].
    intros H. vm_compute in H. discriminate.
Defined.
