(* ===== verification/Plot.v ===== *)
(** * The scatter plot built by [next] (src/app.py lines 59-63)

    [go.Figure(data=[go.Scatter(x=df["clogP"], y=df["sascore"],
    mode="markers")])], then [update_traces(hoverinfo="none",
    hovertemplate=None)] and the two axis titles.  A figure is a record of
    its traces and axis titles; a trace keeps its coordinate arrays in the
    frame's row order.  The theorems relate the drawn points to the rows. *)

From S2P Require Import Prelude Toolkit PyFloat Csv Frame Ingest.

Record Scatter := {
  trace_x : list float;
  trace_y : list float;
  trace_mode : string;
  hoverinfo : string;
  hovertemplate : option string;
}.

Record Figure := {
  fig_data : list Scatter;
  xaxis_title : string;
  yaxis_title : string;
}.

(** [go.Scatter(x=..., y=..., mode=...)] with Plotly's defaults for the
    hover attributes. *)
Definition go_Scatter (x y : list float) (mode : string) : Scatter := {|
  trace_x := x; trace_y := y; trace_mode := mode;
  hoverinfo := "all"; hovertemplate := None;
|}.

(** [go.Figure(data=traces)] with empty axis titles. *)
Definition go_Figure (traces : list Scatter) : Figure := {|
  fig_data := traces; xaxis_title := EmptyString; yaxis_title := EmptyString |}.

(** [fig.update_traces(hoverinfo="none", hovertemplate=None)]: every trace. *)
Definition update_traces_hover (info : string) (fig : Figure) : Figure := {|
  fig_data := map (fun tr => {| trace_x := trace_x tr; trace_y := trace_y tr;
                                trace_mode := trace_mode tr; hoverinfo := info;
                                hovertemplate := None |}) (fig_data fig);
  xaxis_title := xaxis_title fig; yaxis_title := yaxis_title fig |}.

(** [fig.update_xaxes(title_text=t)] *)
Definition update_xaxes (t : string) (fig : Figure) : Figure := {|
  fig_data := fig_data fig; xaxis_title := t; yaxis_title := yaxis_title fig |}.

(** [fig.update_yaxes(title_text=t)] *)
Definition update_yaxes (t : string) (fig : Figure) : Figure := {|
  fig_data := fig_data fig; xaxis_title := xaxis_title fig; yaxis_title := t |}.

(** The figure [next] builds from the table it read. *)
Definition build_figure (df : DataFrame) : Figure :=
  update_yaxes "Synthetic accessibility score"
    (update_xaxes "clogP"
      (update_traces_hover "none"
        (go_Figure [go_Scatter (clogP df) (sascore df) "markers"]))).

(** The points Plotly draws for a trace: one per index present in both
    coordinate arrays, the [i]-th at [(x[i], y[i])]. *)
Definition trace_points (tr : Scatter) : list (float * float) :=
  zip (trace_x tr) (trace_y tr).

