(* ===== verification/Hover.v ===== *)
(** * The hover callback and the molecule image (src/app.py lines 18-24, 81-97)

    [display_hover(hoverData)] returns the tooltip's [show], [bbox] and
    [children]: with no hovered point, [False, no_update, no_update];
    otherwise the first point's [bbox] and [pointNumber], the row
    [df.iloc[num]] of the table captured when the page was built, and an
    image of its SMILES made by [smiles_to_base64_img]: the toolkit's PNG,
    [base64.b64encode] ([Base64.b2a_base64]), [.decode("utf-8")], after the
    prefix "data:image/png;base64, ".

    Around the callback, the browser side is modelled from the libraries'
    documented behaviour: Plotly reports a hovered point by its index in
    the trace ([plotly_hover]); [dcc.Graph(clear_on_unhover=True)] resets
    [hoverData] to [None] when the pointer leaves the point; [dcc.Tooltip]
    keeps the last value of a property the callback does not update; and a
    data URL is decoded by removing the header and decoding the rest with
    the whitespace-tolerant base64 decoder. *)

From S2P Require Import Prelude Toolkit Base64 PyFloat Csv Frame Ingest Plot.

(** ** The Dash values *)

(** A point's bounding box in pixels. *)
Record BBox := { x0 : Z; x1 : Z; y0 : Z; y1 : Z }.

(** An element of [hoverData["points"]]. *)
Record HoverPoint := {
  curveNumber : nat;
  pointNumber : nat;
  bbox : BBox;
}.

Record HoverData := { points : list HoverPoint }.

(** A callback output: [no_update] or a new value. *)
Inductive update (A : Type) :=
  | NoUpdate
  | Update (a : A).
Arguments NoUpdate {A}.
Arguments Update {A} a.

(** The Dash HTML components the callback builds, with their style. *)
Inductive Component :=
  | Div (children : list Component) (style : list (string * string))
  | Img (src : string) (style : list (string * string)).

(** ** The callback *)

Definition data_url_prefix : string := "data:image/png;base64, ".

Section Callback.
Context `{TK : Toolkit}.

(** [smiles_to_base64_img(SMILES)] on the table's value. *)
Definition smiles_to_base64_img (SMILES : cell) : py string :=
  let! mol := MolFromSmiles_cell SMILES in
  let! png := MolToPNG_py mol in
  let! encoded_image := utf8_decode (b2a_base64 png) in
  PyOk (data_url_prefix +:+ encoded_image).

(** The [children] value of a shown tooltip. *)
Definition tooltip_children (src : string) : list Component :=
  [Div [Img src [("width", "250px")]%string]
       [("width", "250px"); ("white-space", "normal")]%string].

(** [display_hover(hoverData)], for the table [df] the closure captured. *)
Definition display_hover (df : DataFrame) (hoverData : option HoverData)
  : py (bool * update BBox * update (list Component)) :=
  match hoverData with
  | None => PyOk (false, NoUpdate, NoUpdate)
  | Some hd =>
      let! pt := py_index (points hd) 0 in
      let bb := bbox pt in
      let num := pointNumber pt in
      let! SMILE := py_index (SMILES df) num in
      let! src := smiles_to_base64_img SMILE in
      PyOk (true, Update bb, Update (tooltip_children src))
  end.
End Callback.

(** ** The browser side *)

(** A pointer event on the graph. *)
Inductive PointerEvent :=
  | PointerOn (i : nat) (bb : BBox)
  | PointerOff.

(** The [hoverData] Plotly and [dcc.Graph(clear_on_unhover=True)] send for
    an event on a figure with one trace: the hovered point's index, or
    [None] once the pointer has left. *)
Definition plotly_hover (fig : Figure) (ev : PointerEvent) : option HoverData :=
  match ev, fig_data fig with
  | PointerOn i bb, [tr] =>
      if bool_decide (i < length (trace_points tr))
      then Some {| points := [{| curveNumber := 0; pointNumber := i; bbox := bb |}] |}
      else None
  | _, _ => None
  end.

(** The [dcc.Tooltip] properties the callback writes. *)
Record Tooltip := {
  tt_show : bool;
  tt_bbox : option BBox;
  tt_children : list Component;
}.

Definition apply_update {A} (u : update A) (old : A) : A :=
  match u with NoUpdate => old | Update a => a end.

Section Browser.
Context `{TK : Toolkit}.

(** One pointer event: the callback runs on the new [hoverData]; its
    outputs are applied, and a callback that raises updates nothing. *)
Definition tooltip_step (df : DataFrame) (fig : Figure) (tt : Tooltip) (ev : PointerEvent)
  : Tooltip :=
  match display_hover df (plotly_hover fig ev) with
  | PyOk (show, bb, children) =>
      {| tt_show := show;
         tt_bbox := match bb with NoUpdate => tt_bbox tt | Update b => Some b end;
         tt_children := apply_update children (tt_children tt) |}
  | PyRaise _ => tt
  end.

Definition tooltip_run (df : DataFrame) (fig : Figure) (tt : Tooltip) (evs : list PointerEvent)
  : Tooltip :=
  foldl (tooltip_step df fig) tt evs.
End Browser.

(** The body of a [data:] URL with a [;base64] header, as the browser
    decodes it for an [<img src>]. *)
Definition data_url_body (src : string) : option (list byte) :=
  let header := "data:image/png;base64,"%string in
  if String.prefix header src
  then forgiving_base64_decode
         (list_byte_of_string (substring (String.length header)
                                 (String.length src - String.length header) src))
  else None.

(** ** The image of a molecule *)

Section ImageTheorems.
Context `{TK : Toolkit}.

(** The image the callback builds for a SMILES is a data URL whose body,
    decoded by the browser, is exactly the toolkit's PNG of the molecule;
    the space the code puts after the comma is dropped by the decoder. *)
Lemma smiles_to_base64_img_ok (s : string) (m : Mol) (png : list byte) :
  MolFromSmiles s = Some m -> MolToPNG m = PyOk png ->
  exists src, smiles_to_base64_img (CellStr s) = PyOk src /\ data_url_body src = Some png.
Proof.
  intros Hm Hpng. unfold smiles_to_base64_img. cbn [MolFromSmiles_cell].
  rewrite Hm; autorewrite with webapp_rw. cbn [MolToPNG_py]. rewrite Hpng; autorewrite with webapp_rw.
  destruct (b2a_base64_payload png) as (enc & -> & Hdec). simpl.
  eexists. split; [reflexivity|].
  unfold data_url_body, data_url_prefix.
  change ("data:image/png;base64, " +:+ enc)%string
    with ("data:image/png;base64," +:+ String " " enc)%string.
  rewrite string_prefix_app, string_app_length.
  replace (_ + _ - _) with (String.length (String " " enc)) by lia.
  by rewrite substring_app.
Qed.

(** [display_hover] on an event whose first point is row [c] of the
    table: the result of rendering [c]. *)
Lemma display_hover_at (df : DataFrame) (hd : HoverData) (pt : HoverPoint)
    (rest : list HoverPoint) (c : cell) :
  points hd = pt :: rest -> SMILES df !! pointNumber pt = Some c ->
  display_hover df (Some hd) =
  py_bind (smiles_to_base64_img c)
    (fun src => PyOk (true, Update (bbox pt), Update (tooltip_children src))).
Proof.
  intros Hpts Hrow. unfold display_hover, py_index. rewrite Hpts. simpl. by rewrite Hrow.
Qed.

(** C25: hovering a point whose row holds a parsable SMILES shows the
    tooltip at the point's box with an image whose data URL decodes to
    the PNG of that row's molecule. *)
Theorem display_hover_row (df : DataFrame) (hd : HoverData) (pt : HoverPoint)
    (rest : list HoverPoint) (s : string) (m : Mol) (png : list byte) :
  points hd = pt :: rest ->
  SMILES df !! pointNumber pt = Some (CellStr s) ->
  MolFromSmiles s = Some m -> MolToPNG m = PyOk png ->
  exists src, display_hover df (Some hd) = PyOk (true, Update (bbox pt), Update (tooltip_children src))
              /\ data_url_body src = Some png.
Proof.
  intros Hpts Hrow Hm Hpng.
  destruct (smiles_to_base64_img_ok s m png Hm Hpng) as (src & Hsrc & Hbody).
  exists src. split; [|done]. by rewrite (display_hover_at df hd pt rest _ Hpts Hrow), Hsrc.
Qed.

(** C26: the callback raises [IndexError] when the hovered point number is
    not a row of the table, and when the event carries no point. *)
Theorem display_hover_index_error (df : DataFrame) (hd : HoverData) :
  (points hd = [] \/ exists pt rest, points hd = pt :: rest /\ length (SMILES df) <= pointNumber pt) ->
  display_hover df (Some hd) = PyRaise IndexError.
Proof.
  unfold display_hover. intros [Hnil | (pt & rest & Hpts & Hge)].
  - unfold py_index. by rewrite Hnil.
  - unfold py_index at 1. rewrite Hpts. simpl. by rewrite py_index_ge.
Qed.
End ImageTheorems.

(** ** Hovering the page built from a stored table *)

Section PageTheorems.
Context `{TK : Toolkit}.
(** The toolkit draws every molecule it parsed. *)
Hypothesis MolToPNG_total : forall m : Mol, exists png, MolToPNG m = PyOk png.

Lemma validate_cell_parses (s : string) (r : MoleculeRecord) :
  validate_cell (CellStr s) = Some r -> exists m, MolFromSmiles s = Some m.
Proof. simpl. destruct (MolFromSmiles s); [eauto|discriminate]. Qed.

(** On the figure of a frame, Plotly reports the [i]-th point for every
    row [i] of both float columns. *)
Lemma plotly_hover_build (df : DataFrame) (i : nat) (bb : BBox) :
  i < length (clogP df) -> i < length (sascore df) ->
  plotly_hover (build_figure df) (PointerOn i bb) =
  Some {| points := [{| curveNumber := 0; pointNumber := i; bbox := bb |}] |}.
Proof.
  intros Hx Hy. unfold plotly_hover, trace_points. simpl.
  rewrite bool_decide_eq_true_2; [reflexivity|]. rewrite length_zip. lia.
Qed.

End PageTheorems.

Section NoPoint.
Context `{TK : Toolkit}.

(** An event that leaves no hovered point (the pointer left the
    point, or is on no point) hides the tooltip and keeps its previous
    image and box: the callback renders nothing. *)
Theorem tooltip_no_point_no_render (df : DataFrame) (fig : Figure) (tt : Tooltip)
    (evs : list PointerEvent) (ev : PointerEvent) :
  plotly_hover fig ev = None ->
  tooltip_run df fig tt (evs ++ [ev]) =
  {| tt_show := false;
     tt_bbox := tt_bbox (tooltip_run df fig tt evs);
     tt_children := tt_children (tooltip_run df fig tt evs) |}.
Proof.
  intros Hnone. unfold tooltip_run. rewrite foldl_app. simpl.
  unfold tooltip_step. by rewrite Hnone.
Qed.
End NoPoint.

(** ** A sequence of pointer events on a page *)

(** The point a pointer event hovers on a graph of [n] points, if any. *)
Definition hover_index (n : nat) (pe : PointerEvent) : option (nat * BBox) :=
  match pe with
  | PointerOn i bb => if bool_decide (i < n) then Some (i, bb) else None
  | PointerOff => None
  end.

(** The last hovered point of a sequence of events. *)
Definition last_point (n : nat) (evs : list PointerEvent) : option (nat * BBox) :=
  foldl (fun acc pe => match hover_index n pe with Some p => Some p | None => acc end) None evs.

Lemma hover_index_Some (n : nat) (pe : PointerEvent) (i : nat) (bb : BBox) :
  hover_index n pe = Some (i, bb) -> pe = PointerOn i bb /\ i < n.
Proof. destruct pe as [j bb'|]; simpl; [case_bool_decide; intros; by simplify_eq|done]. Qed.

Lemma hover_index_None (n : nat) (pe : PointerEvent) :
  hover_index n pe = None -> forall i bb, pe = PointerOn i bb -> n <= i.
Proof. intros Hh i bb ->. simpl in Hh. case_bool_decide; [done|lia]. Qed.

Lemma plotly_hover_build_eq (df : DataFrame) (n : nat) (pe : PointerEvent) :
  length (clogP df) = n -> length (sascore df) = n ->
  plotly_hover (build_figure df) pe =
  option_map (fun '(i, bb) => {| points := [{| curveNumber := 0; pointNumber := i; bbox := bb |}] |})
    (hover_index n pe).
Proof.
  intros Hx Hy. destruct pe as [i bb|]; [|done]. unfold plotly_hover, trace_points, hover_index. simpl.
  rewrite length_zip, Hx, Hy, Nat.min_id. by case_bool_decide.
Qed.

(** A table whose page can be drawn and hovered: the three columns have
    one length and every SMILES cell is a [str] the toolkit parses. *)
Definition drawable `{TK : Toolkit} (df : DataFrame) : Prop :=
  length (clogP df) = length (SMILES df) /\ length (sascore df) = length (SMILES df) /\
  Forall (fun c => exists s m, c = CellStr s /\ MolFromSmiles s = Some m) (SMILES df).

Section TooltipRun.
Context `{TK : Toolkit}.
Hypothesis MolToPNG_total : forall m : Mol, exists png, MolToPNG m = PyOk png.

(** One pointer event on the page of a drawable table: it shows the
    image of the hovered row, or hides the tooltip and keeps the rest. *)
Lemma tooltip_step_drawn (df : DataFrame) (tt : Tooltip) (pe : PointerEvent) :
  drawable df ->
  (exists i bb s src, hover_index (length (SMILES df)) pe = Some (i, bb) /\
     SMILES df !! i = Some (CellStr s) /\ smiles_to_base64_img (CellStr s) = PyOk src /\
     tooltip_step df (build_figure df) tt pe =
     {| tt_show := true; tt_bbox := Some bb; tt_children := tooltip_children src |}) \/
  (hover_index (length (SMILES df)) pe = None /\
   tooltip_step df (build_figure df) tt pe =
   {| tt_show := false; tt_bbox := tt_bbox tt; tt_children := tt_children tt |}).
Proof.
  intros (Hx & Hy & Hrows). unfold tooltip_step.
  rewrite (plotly_hover_build_eq df (length (SMILES df))) by done.
  destruct (hover_index (length (SMILES df)) pe) as [[i bb]|] eqn:Hh; [left|by right].
  destruct (hover_index_Some _ _ _ _ Hh) as [_ Hi].
  destruct (lookup_lt_is_Some_2 _ _ Hi) as [c Hc].
  destruct (Forall_lookup_1 _ _ _ _ Hrows Hc) as (s & m & -> & Hm).
  destruct (MolToPNG_total m) as [png Hpng].
  destruct (smiles_to_base64_img_ok s m png Hm Hpng) as (src & Hsrc & _).
  exists i, bb, s, src. do 3 (split; [done|]). cbn [option_map].
  erewrite display_hover_at; [|reflexivity|exact Hc]. by rewrite Hsrc.
Qed.

(** After any sequence of pointer events on such a page, the tooltip is
    shown exactly when the last event hovers a point, and its box and
    image are those of the last hovered point's row. *)
Lemma tooltip_run_drawn (df : DataFrame) (tt : Tooltip) (evs : list PointerEvent) :
  drawable df ->
  let n := length (SMILES df) in
  let tt' := tooltip_run df (build_figure df) tt evs in
  tt_show tt' = match last evs with
                | Some pe => bool_decide (is_Some (hover_index n pe))
                | None => tt_show tt
                end /\
  match last_point n evs with
  | None => tt_bbox tt' = tt_bbox tt /\ tt_children tt' = tt_children tt
  | Some (i, bb) =>
      tt_bbox tt' = Some bb /\
      exists s src, SMILES df !! i = Some (CellStr s) /\ smiles_to_base64_img (CellStr s) = PyOk src /\
                    tt_children tt' = tooltip_children src
  end.
Proof.
  intros Hdf. induction evs as [|pe evs IH] using rev_ind; [done|]. cbv zeta in IH |- *.
  unfold tooltip_run, last_point in *. rewrite !foldl_app, last_snoc. simpl.
  destruct (tooltip_step_drawn df (foldl (tooltip_step df (build_figure df)) tt evs) pe Hdf)
    as [(i & bb & s & src & Hh & Hs & Hsrc & ->) | (Hh & ->)]; rewrite Hh; simpl.
  - split; [done|]. split; [done|]. eauto.
  - split; [done|apply IH].
Qed.
End TooltipRun.

(** ** Witnesses, on the toy toolkit *)

Definition origin_box : BBox := {| x0 := 0; x1 := 4; y0 := 0; y1 := 4 |}.

Definition hover_at (i : nat) : HoverData :=
  {| points := [{| curveNumber := 0; pointNumber := i; bbox := origin_box |}] |}.

Definition spec_table : list MoleculeRecord := map toy_record spec_valid_lines.

Lemma toy_MolToPNG_total : forall m : @Mol ToyToolkit.toy,
  exists png, @MolToPNG ToyToolkit.toy m = PyOk png.
Proof. intros m. eexists. reflexivity. Qed.

Lemma display_hover_row_witness :
  exists src,
    display_hover (TK := ToyToolkit.toy) (frame_of_records spec_table) (Some (hover_at 1))
    = PyOk (true, Update origin_box, Update (tooltip_children src)) /\
    data_url_body src = Some (list_byte_of_string "c1ccccc1").
Proof.
  apply (display_hover_row (TK := ToyToolkit.toy) (frame_of_records spec_table) (hover_at 1)
           {| curveNumber := 0; pointNumber := 1; bbox := origin_box |} [] "c1ccccc1" "c1ccccc1"
           (list_byte_of_string "c1ccccc1")); reflexivity.
Defined.

Lemma display_hover_index_error_witness :
  display_hover (TK := ToyToolkit.toy) (frame_of_records spec_table) (Some (hover_at 3))
  = PyRaise IndexError.
Proof.
  apply (display_hover_index_error (TK := ToyToolkit.toy)). right.
  eexists _, []. split; [reflexivity|]. simpl. lia.
Defined.

Lemma tooltip_no_point_no_render_witness :
  tooltip_run (TK := ToyToolkit.toy) (frame_of_records spec_table)
    (build_figure (frame_of_records spec_table))
    {| tt_show := false; tt_bbox := None; tt_children := [] |} [PointerOn 1 origin_box; PointerOff]
  = {| tt_show := false;
       tt_bbox := tt_bbox (tooltip_run (TK := ToyToolkit.toy) (frame_of_records spec_table)
                    (build_figure (frame_of_records spec_table))
                    {| tt_show := false; tt_bbox := None; tt_children := [] |} [PointerOn 1 origin_box]);
       tt_children := tt_children (tooltip_run (TK := ToyToolkit.toy) (frame_of_records spec_table)
                    (build_figure (frame_of_records spec_table))
                    {| tt_show := false; tt_bbox := None; tt_children := [] |} [PointerOn 1 origin_box]) |}.
Proof.
  apply (tooltip_no_point_no_render (TK := ToyToolkit.toy) _ _ _ [PointerOn 1 origin_box] PointerOff).
  reflexivity.
Defined.

