(* ===== verification/Layout.v ===== *)
(** * The page of a Dash application (src/app.py lines 65-80)

    [next] sets [app.layout] to a [html.Div] holding a title, a subtitle,
    a link back to the upload page ([url_for("index")]), the [dcc.Graph]
    "my-graph" with the figure and [clear_on_unhover=True], and the
    [dcc.Tooltip] "graph-tooltip"; it then registers [display_hover] with
    [app.callback(Output("graph-tooltip", "show"),
    Output("graph-tooltip", "bbox"), Output("graph-tooltip", "children"),
    Input("my-graph", "hoverData"))].

    A layout is a tree of [LayoutNode]s; a callback's dependencies are
    pairs of a component id and a property.  The properties a component
    has are those the Dash component libraries declare (dash-core-
    components' [Graph] and [Tooltip], dash-html-components' elements), and
    Dash's renderer refuses a callback whose dependency names an id that
    is not in the layout or a property its component does not have, an
    output used twice, and a layout with a repeated id. *)

From S2P Require Import Prelude PyFloat Csv Frame Plot.

Inductive LayoutNode :=
  | LDiv (children : list LayoutNode)
  | LH1 (text : string)
  | LH4 (text : string)
  | LA (text href : string)
  | LGraph (id : string) (figure : Figure) (clear_on_unhover : bool) (style : list (string * string))
  | LTooltip (id : string).

(** [url_for("index")]: the route of [index] is "/". *)
Definition url_for_index : string := "/".

(** The [style] of the graph. *)
Definition graph_style : list (string * string) :=
  [("width", "180vh"); ("height", "80vh"); ("display", "block");
   ("margin-left", "auto"); ("margin-right", "auto")]%string.

(** [app.layout] for the figure [fig]. *)
Definition dash_layout (fig : Figure) : LayoutNode :=
  LDiv [LH1 "Interactive Visualization";
        LH4 "This is created by Dash running inside Flask.";
        LA "Go back to last page" url_for_index;
        LGraph "my-graph" fig true graph_style;
        LTooltip "graph-tooltip"]%string.

(** An [Input] or [Output] of a callback. *)
Record Dependency := { dep_id : string; dep_prop : string }.

(** The dependencies of the [display_hover] callback. *)
Definition hover_outputs : list Dependency :=
  [{| dep_id := "graph-tooltip"; dep_prop := "show" |};
   {| dep_id := "graph-tooltip"; dep_prop := "bbox" |};
   {| dep_id := "graph-tooltip"; dep_prop := "children" |}]%string.

Definition hover_inputs : list Dependency :=
  [{| dep_id := "my-graph"; dep_prop := "hoverData" |}]%string.

(** The properties of a component (a subset of the declared ones that
    contains every property the program sets or listens to). *)
Definition node_props (n : LayoutNode) : list string :=
  match n with
  | LGraph _ _ _ _ => ["id"; "figure"; "hoverData"; "clickData"; "selectedData";
                       "relayoutData"; "clear_on_unhover"; "style"; "config"]
  | LTooltip _ => ["id"; "show"; "bbox"; "children"; "direction"; "style"]
  | LDiv _ | LH1 _ | LH4 _ => ["id"; "children"; "style"; "className"]
  | LA _ _ => ["id"; "children"; "href"; "style"; "className"]
  end%string.

(** The components with an id, in document order. *)
Fixpoint layout_ids (n : LayoutNode) : list (string * LayoutNode) :=
  match n with
  | LDiv cs => flat_map layout_ids cs
  | LGraph id _ _ _ => [(id, n)]
  | LTooltip id => [(id, n)]
  | _ => []
  end.

(** Dash's validation of a layout and one callback. *)
Definition dep_ok (lay : LayoutNode) (d : Dependency) : bool :=
  match list_find (fun p => bool_decide (p.1 = dep_id d)) (layout_ids lay) with
  | Some (_, (_, n)) => bool_decide (dep_prop d ∈ node_props n)
  | None => false
  end.

Definition callback_ok (lay : LayoutNode) (outs ins : list Dependency) : bool :=
  bool_decide (NoDup (layout_ids lay).*1)
  && bool_decide (NoDup (map (fun d => (dep_id d, dep_prop d)) outs))
  && forallb (dep_ok lay) (outs ++ ins).

(** The graph of a layout: the figure of the component "my-graph". *)
Definition layout_graph (lay : LayoutNode) : option Figure :=
  match list_find (fun p => bool_decide (p.1 = "my-graph"%string)) (layout_ids lay) with
  | Some (_, (_, LGraph _ fig _ _)) => Some fig
  | _ => None
  end.

(** The layout of every page passes Dash's validation of the hover
    callback, and its graph shows the figure it was built with. *)
Lemma dash_layout_ok (fig : Figure) :
  callback_ok (dash_layout fig) hover_outputs hover_inputs = true /\
  layout_graph (dash_layout fig) = Some fig.
Proof. split; reflexivity. Qed.
