(* ===== verification/Server.v ===== *)
(** * The server as a state machine (src/app.py lines 27-104)

    [create_app] builds one Flask server with two routes.  The state that
    outlives a request is the browser's session (the stored table and the
    flashed messages, [Ingest.Session]) and the Dash applications [next]
    registers on the server: every visit of "/next" creates a new [Dash]
    with fresh uuid name and path, whose layout holds the figure and whose
    hover callback closes over the table read at that visit.  Nothing ever
    unregisters an application.

    Events are the requests the server handles: an upload ([index]), a
    visit of "/next" (with the two [uuid.uuid4()] values it draws), and a
    hover callback request to the [k]-th registered application.  [handle]
    is the server's response and new state; [reachable] the states reached
    from the initial one.  [session["data"]] holds the JSON text [index]
    wrote; [next] reads it with [Json.read_json], so a page shows the
    table as the round trip gives it back ([stored_frame]): floats through
    their 10-digit text, and the SMILES column converted to numbers when
    every SMILES is a Python float literal.  The session itself lives in
    a cookie signed with [SECRET_KEY]; a client that presents a cookie
    ([present_cookie]) gets the session it holds when the signature
    verifies ([open_session]). *)

From S2P Require Import Prelude Toolkit Base64 PyFloat Csv Forms Frame Json Ingest Plot Hover Layout.

(** A registered Dash application: its name and path, the table its
    callback captured, the figure, and the layout holding that figure. *)
Record DashApp := {
  app_name : string;
  app_pathname : string;
  app_table : DataFrame;
  app_figure : Figure;
  app_layout : LayoutNode;
}.

Record ServerState := {
  session : Session;
  apps : list DashApp;
}.

Definition initial_state : ServerState :=
  {| session := {| session_data := None; flashes := [] |}; apps := [] |}.

Inductive Event :=
  | EvIndex (r : Request)
  | EvNext (uuid_name uuid_path : string)
  | EvHover (k : nat) (hoverData : option HoverData).

Inductive ServerResponse :=
  | IndexResponse (resp : Response)
  | NextPage (pathname : string)
  | NextError (e : exn)
  | CallbackOutputs (outs : bool * update BBox * update (list Component))
  | CallbackError (e : exn)
  | NextNotModelled
  | NotFound.

(** The outcome of [pd.read_json(session["data"])]. *)
Inductive session_read :=
  | SessionFrame (df : DataFrame)
  | SessionRaise (e : exn)
  | SessionOutsideModel.

(** [KeyError] when nothing was stored, the decoder's [ValueError] on a
    text it rejects. *)
Definition read_session_data (sess : Session) : session_read :=
  match session_data sess with
  | None => SessionRaise KeyError
  | Some txt =>
      match read_json txt with
      | ReadFrame df => SessionFrame df
      | ReadError e => SessionRaise e
      | ReadOutsideModel => SessionOutsideModel
      end
  end.

(** The [Dash(server=server, name=str(uuid.uuid4()),
    url_base_pathname="/" + str(uuid.uuid4()) + "/")] that [next]
    registers, with the figure of the table it read. *)
Definition mk_app (uuid_name uuid_path : string) (df : DataFrame) : DashApp := {|
  app_name := uuid_name;
  app_pathname := "/" +:+ uuid_path +:+ "/";
  app_table := df;
  app_figure := build_figure df;
  app_layout := dash_layout (build_figure df);
|}.

(** The frame [next] reads back from the JSON of a stored MoleculeTable. *)
Definition stored_frame (rs : list MoleculeRecord) : DataFrame := {|
  SMILES := convert_object_column (map rec_smiles rs);
  clogP := map read_float (map rec_clogP rs);
  sascore := map read_float (map rec_sascore rs);
|}.

Section Handle.
Context `{TK : Toolkit}.

(** [next()]: read the table, register a new Dash application built from
    it, and serve that application's index page. *)
Definition next (uuid_name uuid_path : string) (st : ServerState)
  : ServerResponse * ServerState :=
  match read_session_data (session st) with
  | SessionRaise e => (NextError e, st)
  | SessionOutsideModel => (NextNotModelled, st)
  | SessionFrame df =>
      let app := mk_app uuid_name uuid_path df in
      (NextPage (app_pathname app), {| session := session st; apps := apps st ++ [app] |})
  end.

(** One request to the server. *)
Definition handle (st : ServerState) (ev : Event) : ServerResponse * ServerState :=
  match ev with
  | EvIndex r =>
      let '(resp, sess') := index r (session st) in
      (IndexResponse resp, {| session := sess'; apps := apps st |})
  | EvNext n p => next n p st
  | EvHover k hd =>
      match apps st !! k with
      | None => (NotFound, st)
      | Some app =>
          match display_hover (app_table app) hd with
          | PyOk outs => (CallbackOutputs outs, st)
          | PyRaise e => (CallbackError e, st)
          end
      end
  end.

Inductive reachable : ServerState -> Prop :=
  | reachable_init : reachable initial_state
  | reachable_step st ev : reachable st -> reachable (handle st ev).2.

(** The server's invariant: the session holds the JSON of a validated
    table or nothing, and every registered application was built from the
    read-back of a validated table, with the figure of that table. *)
Definition app_ok (app : DashApp) : Prop :=
  exists rs, valid_table rs /\ app_table app = stored_frame rs /\
             app_figure app = build_figure (app_table app) /\
             app_layout app = dash_layout (app_figure app).

Definition server_inv (st : ServerState) : Prop :=
  valid_session (session st) /\ Forall app_ok (apps st).
End Handle.

(** ** The session cookie

    Flask keeps the session in the browser: each response sets a cookie
    holding the serialized session and a signature computed with
    [SECRET_KEY] (itsdangerous, salt "cookie-session"), and each request
    brings it back.  [open_session] is Flask's [SecureCookieSessionInterface]:
    a cookie whose signature verifies under the server's key gives its
    session, any other cookie an empty one.  The signing algorithm is
    public, so it is an arbitrary [Signer] here. *)

(** [server.config["SECRET_KEY"] = "1234"] *)
Definition SECRET_KEY : string := "1234".

Class Signer := { sign : string -> Session -> string }.

Section Cookie.
Context `{SG : Signer}.

Definition open_session (sess : Session) (sig : string) : Session :=
  if bool_decide (sig = sign SECRET_KEY sess) then sess
  else {| session_data := None; flashes := [] |}.

(** A client presents the cookie [(sess, sig)] on its next request. *)
Definition present_cookie (st : ServerState) (sess : Session) (sig : string) : ServerState :=
  {| session := open_session sess sig; apps := apps st |}.
End Cookie.

(** ** Reading the stored table back *)

Section ReadBack.
Context `{TK : Toolkit}.

Lemma frame_of_records_columns (rs : list MoleculeRecord) :
  frame_of_records rs =
  {| SMILES := map CellStr (map rec_smiles rs); clogP := map rec_clogP rs;
     sascore := map rec_sascore rs |}.
Proof. unfold frame_of_records. by rewrite map_map. Qed.

(** The JSON of a MoleculeTable reads back as [stored_frame]. *)
Lemma read_stored (rs : list MoleculeRecord) (sess : Session) :
  session_data sess = Some (to_json (frame_of_records rs)) ->
  read_session_data sess = SessionFrame (stored_frame rs).
Proof.
  intros H. unfold read_session_data. rewrite H, frame_of_records_columns.
  by rewrite read_back_frame by (by rewrite !length_map).
Qed.

Lemma next_stored (st : ServerState) (a b : string) (rs : list MoleculeRecord) :
  session_data (session st) = Some (to_json (frame_of_records rs)) ->
  next a b st = (NextPage ("/" +:+ b +:+ "/"),
                 {| session := session st; apps := apps st ++ [mk_app a b (stored_frame rs)] |}).
Proof. intros H. unfold next. by rewrite (read_stored rs). Qed.

Lemma stored_frame_lengths (rs : list MoleculeRecord) :
  length (SMILES (stored_frame rs)) = length rs /\ length (clogP (stored_frame rs)) = length rs /\
  length (sascore (stored_frame rs)) = length rs.
Proof. simpl. by rewrite convert_object_column_length, !length_map. Qed.

(** A string row of the read-back table is the SMILES of that record. *)
Lemma stored_frame_str (rs : list MoleculeRecord) (i : nat) (s : string) :
  SMILES (stored_frame rs) !! i = Some (CellStr s) -> exists r, rs !! i = Some r /\ rec_smiles r = s.
Proof.
  simpl. intros H. apply convert_object_column_str in H. rewrite list_lookup_fmap in H.
  destruct (rs !! i) as [r|]; simpl in H; [|done]. injection H as <-. eauto.
Qed.
End ReadBack.

(** ** The invariant *)

Section Invariant.
Context `{TK : Toolkit}.

Lemma handle_preserves_inv (st : ServerState) (ev : Event) :
  server_inv st -> server_inv (handle st ev).2.
Proof.
  intros [Hsess Happs]. destruct ev as [r | n p | k hd]; simpl.
  - pose proof (index_session_cases r (session st)) as Hcases.
    destruct (index r (session st)) as [resp sess']. simpl. split; [|done].
    destruct Hcases as [-> | [(msg & ->) | (_ & cells & rs & Hv & ->)]]; [done|done|].
    exists rs. split; [by eapply validate_table_valid|done].
  - pose proof Hsess as Hs0. unfold valid_session in Hsess.
    destruct (session_data (session st)) as [txt|] eqn:Hdf.
    + destruct Hsess as (rs & Hrs & ->). rewrite (next_stored st n p rs Hdf). split; [done|].
      apply Forall_app. split; [done|]. constructor; [|done]. by exists rs.
    + unfold next, read_session_data. rewrite Hdf. by split.
  - destruct (apps st !! k) as [app|]; [|by split].
    destruct (display_hover (app_table app) hd); by split.
Qed.

(** C6: in every reachable state the session holds the JSON of a
    validated table or nothing, and every registered Dash application was
    built from the read-back of a validated table and shows that table's
    figure. *)
Theorem reachable_inv (st : ServerState) : reachable st -> server_inv st.
Proof.
  induction 1 as [|st ev _ IH].
  - split; [done|constructor].
  - by apply handle_preserves_inv.
Qed.
End Invariant.

(** ** Hovering a registered page *)

Section HoverApp.
Context `{TK : Toolkit}.

(** A hover on the [i]-th drawn point of a registered page renders that
    row's value. *)
Lemma hover_app (st : ServerState) (k : nat) (app : DashApp) (i : nat) (c : cell) (bb : BBox) :
  apps st !! k = Some app ->
  (exists rs, app_table app = stored_frame rs /\ app_figure app = build_figure (app_table app)) ->
  SMILES (app_table app) !! i = Some c ->
  handle st (EvHover k (plotly_hover (app_figure app) (PointerOn i bb))) =
  match smiles_to_base64_img c with
  | PyOk src => (CallbackOutputs (true, Update bb, Update (tooltip_children src)), st)
  | PyRaise e => (CallbackError e, st)
  end.
Proof.
  intros Hk (rs & Htab & Hfig) Hrow.
  pose proof (lookup_lt_Some _ _ _ Hrow) as Hi.
  destruct (stored_frame_lengths rs) as (Hs & Hx & Hy).
  rewrite Hfig, plotly_hover_build by (rewrite Htab in Hi |- *; lia).
  unfold handle. rewrite Hk. erewrite display_hover_at; [|reflexivity|exact Hrow].
  by destruct (smiles_to_base64_img c).
Qed.
End HoverApp.

Section HoverSafety.
Context `{TK : Toolkit}.
Hypothesis MolToPNG_total : forall m : Mol, exists png, MolToPNG m = PyOk png.

(** C7: in a state satisfying the invariant (every reachable state, by
    [reachable_inv]), a hover request for a drawn point of a registered
    page whose row still holds a string never raises: it shows the image
    of that row's molecule, whose data URL decodes to the molecule's PNG. *)
Theorem inv_hover_safe (st : ServerState) (k : nat) (app : DashApp) (i : nat) (s : string) (bb : BBox) :
  server_inv st -> apps st !! k = Some app -> SMILES (app_table app) !! i = Some (CellStr s) ->
  exists m png src,
    MolFromSmiles s = Some m /\ MolToPNG m = PyOk png /\ data_url_body src = Some png /\
    handle st (EvHover k (plotly_hover (app_figure app) (PointerOn i bb)))
    = (CallbackOutputs (true, Update bb, Update (tooltip_children src)), st).
Proof.
  intros [_ Happs] Hk Hrow. pose proof (Forall_lookup_1 _ _ _ _ Happs Hk) as Hok.
  rewrite (hover_app st k app i _ bb Hk) by (done || (destruct Hok as (rs & _ & ? & ? & _); eauto)).
  destruct Hok as (rs & Hrs & Htab & _). rewrite Htab in Hrow.
  apply stored_frame_str in Hrow as (r & Hr & <-).
  pose proof (Forall_lookup_1 _ _ _ _ Hrs Hr) as Hrv; simpl in Hrv.
  destruct (validate_cell_parses _ _ Hrv) as [m Hm].
  destruct (MolToPNG_total m) as [png Hpng].
  destruct (smiles_to_base64_img_ok (rec_smiles r) m png Hm Hpng) as (src & Hsrc & Hbody).
  exists m, png, src. rewrite Hsrc. done.
Qed.
(** C19: on a page registered in a state satisfying the invariant, built
    from the validated table [rs] as [read_json] gave it back, and whose
    SMILES column stayed a column of strings: after any sequence of
    pointer events the tooltip is shown exactly when the last event
    hovers a point, and its box and image are those of the last hovered
    point: the image of that point's record of [rs].  When no event
    hovered a point, the box and image are the tooltip's initial ones. *)
Theorem page_tooltip_last_point (st : ServerState) (k : nat) (app : DashApp) (tt : Tooltip)
    (evs : list PointerEvent) :
  server_inv st -> apps st !! k = Some app ->
  Forall (fun c => cell_is_str c = true) (SMILES (app_table app)) ->
  exists rs, valid_table rs /\ app_table app = stored_frame rs /\
  let tt' := tooltip_run (app_table app) (app_figure app) tt evs in
  tt_show tt' = match last evs with
                | Some pe => bool_decide (is_Some (hover_index (length rs) pe))
                | None => tt_show tt
                end /\
  match last_point (length rs) evs with
  | None => tt_bbox tt' = tt_bbox tt /\ tt_children tt' = tt_children tt
  | Some (i, bb) =>
      tt_bbox tt' = Some bb /\
      exists r src, rs !! i = Some r /\ smiles_to_base64_img (CellStr (rec_smiles r)) = PyOk src /\
                    tt_children tt' = tooltip_children src
  end.
Proof.
  intros [_ Happs] Hk Hstr.
  destruct (Forall_lookup_1 _ _ _ _ Happs Hk) as (rs & Hrs & Htab & Hfig & _).
  exists rs. split; [done|]. split; [done|]. cbv zeta. rewrite Hfig.
  assert (Hlen : length (SMILES (app_table app)) = length rs)
    by (rewrite Htab; apply stored_frame_lengths).
  assert (Hdf : drawable (app_table app)).
  { destruct (stored_frame_lengths rs) as (Hs & Hx & Hy). rewrite Htab in Hlen |- *.
    split; [lia|]. split; [lia|]. apply Forall_lookup. intros i c Hc.
    pose proof (Forall_lookup_1 _ _ _ _ Hstr (eq_trans (f_equal (fun df => SMILES df !! i) Htab) Hc)) as Hcs.
    destruct c as [s| | | |]; try discriminate. apply stored_frame_str in Hc as (r & Hr & <-).
    destruct (validate_cell_parses _ _ (Forall_lookup_1 _ _ _ _ Hrs Hr)) as [m Hm]. eauto. }
  destruct (tooltip_run_drawn MolToPNG_total (app_table app) tt evs Hdf) as [Hshow Hlast].
  cbv zeta in Hshow, Hlast. rewrite Hlen in Hshow, Hlast. split; [done|].
  destruct (last_point (length rs) evs) as [[i bb]|]; [|done].
  destruct Hlast as (Hbb & s & src & Hs & Hsrc & Hch). split; [done|].
  rewrite Htab in Hs. apply stored_frame_str in Hs as (r & Hr & <-). eauto.
Qed.
End HoverSafety.

Section HoverNumber.
Context `{TK : Toolkit}.

(** C11: on a registered page whose SMILES column was converted to
    numbers by [read_json], hovering any drawn point raises
    [ArgumentError] in [Chem.MolFromSmiles]: the callback fails (an HTTP
    500 for the callback request) and no tooltip is shown. *)
Theorem inv_hover_number_raises (st : ServerState) (k : nat) (app : DashApp) (i : nat) (c : cell)
    (bb : BBox) :
  server_inv st -> apps st !! k = Some app -> SMILES (app_table app) !! i = Some c ->
  cell_is_str c = false ->
  handle st (EvHover k (plotly_hover (app_figure app) (PointerOn i bb))) = (CallbackError ArgumentError, st).
Proof.
  intros [_ Happs] Hk Hrow Hc.
  destruct (Forall_lookup_1 _ _ _ _ Happs Hk) as (rs & _ & Htab & Hfig & _).
  rewrite (hover_app st k app i c bb Hk) by (done || eauto).
  by destruct c.
Qed.
End HoverNumber.

(** ** The pages' wiring *)

Section Wiring.
Context `{TK : Toolkit}.

(** C18: in a state satisfying the invariant, every registered page passes
    Dash's validation of its hover callback (the ids "graph-tooltip" and
    "my-graph" are in its layout, once, with the properties the callback
    uses), its graph is the page's figure, and that figure has one trace
    whose [i]-th point is [(clogP, sascore)] of the [i]-th record of the
    validated table the page was built from, as [read_json] gave them
    back (through their 10-digit text), with hovering left to the
    callback; the callback's table is that read-back table. *)
Theorem inv_pages_wired (st : ServerState) :
  server_inv st ->
  Forall (fun app =>
    callback_ok (app_layout app) hover_outputs hover_inputs = true /\
    layout_graph (app_layout app) = Some (app_figure app) /\
    exists rs tr, valid_table rs /\ app_table app = stored_frame rs /\
      fig_data (app_figure app) = [tr] /\ hoverinfo tr = "none"%string /\
      trace_points tr = map (fun r => (read_float (rec_clogP r), read_float (rec_sascore r))) rs)
    (apps st).
Proof.
  intros [_ Happs]. eapply Forall_impl; [exact Happs|].
  intros app (rs & Hrs & Htab & Hfig & Hlay). rewrite Hlay.
  destruct (dash_layout_ok (app_figure app)) as [H1 H2]. split; [done|]. split; [done|].
  exists rs. eexists. rewrite Hfig, Htab. split; [done|]. split; [done|].
  split; [reflexivity|]. split; [reflexivity|].
  unfold trace_points. cbn. rewrite !map_map. apply zip_map_pair.
Qed.
End Wiring.

(** ** Registered pages *)

Section Pages.
Context `{TK : Toolkit}.

Definition run (st : ServerState) (evs : list Event) : ServerState :=
  foldl (fun s ev => (handle s ev).2) st evs.

Lemma handle_apps_prefix (st : ServerState) (ev : Event) :
  exists extra, apps (handle st ev).2 = apps st ++ extra.
Proof.
  destruct ev as [r | n p | k hd]; simpl.
  - destruct (index r (session st)). exists []. by rewrite app_nil_r.
  - unfold next. destruct (read_session_data (session st)); simpl; eauto;
      exists []; by rewrite app_nil_r.
  - exists []. rewrite app_nil_r.
    destruct (apps st !! k); [|done]. by destruct (display_hover _ _).
Qed.

(** C35: registered Dash applications are never removed, and every visit
    of "/next" with a readable stored table registers one more: after [n]
    visits the server holds [n] more applications, with no bound. *)
Theorem next_visits_grow_apps (st : ServerState) (evs : list Event) (uuids : list (string * string))
    (df : DataFrame) :
  read_session_data (session st) = SessionFrame df ->
  (exists extra, apps (run st evs) = apps st ++ extra) /\
  length (apps (run st (map (fun '(a, b) => EvNext a b) uuids))) = length (apps st) + length uuids.
Proof.
  intros Hdf. split.
  - clear Hdf. revert st. induction evs as [|ev evs IH]; intros st; simpl.
    + exists []. by rewrite app_nil_r.
    + destruct (handle_apps_prefix st ev) as [e1 He1].
      destruct (IH (handle st ev).2) as [e2 He2].
      exists (e1 ++ e2). by rewrite He2, He1, app_assoc.
  - revert st Hdf. induction uuids as [|[a b] uuids IH]; intros st Hdf; [simpl; lia|].
    assert (Hstep : (handle st (EvNext a b)).2 =
      {| session := session st; apps := apps st ++ [mk_app a b df] |}).
    { simpl. unfold next. by rewrite Hdf. }
    change (length (apps (run (handle st (EvNext a b)).2
              (map (fun '(a, b) => EvNext a b) uuids))) =
            length (apps st) + S (length uuids)).
    rewrite Hstep, IH by done. cbn [apps]. rewrite length_app. simpl. lia.
Qed.
End Pages.

(** ** An upload followed by a visit *)

Section Progress.
Context `{TK : Toolkit}.

(** A valid upload and a visit of "/next", from any state. *)
Lemma upload_next_steps (st : ServerState) (ls : list string) (rs : list MoleculeRecord)
    (rq : Request) (fs : FileStorage) (a b : string) :
  Forall (fun l => plain_line l = true) ls -> infer_dtype ls = ColObject ->
  Forall2 (fun l rec => validate_cell (CellStr l) = Some rec) ls rs ->
  too_large rq = false -> validate_on_submit rq = true ->
  file_field rq = Some fs -> file_text fs = lines_text ls ->
  (handle st (EvIndex rq)).1 = IndexResponse RedirectNext /\
  (handle (handle st (EvIndex rq)).2 (EvNext a b)).1 = NextPage ("/" +:+ b +:+ "/") /\
  run st [EvIndex rq; EvNext a b] =
  {| session := store_data (frame_of_records rs) (session st);
     apps := apps st ++ [mk_app a b (stored_frame rs)] |}.
Proof.
  intros Hplain Hdt Hvalid Hbig Hval Hf Htext.
  assert (Hidx : handle st (EvIndex rq) =
    (IndexResponse RedirectNext, {| session := store_data (frame_of_records rs) (session st);
                                    apps := apps st |})).
  { simpl. by rewrite (index_valid_lines ls rs rq fs (session st)). }
  unfold run. cbn [foldl]. rewrite Hidx. cbn [fst snd handle].
  rewrite (next_stored _ a b rs) by reflexivity. done.
Qed.

(** C12: from every state, whatever its session and pages, a valid
    upload is redirected and the following visit of "/next" serves a new
    page built from the uploaded table: the server never gets stuck. *)
Theorem upload_then_next_page (st : ServerState) (ls : list string) (rs : list MoleculeRecord)
    (rq : Request) (fs : FileStorage) (a b : string) :
  Forall (fun l => plain_line l = true) ls -> infer_dtype ls = ColObject ->
  Forall2 (fun l rec => validate_cell (CellStr l) = Some rec) ls rs ->
  too_large rq = false -> validate_on_submit rq = true ->
  file_field rq = Some fs -> file_text fs = lines_text ls ->
  (handle st (EvIndex rq)).1 = IndexResponse RedirectNext /\
  (handle (handle st (EvIndex rq)).2 (EvNext a b)).1 = NextPage ("/" +:+ b +:+ "/") /\
  apps (run st [EvIndex rq; EvNext a b]) !! length (apps st) = Some (mk_app a b (stored_frame rs)).
Proof.
  intros Hplain Hdt Hvalid Hbig Hval Hf Htext.
  destruct (upload_next_steps st ls rs rq fs a b) as (H1 & H2 & H3); try done.
  split; [done|]. split; [done|]. rewrite H3. cbn [apps].
  by rewrite lookup_app_r, Nat.sub_diag by lia.
Qed.

(** C10: the SMILES "INF " passes the upload (RDKit reads the
    molecule IN(F) and stops at the space; pandas keeps the field as a
    string), but the page built after the round trip holds the float
    infinity in its SMILES column, and hovering its point raises
    [ArgumentError]. *)
Theorem inf_upload_hover_raises (st : ServerState) (r : MoleculeRecord) (rq : Request)
    (fs : FileStorage) (a b : string) (bb : BBox) :
  validate_cell (CellStr "INF ") = Some r ->
  too_large rq = false -> validate_on_submit rq = true ->
  file_field rq = Some fs -> file_text fs = lines_text ["INF "]%string ->
  (handle st (EvIndex rq)).1 = IndexResponse RedirectNext /\
  apps (run st [EvIndex rq; EvNext a b]) !! length (apps st) = Some (mk_app a b (stored_frame [r])) /\
  SMILES (stored_frame [r]) = [CellFloat PrimFloat.infinity] /\
  handle (run st [EvIndex rq; EvNext a b])
    (EvHover (length (apps st)) (plotly_hover (build_figure (stored_frame [r])) (PointerOn 0 bb)))
  = (CallbackError ArgumentError, run st [EvIndex rq; EvNext a b]).
Proof.
  intros Hr Hbig Hval Hf Htext.
  pose proof (validate_cell_str _ _ Hr) as Hs. injection Hs as Hs.
  destruct (upload_next_steps st ["INF "]%string [r] rq fs a b) as (H1 & _ & H3);
    [repeat constructor|by vm_compute|by repeat constructor|done..|].
  assert (Hk : apps (run st [EvIndex rq; EvNext a b]) !! length (apps st) =
               Some (mk_app a b (stored_frame [r]))).
  { rewrite H3. cbn [apps]. by rewrite lookup_app_r, Nat.sub_diag by lia. }
  assert (Hcol : SMILES (stored_frame [r]) = [CellFloat PrimFloat.infinity]).
  { simpl. rewrite <- Hs. vm_compute. reflexivity. }
  split; [done|]. split; [done|]. split; [done|].
  change (build_figure (stored_frame [r])) with (app_figure (mk_app a b (stored_frame [r]))).
  rewrite (hover_app _ _ _ 0 (CellFloat PrimFloat.infinity) bb Hk);
    [done|by exists [r]|cbn [app_table mk_app]; by rewrite Hcol].
Qed.
End Progress.

Section Stale.
Context `{TK : Toolkit}.

(** C36: an upload never changes what an already registered page answers
    to a hover: each application keeps the table it was built from, even
    after the session's table was replaced. *)
Theorem upload_keeps_pages (st : ServerState) (r : Request) (k : nat) (hd : option HoverData) :
  handle (handle st (EvIndex r)).2 (EvHover k hd) =
  ((handle st (EvHover k hd)).1, (handle st (EvIndex r)).2).
Proof.
  simpl. destruct (index r (session st)) as [resp sess']. simpl.
  destruct (apps st !! k) as [app|]; [|done]. by destruct (display_hover _ _).
Qed.

(** C37: visiting "/next" before any successful upload raises [KeyError]
    (an HTTP 500) and registers nothing. *)
Theorem next_without_data (st : ServerState) (a b : string) :
  session_data (session st) = None -> handle st (EvNext a b) = (NextError KeyError, st).
Proof. intros Hnone. simpl. unfold next, read_session_data. by rewrite Hnone. Qed.
End Stale.

(** ** Witnesses, on the toy toolkit *)

Definition demo_upload : Request := upload_request "mols.txt" (lines_text spec_valid_lines).
Definition demo_file : FileStorage :=
  {| filename := "mols.txt"; file_text := lines_text spec_valid_lines |}.

Definition demo_state : ServerState :=
  run (TK := ToyToolkit.toy) initial_state [EvIndex demo_upload; EvNext "app-name" "app-path"].

Definition demo_app : DashApp := mk_app "app-name" "app-path" (stored_frame spec_table).

Lemma demo_session : session_data (session demo_state) = Some (to_json (frame_of_records spec_table)).
Proof. vm_compute. reflexivity. Qed.

Lemma demo_apps : apps demo_state = [demo_app].
Proof. vm_compute. reflexivity. Qed.

Lemma demo_inv : server_inv (TK := ToyToolkit.toy) demo_state.
Proof.
  split.
  - unfold valid_session. rewrite demo_session. exists spec_table. split; [repeat constructor|done].
  - rewrite demo_apps. constructor; [|constructor]. exists spec_table. split; [repeat constructor|done].
Qed.

Definition tooltip0 : Tooltip := {| tt_show := false; tt_bbox := None; tt_children := [] |}.
Definition pointer_demo : list PointerEvent := [PointerOn 1 origin_box; PointerOff].

Lemma page_tooltip_last_point_witness :
  server_inv (TK := ToyToolkit.toy) demo_state /\ apps demo_state !! 0 = Some demo_app /\
  Forall (fun c => cell_is_str c = true) (SMILES (app_table demo_app)) /\
  exists rs, valid_table (TK := ToyToolkit.toy) rs /\ app_table demo_app = stored_frame rs /\
  let tt' := tooltip_run (TK := ToyToolkit.toy) (app_table demo_app) (app_figure demo_app) tooltip0 pointer_demo in
  tt_show tt' = match last pointer_demo with
                | Some pe => bool_decide (is_Some (hover_index (length rs) pe))
                | None => tt_show tooltip0
                end /\
  match last_point (length rs) pointer_demo with
  | None => tt_bbox tt' = tt_bbox tooltip0 /\ tt_children tt' = tt_children tooltip0
  | Some (i, bb) =>
      tt_bbox tt' = Some bb /\
      exists r src, rs !! i = Some r /\
        smiles_to_base64_img (TK := ToyToolkit.toy) (CellStr (rec_smiles r)) = PyOk src /\
        tt_children tt' = tooltip_children src
  end.
Proof.
  assert (Hk : apps demo_state !! 0 = Some demo_app) by (rewrite demo_apps; reflexivity).
  assert (Hs : Forall (fun c => cell_is_str c = true) (SMILES (app_table demo_app)))
    by (vm_compute; repeat constructor).
  split; [exact demo_inv|]. split; [exact Hk|]. split; [exact Hs|].
  exact (page_tooltip_last_point (TK := ToyToolkit.toy) toy_MolToPNG_total demo_state 0 demo_app
           tooltip0 pointer_demo demo_inv Hk Hs).
Defined.

Lemma inv_hover_safe_witness :
  server_inv (TK := ToyToolkit.toy) demo_state /\ apps demo_state !! 0 = Some demo_app /\
  SMILES (app_table demo_app) !! 1 = Some (CellStr "c1ccccc1") /\
  exists m png src,
    MolFromSmiles (Toolkit := ToyToolkit.toy) "c1ccccc1" = Some m /\ MolToPNG m = PyOk png /\
    data_url_body src = Some png /\
    handle (TK := ToyToolkit.toy) demo_state
      (EvHover 0 (plotly_hover (app_figure demo_app) (PointerOn 1 origin_box)))
    = (CallbackOutputs (true, Update origin_box, Update (tooltip_children src)), demo_state).
Proof.
  assert (Hk : apps demo_state !! 0 = Some demo_app) by (rewrite demo_apps; reflexivity).
  assert (Hrow : SMILES (app_table demo_app) !! 1 = Some (CellStr "c1ccccc1"))
    by (vm_compute; reflexivity).
  split; [exact demo_inv|]. split; [exact Hk|]. split; [exact Hrow|].
  exact (inv_hover_safe (TK := ToyToolkit.toy) toy_MolToPNG_total demo_state 0 demo_app 1
           "c1ccccc1" origin_box demo_inv Hk Hrow).
Defined.

Lemma reachable_inv_witness :
  reachable (TK := ToyToolkit.toy) demo_state /\ server_inv (TK := ToyToolkit.toy) demo_state.
Proof.
  assert (Hr : reachable (TK := ToyToolkit.toy) demo_state)
    by (unfold demo_state, run; cbn [foldl]; repeat apply reachable_step; apply reachable_init).
  split; [exact Hr|]. exact (reachable_inv (TK := ToyToolkit.toy) demo_state Hr).
Defined.

Lemma next_visits_grow_apps_witness :
  read_session_data (session demo_state) = SessionFrame (stored_frame spec_table) /\
  length (apps (run (TK := ToyToolkit.toy) demo_state
                  (map (fun '(a, b) => EvNext a b) [("n1", "p1"); ("n2", "p2")]%string)))
  = length (apps demo_state) + 2.
Proof.
  assert (Hd : read_session_data (session demo_state) = SessionFrame (stored_frame spec_table))
    by exact (read_stored spec_table _ demo_session).
  split; [exact Hd|].
  exact (proj2 (next_visits_grow_apps (TK := ToyToolkit.toy) demo_state []
                  [("n1", "p1"); ("n2", "p2")]%string _ Hd)).
Defined.

Lemma next_without_data_witness :
  session_data (session initial_state) = None /\
  handle (TK := ToyToolkit.toy) initial_state (EvNext "n" "p") = (NextError KeyError, initial_state).
Proof.
  split; [reflexivity|]. apply (next_without_data (TK := ToyToolkit.toy)). reflexivity.
Defined.

Lemma upload_then_next_page_witness :
  (handle (TK := ToyToolkit.toy) initial_state (EvIndex demo_upload)).1 = IndexResponse RedirectNext /\
  (handle (TK := ToyToolkit.toy) (handle (TK := ToyToolkit.toy) initial_state (EvIndex demo_upload)).2
     (EvNext "app-name" "app-path")).1 = NextPage "/app-path/" /\
  apps demo_state !! 0 = Some demo_app.
Proof.
  apply (upload_then_next_page (TK := ToyToolkit.toy) initial_state spec_valid_lines spec_table
           demo_upload demo_file); [repeat constructor|vm_compute; reflexivity|repeat constructor|
                                    reflexivity..].
Defined.

(** The page built after uploading the single line "INF ". *)
Definition inf_upload : Request := upload_request "inf.txt" (lines_text ["INF "]%string).
Definition inf_file : FileStorage := {| filename := "inf.txt"; file_text := lines_text ["INF "]%string |}.
Definition inf_state : ServerState :=
  run (TK := ToyToolkit.toy) initial_state [EvIndex inf_upload; EvNext "n" "p"].
Definition inf_app : DashApp := mk_app "n" "p" (stored_frame [toy_record "INF "]).

Lemma inf_apps : apps inf_state = [inf_app].
Proof. vm_compute. reflexivity. Qed.

Lemma inf_inv : server_inv (TK := ToyToolkit.toy) inf_state.
Proof.
  split.
  - unfold valid_session.
    replace (session_data (session inf_state))
      with (Some (to_json (frame_of_records [toy_record "INF "]))) by (vm_compute; reflexivity).
    exists [toy_record "INF "]. split; [repeat constructor|done].
  - rewrite inf_apps. constructor; [|constructor].
    exists [toy_record "INF "]. split; [repeat constructor|done].
Qed.

Lemma inv_hover_number_raises_witness :
  server_inv (TK := ToyToolkit.toy) inf_state /\ apps inf_state !! 0 = Some inf_app /\
  SMILES (app_table inf_app) !! 0 = Some (CellFloat PrimFloat.infinity) /\
  cell_is_str (CellFloat PrimFloat.infinity) = false /\
  handle (TK := ToyToolkit.toy) inf_state
    (EvHover 0 (plotly_hover (app_figure inf_app) (PointerOn 0 origin_box)))
  = (CallbackError ArgumentError, inf_state).
Proof.
  assert (Hk : apps inf_state !! 0 = Some inf_app) by (rewrite inf_apps; reflexivity).
  assert (Hrow : SMILES (app_table inf_app) !! 0 = Some (CellFloat PrimFloat.infinity))
    by (vm_compute; reflexivity).
  assert (Hc : cell_is_str (CellFloat PrimFloat.infinity) = false) by reflexivity.
  split; [exact inf_inv|]. split; [exact Hk|]. split; [exact Hrow|]. split; [exact Hc|].
  exact (inv_hover_number_raises (TK := ToyToolkit.toy) inf_state 0 inf_app 0 _ origin_box
           inf_inv Hk Hrow Hc).
Defined.

Lemma inf_upload_hover_raises_witness :
  validate_cell (TK := ToyToolkit.toy) (CellStr "INF ") = Some (toy_record "INF ") /\
  (handle (TK := ToyToolkit.toy) initial_state (EvIndex inf_upload)).1 = IndexResponse RedirectNext /\
  apps inf_state !! 0 = Some inf_app /\
  SMILES (stored_frame [toy_record "INF "]) = [CellFloat PrimFloat.infinity] /\
  handle (TK := ToyToolkit.toy) inf_state
    (EvHover 0 (plotly_hover (build_figure (stored_frame [toy_record "INF "])) (PointerOn 0 origin_box)))
  = (CallbackError ArgumentError, inf_state).
Proof.
  assert (Hv : validate_cell (TK := ToyToolkit.toy) (CellStr "INF ") = Some (toy_record "INF "))
    by reflexivity.
  split; [exact Hv|].
  exact (inf_upload_hover_raises (TK := ToyToolkit.toy) initial_state (toy_record "INF ") inf_upload
           inf_file "n" "p" origin_box Hv eq_refl eq_refl eq_refl eq_refl).
Defined.

Lemma inv_pages_wired_witness :
  server_inv (TK := ToyToolkit.toy) demo_state /\
  Forall (fun app =>
    callback_ok (app_layout app) hover_outputs hover_inputs = true /\
    layout_graph (app_layout app) = Some (app_figure app) /\
    exists rs tr, valid_table (TK := ToyToolkit.toy) rs /\ app_table app = stored_frame rs /\
      fig_data (app_figure app) = [tr] /\ hoverinfo tr = "none"%string /\
      trace_points tr = map (fun r => (read_float (rec_clogP r), read_float (rec_sascore r))) rs)
    (apps demo_state).
Proof.
  split; [exact demo_inv|]. exact (inv_pages_wired (TK := ToyToolkit.toy) demo_state demo_inv).
Defined.

(** ** Replaying the server's own cookies *)

Section Replay.
Context `{TK : Toolkit} `{SG : Signer}.

(** The states a client reaches with requests and by presenting again a
    cookie the server issued earlier, with the sessions issued so far. *)
Inductive reachable_replay : ServerState -> list Session -> Prop :=
  | replay_init : reachable_replay initial_state [session initial_state]
  | replay_step st I ev :
      reachable_replay st I -> reachable_replay (handle st ev).2 (session (handle st ev).2 :: I)
  | replay_cookie st I sess :
      reachable_replay st I -> sess ∈ I ->
      reachable_replay (present_cookie st sess (sign SECRET_KEY sess)) I.

Lemma open_session_signed (sess : Session) : open_session sess (sign SECRET_KEY sess) = sess.
Proof. unfold open_session. by rewrite bool_decide_eq_true_2. Qed.

(** C17: without the key, a client can only send back cookies the server
    signed: the invariant holds in every state reached by requests and
    replays of earlier cookies, and every session ever issued holds the
    JSON of a validated table or nothing. *)
Theorem replay_inv (st : ServerState) (I : list Session) :
  reachable_replay st I -> server_inv st /\ Forall valid_session I.
Proof.
  induction 1 as [|st I ev _ [Hinv HI]|st I sess _ [Hinv HI] Hin].
  - split; [split; [done|constructor]|by repeat constructor].
  - pose proof (handle_preserves_inv st ev Hinv) as Hinv'. split; [done|].
    constructor; [apply Hinv'|done].
  - split; [|done]. split; [|apply Hinv]. cbn [present_cookie session].
    rewrite open_session_signed. by eapply Forall_forall.
Qed.
End Replay.

(** ** A session signed with the source's key *)

Section Forged.
Context `{TK : Toolkit} `{SG : Signer}.

(** A table row that was never validated. *)
Definition unchecked_record (s : string) : MoleculeRecord :=
  {| rec_smiles := s; rec_clogP := 0%float; rec_sascore := 0%float |}.

Lemma convert_non_float (s : string) :
  py_float s = None -> convert_object_column [s] = [CellStr s].
Proof. intros Hs. unfold convert_object_column. simpl. by rewrite Hs. Qed.

(** Two MoleculeTables with the same JSON text are read back alike, so a
    string row of the read-back of a validated table's text parses. *)
Lemma stored_text_parses (rs0 rs : list MoleculeRecord) (i : nat) (s : string) :
  to_json (frame_of_records rs0) = to_json (frame_of_records rs) -> valid_table rs ->
  SMILES (stored_frame rs0) !! i = Some (CellStr s) -> exists m, MolFromSmiles s = Some m.
Proof.
  intros Heq Hvalid Hrow.
  set (sess := {| session_data := Some (to_json (frame_of_records rs0)); flashes := [] |}).
  pose proof (read_stored rs0 sess eq_refl) as H0.
  rewrite (read_stored rs sess (f_equal Some Heq)) in H0.
  assert (Hf : stored_frame rs0 = stored_frame rs) by congruence. rewrite Hf in Hrow.
  apply stored_frame_str in Hrow as (r & Hr & <-).
  exact (validate_cell_parses _ _ (Forall_lookup_1 _ _ _ _ Hvalid Hr)).
Qed.

(** C16: the key written in the source signs any session.  A client that
    signs with "1234" a session holding the JSON of a table with a string
    the toolkit does not parse has it accepted as is, although no request
    to the server ever stores such a session (it breaks the invariant
    [valid_session]); "/next" then registers a page for that table, and
    hovering its point raises [ValueError] in [Draw.MolToImage(None)]: the
    validation [index] performs is bypassed. *)
Theorem forged_cookie_hover_raises (st : ServerState) (s : string) (a b : string) (bb : BBox) :
  MolFromSmiles s = None -> py_float s = None ->
  let sess := {| session_data := Some (to_json (frame_of_records [unchecked_record s]));
                 flashes := [] |} in
  let st1 := present_cookie st sess (sign "1234" sess) in
  session st1 = sess /\ ~ valid_session sess /\
  (handle st1 (EvNext a b)).1 = NextPage ("/" +:+ b +:+ "/") /\
  handle (handle st1 (EvNext a b)).2
    (EvHover (length (apps st)) (plotly_hover (build_figure (stored_frame [unchecked_record s]))
                                  (PointerOn 0 bb)))
  = (CallbackError ValueError, (handle st1 (EvNext a b)).2).
Proof.
  intros Hm Hf sess st1.
  assert (Hst1 : session st1 = sess)
    by (unfold st1, present_cookie, open_session; cbn [session]; by rewrite bool_decide_eq_true_2).
  assert (Hnext : handle st1 (EvNext a b) =
    (NextPage ("/" +:+ b +:+ "/"),
     {| session := session st1; apps := apps st1 ++ [mk_app a b (stored_frame [unchecked_record s])] |})).
  { cbn [handle]. apply next_stored. by rewrite Hst1. }
  assert (Happs : apps st1 = apps st) by reflexivity.
  split; [done|]. split.
  { intros (rs & Hvalid & Heq).
    destruct (stored_text_parses [unchecked_record s] rs 0 s Heq Hvalid) as [m Hm'];
      [cbn [stored_frame SMILES map]; by rewrite convert_non_float|congruence]. }
  rewrite Hnext, Happs. split; [done|].
  change (build_figure (stored_frame [unchecked_record s]))
    with (app_figure (mk_app a b (stored_frame [unchecked_record s]))).
  rewrite (hover_app _ (length (apps st)) _ 0 (CellStr s) bb).
  - unfold smiles_to_base64_img, MolFromSmiles_cell. rewrite Hm. autorewrite with webapp_rw.
    cbn [MolToPNG_py]. by autorewrite with webapp_rw.
  - cbn [snd apps]. by rewrite lookup_app_r, Nat.sub_diag by lia.
  - by exists [unchecked_record s].
  - cbn [app_table mk_app stored_frame SMILES map]. by rewrite convert_non_float.
Qed.
End Forged.

(** A signer for the witness: any function of the key and the session. *)
#[local] Instance toy_signer : Signer := {| sign := fun key _ => key |}.

Lemma forged_cookie_hover_raises_witness :
  MolFromSmiles (Toolkit := ToyToolkit.toy) "XX" = None /\ py_float "XX" = None /\
  (let sess := {| session_data := Some (to_json (frame_of_records [unchecked_record "XX"]));
                  flashes := [] |} in
   let st1 := present_cookie demo_state sess (sign "1234" sess) in
   session st1 = sess /\ ~ valid_session (TK := ToyToolkit.toy) sess /\
   (handle (TK := ToyToolkit.toy) st1 (EvNext "n" "p")).1 = NextPage "/p/" /\
   handle (TK := ToyToolkit.toy) (handle (TK := ToyToolkit.toy) st1 (EvNext "n" "p")).2
     (EvHover (length (apps demo_state))
        (plotly_hover (build_figure (stored_frame [unchecked_record "XX"])) (PointerOn 0 origin_box)))
   = (CallbackError ValueError, (handle (TK := ToyToolkit.toy) st1 (EvNext "n" "p")).2)).
Proof.
  assert (H1 : MolFromSmiles (Toolkit := ToyToolkit.toy) "XX" = None) by reflexivity.
  assert (H2 : py_float "XX" = None) by (vm_compute; reflexivity).
  split; [exact H1|]. split; [exact H2|].
  exact (forged_cookie_hover_raises (TK := ToyToolkit.toy) demo_state "XX" "n" "p" origin_box H1 H2).
Defined.

Lemma replay_inv_witness :
  reachable_replay (TK := ToyToolkit.toy)
    (present_cookie demo_state (session initial_state) (sign SECRET_KEY (session initial_state)))
    [session demo_state; session (handle (TK := ToyToolkit.toy) initial_state (EvIndex demo_upload)).2;
     session initial_state] /\
  server_inv (TK := ToyToolkit.toy)
    (present_cookie demo_state (session initial_state) (sign SECRET_KEY (session initial_state))).
Proof.
  assert (H : reachable_replay (TK := ToyToolkit.toy)
    (present_cookie demo_state (session initial_state) (sign SECRET_KEY (session initial_state)))
    [session demo_state; session (handle (TK := ToyToolkit.toy) initial_state (EvIndex demo_upload)).2;
     session initial_state]).
  { apply replay_cookie; [|by right; right; left].
    apply (replay_step _ _ (EvNext "app-name" "app-path")), replay_step, replay_init. }
  split; [exact H|]. exact (proj1 (replay_inv (TK := ToyToolkit.toy) _ _ H)).
Defined.
