(* ===== verification/Routes.v ===== *)
(** * The URL map of the server (src/app.py lines 28, 32, 53, 57-58)

    [create_app] registers two view functions on the Flask server,
    [index] at "/" and [next] at "/next"; every [Dash(server=server,
    url_base_pathname="/" + str(uuid.uuid4()) + "/")] that [next] creates
    adds its own rules under its pathname [P] (Dash's [_setup_routes]):
    the static rules [P], [P + "_dash-layout"], [P + "_dash-dependencies"],
    [P + "_dash-update-component"] (the callback requests, POST),
    [P + "_reload-hash"] and [P + "_favicon.ico"], and the rules with a
    converter ([P + "_dash-component-suites/<...>"] and the front-end
    catch-all [P + "<path:path>"]), which serve the app's index or its
    assets.  Werkzeug's matcher prefers a static rule to a rule with a
    converter, so a path is served by the static rules it equals and,
    when there is none, by the converter rules whose prefix it has.

    [dispatch] returns every endpoint at the winning priority; the
    theorem shows that exactly one endpoint answers each path of a
    registered app when the uuid parts of the pathnames are distinct and
    free of "/" (as [str(uuid.uuid4())] is: hex digits and dashes), which
    is what lets [Server.handle] name a hover request by the index of its
    app. *)

From S2P Require Import Prelude Toolkit Base64 PyFloat Csv Forms Frame Json Ingest Plot Hover Layout Server.

(** The endpoints of the URL map. *)
Inductive Endpoint :=
  | EIndex
  | ENext
  | EDashIndex (k : nat)
  | EDashLayout (k : nat)
  | EDashDependencies (k : nat)
  | EDashUpdate (k : nat)
  | EDashReloadHash (k : nat)
  | EDashFavicon (k : nat)
  | EDashPath (k : nat) (rest : string).

#[export] Instance Endpoint_eq_dec : EqDecision Endpoint.
Proof. solve_decision. Defined.

(** The suffixes of Dash's static rules under [routes_pathname_prefix]. *)
Definition dash_static : list string :=
  [""; "_dash-layout"; "_dash-dependencies"; "_dash-update-component"; "_reload-hash";
   "_favicon.ico"]%string.

(** The endpoint of the [k]-th app that serves the path [P + rest]. *)
Definition dash_endpoint (k : nat) (rest : string) : Endpoint :=
  if bool_decide (rest = "") then EDashIndex k
  else if bool_decide (rest = "_dash-layout") then EDashLayout k
  else if bool_decide (rest = "_dash-dependencies") then EDashDependencies k
  else if bool_decide (rest = "_dash-update-component") then EDashUpdate k
  else if bool_decide (rest = "_reload-hash") then EDashReloadHash k
  else if bool_decide (rest = "_favicon.ico") then EDashFavicon k
  else EDashPath k rest.

(** [@server.route('/')] and [@server.route("/next")]. *)
Definition flask_rules : list (string * Endpoint) := [("/", EIndex); ("/next", ENext)]%string.

(** The static rules of the apps from the [k]-th on. *)
Fixpoint app_static_rules (k : nat) (apps : list DashApp) : list (string * Endpoint) :=
  match apps with
  | [] => []
  | app :: rest =>
      map (fun suf => (app_pathname app +:+ suf, dash_endpoint k suf)) dash_static
      ++ app_static_rules (S k) rest
  end.

(** [path] with the prefix [p] removed, when it has it. *)
Fixpoint strip_prefix (p path : string) : option string :=
  match p, path with
  | EmptyString, _ => Some path
  | String c p', String d path' => if Ascii.eqb c d then strip_prefix p' path' else None
  | String _ _, EmptyString => None
  end.

(** The converter rules of the apps from the [k]-th on that match [path]. *)
Fixpoint app_path_rules (k : nat) (apps : list DashApp) (path : string) : list Endpoint :=
  match apps with
  | [] => []
  | app :: rest =>
      match strip_prefix (app_pathname app) path with
      | Some r => [EDashPath k r]
      | None => []
      end ++ app_path_rules (S k) rest path
  end.

Definition url_map (st : ServerState) : list (string * Endpoint) :=
  flask_rules ++ app_static_rules 0 (apps st).

(** Werkzeug's match: the static rules equal to the path, or else the
    converter rules whose prefix it has. *)
Definition dispatch (st : ServerState) (path : string) : list Endpoint :=
  match map snd (filter (fun r => bool_decide (r.1 = path)) (url_map st)) with
  | [] => app_path_rules 0 (apps st) path
  | es => es
  end.

(** A string without "/". *)
Fixpoint no_slash (s : string) : bool :=
  match s with
  | EmptyString => true
  | String c s' => negb (Ascii.eqb c "/") && no_slash s'
  end.

(** ** Matching paths *)

Lemma strip_prefix_spec (p path r : string) : strip_prefix p path = Some r <-> path = p +:+ r.
Proof.
  revert path. induction p as [|c p IH]; intros [|d path]; cbn [strip_prefix];
    rewrite ?string_app_nil, ?string_app_cons; try by split; congruence.
  destruct (Ascii.eqb_spec c d) as [<-|Hcd]; [rewrite IH; split; congruence|].
  split; congruence.
Qed.

(** Two paths [p + "/" + s] with slash-free [p] share their first
    segment only when they are the same split. *)
Lemma slash_split_inj (p q s1 s2 : string) :
  no_slash p = true -> no_slash q = true ->
  p +:+ String "/" s1 = q +:+ String "/" s2 -> p = q /\ s1 = s2.
Proof.
  revert q. induction p as [|c p IH]; intros [|d q] Hp Hq H;
    rewrite ?string_app_nil, ?string_app_cons in H; cbn [no_slash] in *.
  - by injection H.
  - injection H as <- _. by rewrite Ascii.eqb_refl in Hq.
  - injection H as -> _. by rewrite Ascii.eqb_refl in Hp.
  - apply andb_prop in Hp as [_ Hp]. apply andb_prop in Hq as [_ Hq].
    injection H as -> H. destruct (IH q Hp Hq H) as [-> ->]. done.
Qed.

Lemma no_slash_app_slash (p s : string) : no_slash (p +:+ String "/" s) = false.
Proof.
  induction p as [|c p IH]; [done|]. rewrite string_app_cons. cbn [no_slash].
  by rewrite IH, andb_false_r.
Qed.

(** The paths under the pathname of the uuid [p]. *)
Lemma pathname_app (p suf : string) : ("/" +:+ p +:+ "/") +:+ suf = String "/" (p +:+ String "/" suf).
Proof. rewrite !string_app_cons, string_app_nil, <- string_app_assoc. done. Qed.

Lemma pathname_path_inj (p q s1 s2 : string) :
  no_slash p = true -> no_slash q = true ->
  ("/" +:+ p +:+ "/") +:+ s1 = ("/" +:+ q +:+ "/") +:+ s2 -> p = q /\ s1 = s2.
Proof. rewrite !pathname_app. intros Hp Hq [= H]. by apply slash_split_inj. Qed.

(** The pathnames of the apps are those of distinct slash-free uuids. *)

Lemma dash_endpoint_path (k : nat) (rest : string) :
  rest ∉ dash_static -> dash_endpoint k rest = EDashPath k rest.
Proof.
  intros Hn. unfold dash_endpoint.
  repeat (case_bool_decide; [subst; exfalso; apply Hn, list_elem_of_In; simpl; tauto|]). done.
Qed.

Lemma pathname_path_iff (p q s1 s2 : string) :
  no_slash p = true -> no_slash q = true ->
  (("/" +:+ p +:+ "/") +:+ s1 = ("/" +:+ q +:+ "/") +:+ s2 <-> p = q /\ s1 = s2).
Proof. intros Hp Hq. split; [by apply pathname_path_inj|by intros [-> ->]]. Qed.

(** A path ["/" + t] with a slash-free [t] ("/" and "/next") is no path
    of an app. *)
Lemma app_path_not_top (p suf t : string) :
  no_slash t = true -> ("/" +:+ p +:+ "/") +:+ suf <> String "/" t.
Proof. rewrite pathname_app. intros Ht [= <-]. by rewrite no_slash_app_slash in Ht. Qed.

(** The static rules of one app that a path of the app of [q] equals. *)
Lemma one_app_filter (p q rest : string) (k : nat) (sufs : list string) :
  no_slash p = true -> no_slash q = true -> NoDup sufs ->
  filter (fun r => bool_decide (r.1 = ("/" +:+ q +:+ "/") +:+ rest))
    (map (fun suf => (("/" +:+ p +:+ "/") +:+ suf, dash_endpoint k suf)) sufs) =
  if bool_decide (p = q /\ rest ∈ sufs) then [(("/" +:+ q +:+ "/") +:+ rest, dash_endpoint k rest)]
  else [].
Proof.
  intros Hp Hq Hnd. induction Hnd as [|suf sufs Hn Hnd IH]; [by rewrite bool_decide_eq_false_2 by (intros [_ H]; by apply elem_of_nil in H)|].
  cbn [map].
  destruct (decide (("/" +:+ p +:+ "/") +:+ suf = ("/" +:+ q +:+ "/") +:+ rest)) as [Heq|Heq].
  - rewrite filter_cons_True by (cbn [fst]; by apply bool_decide_pack). rewrite IH.
    apply pathname_path_inj in Heq as [-> ->]; [|done..].
    rewrite bool_decide_eq_false_2 by (intros [_ H]; done).
    rewrite bool_decide_eq_true_2 by (split; [done|by left]). done.
  - rewrite filter_cons_False by (cbn [fst]; intros H; apply Heq; by apply bool_decide_unpack in H).
    rewrite IH. rewrite (pathname_path_iff p q suf rest Hp Hq) in Heq.
    rewrite (bool_decide_ext _ (p = q ∧ rest ∈ suf :: sufs)); [done|]. rewrite elem_of_cons.
    split; [intros [? ?]; by split; [|right]|intros [-> [->|?]]; [by destruct Heq|done]].
Qed.

Definition app_paths (apps : list DashApp) (ps : list string) : Prop :=
  Forall2 (fun app p => app_pathname app = "/" +:+ p +:+ "/") apps ps.

Definition uuid_pathnames (apps : list DashApp) (ps : list string) : Prop :=
  app_paths apps ps /\ Forall (fun p => no_slash p = true) ps /\ NoDup ps.

Lemma app_static_rules_other (apps : list DashApp) (ps : list string) (k0 : nat) (t : string) :
  app_paths apps ps -> no_slash t = true ->
  filter (fun r => bool_decide (r.1 = String "/" t)) (app_static_rules k0 apps) = [].
Proof.
  intros Hshape Ht. revert k0. induction Hshape as [|app p apps' ps' Hpath _ IH]; intros k0; [done|].
  cbn [app_static_rules]. rewrite filter_app, IH, app_nil_r. apply filter_nil_Forall.
  apply Forall_map, Forall_forall. intros suf _ H. apply bool_decide_unpack in H.
  cbn [fst] in H. rewrite Hpath in H. by apply (app_path_not_top p suf t Ht).
Qed.

Lemma dash_static_nodup : NoDup dash_static.
Proof. apply (bool_decide_unpack (NoDup dash_static)). by vm_compute. Qed.

(** The prefix of the pathname of [p] on a path of the app of [q]. *)
Lemma strip_pathname (p q rest : string) :
  no_slash p = true -> no_slash q = true ->
  strip_prefix ("/" +:+ p +:+ "/") (("/" +:+ q +:+ "/") +:+ rest) =
  if bool_decide (p = q) then Some rest else None.
Proof.
  intros Hp Hq. case_bool_decide as Hpq; [subst; by apply strip_prefix_spec|].
  destruct (strip_prefix _ _) as [r|] eqn:Hs; [|done].
  apply strip_prefix_spec, pathname_path_inj in Hs as [-> _]; [|done..]. by destruct Hpq.
Qed.

(** The apps of other uuids match no path of the app of [q]. *)
Lemma app_rules_absent (apps : list DashApp) (ps : list string) (k0 : nat) (q rest : string) :
  app_paths apps ps -> Forall (fun p => no_slash p = true) ps -> no_slash q = true -> q ∉ ps ->
  filter (fun r => bool_decide (r.1 = ("/" +:+ q +:+ "/") +:+ rest)) (app_static_rules k0 apps) = [] /\
  app_path_rules k0 apps (("/" +:+ q +:+ "/") +:+ rest) = [].
Proof.
  intros Hshape. revert k0. induction Hshape as [|app p apps' ps' Hpath _ IH];
    intros k0 Hslash Hq Hnot; [done|].
  apply Forall_cons in Hslash as [Hp Hslash']. apply not_elem_of_cons in Hnot as [Hpq Hnot].
  cbn [app_static_rules app_path_rules]. rewrite filter_app, Hpath.
  rewrite one_app_filter, strip_pathname by (done || apply dash_static_nodup).
  rewrite (bool_decide_eq_false_2 (p = q /\ _)) by (intros [-> _]; by apply Hpq).
  rewrite (bool_decide_eq_false_2 (p = q)) by (intros ->; by apply Hpq).
  apply IH; done.
Qed.

(** The app of [q], the [k]-th from [k0], is the only one that matches
    its paths: with its static rule for a static suffix, and with its
    converter rules for any path under its pathname. *)
Lemma app_rules_at (apps : list DashApp) (ps : list string) (k0 k : nat) (q rest : string) :
  app_paths apps ps -> Forall (fun p => no_slash p = true) ps -> NoDup ps -> ps !! k = Some q ->
  filter (fun r => bool_decide (r.1 = ("/" +:+ q +:+ "/") +:+ rest)) (app_static_rules k0 apps) =
  (if bool_decide (rest ∈ dash_static)
   then [(("/" +:+ q +:+ "/") +:+ rest, dash_endpoint (k0 + k) rest)] else []) /\
  app_path_rules k0 apps (("/" +:+ q +:+ "/") +:+ rest) = [EDashPath (k0 + k) rest].
Proof.
  intros Hshape. revert k0 k. induction Hshape as [|app p apps' ps' Hpath Hshape' IH];
    intros k0 k Hslash Hnd Hk; [done|].
  apply Forall_cons in Hslash as [Hp Hslash']. apply NoDup_cons in Hnd as [Hnotin Hnd'].
  pose proof (Forall_lookup_1 _ _ _ _ (Forall_cons_2 _ _ _ Hp Hslash') Hk) as Hq; simpl in Hq.
  cbn [app_static_rules app_path_rules]. rewrite filter_app, Hpath.
  rewrite one_app_filter, strip_pathname by (done || apply dash_static_nodup).
  destruct k as [|k]; simpl in Hk.
  - injection Hk as <-. rewrite (bool_decide_eq_true_2 (p = p)) by done.
    destruct (app_rules_absent apps' ps' (S k0) p rest) as [-> ->]; [done..|].
    rewrite (bool_decide_ext _ (rest ∈ dash_static)) by tauto.
    rewrite !app_nil_r, Nat.add_0_r. done.
  - assert (Hpq : p <> q) by (intros ->; apply Hnotin; by eapply list_elem_of_lookup_2).
    rewrite (bool_decide_eq_false_2 (p = q /\ _)) by (intros [-> _]; by apply Hpq).
    rewrite (bool_decide_eq_false_2 (p = q)) by (intros ->; by apply Hpq).
    rewrite Nat.add_succ_r. apply (IH (S k0) k); done.
Qed.

Lemma flask_rules_other (q rest : string) :
  filter (fun r => bool_decide (r.1 = ("/" +:+ q +:+ "/") +:+ rest)) flask_rules = [].
Proof.
  apply filter_nil_Forall. repeat constructor; intros H; apply bool_decide_unpack in H;
    symmetry in H; by apply app_path_not_top in H.
Qed.

(** C20: with distinct slash-free uuids in the pathnames, the URL map
    sends "/" to [index] and "/next" to [next] only, and every path
    under the pathname of the [k]-th registered app to exactly one
    endpoint of that app: its static rule when the rest is one of Dash's
    static suffixes ("_dash-update-component" is the hover callback), its
    front-end catch-all otherwise. *)
Theorem dispatch_unique (st : ServerState) (ps : list string) :
  uuid_pathnames (apps st) ps ->
  dispatch st "/" = [EIndex] /\ dispatch st "/next" = [ENext] /\
  forall k app rest, apps st !! k = Some app ->
    dispatch st (app_pathname app +:+ rest) = [dash_endpoint k rest].
Proof.
  intros (Hshape & Hslash & Hnd). unfold dispatch, url_map. rewrite !filter_app.
  split; [|split].
  - by rewrite (app_static_rules_other _ ps 0 "").
  - by rewrite (app_static_rules_other _ ps 0 "next").
  - intros k app rest Hk. destruct (Forall2_lookup_l _ _ _ _ _ Hshape Hk) as (q & Hq & Hpath).
    rewrite Hpath, filter_app, flask_rules_other.
    destruct (app_rules_at (apps st) ps 0 k q rest Hshape Hslash Hnd Hq) as [-> ->].
    case_bool_decide as Hs; [done|]. by rewrite dash_endpoint_path.
Qed.

(** ** Witness *)

(** The state after two visits of "/next". *)
Definition routes_state : ServerState :=
  {| session := session demo_state;
     apps := [demo_app; mk_app "app-name-2" "path-2" (stored_frame spec_table)] |}.

Lemma dispatch_unique_witness :
  uuid_pathnames (apps routes_state) ["app-path"; "path-2"] /\
  dispatch routes_state "/path-2/_dash-update-component" = [EDashUpdate 1] /\
  dispatch routes_state "/path-2/_dash-component-suites/plotly.min.js" =
    [EDashPath 1 "_dash-component-suites/plotly.min.js"].
Proof.
  assert (H : uuid_pathnames (apps routes_state) ["app-path"; "path-2"]%string).
  { split; [repeat constructor|]. split; [repeat constructor|].
    apply (bool_decide_unpack (NoDup ["app-path"; "path-2"]%string)). by vm_compute. }
  destruct (dispatch_unique routes_state _ H) as (_ & _ & Hk).
  split; [exact H|]. split.
  - exact (Hk 1 (mk_app "app-name-2" "path-2" (stored_frame spec_table)) "_dash-update-component" eq_refl).
  - exact (Hk 1 (mk_app "app-name-2" "path-2" (stored_frame spec_table))
             "_dash-component-suites/plotly.min.js" eq_refl).
Defined.
