(* ===== verification/Refinement.v ===== *)
(** * The server refines the specification's two-stage pipeline

    The specification describes the program as two stages joined by the
    session: an upload stores a validated MoleculeTable (or is rejected and
    stores nothing), a visit of the presentation page shows the plot of the
    stored table, and hovering the [i]-th point of a page shows the image
    of the [i]-th identifier of the table that page was built from.  Here
    that description is an abstract transition system ([spec_step]) over
    a [SpecState] (the stored table and the tables of the pages shown),
    and [server_refines_spec] proves the forward simulation in the style of
    a compiler-correctness diagram: every run of the server of
    [Server.handle], driven by client events ([client_request] turns a
    pointer event on page [k] into the [hoverData] Plotly sends), is
    matched by a run of the specification with the same observations.

    The abstraction relation [refines] maps the session's JSON text to the
    table it encodes and every registered Dash application to the table it
    read back.  The simulation needs two facts the specification takes for
    granted: the toolkit draws every molecule it parsed, and the SMILES
    column survives [pd.read_json] ([keeps_ids]: the table is empty or one
    identifier is not a Python float literal).  An upload whose identifiers
    all read as numbers is exactly the case the server does not refine
    the specification ([Server.inf_upload_hover_raises]). *)

From S2P Require Import Prelude Toolkit Base64 PyFloat Csv Forms Frame Json Ingest Plot Hover Layout Server.

(** ** The specification *)

Record SpecState := {
  sp_table : option (list MoleculeRecord);
  sp_pages : list (list MoleculeRecord);
}.

Definition spec_init : SpecState := {| sp_table := None; sp_pages := [] |}.

(** What a client does: upload a file, visit "/next" (with the uuids the
    server draws), or move the pointer on the graph of the [k]-th page. *)
Inductive ClientEvent :=
  | CUpload (r : Request)
  | CVisit (uuid_name uuid_path : string)
  | CPoint (k : nat) (ev : PointerEvent).

(** What the specification lets the client observe. *)
Inductive SpecObs :=
  | OUploadAnswered
  | OPageShown
  | ONoTable
  | OShow (smiles : string) (bb : BBox)
  | OHide
  | ONoPage.

Section Spec.
Context `{TK : Toolkit}.

Inductive spec_step : SpecState -> ClientEvent -> SpecObs -> SpecState -> Prop :=
  | spec_upload_rejected s r :
      spec_step s (CUpload r) OUploadAnswered s
  | spec_upload_accepted s r rs :
      valid_table rs ->
      spec_step s (CUpload r) OUploadAnswered {| sp_table := Some rs; sp_pages := sp_pages s |}
  | spec_visit s a b rs :
      sp_table s = Some rs ->
      spec_step s (CVisit a b) OPageShown {| sp_table := sp_table s; sp_pages := sp_pages s ++ [rs] |}
  | spec_visit_none s a b :
      sp_table s = None -> spec_step s (CVisit a b) ONoTable s
  | spec_hover s k rs i r bb :
      sp_pages s !! k = Some rs -> rs !! i = Some r ->
      spec_step s (CPoint k (PointerOn i bb)) (OShow (rec_smiles r) bb) s
  | spec_hover_none s k rs ev :
      sp_pages s !! k = Some rs -> (forall i bb, ev = PointerOn i bb -> length rs <= i) ->
      spec_step s (CPoint k ev) OHide s
  | spec_no_page s k ev :
      sp_pages s !! k = None -> spec_step s (CPoint k ev) ONoPage s.

Inductive spec_run : SpecState -> list ClientEvent -> list SpecObs -> SpecState -> Prop :=
  | spec_run_nil s : spec_run s [] [] s
  | spec_run_cons s ce o s' ces os s'' :
      spec_step s ce o s' -> spec_run s' ces os s'' -> spec_run s (ce :: ces) (o :: os) s''.

(** ** The server driven by a client *)

(** The request a client event sends: the browser sends the [hoverData]
    Plotly reports on the figure of the page it shows. *)
Definition client_request (st : ServerState) (ce : ClientEvent) : Event :=
  match ce with
  | CUpload r => EvIndex r
  | CVisit a b => EvNext a b
  | CPoint k pe =>
      EvHover k (match apps st !! k with
                 | Some app => plotly_hover (app_figure app) pe
                 | None => None
                 end)
  end.

Fixpoint client_run (st : ServerState) (ces : list ClientEvent) : list ServerResponse * ServerState :=
  match ces with
  | [] => ([], st)
  | ce :: rest =>
      let '(resp, st') := handle st (client_request st ce) in
      let '(resps, st'') := client_run st' rest in
      (resp :: resps, st'')
  end.

(** A server response shows what the specification's observation says:
    the tooltip of [OShow s bb] holds the image the program renders for
    the identifier [s]. *)
Definition obs_match (resp : ServerResponse) (o : SpecObs) : Prop :=
  match resp, o with
  | IndexResponse _, OUploadAnswered => True
  | NextPage _, OPageShown => True
  | NextError KeyError, ONoTable => True
  | CallbackOutputs (true, Update bb', Update ch), OShow s bb =>
      bb' = bb /\ exists src, smiles_to_base64_img (CellStr s) = PyOk src /\ ch = tooltip_children src
  | CallbackOutputs (false, NoUpdate, NoUpdate), OHide => True
  | NotFound, ONoPage => True
  | _, _ => False
  end.

(** The table [index] stores for a request, if it stores one. *)
Definition upload_table (r : Request) : option (list MoleculeRecord) :=
  if is_submitted r && too_large r then None
  else if validate_on_submit r then
    match file_field r with
    | None => None
    | Some fs =>
        match read_csv_SMILES (file_text fs) with
        | CsvParserError => None
        | CsvDecodeError => None
        | CsvOutsideModel => None
        | CsvFrame rows =>
            match validate_table (SMILES_column rows) with
            | inl _ => None
            | inr rs => Some rs
            end
        end
    end
  else None.

(** The identifiers survive [pd.read_json]. *)
Definition keeps_ids (rs : list MoleculeRecord) : Prop :=
  rs = [] \/ Exists (fun r => py_float (rec_smiles r) = None) rs.

Definition client_ok (ce : ClientEvent) : Prop :=
  match ce with
  | CUpload r => forall rs, upload_table r = Some rs -> keeps_ids rs
  | _ => True
  end.

(** ** The abstraction relation *)

Definition page_rel (app : DashApp) (rs : list MoleculeRecord) : Prop :=
  app_table app = stored_frame rs /\ app_figure app = build_figure (app_table app).

Definition table_ok (rs : list MoleculeRecord) : Prop := valid_table rs /\ keeps_ids rs.

Definition refines (st : ServerState) (s : SpecState) : Prop :=
  session_data (session st) = option_map (fun rs => to_json (frame_of_records rs)) (sp_table s) /\
  Forall2 page_rel (apps st) (sp_pages s) /\
  (forall rs, sp_table s = Some rs -> table_ok rs) /\ Forall table_ok (sp_pages s).
End Spec.

(** ** The simulation *)

Section Simulation.
Context `{TK : Toolkit}.
(** The toolkit draws every molecule it parsed. *)
Hypothesis MolToPNG_total : forall m : Mol, exists png, MolToPNG m = PyOk png.

(** [index] stores the table of [upload_table] and otherwise leaves the
    stored text alone. *)
Lemma index_upload_table (r : Request) (sess : Session) :
  session_data (index r sess).2 =
  match upload_table r with
  | Some rs => Some (to_json (frame_of_records rs))
  | None => session_data sess
  end.
Proof.
  unfold index, upload_table.
  destruct (is_submitted r && too_large r); [done|].
  destruct (validate_on_submit r); [|done].
  destruct (file_field r) as [fs|]; [|done].
  destruct (read_csv_SMILES (file_text fs)) as [rows| | |]; [|done..].
  cbn [SMILES with_zero_columns]. rewrite (index_loop_prefix [] _).
  by destruct (validate_table _).
Qed.

Lemma upload_table_valid (r : Request) (rs : list MoleculeRecord) :
  upload_table r = Some rs -> valid_table rs.
Proof.
  unfold upload_table. repeat case_match; try discriminate.
  intros [= <-]. by eapply validate_table_valid.
Qed.

(** When the identifiers survive, the read-back SMILES column is the
    table's. *)
Lemma stored_frame_keeps (rs : list MoleculeRecord) :
  keeps_ids rs -> SMILES (stored_frame rs) = map CellStr (map rec_smiles rs).
Proof.
  intros [-> | Hex]; [done|]. simpl. unfold convert_object_column.
  rewrite mapM_None_2; [done|]. by apply Exists_fmap.
Qed.

Lemma upload_simulates (st : ServerState) (s : SpecState) (r : Request) :
  refines st s -> client_ok (CUpload r) ->
  exists o s', spec_step s (CUpload r) o s' /\
    obs_match (handle st (client_request st (CUpload r))).1 o /\
    refines (handle st (client_request st (CUpload r))).2 s'.
Proof.
  intros (Hsess & Hpages & Htab & Hok) Hkeep. simpl.
  pose proof (index_upload_table r (session st)) as Hidx.
  destruct (index r (session st)) as [resp sess']. simpl in Hidx |- *.
  destruct (upload_table r) as [rs|] eqn:Hup.
  - exists OUploadAnswered, {| sp_table := Some rs; sp_pages := sp_pages s |}.
    split; [by constructor; eapply upload_table_valid|]. split; [done|].
    split; [done|]. split; [done|]. split; [|done].
    intros ? [= <-]. split; [by eapply upload_table_valid|]. by apply Hkeep.
  - exists OUploadAnswered, s. split; [constructor|]. split; [done|].
    split; [simpl; by rewrite Hidx|]. done.
Qed.

Lemma visit_simulates (st : ServerState) (s : SpecState) (a b : string) :
  refines st s ->
  exists o s', spec_step s (CVisit a b) o s' /\
    obs_match (handle st (client_request st (CVisit a b))).1 o /\
    refines (handle st (client_request st (CVisit a b))).2 s'.
Proof.
  intros Href. pose proof Href as (Hsess & Hpages & Htab & Hok). simpl.
  destruct (sp_table s) as [rs|] eqn:Hs; simpl in Hsess.
  - rewrite (next_stored st a b rs Hsess).
    exists OPageShown, {| sp_table := sp_table s; sp_pages := sp_pages s ++ [rs] |}.
    split; [by constructor|]. split; [done|].
    split; [simpl; by rewrite Hs|]. split; [apply Forall2_app; [done|by repeat constructor]|].
    split; [simpl; rewrite Hs; exact Htab|]. apply Forall_app. split; [done|]. constructor; [|done]. by apply Htab.
  - exists ONoTable, s. split; [by constructor|].
    unfold next, read_session_data. rewrite Hsess. simpl.
    by split.
Qed.
Lemma point_simulates (st : ServerState) (s : SpecState) (k : nat) (pe : PointerEvent) :
  refines st s ->
  exists o s', spec_step s (CPoint k pe) o s' /\
    obs_match (handle st (client_request st (CPoint k pe))).1 o /\
    refines (handle st (client_request st (CPoint k pe))).2 s'.
Proof.
  intros Href. pose proof Href as (_ & Hpages & _ & Hok). simpl.
  destruct (apps st !! k) as [app|] eqn:Hk.
  - destruct (Forall2_lookup_l _ _ _ _ _ Hpages Hk) as (rs & Hrs & Htab & Hfig).
    destruct (Forall_lookup_1 _ _ _ _ Hok Hrs) as [Hvalid Hkeep].
    destruct (stored_frame_lengths rs) as (_ & Hx & Hy).
    rewrite Hfig, Htab, (plotly_hover_build_eq _ (length rs) pe Hx Hy).
    unfold handle. rewrite ?Hk. simpl.
    destruct (hover_index (length rs) pe) as [[i bb]|] eqn:Hh; cbn [option_map].
    + destruct (hover_index_Some _ _ _ _ Hh) as [-> Hi].
      destruct (lookup_lt_is_Some_2 _ _ Hi) as [r Hr].
      destruct (validate_cell_parses _ _ (Forall_lookup_1 _ _ _ _ Hvalid Hr)) as [m Hm].
      destruct (MolToPNG_total m) as [png Hpng].
      destruct (smiles_to_base64_img_ok (rec_smiles r) m png Hm Hpng) as (src & Hsrc & _).
      erewrite display_hover_at; [|reflexivity|].
      2: { rewrite stored_frame_keeps by done. simpl. by rewrite !list_lookup_fmap, Hr. }
      rewrite Hsrc. exists (OShow (rec_smiles r) bb), s.
      split; [by eapply spec_hover|]. split; [|done]. simpl. eauto.
    + exists OHide, s. split; [|done]. eapply spec_hover_none; [done|]. by apply hover_index_None.
  - exists ONoPage, s. unfold handle. rewrite ?Hk. split; [|done]. constructor.
    apply lookup_ge_None. rewrite <- (Forall2_length _ _ _ Hpages). by apply lookup_ge_None.
Qed.
End Simulation.

Section Run.
Context `{TK : Toolkit}.
Hypothesis MolToPNG_total : forall m : Mol, exists png, MolToPNG m = PyOk png.

(** One simulation diagram: a server step from related states is matched
    by a specification step with the same observation. *)
Lemma handle_simulates (st : ServerState) (s : SpecState) (ce : ClientEvent) :
  refines st s -> client_ok ce ->
  exists o s', spec_step s ce o s' /\
    obs_match (handle st (client_request st ce)).1 o /\
    refines (handle st (client_request st ce)).2 s'.
Proof.
  destruct ce; intros Href Hce.
  - by apply upload_simulates.
  - by apply visit_simulates.
  - by apply point_simulates.
Qed.

Lemma client_run_simulates (st : ServerState) (s : SpecState) (ces : list ClientEvent) :
  refines st s -> Forall client_ok ces ->
  exists os s', spec_run s ces os s' /\
    Forall2 obs_match (client_run st ces).1 os /\ refines (client_run st ces).2 s'.
Proof.
  revert st s. induction ces as [|ce ces IH]; intros st s Href Hces.
  - exists [], s. split; [constructor|split; [constructor|done]].
  - inversion Hces as [|? ? Hce Hrest]; subst.
    destruct (handle_simulates st s ce Href Hce) as (o & s1 & Hstep & Hobs & Href1).
    simpl. destruct (handle st (client_request st ce)) as [resp st1]. simpl in *.
    destruct (IH st1 s1 Href1 Hrest) as (os & s2 & Hrun & Hobs' & Href2).
    destruct (client_run st1 ces) as [resps st2]. simpl in *.
    exists (o :: os), s2. split; [by econstructor|]. split; [by constructor|done].
Qed.

Lemma refines_init : refines initial_state spec_init.
Proof. split; [done|]. split; [constructor|]. split; [discriminate|constructor]. Qed.

(** C5: the server refines the specification's two-stage pipeline: for
    every sequence of client events whose uploads keep their identifiers
    through [pd.read_json], the responses of the server started empty are
    the observations of a run of the specification (uploads store a
    validated table or nothing, a visit shows the stored table or fails
    when there is none, hovering point [i] of page [k] shows the image of
    the [i]-th identifier of the table page [k] was built from, and any
    other pointer event hides the tooltip), and the final states are
    related by the abstraction. *)
Theorem server_refines_spec (ces : list ClientEvent) :
  Forall client_ok ces ->
  exists os s, spec_run spec_init ces os s /\
    Forall2 obs_match (client_run initial_state ces).1 os /\
    refines (client_run initial_state ces).2 s.
Proof. intros Hces. apply client_run_simulates; [apply refines_init|done]. Qed.
End Run.

(** ** Witness *)

Definition demo_events : list ClientEvent :=
  [CUpload demo_upload; CVisit "app-name" "app-path"; CPoint 0 (PointerOn 1 origin_box);
   CPoint 0 PointerOff]%string.

Lemma demo_events_ok : Forall (client_ok (TK := ToyToolkit.toy)) demo_events.
Proof.
  constructor; [|repeat constructor]. intros rs Hrs.
  assert (Hup : upload_table (TK := ToyToolkit.toy) demo_upload = Some spec_table) by reflexivity.
  rewrite Hup in Hrs. injection Hrs as <-. right. by constructor.
Qed.

Lemma server_refines_spec_witness :
  Forall (client_ok (TK := ToyToolkit.toy)) demo_events /\
  exists os s, spec_run (TK := ToyToolkit.toy) spec_init demo_events os s /\
    Forall2 (obs_match (TK := ToyToolkit.toy)) (client_run (TK := ToyToolkit.toy) initial_state demo_events).1 os.
Proof.
  split; [exact demo_events_ok|].
  destruct (server_refines_spec toy_MolToPNG_total demo_events demo_events_ok) as (os & s & H1 & H2 & _).
  exists os, s. split; [exact H1|exact H2].
Defined.
